(** * simple-kanban: positions, moves, archival, labels and search

    A shallow embedding of the kanban service's repository layer
    (internal/repository) and HTTP handlers (internal/api/handlers) over an
    in-memory relational state that follows the SQLite schema of the initial
    migration, and the properties of the ordering subsystem proved on it.

    Conventions of the embedding:
    - Go [int] is [Z]; Go [float64] is Rocq's primitive [float] (IEEE 754
      binary64, round to nearest even, the arithmetic Go performs);
      [time.Time] is an instant in [Z]; a [*time.Time] is an [option].
    - A Go slice is [slice A]: the nil slice is kept apart from the empty one,
      as [encoding/json] renders the first as [null] and the second as [[]].
    - A Go [error] is its message; the handlers compare messages.
    - A table is the list of its rows in rowid order; every SQL statement of
      the source is a function on the database state, named after its text.
    - Each repository method and handler is a function from the database state
      (and the clocks it reads) to the new state and the result.
    - The store answers every statement: the only failures of a statement are
      the constraint violations of the schema.  Requests run one at a time. *)

From Stdlib Require Import ZArith List Bool String Ascii Floats Lia.
From Stdlib Require Import Sorting.Sorted Sorting.Permutation.
Import ListNotations.

Local Open Scope string_scope.
Local Open Scope list_scope.
Local Open Scope Z_scope.

(* ================================================================= *)
(** ** Go values *)

Abbreviation float64 := float (only parsing).
Definition Time := Z.

(** [error]: [None] is Go's [nil]; [Some msg] an error whose [Error()] is [msg]. *)
Definition error := option string.

(** [fmt.Errorf("...: %w", err)]: the wrapped message. *)
Definition Errorf_w (prefix : string) (err : string) : string :=
  (prefix ++ ": " ++ err)%string.

(** A pair [(value, error)] of which exactly one is set. *)
Inductive result (A : Type) : Type :=
| Ok (a : A)
| Err (msg : string).
Arguments Ok {A} a.
Arguments Err {A} msg.

(** Go slices: [var s []T] is [nil_slice]; [[]T{}] is [mk_slice []]. *)
Inductive slice (A : Type) : Type :=
| nil_slice
| mk_slice (elems : list A).
Arguments nil_slice {A}.
Arguments mk_slice {A} elems.

Definition append {A} (s : slice A) (x : A) : slice A :=
  match s with
  | nil_slice => mk_slice [x]
  | mk_slice l => mk_slice (l ++ [x])
  end.

Definition is_nil {A} (s : slice A) : bool :=
  match s with nil_slice => true | mk_slice _ => false end.

Definition elems {A} (s : slice A) : list A :=
  match s with nil_slice => [] | mk_slice l => l end.

Definition len {A} (s : slice A) : Z := Z.of_nat (List.length (elems s)).

(** What [encoding/json] writes for a slice at the top of a response. *)
Inductive json_array (A : Type) : Type :=
| json_null
| json_list (items : list A).
Arguments json_null {A}.
Arguments json_list {A} items.

Definition Marshal {A} (s : slice A) : json_array A :=
  match s with
  | nil_slice => json_null
  | mk_slice l => json_list l
  end.

(** [sql.NullFloat64]. *)
Record NullFloat64 := { Float64 : float64; Valid : bool }.

(** [Scan] of a nullable REAL column into a [sql.NullFloat64]. *)
Definition Scan_NullFloat64 (v : option float64) : NullFloat64 :=
  match v with
  | Some x => {| Float64 := x; Valid := true |}
  | None => {| Float64 := 0%float; Valid := false |}
  end.

(* ================================================================= *)
(** ** binary64 positions as integers

    [units x] is the value of a finite [x] counted in units of 2^-1074, the
    smallest positive binary64 number, so that every finite float has an
    integer number of units; the infinities are placed beyond every finite
    value.  It is used only to reason about comparisons and exactness. *)

Definition SFunits (x : spec_float) : Z :=
  match x with
  | S754_zero _ => 0
  | S754_infinity s => cond_Zopp s (2 ^ 2100)
  | S754_nan => 0
  | S754_finite s m e => cond_Zopp s (Zpos m * 2 ^ (e + 1074))
  end.

Definition units (x : float64) : Z := SFunits (Prim2SF x).

(* ================================================================= *)
(** ** internal/models *)

Module models.

(** [Board]; its [Lists] field ("populated when needed") is never set by
    the repository and is left out. *)
Record Board := {
  Board_ID : Z;
  Board_Name : string;
  Board_Description : string;
  Board_CreatedAt : Time;
  Board_UpdatedAt : Time
}.

Record List := {
  List_ID : Z;
  List_BoardID : Z;
  List_Name : string;
  List_Position : float64;
  List_Color : string;
  List_CreatedAt : Time;
  List_UpdatedAt : Time
}.

Record CreateListRequest := {
  CreateListRequest_Name : string;
  CreateListRequest_Position : float64;
  CreateListRequest_Color : string
}.

Record MoveListRequest := {
  MoveListRequest_Position : float64
}.

(** [Card]; [Comments] and [Labels] stay nil on every path modelled here. *)
Record Card := {
  Card_ID : Z;
  Card_ListID : Z;
  Card_Title : string;
  Card_Description : string;
  Card_Position : float64;
  Card_Color : string;
  Card_DueDate : option Time;
  Card_Archived : bool;
  Card_CreatedAt : Time;
  Card_UpdatedAt : Time
}.

Record Comment := {
  Comment_ID : Z;
  Comment_CardID : Z;
  Comment_Content : string;
  Comment_CreatedAt : Time
}.

Record Label := {
  Label_ID : Z;
  Label_Name : string;
  Label_Color : string;
  Label_CreatedAt : Time
}.

Record CreateCardRequest := {
  CreateCardRequest_Title : string;
  CreateCardRequest_Description : string;
  CreateCardRequest_Position : float64;
  CreateCardRequest_Color : string;
  CreateCardRequest_DueDate : option Time
}.

Record MoveCardRequest := {
  MoveCardRequest_ListID : Z;
  MoveCardRequest_Position : float64
}.

Record SearchCardsRequest := {
  Query : string;
  BoardID : Z;
  ListID : Z;
  Archived : option bool;
  LabelID : Z
}.

Record CreateBoardRequest := {
  CreateBoardRequest_Name : string;
  CreateBoardRequest_Description : string
}.

Record UpdateBoardRequest := {
  UpdateBoardRequest_Name : string;
  UpdateBoardRequest_Description : string
}.

Record UpdateListRequest := {
  UpdateListRequest_Name : string;
  UpdateListRequest_Position : float64;
  UpdateListRequest_Color : string
}.

Record UpdateCardRequest := {
  UpdateCardRequest_Title : string;
  UpdateCardRequest_Description : string;
  UpdateCardRequest_Color : string;
  UpdateCardRequest_DueDate : option Time
}.

Record CreateCommentRequest := {
  CreateCommentRequest_Content : string
}.

Record CreateLabelRequest := {
  CreateLabelRequest_Name : string;
  CreateLabelRequest_Color : string
}.

End models.
Import models.

(** Field updates, written [x.F = v] in the source. *)
Definition List_with_Position (l : List) (p : float64) : List :=
  {| List_ID := List_ID l; List_BoardID := List_BoardID l; List_Name := List_Name l;
     List_Position := p; List_Color := List_Color l;
     List_CreatedAt := List_CreatedAt l; List_UpdatedAt := List_UpdatedAt l |}.

Definition List_with_UpdatedAt (l : List) (t : Time) : List :=
  {| List_ID := List_ID l; List_BoardID := List_BoardID l; List_Name := List_Name l;
     List_Position := List_Position l; List_Color := List_Color l;
     List_CreatedAt := List_CreatedAt l; List_UpdatedAt := t |}.

Definition List_with_CreatedAt (l : List) (t : Time) : List :=
  {| List_ID := List_ID l; List_BoardID := List_BoardID l; List_Name := List_Name l;
     List_Position := List_Position l; List_Color := List_Color l;
     List_CreatedAt := t; List_UpdatedAt := List_UpdatedAt l |}.

Definition List_with_ID (l : List) (id : Z) : List :=
  {| List_ID := id; List_BoardID := List_BoardID l; List_Name := List_Name l;
     List_Position := List_Position l; List_Color := List_Color l;
     List_CreatedAt := List_CreatedAt l; List_UpdatedAt := List_UpdatedAt l |}.

Definition List_with_Color (l : List) (c : string) : List :=
  {| List_ID := List_ID l; List_BoardID := List_BoardID l; List_Name := List_Name l;
     List_Position := List_Position l; List_Color := c;
     List_CreatedAt := List_CreatedAt l; List_UpdatedAt := List_UpdatedAt l |}.

Definition Card_with_ID (c : Card) (id : Z) : Card :=
  {| Card_ID := id; Card_ListID := Card_ListID c; Card_Title := Card_Title c;
     Card_Description := Card_Description c; Card_Position := Card_Position c;
     Card_Color := Card_Color c; Card_DueDate := Card_DueDate c;
     Card_Archived := Card_Archived c; Card_CreatedAt := Card_CreatedAt c;
     Card_UpdatedAt := Card_UpdatedAt c |}.

Definition Card_with_ListID (c : Card) (l : Z) : Card :=
  {| Card_ID := Card_ID c; Card_ListID := l; Card_Title := Card_Title c;
     Card_Description := Card_Description c; Card_Position := Card_Position c;
     Card_Color := Card_Color c; Card_DueDate := Card_DueDate c;
     Card_Archived := Card_Archived c; Card_CreatedAt := Card_CreatedAt c;
     Card_UpdatedAt := Card_UpdatedAt c |}.

Definition Card_with_Position (c : Card) (p : float64) : Card :=
  {| Card_ID := Card_ID c; Card_ListID := Card_ListID c; Card_Title := Card_Title c;
     Card_Description := Card_Description c; Card_Position := p;
     Card_Color := Card_Color c; Card_DueDate := Card_DueDate c;
     Card_Archived := Card_Archived c; Card_CreatedAt := Card_CreatedAt c;
     Card_UpdatedAt := Card_UpdatedAt c |}.

Definition Card_with_Archived (c : Card) (a : bool) : Card :=
  {| Card_ID := Card_ID c; Card_ListID := Card_ListID c; Card_Title := Card_Title c;
     Card_Description := Card_Description c; Card_Position := Card_Position c;
     Card_Color := Card_Color c; Card_DueDate := Card_DueDate c;
     Card_Archived := a; Card_CreatedAt := Card_CreatedAt c;
     Card_UpdatedAt := Card_UpdatedAt c |}.

Definition Card_with_CreatedAt (c : Card) (t : Time) : Card :=
  {| Card_ID := Card_ID c; Card_ListID := Card_ListID c; Card_Title := Card_Title c;
     Card_Description := Card_Description c; Card_Position := Card_Position c;
     Card_Color := Card_Color c; Card_DueDate := Card_DueDate c;
     Card_Archived := Card_Archived c; Card_CreatedAt := t;
     Card_UpdatedAt := Card_UpdatedAt c |}.

Definition Card_with_UpdatedAt (c : Card) (t : Time) : Card :=
  {| Card_ID := Card_ID c; Card_ListID := Card_ListID c; Card_Title := Card_Title c;
     Card_Description := Card_Description c; Card_Position := Card_Position c;
     Card_Color := Card_Color c; Card_DueDate := Card_DueDate c;
     Card_Archived := Card_Archived c; Card_CreatedAt := Card_CreatedAt c;
     Card_UpdatedAt := t |}.

(* ================================================================= *)
(** ** The database (initial schema migration) *)

(** One list of rows per table, in rowid order.  [card_labels] rows are
    [(card_id, label_id)].  [seq_lists] and [seq_cards] are the
    [sqlite_sequence] entries of the two AUTOINCREMENT tables rows are
    inserted into here. *)
Record DB := {
  boards : list Board;
  lists : list List;
  cards : list Card;
  comments : list Comment;
  labels : list Label;
  card_labels : list (Z * Z);
  seq_lists : Z;
  seq_cards : Z
}.

Definition DB_with_lists (db : DB) (ls : list List) (seq : Z) : DB :=
  {| boards := boards db; lists := ls; cards := cards db; comments := comments db;
     labels := labels db; card_labels := card_labels db;
     seq_lists := seq; seq_cards := seq_cards db |}.

Definition DB_with_cards (db : DB) (cs : list Card) (seq : Z) : DB :=
  {| boards := boards db; lists := lists db; cards := cs; comments := comments db;
     labels := labels db; card_labels := card_labels db;
     seq_lists := seq_lists db; seq_cards := seq |}.

Definition DB_with_card_labels (db : DB) (cl : list (Z * Z)) : DB :=
  {| boards := boards db; lists := lists db; cards := cards db; comments := comments db;
     labels := labels db; card_labels := cl;
     seq_lists := seq_lists db; seq_cards := seq_cards db |}.

(** The [sqlite_sequence] entries of the other three AUTOINCREMENT tables,
    threaded beside the database state by the operations that insert into
    [boards], [comments] and [labels]. *)
Record sqlite_sequence := {
  seq_boards : Z;
  seq_comments : Z;
  seq_labels : Z
}.

Definition DB_with_boards (db : DB) (bs : list Board) : DB :=
  {| boards := bs; lists := lists db; cards := cards db; comments := comments db;
     labels := labels db; card_labels := card_labels db;
     seq_lists := seq_lists db; seq_cards := seq_cards db |}.

Definition DB_with_comments (db : DB) (ms : list Comment) : DB :=
  {| boards := boards db; lists := lists db; cards := cards db; comments := ms;
     labels := labels db; card_labels := card_labels db;
     seq_lists := seq_lists db; seq_cards := seq_cards db |}.

Definition DB_with_labels (db : DB) (ls : list Label) : DB :=
  {| boards := boards db; lists := lists db; cards := cards db; comments := comments db;
     labels := ls; card_labels := card_labels db;
     seq_lists := seq_lists db; seq_cards := seq_cards db |}.

(** The two clocks an operation reads: Go's [time.Now()] and the store's
    [CURRENT_TIMESTAMP] (used by the timestamp triggers). *)
Record clock := { time_Now : Time; CURRENT_TIMESTAMP : Time }.

(* ----------------------------------------------------------------- *)
(** *** SQL building blocks *)

(** [MAX(x)] / [MIN(x)] over the selected rows: NULL ([None]) when there is
    no row, else the greatest / least value under REAL comparison. *)
Definition max_step (acc : option float64) (x : float64) : option float64 :=
  match acc with
  | None => Some x
  | Some m => if (m <? x)%float then Some x else Some m
  end.

Definition min_step (acc : option float64) (x : float64) : option float64 :=
  match acc with
  | None => Some x
  | Some m => if (x <? m)%float then Some x else Some m
  end.

Definition sql_MAX (xs : list float64) : option float64 := fold_left max_step xs None.

Definition sql_MIN (xs : list float64) : option float64 := fold_left min_step xs None.

(** A REAL parameter: SQLite binds a NaN as NULL, which a NOT NULL column
    refuses. *)
Definition bind_REAL (x : float64) : option float64 :=
  if is_nan x then None else Some x.

(** [ORDER BY]: a stable insertion sort under [le]. *)
Fixpoint insert_by {A} (le : A -> A -> bool) (x : A) (l : list A) : list A :=
  match l with
  | [] => [x]
  | y :: l' => if le x y then x :: l else y :: insert_by le x l'
  end.

Definition ORDER_BY {A} (le : A -> A -> bool) (rows : list A) : list A :=
  fold_right (insert_by le) [] rows.

(** [LEFT JOIN right ON on]: every left row, paired with each right row that
    matches, or with NULL when none does. *)
Definition LEFT_JOIN {A B} (on : A -> B -> bool) (left : list A) (right : list B)
  : list (A * option B) :=
  flat_map (fun a =>
              match filter (on a) right with
              | [] => [(a, None)]
              | bs => map (fun b => (a, Some b)) bs
              end) left.

(** [SELECT DISTINCT]: the first copy of each row. *)
Fixpoint DISTINCT {A} (eqb : A -> A -> bool) (rows : list A) : list A :=
  match rows with
  | [] => []
  | r :: rows' => r :: filter (fun r' => negb (eqb r r')) (DISTINCT eqb rows')
  end.

(** [INTEGER PRIMARY KEY AUTOINCREMENT]: one more than the largest rowid
    ever used. *)
Definition AUTOINCREMENT (seq : Z) (ids : list Z) : Z :=
  Z.max seq (fold_right Z.max 0 ids) + 1.

(** The rows the loop [for rows.Next() { ...; s = append(s, row) }] collects
    into [var s []T]. *)
Definition collect {A} (rows : list A) : slice A :=
  fold_left append rows nil_slice.

(** ASCII case folding and SQLite's [LIKE]: [%] matches any run of
    characters, [_] any one character, ASCII letters match without regard to
    case; the source gives no ESCAPE clause.  A string is read as the
    sequence of its characters. *)
Definition lower (c : ascii) : ascii :=
  if ((65 <=? N_of_ascii c) && (N_of_ascii c <=? 90))%N
  then ascii_of_N (N_of_ascii c + 32) else c.

Fixpoint like (pattern : list ascii) : list ascii -> bool :=
  match pattern with
  | [] => fun text => match text with [] => true | _ => false end
  | p :: pattern' =>
      if Ascii.eqb p "%"%char then
        fix star (text : list ascii) : bool :=
          like pattern' text
          || match text with [] => false | _ :: text' => star text' end
      else if Ascii.eqb p "_"%char then
        fun text => match text with [] => false | _ :: text' => like pattern' text' end
      else
        fun text =>
          match text with
          | [] => false
          | t :: text' => Ascii.eqb (lower p) (lower t) && like pattern' text'
          end
  end.

(** [sqlite3_value_bytes]: the length of a text in bytes.  SQLite holds
    the text in UTF-8, in which a character up to U+007F takes one byte and
    the other characters a [string] holds (up to U+00FF) take two. *)
Definition sqlite3_value_bytes (s : string) : Z :=
  fold_right (fun c n => (if (N_of_ascii c <? 128)%N then 1 else 2) + n) 0
             (list_ascii_of_string s).

(** The default of [SQLITE_LIMIT_LIKE_PATTERN_LENGTH], which the source
    leaves as it is. *)
Definition SQLITE_MAX_LIKE_PATTERN_LENGTH : Z := 50000.

(** [text LIKE pattern]: a pattern longer than the limit is refused, and the
    statement that tests it fails. *)
Definition LIKE (text pattern : string) : result bool :=
  if SQLITE_MAX_LIKE_PATTERN_LENGTH <? sqlite3_value_bytes pattern
  then Err "LIKE or GLOB pattern too complex"
  else Ok (like (list_ascii_of_string pattern) (list_ascii_of_string text)).

(** [ON DELETE CASCADE] below [cards]: deleting the cards that satisfy [dead]
    deletes the comments and the label associations that reference them
    ([PRAGMA foreign_keys=ON]). *)
Definition DELETE_cards_CASCADE (db : DB) (dead : Card -> bool) : DB :=
  let deleted (card_id : Z) : bool :=
    existsb (fun c => dead c && (Card_ID c =? card_id)) (cards db) in
  {| boards := boards db; lists := lists db;
     cards := filter (fun c => negb (dead c)) (cards db);
     comments := filter (fun m => negb (deleted (Comment_CardID m))) (comments db);
     labels := labels db;
     card_labels := filter (fun cl => negb (deleted (fst cl))) (card_labels db);
     seq_lists := seq_lists db; seq_cards := seq_cards db |}.

(** [ON DELETE CASCADE] below [lists]: deleting the lists that satisfy [dead]
    deletes their cards, with what hangs on those. *)
Definition DELETE_lists_CASCADE (db : DB) (dead : List -> bool) : DB :=
  let deleted (list_id : Z) : bool :=
    existsb (fun l => dead l && (List_ID l =? list_id)) (lists db) in
  DB_with_lists (DELETE_cards_CASCADE db (fun c => deleted (Card_ListID c)))
                (filter (fun l => negb (dead l)) (lists db)) (seq_lists db).

(* ----------------------------------------------------------------- *)
(** *** Statements on [boards] *)

(** [SELECT ... FROM boards WHERE id = ?] *)
Definition SELECT_boards_WHERE_id (db : DB) (id : Z) : option Board :=
  find (fun b => Board_ID b =? id) (boards db).

(** [SELECT ... FROM boards ORDER BY created_at DESC] *)
Definition SELECT_boards_ORDER_BY_created_at_DESC (db : DB) : list Board :=
  ORDER_BY (fun a b => Board_CreatedAt b <=? Board_CreatedAt a) (boards db).

(** [INSERT INTO boards (name, description, created_at, updated_at) VALUES
    (?, ?, ?, ?) RETURNING id]: no constraint of [boards] can refuse the
    values Go binds. *)
Definition INSERT_INTO_boards (db : DB) (sq : sqlite_sequence) (row : Board)
  : DB * sqlite_sequence * Z :=
  let id := AUTOINCREMENT (seq_boards sq) (map Board_ID (boards db)) in
  (DB_with_boards db (boards db ++ [{| Board_ID := id; Board_Name := Board_Name row;
                                      Board_Description := Board_Description row;
                                      Board_CreatedAt := Board_CreatedAt row;
                                      Board_UpdatedAt := Board_UpdatedAt row |}]),
   {| seq_boards := id; seq_comments := seq_comments sq; seq_labels := seq_labels sq |},
   id).

(** [SELECT ... FROM boards WHERE name = ?], read with [QueryRow]: the first
    row, in rowid order ([=] on TEXT compares the characters exactly). *)
Definition SELECT_boards_WHERE_name (db : DB) (name : string) : option Board :=
  find (fun b => String.eqb (Board_Name b) name) (boards db).

(** Trigger [update_boards_timestamp], fired after each updated row:
    [UPDATE boards SET updated_at = CURRENT_TIMESTAMP WHERE id = NEW.id]. *)
Definition update_boards_timestamp (clk : clock) (id : Z) (bs : list Board) : list Board :=
  map (fun b => if Board_ID b =? id
                then {| Board_ID := Board_ID b; Board_Name := Board_Name b;
                        Board_Description := Board_Description b;
                        Board_CreatedAt := Board_CreatedAt b;
                        Board_UpdatedAt := CURRENT_TIMESTAMP clk |}
                else b) bs.

(** [UPDATE boards SET name = ?, description = ?, updated_at = ? WHERE id = ?],
    with the number of rows it changed. *)
Definition UPDATE_boards_SET_name_description (db : DB) (clk : clock)
  (name description : string) (updated_at : Time) (id : Z) : DB * Z :=
  let affected := filter (fun b => Board_ID b =? id) (boards db) in
  match affected with
  | [] => (db, 0)
  | _ :: _ =>
      let bs := map (fun b => if Board_ID b =? id
                              then {| Board_ID := Board_ID b; Board_Name := name;
                                      Board_Description := description;
                                      Board_CreatedAt := Board_CreatedAt b;
                                      Board_UpdatedAt := updated_at |}
                              else b) (boards db) in
      (DB_with_boards db (update_boards_timestamp clk id bs),
       Z.of_nat (List.length affected))
  end.

(** [DELETE FROM boards WHERE id = ?], with the number of rows it deleted;
    the lists of a deleted board go with it ([ON DELETE CASCADE]). *)
Definition DELETE_FROM_boards_WHERE_id (db : DB) (id : Z) : DB * Z :=
  let affected := filter (fun b => Board_ID b =? id) (boards db) in
  match affected with
  | [] => (db, 0)
  | _ :: _ =>
      (DB_with_boards (DELETE_lists_CASCADE db (fun l => List_BoardID l =? id))
                      (filter (fun b => negb (Board_ID b =? id)) (boards db)),
       Z.of_nat (List.length affected))
  end.

(* ----------------------------------------------------------------- *)
(** *** Statements on [lists] *)

(** [SELECT MAX(position) FROM lists WHERE board_id = ?] *)
Definition SELECT_MAX_position_FROM_lists (db : DB) (board_id : Z) : option float64 :=
  sql_MAX (map List_Position
             (filter (fun l => List_BoardID l =? board_id) (lists db))).

(** [SELECT MAX(position) FROM lists WHERE board_id = ? AND position < ?] *)
Definition SELECT_MAX_position_FROM_lists_below (db : DB) (board_id : Z)
  (target : float64) : option float64 :=
  sql_MAX (map List_Position
             (filter (fun l => (List_BoardID l =? board_id)
                               && (List_Position l <? target)%float) (lists db))).

(** [SELECT MIN(position) FROM lists WHERE board_id = ? AND position > ?] *)
Definition SELECT_MIN_position_FROM_lists_above (db : DB) (board_id : Z)
  (target : float64) : option float64 :=
  sql_MIN (map List_Position
             (filter (fun l => (List_BoardID l =? board_id)
                               && (target <? List_Position l)%float) (lists db))).

(** [INSERT INTO lists (board_id, name, position, color, created_at,
    updated_at) VALUES (...) RETURNING id]: [position REAL NOT NULL] and the
    foreign key to [boards] are enforced ([PRAGMA foreign_keys=ON]). *)
Definition INSERT_INTO_lists (db : DB) (row : List) : result (DB * Z) :=
  match bind_REAL (List_Position row) with
  | None => Err "NOT NULL constraint failed: lists.position"
  | Some _ =>
      if existsb (fun b => Board_ID b =? List_BoardID row) (boards db) then
        let id := AUTOINCREMENT (seq_lists db) (map List_ID (lists db)) in
        Ok (DB_with_lists db (lists db ++ [List_with_ID row id]) id, id)
      else Err "FOREIGN KEY constraint failed"
  end.

(** [SELECT ... FROM lists WHERE id = ?] *)
Definition SELECT_lists_WHERE_id (db : DB) (id : Z) : option List :=
  find (fun l => List_ID l =? id) (lists db).

(** [SELECT ... FROM lists WHERE board_id = ? ORDER BY position] *)
Definition SELECT_lists_WHERE_board_id_ORDER_BY_position (db : DB) (board_id : Z)
  : list List :=
  ORDER_BY (fun a b => (List_Position a <=? List_Position b)%float)
           (filter (fun l => List_BoardID l =? board_id) (lists db)).

(** Trigger [update_lists_timestamp], fired after each updated row:
    [UPDATE lists SET updated_at = CURRENT_TIMESTAMP WHERE id = NEW.id]. *)
Definition update_lists_timestamp (clk : clock) (id : Z) (ls : list List) : list List :=
  map (fun l => if List_ID l =? id
                then List_with_UpdatedAt l (CURRENT_TIMESTAMP clk) else l) ls.

(** [UPDATE lists SET position = ?, updated_at = ? WHERE id = ?], with the
    number of rows it changed. *)
Definition UPDATE_lists_SET_position (db : DB) (clk : clock)
  (position : float64) (updated_at : Time) (id : Z) : result (DB * Z) :=
  let affected := filter (fun l => List_ID l =? id) (lists db) in
  match affected with
  | [] => Ok (db, 0)
  | _ :: _ =>
      match bind_REAL position with
      | None => Err "NOT NULL constraint failed: lists.position"
      | Some _ =>
          let ls := map (fun l => if List_ID l =? id
                                  then List_with_UpdatedAt (List_with_Position l position)
                                                           updated_at
                                  else l) (lists db) in
          Ok (DB_with_lists db (update_lists_timestamp clk id ls) (seq_lists db),
              Z.of_nat (List.length affected))
      end
  end.

(** [UPDATE lists SET name = ?, position = ?, color = ?, updated_at = ? WHERE
    id = ?], with the number of rows it changed. *)
Definition UPDATE_lists_SET_name_position_color (db : DB) (clk : clock)
  (name : string) (position : float64) (color : string) (updated_at : Time) (id : Z)
  : result (DB * Z) :=
  let affected := filter (fun l => List_ID l =? id) (lists db) in
  match affected with
  | [] => Ok (db, 0)
  | _ :: _ =>
      match bind_REAL position with
      | None => Err "NOT NULL constraint failed: lists.position"
      | Some _ =>
          let ls := map (fun l => if List_ID l =? id
                                  then {| List_ID := List_ID l;
                                          List_BoardID := List_BoardID l;
                                          List_Name := name; List_Position := position;
                                          List_Color := color;
                                          List_CreatedAt := List_CreatedAt l;
                                          List_UpdatedAt := updated_at |}
                                  else l) (lists db) in
          Ok (DB_with_lists db (update_lists_timestamp clk id ls) (seq_lists db),
              Z.of_nat (List.length affected))
      end
  end.

(** [SELECT ... FROM lists WHERE board_id = ? AND name = ?], read with
    [QueryRow]: one row that matches, here the first in rowid order. *)
Definition SELECT_lists_WHERE_board_id_AND_name (db : DB) (board_id : Z) (name : string)
  : option List :=
  find (fun l => (List_BoardID l =? board_id) && String.eqb (List_Name l) name) (lists db).

(** [DELETE FROM lists WHERE id = ?], with the number of rows it deleted;
    the cards of a deleted list go with it ([ON DELETE CASCADE]). *)
Definition DELETE_FROM_lists_WHERE_id (db : DB) (id : Z) : DB * Z :=
  let affected := filter (fun l => List_ID l =? id) (lists db) in
  match affected with
  | [] => (db, 0)
  | _ :: _ =>
      (DELETE_lists_CASCADE db (fun l => List_ID l =? id),
       Z.of_nat (List.length affected))
  end.

(* ================================================================= *)
(** ** internal/repository: boards *)

Module BoardRepository.

Definition GetByID (db : DB) (id : Z) : result Board :=
  match SELECT_boards_WHERE_id db id with
  | None => Err "board not found"
  | Some board => Ok board
  end.

(** No normalisation of the nil slice here. *)
Definition GetAll (db : DB) : slice Board * error :=
  let boards := collect (SELECT_boards_ORDER_BY_created_at_DESC db) in
  (boards, None).

Definition Create (db : DB) (sq : sqlite_sequence) (clk : clock) (board : Board)
  : DB * sqlite_sequence * Board * error :=
  let now := time_Now clk in
  let board := {| Board_ID := Board_ID board; Board_Name := Board_Name board;
                  Board_Description := Board_Description board;
                  Board_CreatedAt := now; Board_UpdatedAt := now |} in
  match INSERT_INTO_boards db sq board with
  | (db', sq', id) =>
      (db', sq',
       {| Board_ID := id; Board_Name := Board_Name board;
          Board_Description := Board_Description board;
          Board_CreatedAt := Board_CreatedAt board;
          Board_UpdatedAt := Board_UpdatedAt board |},
       None)
  end.

Definition Update (db : DB) (clk : clock) (board : Board) : DB * Board * error :=
  let board := {| Board_ID := Board_ID board; Board_Name := Board_Name board;
                  Board_Description := Board_Description board;
                  Board_CreatedAt := Board_CreatedAt board;
                  Board_UpdatedAt := time_Now clk |} in
  match UPDATE_boards_SET_name_description db clk (Board_Name board)
          (Board_Description board) (Board_UpdatedAt board) (Board_ID board) with
  | (db', rowsAffected) =>
      if rowsAffected =? 0 then (db', board, Some "board not found")
      else (db', board, None)
  end.

Definition GetByName (db : DB) (name : string) : result Board :=
  match SELECT_boards_WHERE_name db name with
  | None => Err "board not found"
  | Some board => Ok board
  end.

Definition Delete (db : DB) (id : Z) : DB * error :=
  match DELETE_FROM_boards_WHERE_id db id with
  | (db', rowsAffected) =>
      if rowsAffected =? 0 then (db', Some "board not found")
      else (db', None)
  end.

End BoardRepository.

(* ================================================================= *)
(** ** internal/repository: lists *)

Module ListRepository.

(** [Create]: a zero [Position] stands for "not provided". *)
Definition Create (db : DB) (clk : clock) (list : List) : DB * List * error :=
  let list :=
    if (List_Position list =? 0)%float then
      let maxPosition :=
        Scan_NullFloat64 (SELECT_MAX_position_FROM_lists db (List_BoardID list)) in
      List_with_Position list (Float64 maxPosition + 1)%float
    else list in
  let now := time_Now clk in
  let list := List_with_CreatedAt list now in
  let list := List_with_UpdatedAt list now in
  match INSERT_INTO_lists db list with
  | Err err => (db, list, Some (Errorf_w "failed to create list" err))
  | Ok (db', id) => (db', List_with_ID list id, None)
  end.

Definition GetByID (db : DB) (id : Z) : result List :=
  match SELECT_lists_WHERE_id db id with
  | None => Err "list not found"
  | Some list => Ok list
  end.

(** No normalisation of the nil slice here. *)
Definition GetByBoardID (db : DB) (boardID : Z) : slice List * error :=
  let lists := collect (SELECT_lists_WHERE_board_id_ORDER_BY_position db boardID) in
  (lists, None).

Definition UpdatePosition (db : DB) (clk : clock) (id : Z) (position : float64)
  : DB * error :=
  match UPDATE_lists_SET_position db clk position (time_Now clk) id with
  | Err err => (db, Some (Errorf_w "failed to update list position" err))
  | Ok (db', rowsAffected) =>
      if rowsAffected =? 0 then (db', Some "list not found")
      else (db', None)
  end.

(** [GetAdjacentPositions]: no row is excluded from either query. *)
Definition GetAdjacentPositions (db : DB) (boardID : Z) (targetPosition : float64)
  : float64 * float64 * error :=
  let prev := Scan_NullFloat64
                (SELECT_MAX_position_FROM_lists_below db boardID targetPosition) in
  let next := Scan_NullFloat64
                (SELECT_MIN_position_FROM_lists_above db boardID targetPosition) in
  let prev := if negb (Valid prev)
              then {| Float64 := 0%float; Valid := Valid prev |} else prev in
  let next := if negb (Valid next)
              then {| Float64 := (Float64 prev + 2)%float; Valid := Valid next |}
              else next in
  (Float64 prev, Float64 next, None).

Definition Update (db : DB) (clk : clock) (list : List) : DB * List * error :=
  let list := List_with_UpdatedAt list (time_Now clk) in
  match UPDATE_lists_SET_name_position_color db clk (List_Name list) (List_Position list)
          (List_Color list) (List_UpdatedAt list) (List_ID list) with
  | Err err => (db, list, Some (Errorf_w "failed to update list" err))
  | Ok (db', rowsAffected) =>
      if rowsAffected =? 0 then (db', list, Some "list not found")
      else (db', list, None)
  end.

Definition GetByBoardAndName (db : DB) (boardID : Z) (name : string) : result List :=
  match SELECT_lists_WHERE_board_id_AND_name db boardID name with
  | None => Err "list not found"
  | Some list => Ok list
  end.

Definition Delete (db : DB) (id : Z) : DB * error :=
  match DELETE_FROM_lists_WHERE_id db id with
  | (db', rowsAffected) =>
      if rowsAffected =? 0 then (db', Some "list not found")
      else (db', None)
  end.

End ListRepository.

(* ----------------------------------------------------------------- *)
(** *** Statements on [cards], [comments], [labels] and [card_labels] *)

(** [SELECT MAX(position) FROM cards WHERE list_id = ?] *)
Definition SELECT_MAX_position_FROM_cards (db : DB) (list_id : Z) : option float64 :=
  sql_MAX (map Card_Position
             (filter (fun c => Card_ListID c =? list_id) (cards db))).

(** [INSERT INTO cards (...) VALUES (...) RETURNING id]: [position REAL NOT
    NULL] and the foreign key to [lists] are enforced. *)
Definition INSERT_INTO_cards (db : DB) (row : Card) : result (DB * Z) :=
  match bind_REAL (Card_Position row) with
  | None => Err "NOT NULL constraint failed: cards.position"
  | Some _ =>
      if existsb (fun l => List_ID l =? Card_ListID row) (lists db) then
        let id := AUTOINCREMENT (seq_cards db) (map Card_ID (cards db)) in
        Ok (DB_with_cards db (cards db ++ [Card_with_ID row id]) id, id)
      else Err "FOREIGN KEY constraint failed"
  end.

(** [SELECT ... FROM cards WHERE id = ?] *)
Definition SELECT_cards_WHERE_id (db : DB) (id : Z) : option Card :=
  find (fun c => Card_ID c =? id) (cards db).

(** [SELECT ... FROM cards WHERE list_id = ?], with [AND archived = 0]
    appended unless archived cards are included, then [ORDER BY position]. *)
Definition SELECT_cards_WHERE_list_id_ORDER_BY_position (db : DB) (list_id : Z)
  (includeArchived : bool) : list Card :=
  ORDER_BY (fun a b => (Card_Position a <=? Card_Position b)%float)
           (filter (fun c => (Card_ListID c =? list_id)
                             && (includeArchived || negb (Card_Archived c)))
                   (cards db)).

(** Trigger [update_cards_timestamp], fired after each updated row:
    [UPDATE cards SET updated_at = CURRENT_TIMESTAMP WHERE id = NEW.id]. *)
Definition update_cards_timestamp (clk : clock) (id : Z) (cs : list Card) : list Card :=
  map (fun c => if Card_ID c =? id
                then Card_with_UpdatedAt c (CURRENT_TIMESTAMP clk) else c) cs.

(** [UPDATE cards SET list_id = ?, position = ?, updated_at = ? WHERE id = ?],
    with the number of rows it changed. *)
Definition UPDATE_cards_SET_list_id_position (db : DB) (clk : clock)
  (list_id : Z) (position : float64) (updated_at : Time) (id : Z) : result (DB * Z) :=
  let affected := filter (fun c => Card_ID c =? id) (cards db) in
  match affected with
  | [] => Ok (db, 0)
  | _ :: _ =>
      match bind_REAL position with
      | None => Err "NOT NULL constraint failed: cards.position"
      | Some _ =>
          if existsb (fun l => List_ID l =? list_id) (lists db) then
            let cs := map (fun c => if Card_ID c =? id
                                    then Card_with_UpdatedAt
                                           (Card_with_Position (Card_with_ListID c list_id)
                                                               position)
                                           updated_at
                                    else c) (cards db) in
            Ok (DB_with_cards db (update_cards_timestamp clk id cs) (seq_cards db),
                Z.of_nat (List.length affected))
          else Err "FOREIGN KEY constraint failed"
      end
  end.

(** [UPDATE cards SET archived = ?, updated_at = ? WHERE id = ?], with the
    number of rows it changed. *)
Definition UPDATE_cards_SET_archived (db : DB) (clk : clock)
  (archived : bool) (updated_at : Time) (id : Z) : result (DB * Z) :=
  let affected := filter (fun c => Card_ID c =? id) (cards db) in
  let cs := map (fun c => if Card_ID c =? id
                          then Card_with_UpdatedAt (Card_with_Archived c archived) updated_at
                          else c) (cards db) in
  match affected with
  | [] => Ok (db, 0)
  | _ :: _ =>
      Ok (DB_with_cards db (update_cards_timestamp clk id cs) (seq_cards db),
          Z.of_nat (List.length affected))
  end.

(** Equality of two card rows, column by column, as [DISTINCT] compares them. *)
Definition Card_eqb (a b : Card) : bool :=
  (Card_ID a =? Card_ID b)
  && (Card_ListID a =? Card_ListID b)
  && String.eqb (Card_Title a) (Card_Title b)
  && String.eqb (Card_Description a) (Card_Description b)
  && Leibniz.eqb (Card_Position a) (Card_Position b)
  && String.eqb (Card_Color a) (Card_Color b)
  && match Card_DueDate a, Card_DueDate b with
     | Some x, Some y => x =? y
     | None, None => true
     | _, _ => false
     end
  && Bool.eqb (Card_Archived a) (Card_Archived b)
  && (Card_CreatedAt a =? Card_CreatedAt b)
  && (Card_UpdatedAt a =? Card_UpdatedAt b).

(** A row of [cards c LEFT JOIN lists l ON c.list_id = l.id LEFT JOIN boards b
    ON l.board_id = b.id LEFT JOIN card_labels cl ON c.id = cl.card_id]. *)
Definition joined : Type := Card * option List * option Board * option (Z * Z).

Definition joined_c (r : joined) : Card := fst (fst (fst r)).
Definition joined_l (r : joined) : option List := snd (fst (fst r)).
Definition joined_b (r : joined) : option Board := snd (fst r).
Definition joined_cl (r : joined) : option (Z * Z) := snd r.

Definition FROM_cards_LEFT_JOIN_lists_boards_card_labels (db : DB) : list joined :=
  LEFT_JOIN (fun (r : Card * option List * option Board) (cl : Z * Z) =>
               Card_ID (fst (fst r)) =? fst cl)
    (LEFT_JOIN (fun (r : Card * option List) (b : Board) =>
                  match snd r with
                  | Some l => List_BoardID l =? Board_ID b
                  | None => false
                  end)
       (LEFT_JOIN (fun (c : Card) (l : List) => Card_ListID c =? List_ID l)
                  (cards db) (lists db))
       (boards db))
    (card_labels db).

(** The five conditions [Search] may add to its WHERE clause.  The first
    one fails when [LIKE] does; the comparisons of the other four cannot. *)
Definition cond_title_or_description_LIKE (searchTerm : string) (r : joined)
  : result bool :=
  match LIKE (Card_Title (joined_c r)) searchTerm with
  | Err err => Err err
  | Ok true => Ok true
  | Ok false => LIKE (Card_Description (joined_c r)) searchTerm
  end.

Definition cond_b_id (board_id : Z) (r : joined) : bool :=
  match joined_b r with Some b => Board_ID b =? board_id | None => false end.

Definition cond_c_list_id (list_id : Z) (r : joined) : bool :=
  Card_ListID (joined_c r) =? list_id.

Definition cond_c_archived (archived : bool) (r : joined) : bool :=
  Bool.eqb (Card_Archived (joined_c r)) archived.

Definition cond_cl_label_id (label_id : Z) (r : joined) : bool :=
  match joined_cl r with Some cl => snd cl =? label_id | None => false end.

(** A condition that cannot fail, as a term of a WHERE clause. *)
Definition total {R} (cond : R -> bool) (r : R) : result bool := Ok (cond r).

(** [cond AND ... AND cond] on a row, the terms tested from left to right
    until one is false; a term that fails ends the statement. *)
Fixpoint AND {R} (conditions : list (R -> result bool)) (r : R) : result bool :=
  match conditions with
  | [] => Ok true
  | cond :: conditions' =>
      match cond r with
      | Err err => Err err
      | Ok false => Ok false
      | Ok true => AND conditions' r
      end
  end.

(** [WHERE 1=1 AND cond AND ...]: the rows on which every condition holds,
    or the error of the first row on which a condition fails. *)
Fixpoint WHERE {R} (conditions : list (R -> result bool)) (rows : list R)
  : result (list R) :=
  match rows with
  | [] => Ok []
  | r :: rows' =>
      match AND conditions r with
      | Err err => Err err
      | Ok keep =>
          match WHERE conditions rows' with
          | Err err => Err err
          | Ok kept => Ok (if keep then r :: kept else kept)
          end
      end
  end.

(** [SELECT DISTINCT c.* FROM ... WHERE 1=1 AND cond AND ... ORDER BY
    c.created_at DESC].  The rows are sorted before the first one is handed
    out, so that a condition that fails on any row fails the query as a
    whole, before it has given a row.

    SQLite is free to test the terms of the WHERE clause in another order,
    and to leave out through an index the rows that an equality rules out,
    before any term is tested on them.  Here every row of the join is tested,
    the terms in the order of the text, in which the [LIKE] term comes first.
    The two readings give the same rows whenever no term fails, and the same
    failure when the [LIKE] term is the only one. *)
Definition SELECT_DISTINCT_cards_WHERE (db : DB)
  (conditions : list (joined -> result bool)) : result (list Card) :=
  match WHERE conditions (FROM_cards_LEFT_JOIN_lists_boards_card_labels db) with
  | Err err => Err err
  | Ok rows =>
      Ok (ORDER_BY (fun a b => Card_CreatedAt b <=? Card_CreatedAt a)
            (DISTINCT Card_eqb (map joined_c rows)))
  end.

(** [SELECT ... FROM comments WHERE card_id = ? ORDER BY created_at DESC] *)
Definition SELECT_comments_WHERE_card_id (db : DB) (card_id : Z) : list Comment :=
  ORDER_BY (fun a b => Comment_CreatedAt b <=? Comment_CreatedAt a)
           (filter (fun m => Comment_CardID m =? card_id) (comments db)).

(** [SELECT ... FROM labels ORDER BY name ASC] *)
Definition SELECT_labels_ORDER_BY_name (db : DB) : list Label :=
  ORDER_BY (fun a b => String.leb (Label_Name a) (Label_Name b)) (labels db).

(** [SELECT ... FROM labels WHERE id = ?] *)
Definition SELECT_labels_WHERE_id (db : DB) (id : Z) : option Label :=
  find (fun l => Label_ID l =? id) (labels db).

(** [SELECT l.* FROM labels l INNER JOIN card_labels cl ON l.id = cl.label_id
    WHERE cl.card_id = ? ORDER BY l.name ASC] *)
Definition SELECT_labels_JOIN_card_labels_WHERE_card_id (db : DB) (card_id : Z)
  : list Label :=
  ORDER_BY (fun a b => String.leb (Label_Name a) (Label_Name b))
    (flat_map (fun l =>
                 map (fun _ => l)
                     (filter (fun cl => (Label_ID l =? snd cl) && (fst cl =? card_id))
                             (card_labels db)))
              (labels db)).

(** [SELECT EXISTS(SELECT 1 FROM card_labels WHERE card_id = ? AND label_id = ?)] *)
Definition SELECT_EXISTS_card_labels (db : DB) (card_id label_id : Z) : bool :=
  existsb (fun cl => (fst cl =? card_id) && (snd cl =? label_id)) (card_labels db).

(** [INSERT INTO card_labels (card_id, label_id) VALUES (?, ?)]: the primary
    key [(card_id, label_id)] and both foreign keys are enforced. *)
Definition INSERT_INTO_card_labels (db : DB) (card_id label_id : Z) : result DB :=
  if SELECT_EXISTS_card_labels db card_id label_id then
    Err "UNIQUE constraint failed: card_labels.card_id, card_labels.label_id"
  else if existsb (fun c => Card_ID c =? card_id) (cards db)
          && existsb (fun l => Label_ID l =? label_id) (labels db) then
    Ok (DB_with_card_labels db (card_labels db ++ [(card_id, label_id)]))
  else Err "FOREIGN KEY constraint failed".

(** [SELECT MAX(position) FROM cards WHERE list_id = ? AND position < ?] *)
Definition SELECT_MAX_position_FROM_cards_below (db : DB) (list_id : Z)
  (target : float64) : option float64 :=
  sql_MAX (map Card_Position
             (filter (fun c => (Card_ListID c =? list_id)
                               && (Card_Position c <? target)%float) (cards db))).

(** [SELECT MIN(position) FROM cards WHERE list_id = ? AND position > ?] *)
Definition SELECT_MIN_position_FROM_cards_above (db : DB) (list_id : Z)
  (target : float64) : option float64 :=
  sql_MIN (map Card_Position
             (filter (fun c => (Card_ListID c =? list_id)
                               && (target <? Card_Position c)%float) (cards db))).

(** [UPDATE cards SET title = ?, description = ?, color = ?, due_date = ?,
    updated_at = ? WHERE id = ?], with the number of rows it changed. *)
Definition UPDATE_cards_SET_title_description_color_due_date (db : DB) (clk : clock)
  (title description color : string) (due_date : option Time) (updated_at : Time) (id : Z)
  : DB * Z :=
  let affected := filter (fun c => Card_ID c =? id) (cards db) in
  match affected with
  | [] => (db, 0)
  | _ :: _ =>
      let cs := map (fun c => if Card_ID c =? id
                              then {| Card_ID := Card_ID c; Card_ListID := Card_ListID c;
                                      Card_Title := title; Card_Description := description;
                                      Card_Position := Card_Position c;
                                      Card_Color := color; Card_DueDate := due_date;
                                      Card_Archived := Card_Archived c;
                                      Card_CreatedAt := Card_CreatedAt c;
                                      Card_UpdatedAt := updated_at |}
                              else c) (cards db) in
      (DB_with_cards db (update_cards_timestamp clk id cs) (seq_cards db),
       Z.of_nat (List.length affected))
  end.

(** [DELETE FROM cards WHERE id = ?], with the number of rows it deleted;
    the comments and label associations of a deleted card go with it. *)
Definition DELETE_FROM_cards_WHERE_id (db : DB) (id : Z) : DB * Z :=
  let affected := filter (fun c => Card_ID c =? id) (cards db) in
  match affected with
  | [] => (db, 0)
  | _ :: _ =>
      (DELETE_cards_CASCADE db (fun c => Card_ID c =? id),
       Z.of_nat (List.length affected))
  end.

(** [INSERT INTO comments (card_id, content, created_at) VALUES (?, ?, ?)
    RETURNING id]: the foreign key to [cards] is enforced. *)
Definition INSERT_INTO_comments (db : DB) (sq : sqlite_sequence) (row : Comment)
  : result (DB * sqlite_sequence * Z) :=
  if existsb (fun c => Card_ID c =? Comment_CardID row) (cards db) then
    let id := AUTOINCREMENT (seq_comments sq) (map Comment_ID (comments db)) in
    Ok (DB_with_comments db (comments db ++ [{| Comment_ID := id;
                                                Comment_CardID := Comment_CardID row;
                                                Comment_Content := Comment_Content row;
                                                Comment_CreatedAt := Comment_CreatedAt row |}]),
        {| seq_boards := seq_boards sq; seq_comments := id; seq_labels := seq_labels sq |},
        id)
  else Err "FOREIGN KEY constraint failed".

(** [INSERT INTO labels (name, color) VALUES (?, ?) RETURNING id, name, color,
    created_at]: [name] is UNIQUE, [created_at] takes its default
    CURRENT_TIMESTAMP. *)
Definition INSERT_INTO_labels (db : DB) (sq : sqlite_sequence) (clk : clock)
  (name color : string) : result (DB * sqlite_sequence * Label) :=
  if existsb (fun l => String.eqb (Label_Name l) name) (labels db) then
    Err "UNIQUE constraint failed: labels.name"
  else
    let id := AUTOINCREMENT (seq_labels sq) (map Label_ID (labels db)) in
    let row := {| Label_ID := id; Label_Name := name; Label_Color := color;
                  Label_CreatedAt := CURRENT_TIMESTAMP clk |} in
    Ok (DB_with_labels db (labels db ++ [row]),
        {| seq_boards := seq_boards sq; seq_comments := seq_comments sq; seq_labels := id |},
        row).

(** [UPDATE labels SET name = ?, color = ? WHERE id = ? RETURNING id, name,
    color, created_at], read with [QueryRow]: the updated row, or no row;
    the new name must not be that of another label. *)
Definition UPDATE_labels_SET_name_color (db : DB) (name color : string) (id : Z)
  : result (DB * option Label) :=
  match find (fun l => Label_ID l =? id) (labels db) with
  | None => Ok (db, None)
  | Some old =>
      if existsb (fun l => negb (Label_ID l =? id) && String.eqb (Label_Name l) name)
                 (labels db) then
        Err "UNIQUE constraint failed: labels.name"
      else
        let row := {| Label_ID := Label_ID old; Label_Name := name; Label_Color := color;
                      Label_CreatedAt := Label_CreatedAt old |} in
        Ok (DB_with_labels db (map (fun l => if Label_ID l =? id
                                             then {| Label_ID := Label_ID l;
                                                     Label_Name := name;
                                                     Label_Color := color;
                                                     Label_CreatedAt := Label_CreatedAt l |}
                                             else l) (labels db)),
            Some row)
  end.

(** [DELETE FROM card_labels WHERE label_id = ?] *)
Definition DELETE_FROM_card_labels_WHERE_label_id (db : DB) (label_id : Z) : DB :=
  DB_with_card_labels db (filter (fun cl => negb (snd cl =? label_id)) (card_labels db)).

(** [DELETE FROM labels WHERE id = ?], with the number of rows it deleted;
    the associations of a deleted label go with it ([ON DELETE CASCADE]). *)
Definition DELETE_FROM_labels_WHERE_id (db : DB) (id : Z) : DB * Z :=
  let affected := filter (fun l => Label_ID l =? id) (labels db) in
  match affected with
  | [] => (db, 0)
  | _ :: _ =>
      (DB_with_labels
         (DB_with_card_labels db (filter (fun cl => negb (snd cl =? id)) (card_labels db)))
         (filter (fun l => negb (Label_ID l =? id)) (labels db)),
       Z.of_nat (List.length affected))
  end.

(** [DELETE FROM card_labels WHERE card_id = ? AND label_id = ?], with the
    number of rows it deleted. *)
Definition DELETE_FROM_card_labels_WHERE_card_id_AND_label_id (db : DB)
  (card_id label_id : Z) : DB * Z :=
  let affected := filter (fun cl => (fst cl =? card_id) && (snd cl =? label_id))
                         (card_labels db) in
  (DB_with_card_labels db (filter (fun cl => negb ((fst cl =? card_id)
                                                   && (snd cl =? label_id)))
                                  (card_labels db)),
   Z.of_nat (List.length affected)).

(* ================================================================= *)
(** ** internal/repository: cards *)

Module CardRepository.

(** [Create]: a zero [Position] stands for "not provided". *)
Definition Create (db : DB) (clk : clock) (card : Card) : DB * Card * error :=
  let card :=
    if (Card_Position card =? 0)%float then
      let maxPosition :=
        Scan_NullFloat64 (SELECT_MAX_position_FROM_cards db (Card_ListID card)) in
      Card_with_Position card (Float64 maxPosition + 1)%float
    else card in
  let now := time_Now clk in
  let card := Card_with_CreatedAt card now in
  let card := Card_with_UpdatedAt card now in
  match INSERT_INTO_cards db card with
  | Err err => (db, card, Some (Errorf_w "failed to create card" err))
  | Ok (db', id) => (db', Card_with_ID card id, None)
  end.

Definition GetByID (db : DB) (id : Z) : result Card :=
  match SELECT_cards_WHERE_id db id with
  | None => Err "card not found"
  | Some card => Ok card
  end.

Definition GetByListID (db : DB) (listID : Z) (includeArchived : bool)
  : slice Card * error :=
  let cards := collect (SELECT_cards_WHERE_list_id_ORDER_BY_position
                          db listID includeArchived) in
  (* Ensure we never return nil, always return empty array *)
  let cards := if is_nil cards then mk_slice [] else cards in
  (cards, None).

Definition Move (db : DB) (clk : clock) (cardID newListID : Z) (newPosition : float64)
  : DB * error :=
  match UPDATE_cards_SET_list_id_position db clk newListID newPosition
          (time_Now clk) cardID with
  | Err err => (db, Some (Errorf_w "failed to move card" err))
  | Ok (db', rowsAffected) =>
      if rowsAffected =? 0 then (db', Some "card not found")
      else (db', None)
  end.

Definition Archive (db : DB) (clk : clock) (id : Z) (archive : bool) : DB * error :=
  match UPDATE_cards_SET_archived db clk archive (time_Now clk) id with
  | Err err => (db, Some (Errorf_w "failed to archive card" err))
  | Ok (db', rowsAffected) =>
      if rowsAffected =? 0 then (db', Some "card not found")
      else (db', None)
  end.

(** [Search]: each condition is appended when its parameter is not the
    zero value of its type, and the WHERE clause is their conjunction.  When
    the query fails, [db.Query] returns the error and no card is read. *)
Definition Search (db : DB) (params : SearchCardsRequest) : slice Card * error :=
  let conditions : list (joined -> result bool) := [] in
  let conditions :=
    if negb (String.eqb (Query params) "") then
      let searchTerm := ("%" ++ Query params ++ "%")%string in
      conditions ++ [cond_title_or_description_LIKE searchTerm]
    else conditions in
  let conditions :=
    if negb (BoardID params =? 0) then conditions ++ [total (cond_b_id (BoardID params))]
    else conditions in
  let conditions :=
    if negb (ListID params =? 0) then conditions ++ [total (cond_c_list_id (ListID params))]
    else conditions in
  let conditions :=
    match Archived params with
    | Some archived => conditions ++ [total (cond_c_archived archived)]
    | None => conditions
    end in
  let conditions :=
    if negb (LabelID params =? 0)
    then conditions ++ [total (cond_cl_label_id (LabelID params))]
    else conditions in
  match SELECT_DISTINCT_cards_WHERE db conditions with
  | Err err => (nil_slice, Some (Errorf_w "failed to search cards" err))
  | Ok rows =>
      let cards := collect rows in
      (* Ensure we never return nil, always return empty array *)
      let cards := if is_nil cards then mk_slice [] else cards in
      (cards, None)
  end.

(** No normalisation of the nil slice here. *)
Definition GetComments (db : DB) (cardID : Z) : slice Comment * error :=
  let comments := collect (SELECT_comments_WHERE_card_id db cardID) in
  (comments, None).

Definition Update (db : DB) (clk : clock) (card : Card) : DB * Card * error :=
  let card := Card_with_UpdatedAt card (time_Now clk) in
  match UPDATE_cards_SET_title_description_color_due_date db clk (Card_Title card)
          (Card_Description card) (Card_Color card) (Card_DueDate card)
          (Card_UpdatedAt card) (Card_ID card) with
  | (db', rowsAffected) =>
      if rowsAffected =? 0 then (db', card, Some "card not found")
      else (db', card, None)
  end.

Definition Delete (db : DB) (id : Z) : DB * error :=
  match DELETE_FROM_cards_WHERE_id db id with
  | (db', rowsAffected) =>
      if rowsAffected =? 0 then (db', Some "card not found")
      else (db', None)
  end.

(** [GetAdjacentPositions]: as for lists, no row is excluded from either
    query. *)
Definition GetAdjacentPositions (db : DB) (listID : Z) (targetPosition : float64)
  : float64 * float64 * error :=
  let prev := Scan_NullFloat64
                (SELECT_MAX_position_FROM_cards_below db listID targetPosition) in
  let next := Scan_NullFloat64
                (SELECT_MIN_position_FROM_cards_above db listID targetPosition) in
  let prev := if negb (Valid prev)
              then {| Float64 := 0%float; Valid := Valid prev |} else prev in
  let next := if negb (Valid next)
              then {| Float64 := (Float64 prev + 2)%float; Valid := Valid next |}
              else next in
  (Float64 prev, Float64 next, None).

Definition AddComment (db : DB) (sq : sqlite_sequence) (clk : clock) (comment : Comment)
  : DB * sqlite_sequence * Comment * error :=
  let comment := {| Comment_ID := Comment_ID comment;
                    Comment_CardID := Comment_CardID comment;
                    Comment_Content := Comment_Content comment;
                    Comment_CreatedAt := time_Now clk |} in
  match INSERT_INTO_comments db sq comment with
  | Err err => (db, sq, comment, Some (Errorf_w "failed to add comment" err))
  | Ok (db', sq', id) =>
      (db', sq',
       {| Comment_ID := id; Comment_CardID := Comment_CardID comment;
          Comment_Content := Comment_Content comment;
          Comment_CreatedAt := Comment_CreatedAt comment |},
       None)
  end.

End CardRepository.

(* ================================================================= *)
(** ** internal/repository: labels *)

Module LabelRepository.

Definition GetAll (db : DB) : slice Label * error :=
  let labels := collect (SELECT_labels_ORDER_BY_name db) in
  let labels := if is_nil labels then mk_slice [] else labels in
  (labels, None).

Definition GetByID (db : DB) (id : Z) : result Label :=
  match SELECT_labels_WHERE_id db id with
  | None => Err "label not found"
  | Some label => Ok label
  end.

Definition AssignToCard (db : DB) (cardID labelID : Z) : DB * error :=
  (* Check if assignment already exists *)
  let exists_ := SELECT_EXISTS_card_labels db cardID labelID in
  if exists_ then (db, None) (* Already assigned, no need to do anything *)
  else
    (* Create the assignment *)
    match INSERT_INTO_card_labels db cardID labelID with
    | Err err => (db, Some (Errorf_w "failed to assign label to card" err))
    | Ok db' => (db', None)
    end.

Definition GetCardLabels (db : DB) (cardID : Z) : slice Label * error :=
  let labels := collect (SELECT_labels_JOIN_card_labels_WHERE_card_id db cardID) in
  let labels := if is_nil labels then mk_slice [] else labels in
  (labels, None).

Definition Create (db : DB) (sq : sqlite_sequence) (clk : clock) (req : CreateLabelRequest)
  : DB * sqlite_sequence * result Label :=
  match INSERT_INTO_labels db sq clk (CreateLabelRequest_Name req)
          (CreateLabelRequest_Color req) with
  | Err err => (db, sq, Err (Errorf_w "failed to create label" err))
  | Ok (db', sq', label) => (db', sq', Ok label)
  end.

Definition Update (db : DB) (id : Z) (name color : string) : DB * result Label :=
  match UPDATE_labels_SET_name_color db name color id with
  | Err err => (db, Err (Errorf_w "failed to update label" err))
  | Ok (db', None) => (db', Err "label not found")
  | Ok (db', Some label) => (db', Ok label)
  end.

Definition Delete (db : DB) (id : Z) : DB * error :=
  (* First, remove all associations with cards *)
  let db := DELETE_FROM_card_labels_WHERE_label_id db id in
  (* Then delete the label *)
  match DELETE_FROM_labels_WHERE_id db id with
  | (db', rowsAffected) =>
      if rowsAffected =? 0 then (db', Some "label not found")
      else (db', None)
  end.

Definition RemoveFromCard (db : DB) (cardID labelID : Z) : DB * error :=
  match DELETE_FROM_card_labels_WHERE_card_id_AND_label_id db cardID labelID with
  | (db', rowsAffected) =>
      if rowsAffected =? 0 then (db', Some "label assignment not found")
      else (db', None)
  end.

End LabelRepository.

(* ================================================================= *)
(** ** Requests and responses (gin) *)

(** The response a handler writes: [c.JSON(code, obj)], [c.JSON(code,
    gin.H{...})], or [middleware.HandleError(c, status, message)], which
    aborts with [ErrorResponse{Error: http.StatusText(status), Message}]. *)
Inductive response (A : Type) : Type :=
| JSON (code : Z) (obj : A)
| JSON_H (code : Z) (h : list (string * string))
| HandleError (status : Z) (message : string).
Arguments JSON {A} code obj.
Arguments JSON_H {A} code h.
Arguments HandleError {A} status message.

Definition StatusOK : Z := 200.
Definition StatusCreated : Z := 201.
Definition StatusBadRequest : Z := 400.
Definition StatusNotFound : Z := 404.
Definition StatusInternalServerError : Z := 500.

Definition status {A} (r : response A) : Z :=
  match r with
  | JSON code _ => code
  | JSON_H code _ => code
  | HandleError st _ => st
  end.

(** Request bodies as JSON objects: a key is present with a value or absent.
    Decoding leaves the Go zero value in a field whose key is absent; the
    [binding] tags are then checked: [required] refuses the zero value of
    the field's type, and [min=1,max=255] bound a string's length in
    characters. *)
Record CreateListBody := {
  CreateListBody_name : option string;
  CreateListBody_position : option float64;
  CreateListBody_color : option string
}.

Record MoveListBody := {
  MoveListBody_position : option float64
}.

Record CreateCardBody := {
  CreateCardBody_title : option string;
  CreateCardBody_description : option string;
  CreateCardBody_position : option float64;
  CreateCardBody_color : option string;
  CreateCardBody_due_date : option Time
}.

Record MoveCardBody := {
  MoveCardBody_list_id : option Z;
  MoveCardBody_position : option float64
}.

Definition string_or_zero (v : option string) : string :=
  match v with Some s => s | None => "" end.

Definition float64_or_zero (v : option float64) : float64 :=
  match v with Some x => x | None => 0%float end.

Definition int_or_zero (v : option Z) : Z :=
  match v with Some x => x | None => 0 end.

(** [binding:"required,min=1,max=255"] on a string. *)
Definition required_min1_max255 (s : string) : bool :=
  negb (String.eqb s "")
  && (1 <=? Z.of_nat (String.length s)) && (Z.of_nat (String.length s) <=? 255).

(** [binding:"required"] on an [int] and on a [float64]. *)
Definition required_int (x : Z) : bool := negb (x =? 0).
Definition required_float64 (x : float64) : bool := negb (x =? 0)%float.

Definition ShouldBindJSON_CreateListRequest (body : CreateListBody)
  : result CreateListRequest :=
  let req := {| CreateListRequest_Name := string_or_zero (CreateListBody_name body);
                CreateListRequest_Position := float64_or_zero (CreateListBody_position body);
                CreateListRequest_Color := string_or_zero (CreateListBody_color body) |} in
  if required_min1_max255 (CreateListRequest_Name req) then Ok req
  else Err "validation failed".

Definition ShouldBindJSON_MoveListRequest (body : MoveListBody)
  : result MoveListRequest :=
  let req := {| MoveListRequest_Position := float64_or_zero (MoveListBody_position body) |} in
  if required_float64 (MoveListRequest_Position req) then Ok req
  else Err "validation failed".

Definition ShouldBindJSON_CreateCardRequest (body : CreateCardBody)
  : result CreateCardRequest :=
  let req := {| CreateCardRequest_Title := string_or_zero (CreateCardBody_title body);
                CreateCardRequest_Description :=
                  string_or_zero (CreateCardBody_description body);
                CreateCardRequest_Position := float64_or_zero (CreateCardBody_position body);
                CreateCardRequest_Color := string_or_zero (CreateCardBody_color body);
                CreateCardRequest_DueDate := CreateCardBody_due_date body |} in
  if required_min1_max255 (CreateCardRequest_Title req) then Ok req
  else Err "validation failed".

Definition ShouldBindJSON_MoveCardRequest (body : MoveCardBody)
  : result MoveCardRequest :=
  let req := {| MoveCardRequest_ListID := int_or_zero (MoveCardBody_list_id body);
                MoveCardRequest_Position := float64_or_zero (MoveCardBody_position body) |} in
  if required_int (MoveCardRequest_ListID req)
     && required_float64 (MoveCardRequest_Position req) then Ok req
  else Err "validation failed".

(** [c.Status(code)] writes a status and no body; the handlers that use it
    answer with a [reply]. *)
Inductive reply (A : Type) : Type :=
| Wrote (r : response A)
| Status (code : Z).
Arguments Wrote {A} r.
Arguments Status {A} code.

Definition StatusNoContent : Z := 204.

Definition reply_status {A} (r : reply A) : Z :=
  match r with
  | Wrote r => status r
  | Status code => code
  end.

Record CreateBoardBody := {
  CreateBoardBody_name : option string;
  CreateBoardBody_description : option string
}.

Record UpdateBoardBody := {
  UpdateBoardBody_name : option string;
  UpdateBoardBody_description : option string
}.

Record UpdateListBody := {
  UpdateListBody_name : option string;
  UpdateListBody_position : option float64;
  UpdateListBody_color : option string
}.

Record UpdateCardBody := {
  UpdateCardBody_title : option string;
  UpdateCardBody_description : option string;
  UpdateCardBody_color : option string;
  UpdateCardBody_due_date : option Time
}.

Record CreateCommentBody := {
  CreateCommentBody_content : option string
}.

Record CreateLabelBody := {
  CreateLabelBody_name : option string;
  CreateLabelBody_color : option string
}.

(** The request type [QuickCreate] declares locally, and its body. *)
Record QuickCreateRequest := {
  QuickCreateRequest_BoardName : string;
  QuickCreateRequest_ListName : string;
  QuickCreateRequest_Title : string;
  QuickCreateRequest_Description : string;
  QuickCreateRequest_Color : string
}.

Record QuickCreateBody := {
  QuickCreateBody_board_name : option string;
  QuickCreateBody_list_name : option string;
  QuickCreateBody_title : option string;
  QuickCreateBody_description : option string;
  QuickCreateBody_color : option string
}.

(** [binding:"omitempty,min=1,max=255"]: an empty string is let through. *)
Definition omitempty_min1_max255 (s : string) : bool :=
  String.eqb s ""
  || ((1 <=? Z.of_nat (String.length s)) && (Z.of_nat (String.length s) <=? 255)).

(** [binding:"required"] and [binding:"required,min=1"] on a string. *)
Definition required_string (s : string) : bool := negb (String.eqb s "").

Definition required_min1 (s : string) : bool :=
  negb (String.eqb s "") && (1 <=? Z.of_nat (String.length s)).

Definition ShouldBindJSON_CreateBoardRequest (body : CreateBoardBody)
  : result CreateBoardRequest :=
  let req := {| CreateBoardRequest_Name := string_or_zero (CreateBoardBody_name body);
                CreateBoardRequest_Description :=
                  string_or_zero (CreateBoardBody_description body) |} in
  if required_min1_max255 (CreateBoardRequest_Name req) then Ok req
  else Err "validation failed".

Definition ShouldBindJSON_UpdateBoardRequest (body : UpdateBoardBody)
  : result UpdateBoardRequest :=
  let req := {| UpdateBoardRequest_Name := string_or_zero (UpdateBoardBody_name body);
                UpdateBoardRequest_Description :=
                  string_or_zero (UpdateBoardBody_description body) |} in
  if omitempty_min1_max255 (UpdateBoardRequest_Name req) then Ok req
  else Err "validation failed".

Definition ShouldBindJSON_UpdateListRequest (body : UpdateListBody)
  : result UpdateListRequest :=
  let req := {| UpdateListRequest_Name := string_or_zero (UpdateListBody_name body);
                UpdateListRequest_Position := float64_or_zero (UpdateListBody_position body);
                UpdateListRequest_Color := string_or_zero (UpdateListBody_color body) |} in
  if omitempty_min1_max255 (UpdateListRequest_Name req) then Ok req
  else Err "validation failed".

Definition ShouldBindJSON_UpdateCardRequest (body : UpdateCardBody)
  : result UpdateCardRequest :=
  let req := {| UpdateCardRequest_Title := string_or_zero (UpdateCardBody_title body);
                UpdateCardRequest_Description :=
                  string_or_zero (UpdateCardBody_description body);
                UpdateCardRequest_Color := string_or_zero (UpdateCardBody_color body);
                UpdateCardRequest_DueDate := UpdateCardBody_due_date body |} in
  if omitempty_min1_max255 (UpdateCardRequest_Title req) then Ok req
  else Err "validation failed".

Definition ShouldBindJSON_CreateCommentRequest (body : CreateCommentBody)
  : result CreateCommentRequest :=
  let req := {| CreateCommentRequest_Content :=
                  string_or_zero (CreateCommentBody_content body) |} in
  if required_min1 (CreateCommentRequest_Content req) then Ok req
  else Err "validation failed".

Definition ShouldBindJSON_QuickCreateRequest (body : QuickCreateBody)
  : result QuickCreateRequest :=
  let req := {| QuickCreateRequest_BoardName :=
                  string_or_zero (QuickCreateBody_board_name body);
                QuickCreateRequest_ListName :=
                  string_or_zero (QuickCreateBody_list_name body);
                QuickCreateRequest_Title := string_or_zero (QuickCreateBody_title body);
                QuickCreateRequest_Description :=
                  string_or_zero (QuickCreateBody_description body);
                QuickCreateRequest_Color := string_or_zero (QuickCreateBody_color body) |} in
  if required_string (QuickCreateRequest_Title req) then Ok req
  else Err "validation failed".

(** The label handlers send the binding error's text to the client, so it is
    kept: one line per refused field, naming the first tag the field fails
    ([binding:"required,min=1,max=50"] on [Name], [binding:"required"] on
    [Color]). *)
Definition LF : string := String (ascii_of_nat 10) EmptyString.

Definition FieldError (field tag : string) : string :=
  ("Key: 'CreateLabelRequest." ++ field ++ "' Error:Field validation for '" ++ field
   ++ "' failed on the '" ++ tag ++ "' tag")%string.

Definition validate_CreateLabelRequest (req : CreateLabelRequest) : list string :=
  (if String.eqb (CreateLabelRequest_Name req) "" then [FieldError "Name" "required"]
   else if Z.of_nat (String.length (CreateLabelRequest_Name req)) <? 1
        then [FieldError "Name" "min"]
   else if 50 <? Z.of_nat (String.length (CreateLabelRequest_Name req))
        then [FieldError "Name" "max"]
   else [])
  ++ (if String.eqb (CreateLabelRequest_Color req) "" then [FieldError "Color" "required"]
      else []).

Definition ShouldBindJSON_CreateLabelRequest (body : CreateLabelBody)
  : result CreateLabelRequest :=
  let req := {| CreateLabelRequest_Name := string_or_zero (CreateLabelBody_name body);
                CreateLabelRequest_Color := string_or_zero (CreateLabelBody_color body) |} in
  match validate_CreateLabelRequest req with
  | [] => Ok req
  | errs => Err (String.concat LF errs)
  end.

(** [c.Query(key)]: the first value of [key] in the URL's query, or the empty
    string when the key is absent. *)
Definition c_Query (query : list (string * string)) (key : string) : string :=
  match find (fun kv => String.eqb (fst kv) key) query with
  | Some kv => snd kv
  | None => ""
  end.

(** [strconv.Atoi]: an optional sign followed by one or more decimal_digits digits,
    with a value that fits Go's 64-bit [int]; anything else is an error. *)
Fixpoint decimal_digits (digits : list ascii) (n : Z) : option Z :=
  match digits with
  | [] => Some n
  | ch :: digits' =>
      let d := Z.of_N (N_of_ascii ch) - 48 in
      if (0 <=? d) && (d <=? 9) then decimal_digits digits' (n * 10 + d) else None
  end.

Definition Atoi (s : string) : option Z :=
  let signed (neg : bool) (digits : list ascii) : option Z :=
    match digits with
    | [] => None
    | _ :: _ =>
        match decimal_digits digits 0 with
        | None => None
        | Some n =>
            let n := if neg then - n else n in
            if (- 2 ^ 63 <=? n) && (n <=? 2 ^ 63 - 1) then Some n else None
        end
    end in
  match list_ascii_of_string s with
  | [] => None
  | ch :: rest =>
      if Ascii.eqb ch "-"%char then signed true rest
      else if Ascii.eqb ch "+"%char then signed false rest
      else signed false (ch :: rest)
  end.

(* ================================================================= *)
(** ** internal/api/handlers

    A handler takes the database state, the clocks, the integer path
    parameter (the [strconv.Atoi] of [c.Param("id")] has succeeded) and the
    JSON body, and gives the new state and the response. *)

Module BoardHandler.

Definition GetAll (db : DB) : response (slice Board) :=
  match BoardRepository.GetAll db with
  | (_, Some _) => HandleError StatusInternalServerError "Failed to retrieve boards"
  | (boards, None) => JSON StatusOK boards
  end.

Definition GetByID (db : DB) (id : Z) : response Board :=
  match BoardRepository.GetByID db id with
  | Err err =>
      if String.eqb err "board not found"
      then HandleError StatusNotFound "Board not found"
      else HandleError StatusInternalServerError "Failed to retrieve board"
  | Ok board => JSON StatusOK board
  end.

Definition Create (db : DB) (sq : sqlite_sequence) (clk : clock) (body : CreateBoardBody)
  : DB * sqlite_sequence * response Board :=
  match ShouldBindJSON_CreateBoardRequest body with
  | Err _ => (db, sq, HandleError StatusBadRequest "Invalid request body")
  | Ok req =>
      let board := {| Board_ID := 0; Board_Name := CreateBoardRequest_Name req;
                      Board_Description := CreateBoardRequest_Description req;
                      Board_CreatedAt := 0; Board_UpdatedAt := 0 |} in
      match BoardRepository.Create db sq clk board with
      | (db', sq', _, Some _) =>
          (db', sq', HandleError StatusInternalServerError "Failed to create board")
      | (db', sq', board, None) => (db', sq', JSON StatusCreated board)
      end
  end.

Definition Update (db : DB) (clk : clock) (id : Z) (body : UpdateBoardBody)
  : DB * response Board :=
  (* Get existing board *)
  match BoardRepository.GetByID db id with
  | Err err =>
      if String.eqb err "board not found"
      then (db, HandleError StatusNotFound "Board not found")
      else (db, HandleError StatusInternalServerError "Failed to retrieve board")
  | Ok board =>
      (* Bind update request *)
      match ShouldBindJSON_UpdateBoardRequest body with
      | Err _ => (db, HandleError StatusBadRequest "Invalid request body")
      | Ok req =>
          (* Update fields if provided *)
          let board :=
            if negb (String.eqb (UpdateBoardRequest_Name req) "")
            then {| Board_ID := Board_ID board; Board_Name := UpdateBoardRequest_Name req;
                    Board_Description := Board_Description board;
                    Board_CreatedAt := Board_CreatedAt board;
                    Board_UpdatedAt := Board_UpdatedAt board |}
            else board in
          let board :=
            if negb (String.eqb (UpdateBoardRequest_Description req) "")
            then {| Board_ID := Board_ID board; Board_Name := Board_Name board;
                    Board_Description := UpdateBoardRequest_Description req;
                    Board_CreatedAt := Board_CreatedAt board;
                    Board_UpdatedAt := Board_UpdatedAt board |}
            else board in
          (* Save updates *)
          match BoardRepository.Update db clk board with
          | (db', _, Some _) =>
              (db', HandleError StatusInternalServerError "Failed to update board")
          | (db', board, None) => (db', JSON StatusOK board)
          end
      end
  end.

Definition Delete (db : DB) (id : Z) : DB * response unit :=
  match BoardRepository.Delete db id with
  | (db', Some err) =>
      if String.eqb err "board not found"
      then (db', HandleError StatusNotFound "Board not found")
      else (db', HandleError StatusInternalServerError "Failed to delete board")
  | (db', None) => (db', JSON_H StatusOK [("message", "Board deleted successfully")])
  end.

End BoardHandler.

Module ListHandler.

Definition GetByBoardID (db : DB) (boardID : Z) : response (slice List) :=
  (* Verify board exists *)
  match BoardRepository.GetByID db boardID with
  | Err err =>
      if String.eqb err "board not found"
      then HandleError StatusNotFound "Board not found"
      else HandleError StatusInternalServerError "Failed to verify board"
  | Ok _ =>
      match ListRepository.GetByBoardID db boardID with
      | (_, Some _) => HandleError StatusInternalServerError "Failed to retrieve lists"
      | (lists, None) => JSON StatusOK lists
      end
  end.

Definition Create (db : DB) (clk : clock) (boardID : Z) (body : CreateListBody)
  : DB * response List :=
  (* Verify board exists *)
  match BoardRepository.GetByID db boardID with
  | Err err =>
      if String.eqb err "board not found"
      then (db, HandleError StatusNotFound "Board not found")
      else (db, HandleError StatusInternalServerError "Failed to verify board")
  | Ok _ =>
      match ShouldBindJSON_CreateListRequest body with
      | Err _ => (db, HandleError StatusBadRequest "Invalid request body")
      | Ok req =>
          let list := {| List_ID := 0; List_BoardID := boardID;
                         List_Name := CreateListRequest_Name req;
                         List_Position := CreateListRequest_Position req;
                         List_Color := CreateListRequest_Color req;
                         List_CreatedAt := 0; List_UpdatedAt := 0 |} in
          (* Set default color if not provided *)
          let list := if String.eqb (List_Color list) ""
                      then List_with_Color list "#6b7280" else list in
          match ListRepository.Create db clk list with
          | (db', _, Some _) =>
              (db', HandleError StatusInternalServerError "Failed to create list")
          | (db', list, None) => (db', JSON StatusCreated list)
          end
      end
  end.

(** The midpoint [Move] computes: [newPosition := (prev + next) / 2]. *)
Definition newPosition (prev next : float64) : float64 := ((prev + next) / 2)%float.

Definition Move (db : DB) (clk : clock) (id : Z) (body : MoveListBody)
  : DB * response List :=
  match ShouldBindJSON_MoveListRequest body with
  | Err _ => (db, HandleError StatusBadRequest "Invalid request body")
  | Ok req =>
      (* Get the list to verify it exists *)
      match ListRepository.GetByID db id with
      | Err err =>
          if String.eqb err "list not found"
          then (db, HandleError StatusNotFound "List not found")
          else (db, HandleError StatusInternalServerError "Failed to retrieve list")
      | Ok list =>
          (* Calculate new position between adjacent lists *)
          match ListRepository.GetAdjacentPositions
                  db (List_BoardID list) (MoveListRequest_Position req) with
          | (_, _, Some _) =>
              (db, HandleError StatusInternalServerError "Failed to calculate position")
          | (prev, next, None) =>
              (* Calculate midpoint for new position *)
              let newPosition := newPosition prev next in
              (* Update position *)
              match ListRepository.UpdatePosition db clk id newPosition with
              | (db', Some _) =>
                  (db', HandleError StatusInternalServerError "Failed to move list")
              | (db', None) =>
                  (db', JSON StatusOK (List_with_Position list newPosition))
              end
          end
      end
  end.

Definition GetByID (db : DB) (id : Z) : response List :=
  match ListRepository.GetByID db id with
  | Err err =>
      if String.eqb err "list not found"
      then HandleError StatusNotFound "List not found"
      else HandleError StatusInternalServerError "Failed to retrieve list"
  | Ok list => JSON StatusOK list
  end.

Definition Update (db : DB) (clk : clock) (id : Z) (body : UpdateListBody)
  : DB * response List :=
  (* Get existing list *)
  match ListRepository.GetByID db id with
  | Err err =>
      if String.eqb err "list not found"
      then (db, HandleError StatusNotFound "List not found")
      else (db, HandleError StatusInternalServerError "Failed to retrieve list")
  | Ok list =>
      (* Bind update request *)
      match ShouldBindJSON_UpdateListRequest body with
      | Err _ => (db, HandleError StatusBadRequest "Invalid request body")
      | Ok req =>
          (* Update fields if provided *)
          let list :=
            if negb (String.eqb (UpdateListRequest_Name req) "")
            then {| List_ID := List_ID list; List_BoardID := List_BoardID list;
                    List_Name := UpdateListRequest_Name req;
                    List_Position := List_Position list; List_Color := List_Color list;
                    List_CreatedAt := List_CreatedAt list;
                    List_UpdatedAt := List_UpdatedAt list |}
            else list in
          let list :=
            if negb (UpdateListRequest_Position req =? 0)%float
            then List_with_Position list (UpdateListRequest_Position req)
            else list in
          let list :=
            if negb (String.eqb (UpdateListRequest_Color req) "")
            then List_with_Color list (UpdateListRequest_Color req)
            else list in
          (* Save updates *)
          match ListRepository.Update db clk list with
          | (db', _, Some _) =>
              (db', HandleError StatusInternalServerError "Failed to update list")
          | (db', list, None) => (db', JSON StatusOK list)
          end
      end
  end.

Definition Delete (db : DB) (id : Z) : DB * response unit :=
  match ListRepository.Delete db id with
  | (db', Some err) =>
      if String.eqb err "list not found"
      then (db', HandleError StatusNotFound "List not found")
      else (db', HandleError StatusInternalServerError "Failed to delete list")
  | (db', None) => (db', JSON_H StatusOK [("message", "List deleted successfully")])
  end.

End ListHandler.

Module CardHandler.

Definition GetByListID (db : DB) (listID : Z) (includeArchived : bool)
  : response (slice Card) :=
  (* Verify list exists *)
  match ListRepository.GetByID db listID with
  | Err err =>
      if String.eqb err "list not found"
      then HandleError StatusNotFound "List not found"
      else HandleError StatusInternalServerError "Failed to verify list"
  | Ok _ =>
      match CardRepository.GetByListID db listID includeArchived with
      | (_, Some _) => HandleError StatusInternalServerError "Failed to retrieve cards"
      | (cards, None) => JSON StatusOK cards
      end
  end.

Definition Create (db : DB) (clk : clock) (listID : Z) (body : CreateCardBody)
  : DB * response Card :=
  (* Verify list exists *)
  match ListRepository.GetByID db listID with
  | Err err =>
      if String.eqb err "list not found"
      then (db, HandleError StatusNotFound "List not found")
      else (db, HandleError StatusInternalServerError "Failed to verify list")
  | Ok _ =>
      match ShouldBindJSON_CreateCardRequest body with
      | Err _ => (db, HandleError StatusBadRequest "Invalid request body")
      | Ok req =>
          let card := {| Card_ID := 0; Card_ListID := listID;
                         Card_Title := CreateCardRequest_Title req;
                         Card_Description := CreateCardRequest_Description req;
                         Card_Position := CreateCardRequest_Position req;
                         Card_Color := CreateCardRequest_Color req;
                         Card_DueDate := CreateCardRequest_DueDate req;
                         Card_Archived := false;
                         Card_CreatedAt := 0; Card_UpdatedAt := 0 |} in
          match CardRepository.Create db clk card with
          | (db', _, Some _) =>
              (db', HandleError StatusInternalServerError "Failed to create card")
          | (db', card, None) => (db', JSON StatusCreated card)
          end
      end
  end.

Definition Move (db : DB) (clk : clock) (id : Z) (body : MoveCardBody)
  : DB * response Card :=
  match ShouldBindJSON_MoveCardRequest body with
  | Err _ => (db, HandleError StatusBadRequest "Invalid request body")
  | Ok req =>
      (* Verify card exists *)
      match CardRepository.GetByID db id with
      | Err err =>
          if String.eqb err "card not found"
          then (db, HandleError StatusNotFound "Card not found")
          else (db, HandleError StatusInternalServerError "Failed to retrieve card")
      | Ok card =>
          (* Verify target list exists *)
          match ListRepository.GetByID db (MoveCardRequest_ListID req) with
          | Err err =>
              if String.eqb err "list not found"
              then (db, HandleError StatusNotFound "Target list not found")
              else (db, HandleError StatusInternalServerError
                          "Failed to verify target list")
          | Ok _ =>
              (* Move the card using the position calculated by the frontend *)
              match CardRepository.Move db clk id (MoveCardRequest_ListID req)
                      (MoveCardRequest_Position req) with
              | (db', Some _) =>
                  (db', HandleError StatusInternalServerError "Failed to move card")
              | (db', None) =>
                  let card := Card_with_ListID card (MoveCardRequest_ListID req) in
                  let card := Card_with_Position card (MoveCardRequest_Position req) in
                  (db', JSON StatusOK card)
              end
          end
      end
  end.

Definition Archive (db : DB) (clk : clock) (id : Z) : DB * response unit :=
  match CardRepository.Archive db clk id true with
  | (db', Some err) =>
      if String.eqb err "card not found"
      then (db', HandleError StatusNotFound "Card not found")
      else (db', HandleError StatusInternalServerError "Failed to archive card")
  | (db', None) => (db', JSON_H StatusOK [("message", "Card archived successfully")])
  end.

Definition Unarchive (db : DB) (clk : clock) (id : Z) : DB * response unit :=
  match CardRepository.Archive db clk id false with
  | (db', Some err) =>
      if String.eqb err "card not found"
      then (db', HandleError StatusNotFound "Card not found")
      else (db', HandleError StatusInternalServerError "Failed to unarchive card")
  | (db', None) => (db', JSON_H StatusOK [("message", "Card unarchived successfully")])
  end.

Definition GetComments (db : DB) (cardID : Z) : response (slice Comment) :=
  (* Verify card exists *)
  match CardRepository.GetByID db cardID with
  | Err err =>
      if String.eqb err "card not found"
      then HandleError StatusNotFound "Card not found"
      else HandleError StatusInternalServerError "Failed to verify card"
  | Ok _ =>
      match CardRepository.GetComments db cardID with
      | (_, Some _) => HandleError StatusInternalServerError "Failed to retrieve comments"
      | (comments, None) => JSON StatusOK comments
      end
  end.

(** [GetByID]: the card, with its [Comments] field set to the comments the
    repository finds; the pair stands for the card and that field. *)
Definition GetByID (db : DB) (id : Z) : response (Card * slice Comment) :=
  match CardRepository.GetByID db id with
  | Err err =>
      if String.eqb err "card not found"
      then HandleError StatusNotFound "Card not found"
      else HandleError StatusInternalServerError "Failed to retrieve card"
  | Ok card =>
      (* Get comments for the card *)
      match CardRepository.GetComments db id with
      | (comments, None) => JSON StatusOK (card, comments)
      | (_, Some _) => JSON StatusOK (card, nil_slice)
      end
  end.

Definition Update (db : DB) (clk : clock) (id : Z) (body : UpdateCardBody)
  : DB * response Card :=
  (* Get existing card *)
  match CardRepository.GetByID db id with
  | Err err =>
      if String.eqb err "card not found"
      then (db, HandleError StatusNotFound "Card not found")
      else (db, HandleError StatusInternalServerError "Failed to retrieve card")
  | Ok card =>
      (* Bind update request *)
      match ShouldBindJSON_UpdateCardRequest body with
      | Err _ => (db, HandleError StatusBadRequest "Invalid request body")
      | Ok req =>
          (* Update fields if provided *)
          let card :=
            if negb (String.eqb (UpdateCardRequest_Title req) "")
            then {| Card_ID := Card_ID card; Card_ListID := Card_ListID card;
                    Card_Title := UpdateCardRequest_Title req;
                    Card_Description := Card_Description card;
                    Card_Position := Card_Position card; Card_Color := Card_Color card;
                    Card_DueDate := Card_DueDate card; Card_Archived := Card_Archived card;
                    Card_CreatedAt := Card_CreatedAt card;
                    Card_UpdatedAt := Card_UpdatedAt card |}
            else card in
          let card :=
            if negb (String.eqb (UpdateCardRequest_Description req) "")
            then {| Card_ID := Card_ID card; Card_ListID := Card_ListID card;
                    Card_Title := Card_Title card;
                    Card_Description := UpdateCardRequest_Description req;
                    Card_Position := Card_Position card; Card_Color := Card_Color card;
                    Card_DueDate := Card_DueDate card; Card_Archived := Card_Archived card;
                    Card_CreatedAt := Card_CreatedAt card;
                    Card_UpdatedAt := Card_UpdatedAt card |}
            else card in
          let card :=
            if negb (String.eqb (UpdateCardRequest_Color req) "")
            then {| Card_ID := Card_ID card; Card_ListID := Card_ListID card;
                    Card_Title := Card_Title card;
                    Card_Description := Card_Description card;
                    Card_Position := Card_Position card;
                    Card_Color := UpdateCardRequest_Color req;
                    Card_DueDate := Card_DueDate card; Card_Archived := Card_Archived card;
                    Card_CreatedAt := Card_CreatedAt card;
                    Card_UpdatedAt := Card_UpdatedAt card |}
            else card in
          let card :=
            match UpdateCardRequest_DueDate req with
            | Some due =>
                {| Card_ID := Card_ID card; Card_ListID := Card_ListID card;
                   Card_Title := Card_Title card;
                   Card_Description := Card_Description card;
                   Card_Position := Card_Position card; Card_Color := Card_Color card;
                   Card_DueDate := Some due; Card_Archived := Card_Archived card;
                   Card_CreatedAt := Card_CreatedAt card;
                   Card_UpdatedAt := Card_UpdatedAt card |}
            | None => card
            end in
          (* Save updates *)
          match CardRepository.Update db clk card with
          | (db', _, Some _) =>
              (db', HandleError StatusInternalServerError "Failed to update card")
          | (db', card, None) => (db', JSON StatusOK card)
          end
      end
  end.

Definition Delete (db : DB) (id : Z) : DB * response unit :=
  match CardRepository.Delete db id with
  | (db', Some err) =>
      if String.eqb err "card not found"
      then (db', HandleError StatusNotFound "Card not found")
      else (db', HandleError StatusInternalServerError "Failed to delete card")
  | (db', None) => (db', JSON_H StatusOK [("message", "Card deleted successfully")])
  end.

(** [Search]: the parameters are read from the URL's query; a numeric
    parameter that [strconv.Atoi] refuses is left at zero. *)
Definition Search (db : DB) (query : list (string * string)) : response (slice Card) :=
  let params := {| Query := c_Query query "query"; BoardID := 0; ListID := 0;
                   Archived := None; LabelID := 0 |} in
  let params :=
    let boardID := c_Query query "board_id" in
    if negb (String.eqb boardID "") then
      match Atoi boardID with
      | Some id => {| Query := Query params; BoardID := id; ListID := ListID params;
                      Archived := Archived params; LabelID := LabelID params |}
      | None => params
      end
    else params in
  let params :=
    let listID := c_Query query "list_id" in
    if negb (String.eqb listID "") then
      match Atoi listID with
      | Some id => {| Query := Query params; BoardID := BoardID params; ListID := id;
                      Archived := Archived params; LabelID := LabelID params |}
      | None => params
      end
    else params in
  let params :=
    let archived := c_Query query "archived" in
    if negb (String.eqb archived "") then
      let archivedBool := String.eqb archived "true" in
      {| Query := Query params; BoardID := BoardID params; ListID := ListID params;
         Archived := Some archivedBool; LabelID := LabelID params |}
    else params in
  let params :=
    let labelID := c_Query query "label_id" in
    if negb (String.eqb labelID "") then
      match Atoi labelID with
      | Some id => {| Query := Query params; BoardID := BoardID params;
                      ListID := ListID params; Archived := Archived params;
                      LabelID := id |}
      | None => params
      end
    else params in
  match CardRepository.Search db params with
  | (_, Some _) => HandleError StatusInternalServerError "Failed to search cards"
  | (cards, None) => JSON StatusOK cards
  end.

Definition AddComment (db : DB) (sq : sqlite_sequence) (clk : clock) (cardID : Z)
  (body : CreateCommentBody) : DB * sqlite_sequence * response Comment :=
  (* Verify card exists *)
  match CardRepository.GetByID db cardID with
  | Err err =>
      if String.eqb err "card not found"
      then (db, sq, HandleError StatusNotFound "Card not found")
      else (db, sq, HandleError StatusInternalServerError "Failed to verify card")
  | Ok _ =>
      match ShouldBindJSON_CreateCommentRequest body with
      | Err _ => (db, sq, HandleError StatusBadRequest "Invalid request body")
      | Ok req =>
          let comment := {| Comment_ID := 0; Comment_CardID := cardID;
                            Comment_Content := CreateCommentRequest_Content req;
                            Comment_CreatedAt := 0 |} in
          match CardRepository.AddComment db sq clk comment with
          | (db', sq', _, Some _) =>
              (db', sq', HandleError StatusInternalServerError "Failed to add comment")
          | (db', sq', comment, None) => (db', sq', JSON StatusCreated comment)
          end
      end
  end.

(** [QuickCreate]: the board and the list are sought by name, with the first
    board of [GetAll] and the first list of [GetByBoardID] to fall back on. *)
Definition QuickCreate (db : DB) (clk : clock) (body : QuickCreateBody)
  : DB * response Card :=
  match ShouldBindJSON_QuickCreateRequest body with
  | Err _ => (db, HandleError StatusBadRequest "Invalid request body")
  | Ok req =>
      (* Default to first board and "Backlog" list if not specified *)
      let boardName := QuickCreateRequest_BoardName req in
      let boardName := if String.eqb boardName "" then "Main Board" else boardName in
      let listName := QuickCreateRequest_ListName req in
      let listName := if String.eqb listName "" then "Backlog" else listName in
      (* Find the board by name *)
      let board :=
        match BoardRepository.GetByName db boardName with
        | Ok board => Some board
        | Err _ =>
            (* If board not found, try to get the first board *)
            match BoardRepository.GetAll db with
            | (boards, err) =>
                match err, elems boards with
                | None, board :: _ => Some board
                | _, _ => None
                end
            end
        end in
      match board with
      | None =>
          (db, HandleError StatusNotFound
                 "No boards available. Please create a board first.")
      | Some board =>
          (* Find the list by board ID and name *)
          let list :=
            match ListRepository.GetByBoardAndName db (Board_ID board) listName with
            | Ok list => Some list
            | Err _ =>
                (* If list not found, try to get the first list in the board *)
                match ListRepository.GetByBoardID db (Board_ID board) with
                | (lists, err) =>
                    match err, elems lists with
                    | None, list :: _ => Some list
                    | _, _ => None
                    end
                end
            end in
          match list with
          | None =>
              (db, HandleError StatusNotFound
                     "No lists available in the board. Please create a list first.")
          | Some list =>
              (* Create the card *)
              let card := {| Card_ID := 0; Card_ListID := List_ID list;
                             Card_Title := QuickCreateRequest_Title req;
                             Card_Description := QuickCreateRequest_Description req;
                             Card_Position := 0%float;
                             Card_Color := QuickCreateRequest_Color req;
                             Card_DueDate := None; Card_Archived := false;
                             Card_CreatedAt := 0; Card_UpdatedAt := 0 |} in
              match CardRepository.Create db clk card with
              | (db', _, Some _) =>
                  (db', HandleError StatusInternalServerError "Failed to create card")
              | (db', card, None) => (db', JSON StatusCreated card)
              end
          end
      end
  end.

End CardHandler.

Module LabelHandler.

Definition AssignToCard (db : DB) (cardID labelID : Z) : DB * response unit :=
  (* Verify card exists *)
  match CardRepository.GetByID db cardID with
  | Err err =>
      if String.eqb err "card not found"
      then (db, JSON_H StatusNotFound
                  [("error", "Not Found"); ("message", "Card not found")])
      else (db, JSON_H StatusInternalServerError
                  [("error", "Internal Server Error"); ("message", err)])
  | Ok _ =>
      (* Verify label exists *)
      match LabelRepository.GetByID db labelID with
      | Err err =>
          if String.eqb err "label not found"
          then (db, JSON_H StatusNotFound
                      [("error", "Not Found"); ("message", "Label not found")])
          else (db, JSON_H StatusInternalServerError
                      [("error", "Internal Server Error"); ("message", err)])
      | Ok _ =>
          (* Assign label to card *)
          match LabelRepository.AssignToCard db cardID labelID with
          | (db', Some err) =>
              (db', JSON_H StatusInternalServerError
                      [("error", "Internal Server Error"); ("message", err)])
          | (db', None) =>
              (db', JSON_H StatusOK [("message", "Label assigned to card successfully")])
          end
      end
  end.

Definition GetAll (db : DB) : response (slice Label) :=
  match LabelRepository.GetAll db with
  | (_, Some err) =>
      JSON_H StatusInternalServerError
        [("error", "Internal Server Error"); ("message", err)]
  | (labels, None) => JSON StatusOK labels
  end.

Definition GetByID (db : DB) (id : Z) : response Label :=
  match LabelRepository.GetByID db id with
  | Err err =>
      if String.eqb err "label not found"
      then JSON_H StatusNotFound [("error", "Not Found"); ("message", "Label not found")]
      else JSON_H StatusInternalServerError
             [("error", "Internal Server Error"); ("message", err)]
  | Ok label => JSON StatusOK label
  end.

Definition Create (db : DB) (sq : sqlite_sequence) (clk : clock) (body : CreateLabelBody)
  : DB * sqlite_sequence * response Label :=
  match ShouldBindJSON_CreateLabelRequest body with
  | Err err =>
      (db, sq, JSON_H StatusBadRequest [("error", "Bad Request"); ("message", err)])
  | Ok req =>
      match LabelRepository.Create db sq clk req with
      | (db', sq', Err err) =>
          (db', sq', JSON_H StatusInternalServerError
                       [("error", "Internal Server Error"); ("message", err)])
      | (db', sq', Ok label) => (db', sq', JSON StatusCreated label)
      end
  end.

Definition Update (db : DB) (id : Z) (body : CreateLabelBody) : DB * response Label :=
  (* Reusing the same request struct *)
  match ShouldBindJSON_CreateLabelRequest body with
  | Err err =>
      (db, JSON_H StatusBadRequest [("error", "Bad Request"); ("message", err)])
  | Ok req =>
      match LabelRepository.Update db id (CreateLabelRequest_Name req)
              (CreateLabelRequest_Color req) with
      | (db', Err err) =>
          if String.eqb err "label not found"
          then (db', JSON_H StatusNotFound
                       [("error", "Not Found"); ("message", "Label not found")])
          else (db', JSON_H StatusInternalServerError
                       [("error", "Internal Server Error"); ("message", err)])
      | (db', Ok label) => (db', JSON StatusOK label)
      end
  end.

Definition Delete (db : DB) (id : Z) : DB * reply unit :=
  match LabelRepository.Delete db id with
  | (db', Some err) =>
      if String.eqb err "label not found"
      then (db', Wrote (JSON_H StatusNotFound
                          [("error", "Not Found"); ("message", "Label not found")]))
      else (db', Wrote (JSON_H StatusInternalServerError
                          [("error", "Internal Server Error"); ("message", err)]))
  | (db', None) => (db', Status StatusNoContent)
  end.

Definition RemoveFromCard (db : DB) (cardID labelID : Z) : DB * reply unit :=
  match LabelRepository.RemoveFromCard db cardID labelID with
  | (db', Some err) =>
      if String.eqb err "label assignment not found"
      then (db', Wrote (JSON_H StatusNotFound
                          [("error", "Not Found");
                           ("message", "Label assignment not found")]))
      else (db', Wrote (JSON_H StatusInternalServerError
                          [("error", "Internal Server Error"); ("message", err)]))
  | (db', None) => (db', Status StatusNoContent)
  end.

Definition GetCardLabels (db : DB) (cardID : Z) : response (slice Label) :=
  (* Verify card exists *)
  match CardRepository.GetByID db cardID with
  | Err err =>
      if String.eqb err "card not found"
      then JSON_H StatusNotFound [("error", "Not Found"); ("message", "Card not found")]
      else JSON_H StatusInternalServerError
             [("error", "Internal Server Error"); ("message", err)]
  | Ok _ =>
      match LabelRepository.GetCardLabels db cardID with
      | (_, Some err) =>
          JSON_H StatusInternalServerError
            [("error", "Internal Server Error"); ("message", err)]
      | (labels, None) => JSON StatusOK labels
      end
  end.

End LabelHandler.

(* ================================================================= *)
(** ** internal/api/middleware: what the client receives

    A handler's [JSON code obj] is its call [c.JSON(code, obj)].  gin sets
    the status, then has [encoding/json] encode [obj]; the encoder refuses a
    [float64] that is NaN or infinite with an [UnsupportedValueError], and
    gin then writes nothing, records the error in [c.Errors] and aborts.
    [middleware.ErrorHandler], which [NewRouter] puts around every handler,
    answers in that case, after whatever the handler has stored.  Of the
    payloads only the [Position] of a list and of a card is a [float64]. *)

(** [strconv.FormatFloat] of a value that is not finite. *)
Definition FormatFloat (x : float64) : string :=
  if is_nan x then "NaN" else if (x <? 0)%float then "-Inf" else "+Inf".

Definition UnsupportedValueError (x : float64) : error :=
  if is_finite x then None
  else Some ("json: unsupported value: " ++ FormatFloat x)%string.

(** The error of [json.Marshal(obj)], [None] when [obj] is encoded. *)
Class Payload (A : Type) := json_Marshal : A -> error.

#[global] Instance Payload_unit : Payload unit := fun _ => None.
#[global] Instance Payload_Board : Payload Board := fun _ => None.
#[global] Instance Payload_Comment : Payload Comment := fun _ => None.
#[global] Instance Payload_Label : Payload Label := fun _ => None.

#[global] Instance Payload_List : Payload List :=
  fun list => UnsupportedValueError (List_Position list).

#[global] Instance Payload_Card : Payload Card :=
  fun card => UnsupportedValueError (Card_Position card).

(** A slice is encoded element by element; the first refusal ends it. *)
Fixpoint first_error {A} (f : A -> error) (l : list A) : error :=
  match l with
  | [] => None
  | a :: l' =>
      match f a with
      | Some err => Some err
      | None => first_error f l'
      end
  end.

#[global] Instance Payload_slice {A} `{Payload A} : Payload (slice A) :=
  fun s => first_error json_Marshal (elems s).

(** A card with its [Comments] field set. *)
#[global] Instance Payload_Card_Comments : Payload (Card * slice Comment) :=
  fun obj =>
    match json_Marshal (fst obj) with
    | Some err => Some err
    | None => json_Marshal (snd obj)
    end.

(** [http.StatusText]. *)
Definition StatusText (code : Z) : string :=
  if code =? 200 then "OK"
  else if code =? 201 then "Created"
  else if code =? 204 then "No Content"
  else if code =? 400 then "Bad Request"
  else if code =? 404 then "Not Found"
  else if code =? 500 then "Internal Server Error"
  else "".

(** gin's [Context.Render], in which [c.JSON] ends: the error pushed to
    [c.Errors] when the payload cannot be encoded. *)
Definition Render {A} `{Payload A} (r : response A) : error :=
  match r with
  | JSON _ obj => json_Marshal obj
  | JSON_H _ _ => None
  | HandleError _ _ => None
  end.

(** [ErrorHandler]: after the handler, when [c.Errors] is not empty the
    response is [ErrorResponse{Error: http.StatusText(status), Message:
    err.Error()}] under the status the writer holds, 500 taking the place of
    200. *)
Definition ErrorHandler {A} `{Payload A} (r : response A) : response A :=
  match Render r with
  | None => r
  | Some err =>
      (* Determine status code *)
      let status := status r in
      let status := if status =? StatusOK then StatusInternalServerError else status in
      (* Create error response *)
      JSON_H status [("error", StatusText status); ("message", err)]
  end.

(* ================================================================= *)
(** ** internal/api: the router

    The routes [NewRouter] registers under [/api], each with the handler it
    is bound to.  A path parameter arrives as text; every handler first
    parses it with [strconv.Atoi] and answers 400 when that fails.  Every
    route runs under [middleware.ErrorHandler].  [serve] gives the state
    after the request and the status of the response the client receives. *)

Definition store : Type := DB * sqlite_sequence.

Inductive request : Type :=
| GET_health
| GET_boards
| POST_boards (body : CreateBoardBody)
| GET_boards_id (id : string)
| PUT_boards_id (id : string) (body : UpdateBoardBody)
| DELETE_boards_id (id : string)
| GET_boards_id_lists (id : string)
| POST_boards_id_lists (id : string) (body : CreateListBody)
| GET_lists_id (id : string)
| PUT_lists_id (id : string) (body : UpdateListBody)
| PATCH_lists_id_move (id : string) (body : MoveListBody)
| DELETE_lists_id (id : string)
| GET_lists_id_cards (id : string) (query : list (string * string))
| POST_lists_id_cards (id : string) (body : CreateCardBody)
| GET_cards (query : list (string * string))
| GET_cards_id (id : string)
| PUT_cards_id (id : string) (body : UpdateCardBody)
| PATCH_cards_id_move (id : string) (body : MoveCardBody)
| POST_cards_id_archive (id : string)
| POST_cards_id_unarchive (id : string)
| DELETE_cards_id (id : string)
| GET_cards_id_comments (id : string)
| POST_cards_id_comments (id : string) (body : CreateCommentBody)
| POST_cards_quick (body : QuickCreateBody)
| GET_search (query : list (string * string))
| GET_labels
| POST_labels (body : CreateLabelBody)
| GET_labels_id (id : string)
| PUT_labels_id (id : string) (body : CreateLabelBody)
| DELETE_labels_id (id : string)
| POST_cards_id_labels_label_id (id label_id : string)
| DELETE_cards_id_labels_label_id (id label_id : string)
| GET_cards_id_labels (id : string).

Definition serve (st : store) (clk : clock) (req : request) : store * Z :=
  let (db, sq) := st in
  (* strconv.Atoi(c.Param(...)), with 400 when it fails *)
  let with_id (param : string) (handler : Z -> store * Z) : store * Z :=
    match Atoi param with
    | None => (st, StatusBadRequest)
    | Some id => handler id
    end in
  let reads {A} `{Payload A} (r : response A) : store * Z :=
    (st, status (ErrorHandler r)) in
  let writes {A} `{Payload A} (r : DB * response A) : store * Z :=
    ((fst r, sq), status (ErrorHandler (snd r))) in
  match req with
  | GET_health => (st, 200)
  | GET_boards => reads (BoardHandler.GetAll db)
  | POST_boards body =>
      match BoardHandler.Create db sq clk body with
      | (db', sq', r) => ((db', sq'), status (ErrorHandler r))
      end
  | GET_boards_id id => with_id id (fun id => reads (BoardHandler.GetByID db id))
  | PUT_boards_id id body =>
      with_id id (fun id => writes (BoardHandler.Update db clk id body))
  | DELETE_boards_id id => with_id id (fun id => writes (BoardHandler.Delete db id))
  | GET_boards_id_lists id =>
      with_id id (fun id => reads (ListHandler.GetByBoardID db id))
  | POST_boards_id_lists id body =>
      with_id id (fun id => writes (ListHandler.Create db clk id body))
  | GET_lists_id id => with_id id (fun id => reads (ListHandler.GetByID db id))
  | PUT_lists_id id body =>
      with_id id (fun id => writes (ListHandler.Update db clk id body))
  | PATCH_lists_id_move id body =>
      with_id id (fun id => writes (ListHandler.Move db clk id body))
  | DELETE_lists_id id => with_id id (fun id => writes (ListHandler.Delete db id))
  | GET_lists_id_cards id query =>
      with_id id (fun id =>
        (* Check if archived cards should be included *)
        let includeArchived := String.eqb (c_Query query "archived") "true" in
        reads (CardHandler.GetByListID db id includeArchived))
  | POST_lists_id_cards id body =>
      with_id id (fun id => writes (CardHandler.Create db clk id body))
  | GET_cards query => reads (CardHandler.Search db query)
  | GET_cards_id id => with_id id (fun id => reads (CardHandler.GetByID db id))
  | PUT_cards_id id body =>
      with_id id (fun id => writes (CardHandler.Update db clk id body))
  | PATCH_cards_id_move id body =>
      with_id id (fun id => writes (CardHandler.Move db clk id body))
  | POST_cards_id_archive id =>
      with_id id (fun id => writes (CardHandler.Archive db clk id))
  | POST_cards_id_unarchive id =>
      with_id id (fun id => writes (CardHandler.Unarchive db clk id))
  | DELETE_cards_id id => with_id id (fun id => writes (CardHandler.Delete db id))
  | GET_cards_id_comments id =>
      with_id id (fun id => reads (CardHandler.GetComments db id))
  | POST_cards_id_comments id body =>
      with_id id (fun id =>
        match CardHandler.AddComment db sq clk id body with
        | (db', sq', r) => ((db', sq'), status (ErrorHandler r))
        end)
  | POST_cards_quick body => writes (CardHandler.QuickCreate db clk body)
  | GET_search query => reads (CardHandler.Search db query)
  | GET_labels => reads (LabelHandler.GetAll db)
  | POST_labels body =>
      match LabelHandler.Create db sq clk body with
      | (db', sq', r) => ((db', sq'), status (ErrorHandler r))
      end
  | GET_labels_id id => with_id id (fun id => reads (LabelHandler.GetByID db id))
  | PUT_labels_id id body =>
      with_id id (fun id => writes (LabelHandler.Update db id body))
  | DELETE_labels_id id =>
      with_id id (fun id =>
        match LabelHandler.Delete db id with
        | (db', r) => ((db', sq), reply_status r)
        end)
  | POST_cards_id_labels_label_id id label_id =>
      with_id id (fun cardID =>
        with_id label_id (fun labelID =>
          writes (LabelHandler.AssignToCard db cardID labelID)))
  | DELETE_cards_id_labels_label_id id label_id =>
      with_id id (fun cardID =>
        with_id label_id (fun labelID =>
          match LabelHandler.RemoveFromCard db cardID labelID with
          | (db', r) => ((db', sq), reply_status r)
          end))
  | GET_cards_id_labels id =>
      with_id id (fun id => reads (LabelHandler.GetCardLabels db id))
  end.

(** The requests of a trace, served one after the other, each at its own
    instant. *)
Definition run (st : store) (trace : list (clock * request)) : store :=
  fold_left (fun st cr => fst (serve st (fst cr) (snd cr))) trace st.

(* ================================================================= *)
(** ** Vocabulary of the properties *)

(** [m] is a greatest (least) element of [xs] under REAL comparison. *)
Definition greatest (xs : list float64) (m : float64) : Prop :=
  In m xs /\ forall x, In x xs -> (m <? x)%float = false.

Definition least (xs : list float64) (m : float64) : Prop :=
  In m xs /\ forall x, In x xs -> (x <? m)%float = false.

(** The stored positions of the lists of a board, and of the cards of a list. *)
Definition list_positions (db : DB) (boardID : Z) : list float64 :=
  map List_Position (filter (fun l => List_BoardID l =? boardID) (lists db)).

Definition card_positions (db : DB) (listID : Z) : list float64 :=
  map Card_Position (filter (fun c => Card_ListID c =? listID) (cards db)).

(** [prev] is the greatest of the positions [ps] strictly below [target], or
    0 when there is none; [next] is the least of those strictly above it, or
    [prev + 2] when there is none. *)
Definition prev_neighbour (ps : list float64) (target prev : float64) : Prop :=
  greatest (filter (fun p => (p <? target)%float) ps) prev
  \/ (forall p, In p ps -> (p <? target)%float = false) /\ prev = 0%float.

Definition next_neighbour (ps : list float64) (target prev next : float64) : Prop :=
  least (filter (fun p => (target <? p)%float) ps) next
  \/ (forall p, In p ps -> (target <? p)%float = false) /\ next = (prev + 2)%float.

(** The position [Create] computes for a container whose sibling positions
    are [ps]: the greatest plus 1.0, or 1.0 when there is no sibling. *)
Definition appended_position (ps : list float64) (p : float64) : Prop :=
  (ps = [] /\ p = 1%float) \/ (exists m, greatest ps m /\ p = (m + 1)%float).

(** The NOT NULL constraint on the two [position] columns: no stored
    position is a NaN. *)
Definition positions_NOT_NULL (db : DB) : Prop :=
  (forall l, In l (lists db) -> is_nan (List_Position l) = false)
  /\ (forall c, In c (cards db) -> is_nan (Card_Position c) = false).

(** Every stored position is finite, so that [encoding/json] encodes it. *)
Definition positions_finite (db : DB) : Prop :=
  (forall l, In l (lists db) -> is_finite (List_Position l) = true)
  /\ (forall c, In c (cards db) -> is_finite (Card_Position c) = true).


(** The field of a request is absent or holds a zero. *)
Definition absent_or_zero (v : option float64) : bool :=
  match v with
  | None => true
  | Some p => (p =? 0)%float
  end.

(** The fields [Archive] must leave alone: all but [Archived] and [UpdatedAt]. *)
Definition unchanged_by_Archive (c c' : Card) : Prop :=
  Card_ID c' = Card_ID c
  /\ Card_ListID c' = Card_ListID c
  /\ Card_Title c' = Card_Title c
  /\ Card_Description c' = Card_Description c
  /\ Card_Position c' = Card_Position c
  /\ Card_Color c' = Card_Color c
  /\ Card_DueDate c' = Card_DueDate c
  /\ Card_CreatedAt c' = Card_CreatedAt c.

(** The number of [card_labels] rows that associate a card with a label. *)
Definition card_label_eq_dec (x y : Z * Z) : {x = y} + {x <> y}.
Proof. decide equality; apply Z.eq_dec. Defined.

Definition association_rows (db : DB) (cardID labelID : Z) : nat :=
  count_occ card_label_eq_dec (card_labels db) (cardID, labelID).

(** The search term of [params] is one that [LIKE] takes: there is none,
    or it is within the limit on the length of a pattern. *)
Definition searchTerm_within_limit (params : SearchCardsRequest) : Prop :=
  Query params = ""
  \/ sqlite3_value_bytes ("%" ++ Query params ++ "%")%string
     <= SQLITE_MAX_LIKE_PATTERN_LENGTH.

(** The text filter alone: no other parameter of [params] filters. *)
Definition text_filter_only (params : SearchCardsRequest) : Prop :=
  BoardID params = 0 /\ ListID params = 0 /\ Archived params = None
  /\ LabelID params = 0.

(** The WHERE clause [Search] builds for [params], on a joined row, for a
    search term within the limit. *)
Definition Search_where (params : SearchCardsRequest) (r : joined) : bool :=
  (if String.eqb (Query params) "" then true
   else like (list_ascii_of_string ("%" ++ Query params ++ "%")%string)
             (list_ascii_of_string (Card_Title (joined_c r)))
        || like (list_ascii_of_string ("%" ++ Query params ++ "%")%string)
                (list_ascii_of_string (Card_Description (joined_c r))))
  && (if BoardID params =? 0 then true else cond_b_id (BoardID params) r)
  && (if ListID params =? 0 then true else cond_c_list_id (ListID params) r)
  && match Archived params with
     | Some archived => cond_c_archived archived r
     | None => true
     end
  && (if LabelID params =? 0 then true else cond_cl_label_id (LabelID params) r).

(** A card passes the filters of [params]: each filter whose parameter is
    not the zero value of its type holds of the card. *)
Definition Search_matches (db : DB) (params : SearchCardsRequest) (c : Card) : Prop :=
  (Query params = ""
   \/ LIKE (Card_Title c) ("%" ++ Query params ++ "%")%string = Ok true
   \/ LIKE (Card_Description c) ("%" ++ Query params ++ "%")%string = Ok true)
  /\ (BoardID params = 0
      \/ exists l b, In l (lists db) /\ List_ID l = Card_ListID c
                     /\ In b (boards db) /\ Board_ID b = List_BoardID l
                     /\ Board_ID b = BoardID params)
  /\ (ListID params = 0 \/ Card_ListID c = ListID params)
  /\ (Archived params = None \/ Archived params = Some (Card_Archived c))
  /\ (LabelID params = 0 \/ In (Card_ID c, LabelID params) (card_labels db)).


(* ----------------------------------------------------------------- *)
(** *** The specification's wording, for comparison with the code *)


(** The position of a created entity as the specification words it: computed
    when the caller omits it, otherwise the caller's value verbatim. *)
Definition spec_Create_position (siblings : list float64) (supplied : option float64)
  : float64 :=
  match supplied with
  | None => match sql_MAX siblings with
            | Some m => (m + 1)%float
            | None => 1%float
            end
  | Some p => p
  end.




(* ================================================================= *)
(** ** Example states *)

(** A query of 49999 characters, one byte each: the pattern built from it
    is one byte beyond the limit of [LIKE]. *)
Definition query_49999 : string := Pos.iter (String "a"%char) ""%string 49999%positive.

Definition clock_1 : clock := {| time_Now := 1000; CURRENT_TIMESTAMP := 1001 |}.
Definition clock_2 : clock := {| time_Now := 2000; CURRENT_TIMESTAMP := 2001 |}.

Definition board_B1 : Board :=
  {| Board_ID := 1; Board_Name := "B1"; Board_Description := "";
     Board_CreatedAt := 1; Board_UpdatedAt := 1 |}.

Definition mk_list (id : Z) (name : string) (position : float64) : List :=
  {| List_ID := id; List_BoardID := 1; List_Name := name; List_Position := position;
     List_Color := "#6b7280"; List_CreatedAt := 10; List_UpdatedAt := 10 |}.

Definition mk_card (id listID : Z) (title : string) (position : float64) (created : Time)
  : Card :=
  {| Card_ID := id; Card_ListID := listID; Card_Title := title; Card_Description := "";
     Card_Position := position; Card_Color := ""; Card_DueDate := None;
     Card_Archived := false; Card_CreatedAt := created; Card_UpdatedAt := created |}.

(** Board B1 and nothing else. *)
Definition db_empty_board : DB :=
  {| boards := [board_B1]; lists := []; cards := []; comments := []; labels := [];
     card_labels := []; seq_lists := 0; seq_cards := 0 |}.

(** Board B1 with the one list "Backlog" at 1.0. *)
Definition db_one_list : DB :=
  {| boards := [board_B1]; lists := [mk_list 1 "Backlog" 1%float]; cards := [];
     comments := []; labels := []; card_labels := []; seq_lists := 1; seq_cards := 0 |}.

(** Board B1 with the one list "Far" at 2^1023. *)
Definition db_far_list : DB :=
  {| boards := [board_B1]; lists := [mk_list 1 "Far" 0x1p+1023%float]; cards := [];
     comments := []; labels := []; card_labels := []; seq_lists := 1; seq_cards := 0 |}.

(** Board B1 with "Backlog" at 1.0, "Done" at 5.0 and "Doing" at 6.0. *)
Definition db_three_lists : DB :=
  {| boards := [board_B1];
     lists := [mk_list 1 "Backlog" 1%float; mk_list 2 "Done" 5%float;
               mk_list 3 "Doing" 6%float];
     cards := []; comments := []; labels := []; card_labels := [];
     seq_lists := 3; seq_cards := 0 |}.

(** Lists "Backlog" (1) and "Done" (2); cards "abc" (1) and "Task B" (2) in
    "Backlog"; the label "bug" (1), assigned to "Task B". *)
Definition db_cards : DB :=
  {| boards := [board_B1];
     lists := [mk_list 1 "Backlog" 1%float; mk_list 2 "Done" 5%float];
     cards := [mk_card 1 1 "abc" 1%float 20; mk_card 2 1 "Task B" 2%float 30];
     comments := [];
     labels := [{| Label_ID := 1; Label_Name := "bug"; Label_Color := "#ef4444";
                   Label_CreatedAt := 5 |}];
     card_labels := [(2, 1)]; seq_lists := 2; seq_cards := 2 |}.

(** No board at all. *)
Definition db_no_boards : DB :=
  {| boards := []; lists := []; cards := []; comments := []; labels := [];
     card_labels := []; seq_lists := 0; seq_cards := 0 |}.

Definition search_params (query : string) (boardID listID : Z) (archived : option bool)
  (labelID : Z) : SearchCardsRequest :=
  {| Query := query; BoardID := boardID; ListID := listID; Archived := archived;
     LabelID := labelID |}.

Definition create_list_body (name : string) (position : option float64) : CreateListBody :=
  {| CreateListBody_name := Some name; CreateListBody_position := position;
     CreateListBody_color := None |}.

Definition create_card_body (title : string) (position : option float64) : CreateCardBody :=
  {| CreateCardBody_title := Some title; CreateCardBody_description := None;
     CreateCardBody_position := position; CreateCardBody_color := None;
     CreateCardBody_due_date := None |}.

Definition move_card_body (listID : Z) (position : float64) : MoveCardBody :=
  {| MoveCardBody_list_id := Some listID; MoveCardBody_position := Some position |}.

Definition move_list_body (position : float64) : MoveListBody :=
  {| MoveListBody_position := Some position |}.


(* ================================================================= *)
(** ** Vocabulary of the properties of the whole service *)

(** The constraints the schema puts on a state: the primary keys, the UNIQUE
    label names, the foreign keys and the NOT NULL positions. *)
Record schema_holds (db : DB) : Prop := {
  boards_PRIMARY_KEY : NoDup (map Board_ID (boards db));
  lists_PRIMARY_KEY : NoDup (map List_ID (lists db));
  cards_PRIMARY_KEY : NoDup (map Card_ID (cards db));
  comments_PRIMARY_KEY : NoDup (map Comment_ID (comments db));
  labels_PRIMARY_KEY : NoDup (map Label_ID (labels db));
  labels_name_UNIQUE : NoDup (map Label_Name (labels db));
  card_labels_PRIMARY_KEY : NoDup (card_labels db);
  lists_board_id_REFERENCES_boards :
    forall l, In l (lists db) -> In (List_BoardID l) (map Board_ID (boards db));
  cards_list_id_REFERENCES_lists :
    forall c, In c (cards db) -> In (Card_ListID c) (map List_ID (lists db));
  comments_card_id_REFERENCES_cards :
    forall m, In m (comments db) -> In (Comment_CardID m) (map Card_ID (cards db));
  card_labels_card_id_REFERENCES_cards :
    forall cl, In cl (card_labels db) -> In (fst cl) (map Card_ID (cards db));
  card_labels_label_id_REFERENCES_labels :
    forall cl, In cl (card_labels db) -> In (snd cl) (map Label_ID (labels db));
  position_NOT_NULL : positions_NOT_NULL db
}.

(** The five AUTOINCREMENT tables, the rowids in use in each and its
    [sqlite_sequence] entry. *)
Inductive table := boards_table | lists_table | cards_table | comments_table | labels_table.

Definition rowids (t : table) (st : store) : list Z :=
  match t with
  | boards_table => map Board_ID (boards (fst st))
  | lists_table => map List_ID (lists (fst st))
  | cards_table => map Card_ID (cards (fst st))
  | comments_table => map Comment_ID (comments (fst st))
  | labels_table => map Label_ID (labels (fst st))
  end.

Definition sequence_of (t : table) (st : store) : Z :=
  match t with
  | boards_table => seq_boards (snd st)
  | lists_table => seq_lists (fst st)
  | cards_table => seq_cards (fst st)
  | comments_table => seq_comments (snd st)
  | labels_table => seq_labels (snd st)
  end.

(** Every rowid in use is recorded in [sqlite_sequence]. *)
Definition sequences_cover (st : store) : Prop :=
  forall t i, In i (rowids t st) -> i <= sequence_of t st.

(** From [st] to [st'] no sequence goes down, and a rowid in use in [st'] was
    in use in [st] or lies above the sequence of [st]. *)
Definition advances (st st' : store) : Prop :=
  forall t,
    sequence_of t st <= sequence_of t st'
    /\ forall i, In i (rowids t st') ->
                 In i (rowids t st) \/ sequence_of t st < i <= sequence_of t st'.

(** The comments of a card, and the labels assigned to it. *)
Definition comments_of (db : DB) (cardID : Z) : list Comment :=
  filter (fun m => Comment_CardID m =? cardID) (comments db).

Definition assigned (db : DB) (cardID : Z) (l : Label) : Prop :=
  In l (labels db) /\ In (cardID, Label_ID l) (card_labels db).

(** The cards a listing of [listID] shows. *)
Definition listed (db : DB) (listID : Z) (includeArchived : bool) (c : Card) : Prop :=
  In c (cards db) /\ Card_ListID c = listID
  /\ (includeArchived = true \/ Card_Archived c = false).

(** A field of an update request that is absent or empty keeps the old value. *)
Definition updated_string (field : option string) (old : string) : string :=
  match field with
  | Some s => if String.eqb s "" then old else s
  | None => old
  end.

Definition updated_position (field : option float64) (old : float64) : float64 :=
  match field with
  | Some p => if (p =? 0)%float then old else p
  | None => old
  end.

Definition updated_due_date (field : option Time) (old : option Time) : option Time :=
  match field with
  | Some t => Some t
  | None => old
  end.

(** Membership by reference: the list [listID] belongs to the board
    [boardID]; the card [cardID] lies in the list [listID], or in a list of
    the board [boardID]. *)
Definition list_of_board (db : DB) (boardID listID : Z) : bool :=
  existsb (fun l => (List_BoardID l =? boardID) && (List_ID l =? listID)) (lists db).

Definition card_of_list (db : DB) (listID cardID : Z) : bool :=
  existsb (fun c => (Card_ListID c =? listID) && (Card_ID c =? cardID)) (cards db).

Definition card_of_board (db : DB) (boardID cardID : Z) : bool :=
  existsb (fun c => list_of_board db boardID (Card_ListID c) && (Card_ID c =? cardID))
          (cards db).

(** The names [QuickCreate] looks for: those of the body, or "Main Board" and
    "Backlog" where the body names none. *)
Definition quick_board_name (body : QuickCreateBody) : string :=
  updated_string (QuickCreateBody_board_name body) "Main Board".

Definition quick_list_name (body : QuickCreateBody) : string :=
  updated_string (QuickCreateBody_list_name body) "Backlog".

(** A numeric query parameter that sets no filter: absent, empty, not a
    decimal integer, or zero. *)
Definition no_filter (value : string) : bool :=
  match Atoi value with
  | Some id => id =? 0
  | None => true
  end.

Definition mk_comment (id cardID : Z) (content : string) (created : Time) : Comment :=
  {| Comment_ID := id; Comment_CardID := cardID; Comment_Content := content;
     Comment_CreatedAt := created |}.

(** Lists "Backlog" (1) and "Done" (2) of board B1; the cards "abc" (1) and
    "Task B" (2) in "Backlog" and "Shipped" (3) in "Done"; a comment on each
    of the cards 2 and 3 and two on card 1; the labels "bug" (1) and "ui" (2),
    the first on the cards 2 and 3, the second on card 2. *)
Definition db_busy : DB :=
  {| boards := [board_B1];
     lists := [mk_list 1 "Backlog" 1%float; mk_list 2 "Done" 5%float];
     cards := [mk_card 1 1 "abc" 1%float 20; mk_card 2 1 "Task B" 2%float 30;
               mk_card 3 2 "Shipped" 1%float 40];
     comments := [mk_comment 1 1 "first" 50; mk_comment 2 2 "second" 60;
                  mk_comment 3 1 "third" 70; mk_comment 4 3 "fourth" 80];
     labels := [{| Label_ID := 1; Label_Name := "bug"; Label_Color := "#ef4444";
                   Label_CreatedAt := 5 |};
                {| Label_ID := 2; Label_Name := "ui"; Label_Color := "#3b82f6";
                   Label_CreatedAt := 6 |}];
     card_labels := [(2, 1); (3, 1); (2, 2)]; seq_lists := 2; seq_cards := 3 |}.

Definition sq_busy : sqlite_sequence :=
  {| seq_boards := 1; seq_comments := 4; seq_labels := 2 |}.

(* ================================================================= *)
(** ** The seeded state (migrations/002_seed_data.sql)

    The state after both migrations, run at instant [0] on a new database:
    the board "Main Board" with its five lists, and six labels. *)

Definition seed_list (id : Z) (name : string) (position : float64) (color : string) : List :=
  {| List_ID := id; List_BoardID := 1; List_Name := name; List_Position := position;
     List_Color := color; List_CreatedAt := 0; List_UpdatedAt := 0 |}.

Definition seed_label (id : Z) (name color : string) : Label :=
  {| Label_ID := id; Label_Name := name; Label_Color := color; Label_CreatedAt := 0 |}.

Definition db_seeded : DB :=
  {| boards := [{| Board_ID := 1; Board_Name := "Main Board";
                   Board_Description := "Default kanban board";
                   Board_CreatedAt := 0; Board_UpdatedAt := 0 |}];
     lists := [seed_list 1 "Backlog" 1%float "#9ca3af";
               seed_list 2 "To Do" 2%float "#60a5fa";
               seed_list 3 "In Progress" 3%float "#fbbf24";
               seed_list 4 "Review" 4%float "#c084fc";
               seed_list 5 "Done" 5%float "#10b981"];
     cards := []; comments := [];
     labels := [seed_label 1 "Bug" "#ef4444";
                seed_label 2 "Feature" "#3b82f6";
                seed_label 3 "Enhancement" "#8b5cf6";
                seed_label 4 "Documentation" "#06b6d4";
                seed_label 5 "High Priority" "#f97316";
                seed_label 6 "Low Priority" "#6b7280"];
     card_labels := []; seq_lists := 5; seq_cards := 0 |}.

Definition sq_seeded : sqlite_sequence :=
  {| seq_boards := 1; seq_comments := 0; seq_labels := 6 |}.

Definition st_seeded : store := (db_seeded, sq_seeded).

Definition clock_at (t : Time) : clock := {| time_Now := t; CURRENT_TIMESTAMP := t |}.

(* ================================================================= *)
(** * Properties *)

(* ================================================================= *)
(** ** Comparison of binary64 values

    Every comparison of two numbers that are not NaN agrees with the
    comparison of their [units]; a NaN compares false with everything. *)

Lemma digits2_pos_bounds (m : positive) :
  2 ^ (Zpos (digits2_pos m) - 1) <= Zpos m < 2 ^ Zpos (digits2_pos m).
Proof.
  induction m as [m IH | m IH |]; cbn [digits2_pos].
  - rewrite Pos2Z.inj_succ.
    replace (Z.succ (Zpos (digits2_pos m)) - 1) with (Z.succ (Zpos (digits2_pos m) - 1)) by lia.
    rewrite !Z.pow_succ_r by lia. lia.
  - rewrite Pos2Z.inj_succ.
    replace (Z.succ (Zpos (digits2_pos m)) - 1) with (Z.succ (Zpos (digits2_pos m) - 1)) by lia.
    rewrite !Z.pow_succ_r by lia. lia.
  - cbn. lia.
Qed.

Lemma bounded_inv m e :
  bounded prec emax m e = true ->
  -1074 <= e <= 971 /\ Zpos (digits2_pos m) <= 53 /\ (-1074 < e -> Zpos (digits2_pos m) = 53).
Proof.
  unfold bounded, canonical_mantissa, fexp, emin, prec, emax.
  intros H. apply andb_prop in H. destruct H as [H1 H2].
  apply Z.eqb_eq in H1.
  apply Z.leb_le in H2. lia.
Qed.

Lemma finite_units_lt m1 e1 m2 e2 :
  bounded prec emax m1 e1 = true -> bounded prec emax m2 e2 = true ->
  e1 < e2 -> Zpos m1 * 2 ^ (e1 + 1074) < Zpos m2 * 2 ^ (e2 + 1074).
Proof.
  intros B1 B2 Hlt.
  apply bounded_inv in B1. apply bounded_inv in B2.
  destruct B1 as (R1 & D1 & _). destruct B2 as (R2 & _ & D2).
  assert (E2 : Zpos (digits2_pos m2) = 53) by (apply D2; lia).
  pose proof (digits2_pos_bounds m1) as [_ U1].
  pose proof (digits2_pos_bounds m2) as [L2 _].
  rewrite E2 in L2.
  assert (U1' : Zpos m1 < 2 ^ 53).
  { eapply Z.lt_le_trans; [exact U1|]. apply Z.pow_le_mono_r; lia. }
  replace (e2 + 1074) with ((e1 + 1074) + (e2 - e1)) by lia.
  remember (e1 + 1074) as k eqn:Hk.
  rewrite Z.pow_add_r by lia.
  assert (P1 : 0 < 2 ^ k) by (apply Z.pow_pos_nonneg; lia).
  assert (P2 : 2 ^ 1 <= 2 ^ (e2 - e1)) by (apply Z.pow_le_mono_r; lia).
  change (2 ^ 1) with 2 in P2. change (53 - 1) with 52 in L2.
  set (a := 2 ^ k) in *. set (b := 2 ^ (e2 - e1)) in *.
  apply Z.lt_le_trans with (2 ^ 53 * a).
  - apply Z.mul_lt_mono_pos_r; assumption.
  - replace (2 ^ 53 * a) with (2 ^ 52 * (a * 2)) by (change (2 ^ 53) with (2 ^ 52 * 2); ring).
    apply Z.mul_le_mono_nonneg; try lia.
    apply Z.mul_le_mono_nonneg_l; lia.
Qed.

Lemma finite_units_top m e :
  bounded prec emax m e = true -> 0 < Zpos m * 2 ^ (e + 1074) < 2 ^ 2100.
Proof.
  intros B. apply bounded_inv in B. destruct B as (R & D & _).
  pose proof (digits2_pos_bounds m) as [_ U].
  assert (U' : Zpos m < 2 ^ 53).
  { eapply Z.lt_le_trans; [exact U|]. apply Z.pow_le_mono_r; lia. }
  assert (P : 0 < 2 ^ (e + 1074)) by (apply Z.pow_pos_nonneg; lia).
  assert (Q : 2 ^ (e + 1074) < 2 ^ 2047) by (apply Z.pow_lt_mono_r; lia).
  split; [lia|].
  replace 2100 with (53 + 2047) by lia. rewrite (Z.pow_add_r 2 53 2047) by lia.
  apply Z.mul_lt_mono_nonneg; lia.
Qed.

Lemma finite_units_compare mx ex my ey :
  bounded prec emax mx ex = true -> bounded prec emax my ey = true ->
  (Zpos mx * 2 ^ (ex + 1074) ?= Zpos my * 2 ^ (ey + 1074))
  = match ex ?= ey with
    | Eq => Pos.compare mx my
    | Lt => Lt
    | Gt => Gt
    end.
Proof.
  intros Bx By.
  destruct (Z.compare_spec ex ey) as [E | L | G].
  - subst ey.
    assert (P : 0 < 2 ^ (ex + 1074))
      by (apply Z.pow_pos_nonneg; apply bounded_inv in Bx; lia).
    destruct (Pos.compare_spec mx my) as [E | L | G].
    + subst my. apply Z.compare_refl.
    + apply Z.compare_lt_iff. apply Z.mul_lt_mono_pos_r; [exact P | lia].
    + apply Z.compare_gt_iff. apply Z.mul_lt_mono_pos_r; [exact P | lia].
  - apply Z.compare_lt_iff. now apply finite_units_lt.
  - apply Z.compare_gt_iff. now apply finite_units_lt.
Qed.

Lemma SFcompare_units x y :
  valid_binary x = true -> valid_binary y = true ->
  x <> S754_nan -> y <> S754_nan ->
  SFcompare x y = Some (SFunits x ?= SFunits y).
Proof.
  intros Vx Vy Nx Ny.
  assert (T0 : 0 < 2 ^ 2100) by (apply Z.pow_pos_nonneg; lia).
  destruct x as [sx | sx | | sx mx ex]; try congruence;
  destruct y as [sy | sy | | sy my ey]; try congruence;
    cbn [SFcompare SFunits valid_binary] in *.
  all: try (pose proof (finite_units_top _ _ Vx) as Tx;
            set (a := Zpos mx * 2 ^ (ex + 1074)) in * ).
  all: try (pose proof (finite_units_top _ _ Vy) as Ty;
            set (b := Zpos my * 2 ^ (ey + 1074)) in * ).
  all: remember (2 ^ 2100) as T eqn:HT.
  1-8: try (destruct sx); try (destruct sy); cbn [cond_Zopp]; f_equal; symmetry;
    first [ reflexivity | apply Z.compare_lt_iff; lia | apply Z.compare_gt_iff; lia
          | apply Z.compare_eq_iff; lia ].
  pose proof (finite_units_compare _ _ _ _ Vx Vy) as C. fold a b in C.
  change (PosDef.Pos.compare_cont Eq mx my) with (Pos.compare mx my).
  destruct sx, sy; cbn [cond_Zopp]; f_equal; symmetry.
  - rewrite Z.compare_opp, Z.compare_antisym, C.
    destruct (ex ?= ey); reflexivity.
  - apply Z.compare_lt_iff; lia.
  - apply Z.compare_gt_iff; lia.
  - rewrite C. reflexivity.
Qed.

Lemma SFcompare_refl x : x <> S754_nan -> SFcompare x x = Some Eq.
Proof.
  destruct x as [s | s | | s m e]; try congruence; intros _; cbn [SFcompare].
  - reflexivity.
  - destruct s; reflexivity.
  - rewrite Z.compare_refl.
    change (PosDef.Pos.compare_cont Eq m m) with (Pos.compare m m).
    rewrite Pos.compare_refl. destruct s; reflexivity.
Qed.

Lemma is_nan_Prim2SF x : is_nan x = false <-> Prim2SF x <> S754_nan.
Proof.
  unfold is_nan. rewrite eqb_spec. unfold SFeqb. split.
  - intros H E. rewrite E in H. discriminate.
  - intros H. rewrite SFcompare_refl by assumption. reflexivity.
Qed.

Lemma compare_units x y :
  is_nan x = false -> is_nan y = false ->
  SFcompare (Prim2SF x) (Prim2SF y) = Some (units x ?= units y).
Proof.
  intros Nx Ny. apply SFcompare_units; try apply Prim2SF_valid;
    now apply is_nan_Prim2SF.
Qed.

Lemma ltb_units x y :
  is_nan x = false -> is_nan y = false -> (x <? y)%float = (units x <? units y).
Proof.
  intros Nx Ny. rewrite ltb_spec. unfold SFltb. rewrite compare_units by assumption.
  unfold Z.ltb. destruct (units x ?= units y); reflexivity.
Qed.

Lemma eqb_units x y :
  is_nan x = false -> is_nan y = false -> (x =? y)%float = (units x =? units y).
Proof.
  intros Nx Ny. rewrite eqb_spec. unfold SFeqb. rewrite compare_units by assumption.
  destruct (Z.compare_spec (units x) (units y)) as [E | L | G]; symmetry.
  - now apply Z.eqb_eq.
  - apply Z.eqb_neq. lia.
  - apply Z.eqb_neq. lia.
Qed.

Lemma SFcompare_nan_r x : SFcompare x S754_nan = None.
Proof. destruct x; reflexivity. Qed.

Lemma ltb_not_nan x y : (x <? y)%float = true -> is_nan x = false /\ is_nan y = false.
Proof.
  rewrite ltb_spec. unfold SFltb. intros H. split; apply is_nan_Prim2SF; intros E; rewrite E in H.
  - discriminate.
  - rewrite SFcompare_nan_r in H. discriminate.
Qed.

Lemma eqb_not_nan x y : (x =? y)%float = true -> is_nan x = false /\ is_nan y = false.
Proof.
  rewrite eqb_spec. unfold SFeqb. intros H. split; apply is_nan_Prim2SF; intros E; rewrite E in H.
  - discriminate.
  - rewrite SFcompare_nan_r in H. discriminate.
Qed.

Lemma ltb_false_units x y :
  is_nan x = false -> is_nan y = false ->
  (x <? y)%float = false <-> units y <= units x.
Proof.
  intros Nx Ny. rewrite ltb_units by assumption. rewrite Z.ltb_ge. reflexivity.
Qed.

Lemma ltb_true_units x y :
  (x <? y)%float = true -> units x < units y.
Proof.
  intros H. destruct (ltb_not_nan _ _ H) as [Nx Ny].
  rewrite ltb_units in H by assumption. now apply Z.ltb_lt.
Qed.

(* ----------------------------------------------------------------- *)
(** *** MAX and MIN *)

Lemma sql_MAX_from (xs : list float64) : forall a,
  Forall (fun x => is_nan x = false) xs -> is_nan a = false ->
  exists m, fold_left max_step xs (Some a) = Some m
            /\ (m = a \/ In m xs)
            /\ units a <= units m
            /\ forall x, In x xs -> units x <= units m.
Proof.
  induction xs as [| x xs IH]; intros a Hxs Ha; cbn [fold_left max_step].
  - exists a. repeat split; auto; try lia. intros x [].
  - inversion Hxs as [| ? ? Hx Hxs']; subst.
    destruct (a <? x)%float eqn:E.
    + apply ltb_true_units in E.
      destruct (IH x Hxs' Hx) as (m & Hm & Hin & Hle & Hall).
      exists m. split; [exact Hm|]. split; [right; destruct Hin; [left; congruence | right; assumption]|].
      split; [lia|]. intros y [<- | Hy]; [lia | now apply Hall].
    + apply ltb_false_units in E; try assumption.
      destruct (IH a Hxs' Ha) as (m & Hm & Hin & Hle & Hall).
      exists m. split; [exact Hm|]. split; [destruct Hin; [left; assumption | right; right; assumption]|].
      split; [lia|]. intros y [<- | Hy]; [lia | now apply Hall].
Qed.

Lemma sql_MAX_greatest (xs : list float64) :
  Forall (fun x => is_nan x = false) xs -> xs <> [] ->
  exists m, sql_MAX xs = Some m /\ greatest xs m.
Proof.
  destruct xs as [| a xs]; [congruence|]. intros H _.
  inversion H as [| ? ? Ha Hxs]; subst.
  destruct (sql_MAX_from xs a Hxs Ha) as (m & Hm & Hin & Hle & Hall).
  exists m. split; [exact Hm|]. split.
  - destruct Hin; [left; congruence | right; assumption].
  - assert (Nm : is_nan m = false).
    { destruct Hin as [-> | Hin]; [assumption|]. rewrite Forall_forall in Hxs. now apply Hxs. }
    intros y [<- | Hy]; apply ltb_false_units; auto.
    rewrite Forall_forall in Hxs. now apply Hxs.
Qed.

Lemma sql_MIN_from (xs : list float64) : forall a,
  Forall (fun x => is_nan x = false) xs -> is_nan a = false ->
  exists m, fold_left min_step xs (Some a) = Some m
            /\ (m = a \/ In m xs)
            /\ units m <= units a
            /\ forall x, In x xs -> units m <= units x.
Proof.
  induction xs as [| x xs IH]; intros a Hxs Ha; cbn [fold_left min_step].
  - exists a. repeat split; auto; try lia. intros x [].
  - inversion Hxs as [| ? ? Hx Hxs']; subst.
    destruct (x <? a)%float eqn:E.
    + apply ltb_true_units in E.
      destruct (IH x Hxs' Hx) as (m & Hm & Hin & Hle & Hall).
      exists m. split; [exact Hm|]. split; [right; destruct Hin; [left; congruence | right; assumption]|].
      split; [lia|]. intros y [<- | Hy]; [lia | now apply Hall].
    + apply ltb_false_units in E; try assumption.
      destruct (IH a Hxs' Ha) as (m & Hm & Hin & Hle & Hall).
      exists m. split; [exact Hm|]. split; [destruct Hin; [left; assumption | right; right; assumption]|].
      split; [lia|]. intros y [<- | Hy]; [lia | now apply Hall].
Qed.

Lemma sql_MIN_least (xs : list float64) :
  Forall (fun x => is_nan x = false) xs -> xs <> [] ->
  exists m, sql_MIN xs = Some m /\ least xs m.
Proof.
  destruct xs as [| a xs]; [congruence|]. intros H _.
  inversion H as [| ? ? Ha Hxs]; subst.
  destruct (sql_MIN_from xs a Hxs Ha) as (m & Hm & Hin & Hle & Hall).
  exists m. split; [exact Hm|]. split.
  - destruct Hin; [left; congruence | right; assumption].
  - assert (Nm : is_nan m = false).
    { destruct Hin as [-> | Hin]; [assumption|]. rewrite Forall_forall in Hxs. now apply Hxs. }
    intros y [<- | Hy]; apply ltb_false_units; auto.
    rewrite Forall_forall in Hxs. now apply Hxs.
Qed.

(* ----------------------------------------------------------------- *)
(** *** Rows, keys and updates *)

Section Rows.
Variable A : Type.
Variable key : A -> Z.

Lemma filter_nil_iff (f : A -> bool) (l : list A) :
  filter f l = [] <-> forall x, In x l -> f x = false.
Proof.
  induction l as [| a l IH]; cbn [filter].
  - split; [intros _ x [] | reflexivity].
  - destruct (f a) eqn:E; split.
    + discriminate.
    + intros H. specialize (H a (or_introl eq_refl)). congruence.
    + intros H x [<- | Hx]; [exact E | now apply IH].
    + intros H. apply IH. intros x Hx. apply H. now right.
Qed.

Lemma find_filter_cons (f : A -> bool) (l : list A) (x : A) :
  find f l = Some x -> exists rest, filter f l = x :: rest.
Proof.
  induction l as [| a l IH]; cbn [find filter]; [discriminate|].
  destruct (f a).
  - intros [= ->]. eauto.
  - exact IH.
Qed.

Lemma find_none_filter (f : A -> bool) (l : list A) :
  find f l = None -> filter f l = [].
Proof.
  induction l as [| a l IH]; cbn [find filter]; [reflexivity|].
  destruct (f a); [discriminate | exact IH].
Qed.

(** [UPDATE ... SET ... WHERE id = i]: the row found under [i] is the
    updated one, rows under other keys are found as before. *)
Lemma find_update_same (g : A -> A) (i : Z) (l : list A) :
  (forall a, key (g a) = key a) ->
  find (fun a => key a =? i) (map (fun a => if key a =? i then g a else a) l)
  = option_map g (find (fun a => key a =? i) l).
Proof.
  intros Hg. induction l as [| a l IH]; cbn [find map option_map]; [reflexivity|].
  destruct (key a =? i) eqn:E.
  - rewrite Hg, E. reflexivity.
  - rewrite E. exact IH.
Qed.

Lemma find_update_other (g : A -> A) (i j : Z) (l : list A) :
  (forall a, key (g a) = key a) -> j <> i ->
  find (fun a => key a =? j) (map (fun a => if key a =? i then g a else a) l)
  = find (fun a => key a =? j) l.
Proof.
  intros Hg Hji. induction l as [| a l IH]; cbn [find map]; [reflexivity|].
  destruct (key a =? i) eqn:E.
  - rewrite Hg. apply Z.eqb_eq in E.
    assert (F : (key a =? j) = false) by (apply Z.eqb_neq; lia).
    rewrite F. exact IH.
  - destruct (key a =? j); [reflexivity | exact IH].
Qed.

Lemma map_filter_comm (B : Type) (f : A -> B) (P : A -> bool) (Q : B -> bool)
  (l : list A) :
  map f (filter (fun a => P a && Q (f a)) l) = filter Q (map f (filter P l)).
Proof.
  induction l as [| a l IH]; cbn [filter map]; [reflexivity|].
  destruct (P a); cbn [andb filter map].
  - destruct (Q (f a)); cbn [map]; now rewrite IH.
  - exact IH.
Qed.
End Rows.

Lemma below_not_nan (target : float64) (ps : list float64) :
  Forall (fun x => is_nan x = false) (filter (fun p => (p <? target)%float) ps).
Proof.
  apply Forall_forall. intros x Hx. apply filter_In in Hx. destruct Hx as [_ Hx].
  now destruct (ltb_not_nan _ _ Hx).
Qed.

Lemma above_not_nan (target : float64) (ps : list float64) :
  Forall (fun x => is_nan x = false) (filter (fun p => (target <? p)%float) ps).
Proof.
  apply Forall_forall. intros x Hx. apply filter_In in Hx. destruct Hx as [_ Hx].
  now destruct (ltb_not_nan _ _ Hx).
Qed.


(* ================================================================= *)
(** ** List move *)


Lemma length_cons_neq_0 (A : Type) (x : A) (l : list A) :
  (Z.of_nat (List.length (x :: l)) =? 0) = false.
Proof. apply Z.eqb_neq. cbn [List.length]. lia. Qed.






(** The scenario, evaluated: the stored and returned position is 3.0. *)
Example MoveList_scenario :
  exists db',
    ListHandler.Move db_three_lists clock_1 3 (move_list_body 3%float)
    = (db', JSON StatusOK (mk_list 3 "Doing" 3%float))
    /\ map List_Position (lists db') = [1%float; 5%float; 3%float].
Proof. eexists. split; vm_compute; reflexivity. Qed.

(** A midpoint that overflows: the one list of the board lies at 2^1023 and
    is moved to the target 1.5 * 2^1023.  It is its own previous neighbour,
    [next] is [prev + 2 = prev], the sum is +Inf and so is the midpoint: the
    position +Inf is stored and the request is answered 500. *)
Example MoveList_overflow_is_stored_and_answered_500 :
  ListHandler.newPosition 0x1p+1023%float (0x1p+1023 + 2)%float = infinity
  /\ map List_Position
       (lists (fst (fst (serve (db_far_list, sq_busy) clock_1
                           (PATCH_lists_id_move "1"
                              (move_list_body 0x1.8p+1023%float))))))
     = [infinity]
  /\ snd (serve (db_far_list, sq_busy) clock_1
            (PATCH_lists_id_move "1" (move_list_body 0x1.8p+1023%float)))
     = StatusInternalServerError
  /\ ErrorHandler (snd (ListHandler.Move db_far_list clock_1 1
                          (move_list_body 0x1.8p+1023%float)))
     = JSON_H StatusInternalServerError
         [("error", "Internal Server Error");
          ("message", "json: unsupported value: +Inf")].
Proof. repeat split; vm_compute; reflexivity. Qed.

(* ================================================================= *)
(** ** The midpoint *)

Lemma is_finite_not_nan (x : float64) : is_finite x = true -> is_nan x = false.
Proof.
  unfold is_finite. intros H. apply negb_true_iff in H.
  apply orb_false_iff in H. tauto.
Qed.




(* ================================================================= *)
(** ** Card move *)

Lemma GetByID_card_Ok (db : DB) (id : Z) (card : Card) :
  CardRepository.GetByID db id = Ok card <-> SELECT_cards_WHERE_id db id = Some card.
Proof.
  unfold CardRepository.GetByID. destruct (SELECT_cards_WHERE_id db id); split; congruence.
Qed.

(** A failed [CardRepository.Move] writes nothing. *)
Lemma CardRepository_Move_error (db db' : DB) (clk : clock) (cardID newListID : Z)
  (newPosition : float64) (err : string) :
  CardRepository.Move db clk cardID newListID newPosition = (db', Some err) -> db' = db.
Proof.
  unfold CardRepository.Move, UPDATE_cards_SET_list_id_position.
  destruct (filter (fun c => Card_ID c =? cardID) (cards db)) as [| a rest].
  - cbn. now intros [= <- _].
  - destruct (bind_REAL newPosition); [| now intros [= <- _]].
    destruct (existsb _ (lists db)); [| now intros [= <- _]].
    rewrite length_cons_neq_0. discriminate.
Qed.

(** A successful [CardRepository.Move] is one UPDATE of the card's row: list
    reference, position and timestamp change together; nothing else does. *)
Lemma CardRepository_Move_stored (db db' : DB) (clk : clock) (cardID newListID : Z)
  (newPosition : float64) (card : Card) :
  SELECT_cards_WHERE_id db cardID = Some card ->
  CardRepository.Move db clk cardID newListID newPosition = (db', None) ->
  SELECT_cards_WHERE_id db' cardID
  = Some (Card_with_UpdatedAt
            (Card_with_Position (Card_with_ListID card newListID) newPosition)
            (CURRENT_TIMESTAMP clk))
  /\ (forall j, j <> cardID -> SELECT_cards_WHERE_id db' j = SELECT_cards_WHERE_id db j)
  /\ lists db' = lists db /\ boards db' = boards db
  /\ card_labels db' = card_labels db /\ comments db' = comments db
  /\ is_nan newPosition = false
  /\ (exists l, SELECT_lists_WHERE_id db newListID = Some l).
Proof.
  intros Hc. unfold CardRepository.Move, UPDATE_cards_SET_list_id_position.
  unfold SELECT_cards_WHERE_id in Hc.
  destruct (find_filter_cons _ _ _ _ Hc) as [rest ->].
  unfold bind_REAL. destruct (is_nan newPosition) eqn:Hnan; [discriminate|].
  destruct (existsb (fun l => List_ID l =? newListID) (lists db)) eqn:Hl; [| discriminate].
  rewrite length_cons_neq_0. intros [= <-].
  unfold SELECT_cards_WHERE_id, update_cards_timestamp;
    cbn [cards lists boards card_labels comments DB_with_cards].
  split.
  { rewrite (find_update_same _ Card_ID) by reflexivity.
    rewrite (find_update_same _ Card_ID) by reflexivity.
    rewrite Hc. reflexivity. }
  split.
  { intros j Hj.
    rewrite (find_update_other _ Card_ID) by (trivial || reflexivity).
    rewrite (find_update_other _ Card_ID) by (trivial || reflexivity).
    reflexivity. }
  repeat (split; [reflexivity|]).
  apply existsb_exists in Hl. destruct Hl as (l & Hin & Hid).
  unfold SELECT_lists_WHERE_id.
  destruct (find (fun l0 => List_ID l0 =? newListID) (lists db)) as [l0 |] eqn:F; [eauto|].
  exfalso. apply (find_none _ _ F) in Hin. congruence.
Qed.

Lemma ShouldBindJSON_MoveCardRequest_Ok (body : MoveCardBody) (req : MoveCardRequest) :
  ShouldBindJSON_MoveCardRequest body = Ok req ->
  MoveCardBody_list_id body = Some (MoveCardRequest_ListID req)
  /\ MoveCardBody_position body = Some (MoveCardRequest_Position req)
  /\ MoveCardRequest_ListID req <> 0
  /\ (MoveCardRequest_Position req =? 0)%float = false.
Proof.
  unfold ShouldBindJSON_MoveCardRequest, required_int, required_float64.
  destruct body as [[l |] [p |]]; cbn.
  - destruct (l =? 0) eqn:El; cbn; [discriminate|].
    destruct (p =? 0)%float eqn:Ep; cbn; [discriminate|].
    intros [= <-]. cbn. apply Z.eqb_neq in El. auto.
  - destruct (l =? 0); cbn; discriminate.
  - discriminate.
  - discriminate.
Qed.

(** C4. For every successful MoveCard the stored card carries exactly the
    position and the list reference of the request, and the store's current
    timestamp as [updated_at]; this is the effect of the one UPDATE that
    [CardRepository.Move] issues, which touches nothing else; the response is
    the card read before, with the two fields replaced. *)
Theorem MoveCard_stores_request_verbatim
  (db db' : DB) (clk : clock) (id : Z) (body : MoveCardBody) (card' : Card) :
  CardHandler.Move db clk id body = (db', JSON StatusOK card') ->
  exists card targetListID newPosition stored,
    MoveCardBody_list_id body = Some targetListID
    /\ MoveCardBody_position body = Some newPosition
    /\ CardRepository.GetByID db id = Ok card
    /\ CardRepository.Move db clk id targetListID newPosition = (db', None)
    /\ CardRepository.GetByID db' id = Ok stored
    /\ stored = Card_with_UpdatedAt
                  (Card_with_Position (Card_with_ListID card targetListID) newPosition)
                  (CURRENT_TIMESTAMP clk)
    /\ Card_Position stored = newPosition
    /\ Card_ListID stored = targetListID
    /\ Card_UpdatedAt stored = CURRENT_TIMESTAMP clk
    /\ card' = Card_with_Position (Card_with_ListID card targetListID) newPosition
    /\ (forall j, j <> id -> CardRepository.GetByID db' j = CardRepository.GetByID db j)
    /\ lists db' = lists db.
Proof.
  unfold CardHandler.Move.
  destruct (ShouldBindJSON_MoveCardRequest body) as [req |] eqn:Hbind; [| discriminate].
  destruct (ShouldBindJSON_MoveCardRequest_Ok _ _ Hbind) as (Hl & Hp & _ & _).
  destruct (CardRepository.GetByID db id) as [card | msg] eqn:Hcard;
    [| destruct (String.eqb msg "card not found"); discriminate].
  destruct (ListRepository.GetByID db (MoveCardRequest_ListID req)) as [l | msg] eqn:Hlist;
    [| destruct (String.eqb msg "list not found"); discriminate].
  destruct (CardRepository.Move db clk id (MoveCardRequest_ListID req)
              (MoveCardRequest_Position req)) as [db1 [err |]] eqn:Hmove; [discriminate|].
  intros [= <- <-].
  apply GetByID_card_Ok in Hcard.
  destruct (CardRepository_Move_stored _ _ _ _ _ _ _ Hcard Hmove)
    as (Hsame & Hother & Hlists & _).
  exists card, (MoveCardRequest_ListID req), (MoveCardRequest_Position req).
  eexists. split; [exact Hl|]. split; [exact Hp|].
  split; [reflexivity|]. split; [exact Hmove|].
  split; [apply GetByID_card_Ok; exact Hsame|].
  repeat (split; [reflexivity|]).
  split; [| exact Hlists].
  intros j Hj. unfold CardRepository.GetByID. now rewrite Hother.
Qed.

(** Moving card 1 ("abc", list 1, position 1.0) to list 2 at position 1.5. *)
Lemma MoveCard_stores_request_verbatim_witness :
  exists db',
    CardHandler.Move db_cards clock_2 1 (move_card_body 2 1.5%float)
    = (db', JSON StatusOK (mk_card 1 2 "abc" 1.5%float 20))
    /\ exists card targetListID newPosition stored,
      MoveCardBody_list_id (move_card_body 2 1.5%float) = Some targetListID
      /\ MoveCardBody_position (move_card_body 2 1.5%float) = Some newPosition
      /\ CardRepository.GetByID db_cards 1 = Ok card
      /\ CardRepository.Move db_cards clock_2 1 targetListID newPosition = (db', None)
      /\ CardRepository.GetByID db' 1 = Ok stored
      /\ stored = Card_with_UpdatedAt
                    (Card_with_Position (Card_with_ListID card targetListID) newPosition)
                    (CURRENT_TIMESTAMP clock_2)
      /\ Card_Position stored = newPosition
      /\ Card_ListID stored = targetListID
      /\ Card_UpdatedAt stored = CURRENT_TIMESTAMP clock_2
      /\ mk_card 1 2 "abc" 1.5%float 20
         = Card_with_Position (Card_with_ListID card targetListID) newPosition
      /\ (forall j, j <> 1 -> CardRepository.GetByID db' j = CardRepository.GetByID db_cards j)
      /\ lists db' = lists db_cards.
Proof.
  eexists. split; [vm_compute; reflexivity|].
  apply (MoveCard_stores_request_verbatim db_cards _ clock_2 1 (move_card_body 2 1.5%float)).
  vm_compute; reflexivity.
Defined.

(** A response other than 200 leaves the database as it was. *)
Lemma MoveCard_failure_writes_nothing (db : DB) (clk : clock) (id : Z) (body : MoveCardBody) :
  status (snd (CardHandler.Move db clk id body)) <> StatusOK ->
  fst (CardHandler.Move db clk id body) = db.
Proof.
  unfold CardHandler.Move.
  destruct (ShouldBindJSON_MoveCardRequest body) as [req |]; [| reflexivity].
  destruct (CardRepository.GetByID db id) as [card | msg];
    [| destruct (String.eqb msg "card not found"); reflexivity].
  destruct (ListRepository.GetByID db (MoveCardRequest_ListID req)) as [l | msg];
    [| destruct (String.eqb msg "list not found"); reflexivity].
  destruct (CardRepository.Move db clk id (MoveCardRequest_ListID req)
              (MoveCardRequest_Position req)) as [db1 [err |]] eqn:Hmove.
  - intros _. cbn [fst]. eapply CardRepository_Move_error. exact Hmove.
  - cbn [snd status]. congruence.
Qed.

(** C3 (as amended). For every MoveCard request that passes the binding of
    its body (a non-zero target list id and a non-zero position), the response
    is 404 Not Found if and only if the card id resolves to no card or the
    target list id resolves to no list; a body that does not pass is answered
    400 Bad Request; and whatever the request, a response other than 200
    leaves the database, hence the card's stored list reference and position,
    unchanged. *)
Theorem MoveCard_NotFound_iff_unresolved
  (db : DB) (clk : clock) (id : Z) (body : MoveCardBody) :
  (forall req, ShouldBindJSON_MoveCardRequest body = Ok req ->
     (status (snd (CardHandler.Move db clk id body)) = StatusNotFound
      <-> SELECT_cards_WHERE_id db id = None
          \/ SELECT_lists_WHERE_id db (MoveCardRequest_ListID req) = None))
  /\ (forall err, ShouldBindJSON_MoveCardRequest body = Err err ->
        CardHandler.Move db clk id body
        = (db, HandleError StatusBadRequest "Invalid request body"))
  /\ (status (snd (CardHandler.Move db clk id body)) <> StatusOK ->
      fst (CardHandler.Move db clk id body) = db
      /\ SELECT_cards_WHERE_id (fst (CardHandler.Move db clk id body)) id
         = SELECT_cards_WHERE_id db id).
Proof.
  split; [| split; [intros err Hbind; unfold CardHandler.Move; now rewrite Hbind |]].
  - intros req Hbind. unfold CardHandler.Move. rewrite Hbind.
    unfold CardRepository.GetByID, ListRepository.GetByID.
    destruct (SELECT_cards_WHERE_id db id) as [card |].
    + destruct (SELECT_lists_WHERE_id db (MoveCardRequest_ListID req)) as [l |].
      * destruct (CardRepository.Move db clk id (MoveCardRequest_ListID req)
                    (MoveCardRequest_Position req)) as [db1 [err |]];
          cbn [snd status]; unfold StatusInternalServerError, StatusOK, StatusNotFound;
          split; [lia | intros [H | H]; discriminate
                 | lia | intros [H | H]; discriminate].
      * cbn. split; auto.
    + cbn. split; auto.
  - intros H. rewrite (MoveCard_failure_writes_nothing _ _ _ _ H). auto.
Qed.

Lemma MoveCard_NotFound_iff_unresolved_witness :
  ShouldBindJSON_MoveCardRequest (move_card_body 7 1%float)
  = Ok {| MoveCardRequest_ListID := 7; MoveCardRequest_Position := 1%float |}
  /\ (status (snd (CardHandler.Move db_cards clock_2 1 (move_card_body 7 1%float)))
      = StatusNotFound
      <-> SELECT_cards_WHERE_id db_cards 1 = None
          \/ SELECT_lists_WHERE_id db_cards 7 = None)
  /\ SELECT_lists_WHERE_id db_cards 7 = None
  /\ fst (CardHandler.Move db_cards clock_2 1 (move_card_body 7 1%float)) = db_cards.
Proof.
  split; [reflexivity|]. split.
  - exact (proj1 (MoveCard_NotFound_iff_unresolved db_cards clock_2 1 (move_card_body 7 1%float))
             {| MoveCardRequest_ListID := 7; MoveCardRequest_Position := 1%float |}
             eq_refl).
  - split; [reflexivity|].
    apply (proj2 (proj2 (MoveCard_NotFound_iff_unresolved db_cards clock_2 1
                           (move_card_body 7 1%float)))).
    vm_compute. discriminate.
Defined.

(** C3 (as stated) fails: card 1 exists and the target list id 0 resolves to
    no list, yet the response is 400 Bad Request, the body's [list_id] being
    refused as a zero value before any lookup; likewise for a card id that
    resolves to no card when the position is 0. *)
Lemma MoveCard_unresolved_but_BadRequest :
  (SELECT_lists_WHERE_id db_cards 0 = None
   /\ CardHandler.Move db_cards clock_2 1 (move_card_body 0 1%float)
      = (db_cards, HandleError StatusBadRequest "Invalid request body"))
  /\ (SELECT_cards_WHERE_id db_cards 99 = None
      /\ CardHandler.Move db_cards clock_2 99 (move_card_body 2 0%float)
         = (db_cards, HandleError StatusBadRequest "Invalid request body"))
  /\ (StatusBadRequest =? StatusNotFound) = false.
Proof. repeat split. Qed.

(* ================================================================= *)
(** ** Archive and unarchive *)

(** [CardRepository.Archive] on a stored card: one UPDATE of its row, which
    sets the flag and the timestamp; on an id that resolves to no card:
    "card not found" and nothing written. *)
Lemma CardRepository_Archive_stored (db : DB) (clk : clock) (id : Z) (archive : bool)
  (card : Card) :
  SELECT_cards_WHERE_id db id = Some card ->
  exists db',
    CardRepository.Archive db clk id archive = (db', None)
    /\ SELECT_cards_WHERE_id db' id
       = Some (Card_with_UpdatedAt (Card_with_Archived card archive) (CURRENT_TIMESTAMP clk))
    /\ (forall j, j <> id -> SELECT_cards_WHERE_id db' j = SELECT_cards_WHERE_id db j)
    /\ lists db' = lists db /\ boards db' = boards db
    /\ card_labels db' = card_labels db /\ comments db' = comments db.
Proof.
  intros Hc. unfold CardRepository.Archive, UPDATE_cards_SET_archived.
  unfold SELECT_cards_WHERE_id in Hc.
  destruct (find_filter_cons _ _ _ _ Hc) as [rest ->].
  rewrite length_cons_neq_0. eexists. split; [reflexivity|].
  unfold SELECT_cards_WHERE_id, update_cards_timestamp;
    cbn [cards lists boards card_labels comments DB_with_cards].
  split.
  { rewrite (find_update_same _ Card_ID) by reflexivity.
    rewrite (find_update_same _ Card_ID) by reflexivity.
    rewrite Hc. reflexivity. }
  split; [| repeat split].
  intros j Hj.
  rewrite (find_update_other _ Card_ID) by (trivial || reflexivity).
  rewrite (find_update_other _ Card_ID) by (trivial || reflexivity).
  reflexivity.
Qed.

Lemma CardRepository_Archive_not_found (db : DB) (clk : clock) (id : Z) (archive : bool) :
  SELECT_cards_WHERE_id db id = None ->
  CardRepository.Archive db clk id archive = (db, Some "card not found").
Proof.
  intros Hc. unfold CardRepository.Archive, UPDATE_cards_SET_archived.
  unfold SELECT_cards_WHERE_id in Hc. rewrite (find_none_filter _ _ _ Hc). reflexivity.
Qed.

(** C7. For every existing card, Archive and Unarchive answer 200 and set,
    respectively clear, the archived flag and refresh [updated_at]; the
    card's position, list reference, title, description, color, due date (and
    id and creation time) are unchanged, as is every other row; for an id that
    resolves to no card they answer 404 Not Found and write nothing. *)
Theorem Archive_sets_only_the_flag (db : DB) (clk : clock) (id : Z) :
  (forall card, SELECT_cards_WHERE_id db id = Some card ->
     (exists db' card',
        CardHandler.Archive db clk id
        = (db', JSON_H StatusOK [("message", "Card archived successfully")])
        /\ SELECT_cards_WHERE_id db' id = Some card'
        /\ Card_Archived card' = true
        /\ Card_UpdatedAt card' = CURRENT_TIMESTAMP clk
        /\ unchanged_by_Archive card card'
        /\ (forall j, j <> id -> SELECT_cards_WHERE_id db' j = SELECT_cards_WHERE_id db j)
        /\ lists db' = lists db /\ card_labels db' = card_labels db
        /\ comments db' = comments db)
     /\ (exists db' card',
           CardHandler.Unarchive db clk id
           = (db', JSON_H StatusOK [("message", "Card unarchived successfully")])
           /\ SELECT_cards_WHERE_id db' id = Some card'
           /\ Card_Archived card' = false
           /\ Card_UpdatedAt card' = CURRENT_TIMESTAMP clk
           /\ unchanged_by_Archive card card'
           /\ (forall j, j <> id -> SELECT_cards_WHERE_id db' j = SELECT_cards_WHERE_id db j)
           /\ lists db' = lists db /\ card_labels db' = card_labels db
           /\ comments db' = comments db))
  /\ (SELECT_cards_WHERE_id db id = None ->
      CardHandler.Archive db clk id = (db, HandleError StatusNotFound "Card not found")
      /\ CardHandler.Unarchive db clk id = (db, HandleError StatusNotFound "Card not found")).
Proof.
  split.
  - intros card Hc. split.
    + destruct (CardRepository_Archive_stored db clk id true card Hc)
        as (db' & Hrun & Hsame & Hother & Hl & _ & Hcl & Hcm).
      exists db'. eexists. unfold CardHandler.Archive. rewrite Hrun.
      split; [reflexivity|]. split; [exact Hsame|].
      split; [reflexivity|]. split; [reflexivity|].
      split; [repeat split|]. auto.
    + destruct (CardRepository_Archive_stored db clk id false card Hc)
        as (db' & Hrun & Hsame & Hother & Hl & _ & Hcl & Hcm).
      exists db'. eexists. unfold CardHandler.Unarchive. rewrite Hrun.
      split; [reflexivity|]. split; [exact Hsame|].
      split; [reflexivity|]. split; [reflexivity|].
      split; [repeat split|]. auto.
  - intros Hc. unfold CardHandler.Archive, CardHandler.Unarchive.
    rewrite !(CardRepository_Archive_not_found _ _ _ _ Hc). split; reflexivity.
Qed.

Lemma Archive_sets_only_the_flag_witness :
  SELECT_cards_WHERE_id db_cards 2 = Some (mk_card 2 1 "Task B" 2%float 30)
  /\ SELECT_cards_WHERE_id db_cards 99 = None
  /\ (exists db' card',
        CardHandler.Archive db_cards clock_2 2
        = (db', JSON_H StatusOK [("message", "Card archived successfully")])
        /\ SELECT_cards_WHERE_id db' 2 = Some card'
        /\ Card_Archived card' = true
        /\ Card_UpdatedAt card' = CURRENT_TIMESTAMP clock_2
        /\ unchanged_by_Archive (mk_card 2 1 "Task B" 2%float 30) card'
        /\ (forall j, j <> 2 -> SELECT_cards_WHERE_id db' j = SELECT_cards_WHERE_id db_cards j)
        /\ lists db' = lists db_cards /\ card_labels db' = card_labels db_cards
        /\ comments db' = comments db_cards)
  /\ CardHandler.Archive db_cards clock_2 99
     = (db_cards, HandleError StatusNotFound "Card not found").
Proof.
  split; [reflexivity|]. split; [reflexivity|]. split.
  - exact (proj1 (proj1 (Archive_sets_only_the_flag db_cards clock_2 2)
                    (mk_card 2 1 "Task B" 2%float 30) eq_refl)).
  - exact (proj1 (proj2 (Archive_sets_only_the_flag db_cards clock_2 99) eq_refl)).
Defined.

(* ================================================================= *)
(** ** Label assignment *)

Lemma SELECT_EXISTS_card_labels_In (db : DB) (cardID labelID : Z) :
  SELECT_EXISTS_card_labels db cardID labelID = true <-> In (cardID, labelID) (card_labels db).
Proof.
  unfold SELECT_EXISTS_card_labels. rewrite existsb_exists. split.
  - intros ([c l] & Hin & H). cbn [fst snd] in H. apply andb_prop in H.
    destruct H as [Hc Hl]. apply Z.eqb_eq in Hc, Hl. now subst.
  - intros Hin. exists (cardID, labelID). split; [exact Hin|].
    cbn [fst snd]. now rewrite !Z.eqb_refl.
Qed.

Lemma find_Some_existsb (A : Type) (f : A -> bool) (l : list A) (x : A) :
  find f l = Some x -> existsb f l = true.
Proof.
  intros H. apply existsb_exists. exists x. apply find_some in H. exact H.
Qed.

(** The first [AssignToCard] of a pair not yet associated inserts its row. *)
Lemma AssignToCard_inserts (db : DB) (cardID labelID : Z) (c : Card) (l : Label) :
  SELECT_cards_WHERE_id db cardID = Some c ->
  SELECT_labels_WHERE_id db labelID = Some l ->
  ~ In (cardID, labelID) (card_labels db) ->
  LabelRepository.AssignToCard db cardID labelID
  = (DB_with_card_labels db (card_labels db ++ [(cardID, labelID)]), None).
Proof.
  intros Hc Hl Hnot. unfold LabelRepository.AssignToCard, INSERT_INTO_card_labels.
  destruct (SELECT_EXISTS_card_labels db cardID labelID) eqn:E.
  - apply SELECT_EXISTS_card_labels_In in E. contradiction.
  - unfold SELECT_cards_WHERE_id in Hc. unfold SELECT_labels_WHERE_id in Hl.
    rewrite (find_Some_existsb _ _ _ _ Hc), (find_Some_existsb _ _ _ _ Hl). reflexivity.
Qed.

(** [AssignToCard] of an associated pair does nothing. *)
Lemma AssignToCard_noop (db : DB) (cardID labelID : Z) :
  In (cardID, labelID) (card_labels db) ->
  LabelRepository.AssignToCard db cardID labelID = (db, None).
Proof.
  intros Hin. unfold LabelRepository.AssignToCard.
  apply SELECT_EXISTS_card_labels_In in Hin. now rewrite Hin.
Qed.

Lemma count_occ_NoDup_In (l : list (Z * Z)) (x : Z * Z) :
  NoDup l -> In x l -> count_occ card_label_eq_dec l x = 1%nat.
Proof.
  intros Hnd Hin.
  pose proof (proj1 (NoDup_count_occ card_label_eq_dec l) Hnd x) as Hle.
  pose proof (proj1 (count_occ_In card_label_eq_dec l x) Hin) as Hgt.
  lia.
Qed.

(** A second [AssignToCard] with the same pair gives the result and the
    state of the first, whatever they are. *)
Lemma LabelRepository_AssignToCard_twice (db : DB) (cardID labelID : Z) :
  LabelRepository.AssignToCard (fst (LabelRepository.AssignToCard db cardID labelID))
    cardID labelID
  = LabelRepository.AssignToCard db cardID labelID.
Proof.
  unfold LabelRepository.AssignToCard at 2 3.
  destruct (SELECT_EXISTS_card_labels db cardID labelID) eqn:E.
  - cbn [fst]. unfold LabelRepository.AssignToCard. now rewrite E.
  - unfold INSERT_INTO_card_labels. rewrite E.
    destruct (existsb (fun c => Card_ID c =? cardID) (cards db)
              && existsb (fun l => Label_ID l =? labelID) (labels db)) eqn:F.
    + cbn [fst]. apply AssignToCard_noop. cbn [card_labels DB_with_card_labels].
      apply in_or_app. right. now left.
    + cbn [fst]. unfold LabelRepository.AssignToCard, INSERT_INTO_card_labels.
      now rewrite E, F.
Qed.

Lemma LabelHandler_AssignToCard_twice (db : DB) (cardID labelID : Z) :
  LabelHandler.AssignToCard (fst (LabelHandler.AssignToCard db cardID labelID))
    cardID labelID
  = LabelHandler.AssignToCard db cardID labelID.
Proof.
  unfold LabelHandler.AssignToCard at 2 3.
  destruct (CardRepository.GetByID db cardID) as [c | msg] eqn:Hc.
  - destruct (LabelRepository.GetByID db labelID) as [l | msg] eqn:Hl.
    + pose proof (LabelRepository_AssignToCard_twice db cardID labelID) as Htwice.
      assert (Hsame : cards (fst (LabelRepository.AssignToCard db cardID labelID)) = cards db
                      /\ labels (fst (LabelRepository.AssignToCard db cardID labelID))
                         = labels db).
      { unfold LabelRepository.AssignToCard, INSERT_INTO_card_labels.
        destruct (SELECT_EXISTS_card_labels db cardID labelID); [now split|].
        destruct (existsb _ (cards db) && existsb _ (labels db)); now split. }
      destruct Hsame as [Hcards Hlabels].
      destruct (LabelRepository.AssignToCard db cardID labelID) as [db1 e1] eqn:Hrun.
      cbn [fst] in *.
      assert (Hc1 : CardRepository.GetByID db1 cardID = Ok c).
      { unfold CardRepository.GetByID, SELECT_cards_WHERE_id in *. now rewrite Hcards. }
      assert (Hl1 : LabelRepository.GetByID db1 labelID = Ok l).
      { unfold LabelRepository.GetByID, SELECT_labels_WHERE_id in *. now rewrite Hlabels. }
      destruct e1 as [err |]; cbn [fst]; unfold LabelHandler.AssignToCard;
        now rewrite Hc1, Hl1, Htwice.
    + destruct (String.eqb msg "label not found") eqn:Em; cbn [fst];
        unfold LabelHandler.AssignToCard; now rewrite Hc, Hl, Em.
  - destruct (String.eqb msg "card not found") eqn:Em; cbn [fst];
      unfold LabelHandler.AssignToCard; now rewrite Hc, Em.
Qed.

(** C8. AssignLabelToCard is idempotent: a second call with the same pair
    gives the response and the state of the first, of the repository method
    and of the handler in front of it; for an existing card and an existing
    label both calls succeed, and the state they leave holds exactly one
    association row for the pair (the table's primary key being respected
    before the first call), the other rows being as before. *)
Theorem AssignToCard_idempotent (db : DB) (cardID labelID : Z) :
  LabelRepository.AssignToCard (fst (LabelRepository.AssignToCard db cardID labelID))
    cardID labelID
  = LabelRepository.AssignToCard db cardID labelID
  /\ LabelHandler.AssignToCard (fst (LabelHandler.AssignToCard db cardID labelID))
       cardID labelID
     = LabelHandler.AssignToCard db cardID labelID
  /\ forall (c : Card) (l : Label),
      NoDup (card_labels db) ->
      SELECT_cards_WHERE_id db cardID = Some c ->
      SELECT_labels_WHERE_id db labelID = Some l ->
      exists db1,
        LabelRepository.AssignToCard db cardID labelID = (db1, None)
        /\ LabelRepository.AssignToCard db1 cardID labelID = (db1, None)
        /\ LabelHandler.AssignToCard db cardID labelID
           = (db1, JSON_H StatusOK [("message", "Label assigned to card successfully")])
        /\ LabelHandler.AssignToCard db1 cardID labelID
           = (db1, JSON_H StatusOK [("message", "Label assigned to card successfully")])
        /\ association_rows db1 cardID labelID = 1%nat
        /\ NoDup (card_labels db1)
        /\ (forall x, x <> (cardID, labelID) ->
              count_occ card_label_eq_dec (card_labels db1) x
              = count_occ card_label_eq_dec (card_labels db) x)
        /\ cards db1 = cards db /\ labels db1 = labels db.
Proof.
  split; [apply LabelRepository_AssignToCard_twice|].
  split; [apply LabelHandler_AssignToCard_twice|].
  intros c l Hnd Hc Hl.
  assert (Hstep : exists db1,
             LabelRepository.AssignToCard db cardID labelID = (db1, None)
             /\ In (cardID, labelID) (card_labels db1)
             /\ NoDup (card_labels db1)
             /\ (forall x, x <> (cardID, labelID) ->
                   count_occ card_label_eq_dec (card_labels db1) x
                   = count_occ card_label_eq_dec (card_labels db) x)
             /\ cards db1 = cards db /\ labels db1 = labels db).
  { destruct (in_dec card_label_eq_dec (cardID, labelID) (card_labels db)) as [Hin | Hnot].
    - exists db. rewrite (AssignToCard_noop _ _ _ Hin). repeat split; auto.
    - eexists. rewrite (AssignToCard_inserts _ _ _ _ _ Hc Hl Hnot).
      split; [reflexivity|]. cbn [card_labels cards labels DB_with_card_labels].
      split; [apply in_or_app; right; now left|].
      split.
      { apply NoDup_app; [exact Hnd | repeat constructor; intros [] |].
        intros x Hx [<- | []]. contradiction. }
      split; [| split; reflexivity].
      intros x Hx. rewrite count_occ_app. cbn [count_occ].
      destruct (card_label_eq_dec (cardID, labelID) x); [congruence | lia]. }
  destruct Hstep as (db1 & Hrun & Hin & Hnd1 & Hcount & Hcards & Hlabels).
  assert (Hc1 : SELECT_cards_WHERE_id db1 cardID = Some c)
    by (unfold SELECT_cards_WHERE_id; now rewrite Hcards).
  assert (Hl1 : SELECT_labels_WHERE_id db1 labelID = Some l)
    by (unfold SELECT_labels_WHERE_id; now rewrite Hlabels).
  exists db1. split; [exact Hrun|].
  split; [now apply AssignToCard_noop|].
  unfold LabelHandler.AssignToCard, CardRepository.GetByID, LabelRepository.GetByID.
  rewrite Hc, Hl, Hrun, Hc1, Hl1, (AssignToCard_noop _ _ _ Hin).
  split; [reflexivity|]. split; [reflexivity|].
  split; [now apply count_occ_NoDup_In|]. auto.
Qed.

(** Assigning the label "bug" to the card "abc". *)
Lemma AssignToCard_idempotent_witness :
  NoDup (card_labels db_cards)
  /\ SELECT_cards_WHERE_id db_cards 1 = Some (mk_card 1 1 "abc" 1%float 20)
  /\ exists db1,
    LabelRepository.AssignToCard db_cards 1 1 = (db1, None)
    /\ LabelRepository.AssignToCard db1 1 1 = (db1, None)
    /\ LabelHandler.AssignToCard db_cards 1 1
       = (db1, JSON_H StatusOK [("message", "Label assigned to card successfully")])
    /\ LabelHandler.AssignToCard db1 1 1
       = (db1, JSON_H StatusOK [("message", "Label assigned to card successfully")])
    /\ association_rows db1 1 1 = 1%nat
    /\ NoDup (card_labels db1)
    /\ (forall x, x <> (1, 1) ->
          count_occ card_label_eq_dec (card_labels db1) x
          = count_occ card_label_eq_dec (card_labels db_cards) x)
    /\ cards db1 = cards db_cards /\ labels db1 = labels db_cards.
Proof.
  assert (Hnd : NoDup (card_labels db_cards)).
  { cbn. constructor; [intros [] | constructor]. }
  split; [exact Hnd|]. split; [reflexivity|].
  apply (proj2 (proj2 (AssignToCard_idempotent db_cards 1 1))
           (mk_card 1 1 "abc" 1%float 20)
           {| Label_ID := 1; Label_Name := "bug"; Label_Color := "#ef4444";
              Label_CreatedAt := 5 |}); [exact Hnd | reflexivity | reflexivity].
Defined.

(* ================================================================= *)
(** ** Creation *)

Lemma sql_MAX_appended (ps : list float64) :
  Forall (fun x => is_nan x = false) ps ->
  appended_position ps (Float64 (Scan_NullFloat64 (sql_MAX ps)) + 1)%float.
Proof.
  intros H. destruct ps as [| a ps].
  - left. split; reflexivity.
  - right. destruct (sql_MAX_greatest (a :: ps) H) as (m & Hm & Hg); [discriminate|].
    exists m. rewrite Hm. split; [exact Hg | reflexivity].
Qed.

Lemma list_positions_not_nan (db : DB) (boardID : Z) :
  positions_NOT_NULL db ->
  Forall (fun x => is_nan x = false) (list_positions db boardID).
Proof.
  intros [H _]. apply Forall_forall. intros x Hx. unfold list_positions in Hx.
  apply in_map_iff in Hx. destruct Hx as (l & <- & Hl).
  apply filter_In in Hl. now apply H.
Qed.

Lemma card_positions_not_nan (db : DB) (listID : Z) :
  positions_NOT_NULL db ->
  Forall (fun x => is_nan x = false) (card_positions db listID).
Proof.
  intros [_ H]. apply Forall_forall. intros x Hx. unfold card_positions in Hx.
  apply in_map_iff in Hx. destruct Hx as (c & <- & Hc).
  apply filter_In in Hc. now apply H.
Qed.

(** A successful [ListRepository.Create] appends the returned row, whose
    position is the given one unless that is zero, and then one more than
    the MAX of the board's positions. *)
Lemma ListRepository_Create_stored (db db' : DB) (clk : clock) (list list' : List) :
  ListRepository.Create db clk list = (db', list', None) ->
  lists db' = lists db ++ [list']
  /\ cards db' = cards db
  /\ List_BoardID list' = List_BoardID list
  /\ List_Position list'
     = if (List_Position list =? 0)%float
       then (Float64 (Scan_NullFloat64 (sql_MAX (list_positions db (List_BoardID list)))) + 1)%float
       else List_Position list.
Proof.
  unfold ListRepository.Create, INSERT_INTO_lists, SELECT_MAX_position_FROM_lists.
  fold (list_positions db (List_BoardID list)).
  destruct (List_Position list =? 0)%float;
    cbn [List_Position List_BoardID List_with_Position List_with_CreatedAt
         List_with_UpdatedAt];
    match goal with |- context [bind_REAL ?x] => destruct (bind_REAL x) end;
    try discriminate;
    match goal with |- context [existsb ?f ?l] => destruct (existsb f l) end;
    try discriminate;
    intros [= <- <-]; repeat split.
Qed.

Lemma CardRepository_Create_stored (db db' : DB) (clk : clock) (card card' : Card) :
  CardRepository.Create db clk card = (db', card', None) ->
  cards db' = cards db ++ [card']
  /\ lists db' = lists db
  /\ Card_ListID card' = Card_ListID card
  /\ Card_Position card'
     = if (Card_Position card =? 0)%float
       then (Float64 (Scan_NullFloat64 (sql_MAX (card_positions db (Card_ListID card)))) + 1)%float
       else Card_Position card.
Proof.
  unfold CardRepository.Create, INSERT_INTO_cards, SELECT_MAX_position_FROM_cards.
  fold (card_positions db (Card_ListID card)).
  destruct (Card_Position card =? 0)%float;
    cbn [Card_Position Card_ListID Card_with_Position Card_with_CreatedAt
         Card_with_UpdatedAt];
    match goal with |- context [bind_REAL ?x] => destruct (bind_REAL x) end;
    try discriminate;
    match goal with |- context [existsb ?f ?l] => destruct (existsb f l) end;
    try discriminate;
    intros [= <- <-]; repeat split.
Qed.

(** What a 201 response of [ListHandler.Create] tells: the returned list is
    the row appended to the board, positioned from the body's value. *)
Lemma ListHandler_Create_Created (db db' : DB) (clk : clock) (boardID : Z)
  (body : CreateListBody) (list : List) :
  ListHandler.Create db clk boardID body = (db', JSON StatusCreated list) ->
  lists db' = lists db ++ [list]
  /\ List_BoardID list = boardID
  /\ List_Position list
     = if (float64_or_zero (CreateListBody_position body) =? 0)%float
       then (Float64 (Scan_NullFloat64 (sql_MAX (list_positions db boardID))) + 1)%float
       else float64_or_zero (CreateListBody_position body).
Proof.
  unfold ListHandler.Create.
  destruct (BoardRepository.GetByID db boardID) as [b | msg];
    [| destruct (String.eqb msg "board not found"); discriminate].
  unfold ShouldBindJSON_CreateListRequest.
  destruct (required_min1_max255 _); [| discriminate].
  match goal with
  | |- context [ListRepository.Create db clk ?l] =>
      destruct (ListRepository.Create db clk l) as [[db1 l1] [err |]] eqn:Hrun;
      [discriminate|]
  end.
  intros [= <- <-]. apply ListRepository_Create_stored in Hrun.
  destruct Hrun as (H1 & _ & H2 & H3). split; [exact H1|].
  destruct (String.eqb _ ""); cbn in H2, H3 |- *; auto.
Qed.

Lemma CardHandler_Create_Created (db db' : DB) (clk : clock) (listID : Z)
  (body : CreateCardBody) (card : Card) :
  CardHandler.Create db clk listID body = (db', JSON StatusCreated card) ->
  cards db' = cards db ++ [card]
  /\ Card_ListID card = listID
  /\ Card_Position card
     = if (float64_or_zero (CreateCardBody_position body) =? 0)%float
       then (Float64 (Scan_NullFloat64 (sql_MAX (card_positions db listID))) + 1)%float
       else float64_or_zero (CreateCardBody_position body).
Proof.
  unfold CardHandler.Create.
  destruct (ListRepository.GetByID db listID) as [l | msg];
    [| destruct (String.eqb msg "list not found"); discriminate].
  unfold ShouldBindJSON_CreateCardRequest.
  destruct (required_min1_max255 _); [| discriminate].
  match goal with
  | |- context [CardRepository.Create db clk ?c] =>
      destruct (CardRepository.Create db clk c) as [[db1 c1] [err |]] eqn:Hrun;
      [discriminate|]
  end.
  intros [= <- <-]. apply CardRepository_Create_stored in Hrun.
  destruct Hrun as (H1 & _ & H2 & H3). split; [exact H1|]. cbn in H2, H3. auto.
Qed.

Lemma absent_or_zero_spec (v : option float64) :
  absent_or_zero v = (float64_or_zero v =? 0)%float.
Proof. destruct v; reflexivity. Qed.

Lemma find_existsb (A : Type) (f : A -> bool) (l : list A) (x : A) :
  find f l = Some x -> existsb f l = true.
Proof.
  intros H. apply find_some in H. apply existsb_exists. now exists x.
Qed.

(** A creation with a position of the caller's own succeeds whatever the
    positions already stored: the row is appended at that position. *)
Lemma ListHandler_Create_at (db : DB) (clk : clock) (boardID : Z)
  (body : CreateListBody) (p : float64) :
  (exists board, BoardRepository.GetByID db boardID = Ok board) ->
  required_min1_max255 (string_or_zero (CreateListBody_name body)) = true ->
  CreateListBody_position body = Some p ->
  (p =? 0)%float = false -> is_finite p = true ->
  exists db' list,
    ListHandler.Create db clk boardID body = (db', JSON StatusCreated list)
    /\ ErrorHandler (JSON StatusCreated list) = JSON StatusCreated list
    /\ List_Position list = p
    /\ lists db' = lists db ++ [list].
Proof.
  intros [board Hboard] Hname Hp Hnz Hfin.
  pose proof (is_finite_not_nan p Hfin) as Hnan.
  unfold ListHandler.Create. rewrite Hboard.
  unfold ShouldBindJSON_CreateListRequest. cbv zeta.
  cbn [CreateListRequest_Name]. rewrite Hname, Hp.
  cbn [float64_or_zero CreateListRequest_Name CreateListRequest_Position
       CreateListRequest_Color List_Color].
  unfold BoardRepository.GetByID, SELECT_boards_WHERE_id in Hboard.
  destruct (find _ (boards db)) as [b |] eqn:Ef; [| discriminate].
  apply find_existsb in Ef.
  match goal with
  | |- context [ListRepository.Create db clk ?l] =>
      assert (Hl : List_Position l = p /\ List_BoardID l = boardID)
        by (destruct (String.eqb _ ""); split; reflexivity);
      generalize dependent l
  end.
  intros l [Hlp Hlb].
  unfold ListRepository.Create, INSERT_INTO_lists. cbv zeta.
  rewrite Hlp, Hnz.
  cbn [List_Position List_BoardID List_with_CreatedAt List_with_UpdatedAt].
  rewrite Hlp, Hlb. unfold bind_REAL. rewrite Hnan, Ef.
  eexists. eexists. split; [reflexivity|].
  split; [| split].
  - unfold ErrorHandler, Render, json_Marshal, Payload_List, UnsupportedValueError.
    cbn [List_Position List_with_ID List_with_CreatedAt List_with_UpdatedAt].
    now rewrite Hlp, Hfin.
  - cbn [List_Position List_with_ID List_with_CreatedAt List_with_UpdatedAt].
    exact Hlp.
  - reflexivity.
Qed.

Lemma CardHandler_Create_at (db : DB) (clk : clock) (listID : Z)
  (body : CreateCardBody) (p : float64) :
  (exists list, ListRepository.GetByID db listID = Ok list) ->
  required_min1_max255 (string_or_zero (CreateCardBody_title body)) = true ->
  CreateCardBody_position body = Some p ->
  (p =? 0)%float = false -> is_finite p = true ->
  exists db' card,
    CardHandler.Create db clk listID body = (db', JSON StatusCreated card)
    /\ ErrorHandler (JSON StatusCreated card) = JSON StatusCreated card
    /\ Card_Position card = p
    /\ cards db' = cards db ++ [card].
Proof.
  intros [list Hlist] Htitle Hp Hnz Hfin.
  pose proof (is_finite_not_nan p Hfin) as Hnan.
  unfold CardHandler.Create. rewrite Hlist.
  unfold ShouldBindJSON_CreateCardRequest. cbv zeta.
  cbn [CreateCardRequest_Title]. rewrite Htitle, Hp.
  cbn [float64_or_zero CreateCardRequest_Title CreateCardRequest_Description
       CreateCardRequest_Position CreateCardRequest_Color CreateCardRequest_DueDate].
  unfold ListRepository.GetByID, SELECT_lists_WHERE_id in Hlist.
  destruct (find _ (lists db)) as [l |] eqn:Ef; [| discriminate].
  apply find_existsb in Ef.
  unfold CardRepository.Create, INSERT_INTO_cards. cbv zeta.
  cbn [Card_Position Card_ListID Card_with_CreatedAt Card_with_UpdatedAt].
  rewrite Hnz.
  cbn [Card_Position Card_ListID Card_with_CreatedAt Card_with_UpdatedAt].
  unfold bind_REAL. rewrite Hnan, Ef.
  eexists. eexists. split; [reflexivity|].
  split; [| split].
  - unfold ErrorHandler, Render, json_Marshal, Payload_Card, UnsupportedValueError.
    cbn [Card_Position Card_with_ID Card_with_CreatedAt Card_with_UpdatedAt].
    now rewrite Hfin.
  - reflexivity.
  - reflexivity.
Qed.

(** C5 (as amended). For every CreateList and CreateCard request that is
    answered 201: the returned entity is the row appended to the table; if
    the body's position is absent or is zero, the stored position is the
    greatest position among the siblings in the target container plus 1.0
    (1.0 for an empty container); otherwise the caller's non-zero position is
    stored verbatim.  And no position is refused for the positions already
    stored: a request under a stored parent, with a name (a title) of 1 to
    255 characters and a position of the caller's own that is finite and not
    zero, is answered 201 and appends the row at that position, whether or
    not a sibling holds it already. *)
Theorem Create_position_computed_or_verbatim :
  (forall (db db' : DB) (clk : clock) (boardID : Z) (body : CreateListBody) (list : List),
      positions_NOT_NULL db ->
      ListHandler.Create db clk boardID body = (db', JSON StatusCreated list) ->
      lists db' = lists db ++ [list]
      /\ (absent_or_zero (CreateListBody_position body) = true ->
          appended_position (list_positions db boardID) (List_Position list))
      /\ (forall p, CreateListBody_position body = Some p -> (p =? 0)%float = false ->
                    List_Position list = p))
  /\ (forall (db db' : DB) (clk : clock) (listID : Z) (body : CreateCardBody) (card : Card),
         positions_NOT_NULL db ->
         CardHandler.Create db clk listID body = (db', JSON StatusCreated card) ->
         cards db' = cards db ++ [card]
         /\ (absent_or_zero (CreateCardBody_position body) = true ->
             appended_position (card_positions db listID) (Card_Position card))
         /\ (forall p, CreateCardBody_position body = Some p -> (p =? 0)%float = false ->
                       Card_Position card = p))
  /\ (forall (db : DB) (clk : clock) (boardID : Z) (body : CreateListBody) (p : float64),
         (exists board, BoardRepository.GetByID db boardID = Ok board) ->
         required_min1_max255 (string_or_zero (CreateListBody_name body)) = true ->
         CreateListBody_position body = Some p ->
         (p =? 0)%float = false -> is_finite p = true ->
         exists db' list,
           ListHandler.Create db clk boardID body = (db', JSON StatusCreated list)
           /\ ErrorHandler (JSON StatusCreated list) = JSON StatusCreated list
           /\ List_Position list = p
           /\ lists db' = lists db ++ [list])
  /\ (forall (db : DB) (clk : clock) (listID : Z) (body : CreateCardBody) (p : float64),
         (exists list, ListRepository.GetByID db listID = Ok list) ->
         required_min1_max255 (string_or_zero (CreateCardBody_title body)) = true ->
         CreateCardBody_position body = Some p ->
         (p =? 0)%float = false -> is_finite p = true ->
         exists db' card,
           CardHandler.Create db clk listID body = (db', JSON StatusCreated card)
           /\ ErrorHandler (JSON StatusCreated card) = JSON StatusCreated card
           /\ Card_Position card = p
           /\ cards db' = cards db ++ [card]).
Proof.
  split; [| split; [| split; [apply ListHandler_Create_at | apply CardHandler_Create_at]]].
  - intros db db' clk boardID body list Hnn Hrun.
    apply ListHandler_Create_Created in Hrun. destruct Hrun as (Hrows & _ & Hpos).
    split; [exact Hrows|]. split.
    + intros Hz. rewrite absent_or_zero_spec in Hz. rewrite Hz in Hpos. rewrite Hpos.
      apply sql_MAX_appended. now apply list_positions_not_nan.
    + intros p Hp Hnz. rewrite Hp in Hpos. cbn [float64_or_zero] in Hpos.
      now rewrite Hnz in Hpos.
  - intros db db' clk listID body card Hnn Hrun.
    apply CardHandler_Create_Created in Hrun. destruct Hrun as (Hrows & _ & Hpos).
    split; [exact Hrows|]. split.
    + intros Hz. rewrite absent_or_zero_spec in Hz. rewrite Hz in Hpos. rewrite Hpos.
      apply sql_MAX_appended. now apply card_positions_not_nan.
    + intros p Hp Hnz. rewrite Hp in Hpos. cbn [float64_or_zero] in Hpos.
      now rewrite Hnz in Hpos.
Qed.

Lemma db_one_list_NOT_NULL : positions_NOT_NULL db_one_list.
Proof.
  split; cbn.
  - intros l [<- | []]. reflexivity.
  - intros c [].
Qed.

Lemma db_cards_NOT_NULL : positions_NOT_NULL db_cards.
Proof.
  split; cbn.
  - intros l [<- | [<- | []]]; reflexivity.
  - intros c [<- | [<- | []]]; reflexivity.
Qed.

(** The scenarios of the specification: a list created without a position
    after "Backlog" (1.0) is stored at 2.0; a card created at the explicit
    position 1.5 between cards at 1.0 and 2.0 is stored at 1.5.  And at a
    position that is taken: a list created at 1.0 beside "Backlog" (1.0) and
    a card created at 1.0 beside the card "abc" (1.0) are stored at 1.0. *)
Lemma Create_position_computed_or_verbatim_witness :
  (exists db' list,
      ListHandler.Create db_one_list clock_2 1 (create_list_body "Doing" None)
      = (db', JSON StatusCreated list)
      /\ List_Position list = 2%float
      /\ lists db' = lists db_one_list ++ [list]
      /\ (absent_or_zero None = true ->
          appended_position (list_positions db_one_list 1) (List_Position list)))
  /\ (exists db' card,
         CardHandler.Create db_cards clock_2 1 (create_card_body "Task C" (Some 1.5%float))
         = (db', JSON StatusCreated card)
         /\ cards db' = cards db_cards ++ [card]
         /\ (forall p, Some 1.5%float = Some p -> (p =? 0)%float = false ->
                       Card_Position card = p))
  /\ (map List_Position (lists db_one_list) = [1%float]
      /\ exists db' list,
          ListHandler.Create db_one_list clock_2 1 (create_list_body "Doing" (Some 1%float))
          = (db', JSON StatusCreated list)
          /\ ErrorHandler (JSON StatusCreated list) = JSON StatusCreated list
          /\ List_Position list = 1%float
          /\ lists db' = lists db_one_list ++ [list])
  /\ (map Card_Position (cards db_cards) = [1%float; 2%float]
      /\ exists db' card,
          CardHandler.Create db_cards clock_2 1 (create_card_body "Task C" (Some 1%float))
          = (db', JSON StatusCreated card)
          /\ ErrorHandler (JSON StatusCreated card) = JSON StatusCreated card
          /\ Card_Position card = 1%float
          /\ cards db' = cards db_cards ++ [card]).
Proof.
  split; [| split; [| split]].
  - eexists. eexists. split; [vm_compute; reflexivity|]. split; [reflexivity|].
    pose proof (proj1 Create_position_computed_or_verbatim
                  db_one_list _ clock_2 1 (create_list_body "Doing" None) _
                  db_one_list_NOT_NULL eq_refl) as H.
    split; [exact (proj1 H) | exact (proj1 (proj2 H))].
  - eexists. eexists. split; [vm_compute; reflexivity|].
    pose proof (proj1 (proj2 Create_position_computed_or_verbatim)
                  db_cards _ clock_2 1 (create_card_body "Task C" (Some 1.5%float)) _
                  db_cards_NOT_NULL eq_refl) as H.
    split; [exact (proj1 H) | exact (proj2 (proj2 H))].
  - split; [reflexivity|].
    exact (proj1 (proj2 (proj2 Create_position_computed_or_verbatim))
             db_one_list clock_2 1 (create_list_body "Doing" (Some 1%float)) 1%float
             (ex_intro _ board_B1 eq_refl) eq_refl eq_refl eq_refl eq_refl).
  - split; [reflexivity|].
    exact (proj2 (proj2 (proj2 Create_position_computed_or_verbatim))
             db_cards clock_2 1 (create_card_body "Task C" (Some 1%float)) 1%float
             (ex_intro _ (mk_list 1 "Backlog" 1%float) eq_refl)
             eq_refl eq_refl eq_refl eq_refl).
Defined.

(** C5 (as stated) fails: a CreateList whose body gives the position 0
    explicitly, on a board holding "Backlog" at 1.0, stores the list at 2.0,
    not at the caller's 0. *)
Lemma Create_explicit_zero_is_not_verbatim :
  exists db' list,
    ListHandler.Create db_one_list clock_2 1 (create_list_body "Doing" (Some 0%float))
    = (db', JSON StatusCreated list)
    /\ lists db' = lists db_one_list ++ [list]
    /\ List_Position list = 2%float
    /\ spec_Create_position (list_positions db_one_list 1) (Some 0%float) = 0%float
    /\ (List_Position list
        =? spec_Create_position (list_positions db_one_list 1) (Some 0%float))%float = false.
Proof. eexists. eexists. split; [vm_compute; reflexivity|]. repeat split. Qed.

(** C10 (as amended). For every CreateList and CreateCard request answered
    201 whose position field is absent or equals 0, the stored position is the
    greatest sibling position plus 1.0 (1.0 for an empty container); and a
    stored position equal to 0 is never the caller's own value: it arises only
    as that computed value, from a greatest sibling position [m] with
    [m + 1.0 = 0]. *)
Theorem Create_zero_position_is_computed :
  (forall (db db' : DB) (clk : clock) (boardID : Z) (body : CreateListBody) (list : List),
      positions_NOT_NULL db ->
      ListHandler.Create db clk boardID body = (db', JSON StatusCreated list) ->
      (absent_or_zero (CreateListBody_position body) = true ->
       appended_position (list_positions db boardID) (List_Position list))
      /\ ((List_Position list =? 0)%float = true ->
          absent_or_zero (CreateListBody_position body) = true
          /\ exists m, greatest (list_positions db boardID) m
                       /\ List_Position list = (m + 1)%float))
  /\ (forall (db db' : DB) (clk : clock) (listID : Z) (body : CreateCardBody) (card : Card),
         positions_NOT_NULL db ->
         CardHandler.Create db clk listID body = (db', JSON StatusCreated card) ->
         (absent_or_zero (CreateCardBody_position body) = true ->
          appended_position (card_positions db listID) (Card_Position card))
         /\ ((Card_Position card =? 0)%float = true ->
             absent_or_zero (CreateCardBody_position body) = true
             /\ exists m, greatest (card_positions db listID) m
                          /\ Card_Position card = (m + 1)%float)).
Proof.
  split.
  - intros db db' clk boardID body list Hnn Hrun.
    apply ListHandler_Create_Created in Hrun. destruct Hrun as (_ & _ & Hpos).
    rewrite <- absent_or_zero_spec in Hpos.
    assert (Happ : absent_or_zero (CreateListBody_position body) = true ->
                   appended_position (list_positions db boardID) (List_Position list)).
    { intros Hz. rewrite Hz in Hpos. rewrite Hpos.
      apply sql_MAX_appended. now apply list_positions_not_nan. }
    split; [exact Happ|]. intros Hzero.
    destruct (absent_or_zero (CreateListBody_position body)) eqn:Hz.
    + split; [reflexivity|]. destruct (Happ eq_refl) as [[_ H1] | H]; [| exact H].
      rewrite H1 in Hzero. discriminate.
    + rewrite Hpos, <- absent_or_zero_spec, Hz in Hzero. discriminate.
  - intros db db' clk listID body card Hnn Hrun.
    apply CardHandler_Create_Created in Hrun. destruct Hrun as (_ & _ & Hpos).
    rewrite <- absent_or_zero_spec in Hpos.
    assert (Happ : absent_or_zero (CreateCardBody_position body) = true ->
                   appended_position (card_positions db listID) (Card_Position card)).
    { intros Hz. rewrite Hz in Hpos. rewrite Hpos.
      apply sql_MAX_appended. now apply card_positions_not_nan. }
    split; [exact Happ|]. intros Hzero.
    destruct (absent_or_zero (CreateCardBody_position body)) eqn:Hz.
    + split; [reflexivity|]. destruct (Happ eq_refl) as [[_ H1] | H]; [| exact H].
      rewrite H1 in Hzero. discriminate.
    + rewrite Hpos, <- absent_or_zero_spec, Hz in Hzero. discriminate.
Qed.

(** A card created with the position 0.0 given explicitly, after cards at
    1.0 and 2.0, is stored at 3.0. *)
Lemma Create_zero_position_is_computed_witness :
  exists db' card,
    CardHandler.Create db_cards clock_2 1 (create_card_body "Task C" (Some 0%float))
    = (db', JSON StatusCreated card)
    /\ Card_Position card = 3%float
    /\ (absent_or_zero (Some 0%float) = true ->
        appended_position (card_positions db_cards 1) (Card_Position card))
    /\ ((Card_Position card =? 0)%float = true ->
        absent_or_zero (Some 0%float) = true
        /\ exists m, greatest (card_positions db_cards 1) m
                     /\ Card_Position card = (m + 1)%float).
Proof.
  eexists. eexists. split; [vm_compute; reflexivity|]. split; [reflexivity|].
  exact (proj2 Create_zero_position_is_computed
           db_cards _ clock_2 1 (create_card_body "Task C" (Some 0%float)) _
           db_cards_NOT_NULL eq_refl).
Defined.

(** C10 (as stated) fails in its conclusion: a caller creates a card stored
    at position exactly 0 by first creating one at -1.0 in the empty list
    "Done" and then one more without a position. *)
Lemma Create_stores_position_zero :
  exists db1 first db2 second,
    CardHandler.Create db_cards clock_1 2 (create_card_body "first" (Some (-1)%float))
    = (db1, JSON StatusCreated first)
    /\ Card_Position first = (-1)%float
    /\ CardHandler.Create db1 clock_2 2 (create_card_body "second" None)
       = (db2, JSON StatusCreated second)
    /\ In second (cards db2)
    /\ Card_Position second = 0%float
    /\ (Card_Position second =? 0)%float = true.
Proof.
  eexists. eexists. eexists. eexists.
  split; [vm_compute; reflexivity|]. split; [reflexivity|].
  split; [vm_compute; reflexivity|]. split; [cbn; auto|]. split; reflexivity.
Qed.

(* ================================================================= *)
(** ** Listing operations and the nil slice *)

Lemma collect_from (A : Type) (rows acc : list A) :
  fold_left append rows (mk_slice acc) = mk_slice (acc ++ rows).
Proof.
  revert acc. induction rows as [| r rows IH]; intros acc; cbn [fold_left append].
  - now rewrite app_nil_r.
  - rewrite IH, <- app_assoc. reflexivity.
Qed.

(** The loop leaves the slice nil exactly when there is no row. *)
Lemma collect_spec (A : Type) (rows : list A) :
  collect rows = match rows with [] => nil_slice | _ :: _ => mk_slice rows end.
Proof.
  destruct rows as [| r rows]; [reflexivity|].
  unfold collect. cbn [fold_left append]. now rewrite collect_from.
Qed.

(** With the normalisation that follows the loop, the slice is never nil. *)
Lemma collect_normalised (A : Type) (rows : list A) :
  (if is_nil (collect rows) then mk_slice [] else collect rows) = mk_slice rows.
Proof. rewrite collect_spec. destruct rows; reflexivity. Qed.

(* ----------------------------------------------------------------- *)
(** *** ORDER BY *)

Section Ordering.
Variable A : Type.
Variable le : A -> A -> bool.

Lemma insert_by_Permutation (x : A) (l : list A) :
  Permutation (insert_by le x l) (x :: l).
Proof.
  induction l as [| y l IH]; cbn [insert_by]; [reflexivity|].
  destruct (le x y); [reflexivity|].
  rewrite IH. apply perm_swap.
Qed.

Lemma ORDER_BY_Permutation (l : list A) : Permutation (ORDER_BY le l) l.
Proof.
  induction l as [| x l IH]; cbn [ORDER_BY fold_right]; [reflexivity|].
  fold (ORDER_BY le l). rewrite insert_by_Permutation. now constructor.
Qed.

Lemma ORDER_BY_In (l : list A) (x : A) : In x (ORDER_BY le l) <-> In x l.
Proof.
  split; apply Permutation_in; [| symmetry]; apply ORDER_BY_Permutation.
Qed.

Lemma ORDER_BY_NoDup (l : list A) : NoDup l -> NoDup (ORDER_BY le l).
Proof.
  apply Permutation_NoDup. symmetry. apply ORDER_BY_Permutation.
Qed.

Hypothesis le_total : forall a b, le a b = true \/ le b a = true.
Hypothesis le_trans : forall a b c, le a b = true -> le b c = true -> le a c = true.

Lemma insert_by_sorted (x : A) (l : list A) :
  StronglySorted (fun a b => le a b = true) l ->
  StronglySorted (fun a b => le a b = true) (insert_by le x l).
Proof.
  induction l as [| y l IH]; intros Hs; cbn [insert_by].
  - repeat constructor.
  - inversion Hs as [| ? ? Hl Hy]; subst.
    destruct (le x y) eqn:E.
    + constructor; [exact Hs|]. constructor; [exact E|].
      rewrite Forall_forall in Hy |- *. intros z Hz. eapply le_trans; eauto.
    + constructor; [now apply IH|].
      rewrite Forall_forall in Hy |- *. intros z Hz.
      apply (Permutation_in _ (insert_by_Permutation x l)) in Hz.
      destruct Hz as [<- | Hz]; [| now apply Hy].
      destruct (le_total x y); congruence.
Qed.

Lemma ORDER_BY_sorted (l : list A) :
  StronglySorted (fun a b => le a b = true) (ORDER_BY le l).
Proof.
  induction l as [| x l IH]; cbn [ORDER_BY fold_right]; [constructor|].
  now apply insert_by_sorted.
Qed.
End Ordering.

(* ----------------------------------------------------------------- *)
(** *** DISTINCT and LEFT JOIN *)

Section Distinct.
Variable A : Type.
Variable eqb : A -> A -> bool.
Hypothesis eqb_eq : forall a b, eqb a b = true <-> a = b.

Lemma DISTINCT_In (l : list A) (x : A) : In x (DISTINCT eqb l) <-> In x l.
Proof.
  induction l as [| r l IH]; cbn [DISTINCT]; [reflexivity|].
  cbn [In]. rewrite filter_In, IH. split.
  - intros [-> | [H _]]; auto.
  - intros [-> | H]; [now left|].
    destruct (eqb r x) eqn:E.
    + left. now apply eqb_eq.
    + right. split; [exact H | reflexivity].
Qed.

End Distinct.

Lemma LEFT_JOIN_In (A B : Type) (on : A -> B -> bool) (left : list A) (right : list B)
  (a : A) (ob : option B) :
  In (a, ob) (LEFT_JOIN on left right)
  <-> In a left
      /\ match ob with
         | Some b => In b right /\ on a b = true
         | None => forall b, In b right -> on a b = false
         end.
Proof.
  unfold LEFT_JOIN. rewrite in_flat_map. split.
  - intros (a' & Ha' & Hin).
    destruct (filter (on a') right) as [| b0 bs] eqn:E.
    + destruct Hin as [[= <- <-] | []]. split; [exact Ha'|].
      now apply filter_nil_iff.
    + apply in_map_iff in Hin. destruct Hin as (b & [= <- <-] & Hb).
      split; [exact Ha'|]. rewrite <- E in Hb. now apply filter_In in Hb.
  - intros [Ha Hob]. exists a. split; [exact Ha|].
    destruct ob as [b |].
    + assert (Hb : In b (filter (on a) right)) by now apply filter_In.
      destruct (filter (on a) right) as [| b0 bs]; [destruct Hb|].
      apply in_map_iff. exists b. split; [reflexivity | exact Hb].
    + apply filter_nil_iff in Hob. rewrite Hob. now left.
Qed.

(** Every left row survives a LEFT JOIN. *)
Lemma LEFT_JOIN_keeps (A B : Type) (on : A -> B -> bool) (left : list A) (right : list B)
  (a : A) :
  In a left -> exists ob, In (a, ob) (LEFT_JOIN on left right).
Proof.
  intros Ha. destruct (filter (on a) right) as [| b bs] eqn:E.
  - exists None. apply LEFT_JOIN_In. split; [exact Ha|]. now apply filter_nil_iff.
  - exists (Some b). apply LEFT_JOIN_In. split; [exact Ha|].
    apply filter_In. rewrite E. now left.
Qed.

(* ================================================================= *)
(** ** Search *)

Lemma Card_eqb_eq (a b : Card) : Card_eqb a b = true <-> a = b.
Proof.
  split.
  - destruct a, b. unfold Card_eqb. cbn.
    intros H. repeat (apply andb_prop in H; destruct H as [H ?]).
    repeat match goal with
           | H : (_ =? _) = true |- _ => apply Z.eqb_eq in H
           | H : String.eqb _ _ = true |- _ => apply String.eqb_eq in H
           | H : Leibniz.eqb _ _ = true |- _ => apply Leibniz.eqb_spec in H
           | H : Bool.eqb _ _ = true |- _ => apply Bool.eqb_prop in H
           end.
    assert (Card_DueDate0 = Card_DueDate1).
    { destruct Card_DueDate0, Card_DueDate1; try discriminate; try reflexivity.
      f_equal. now apply Z.eqb_eq. }
    subst. reflexivity.
  - intros <-. unfold Card_eqb.
    rewrite !Z.eqb_refl, !String.eqb_refl, Bool.eqb_reflx.
    rewrite (proj2 (Leibniz.eqb_spec _ _) eq_refl).
    destruct (Card_DueDate a); [rewrite Z.eqb_refl|]; reflexivity.
Qed.

(** [LIKE] on either side of the limit. *)
Lemma LIKE_within_limit (text pattern : string) :
  sqlite3_value_bytes pattern <= SQLITE_MAX_LIKE_PATTERN_LENGTH ->
  LIKE text pattern
  = Ok (like (list_ascii_of_string pattern) (list_ascii_of_string text)).
Proof.
  intros H. unfold LIKE.
  destruct (SQLITE_MAX_LIKE_PATTERN_LENGTH <? sqlite3_value_bytes pattern) eqn:E;
    [apply Z.ltb_lt in E; lia | reflexivity].
Qed.

Lemma LIKE_beyond_limit (text pattern : string) :
  SQLITE_MAX_LIKE_PATTERN_LENGTH < sqlite3_value_bytes pattern ->
  LIKE text pattern = Err "LIKE or GLOB pattern too complex".
Proof.
  intros H. unfold LIKE. apply Z.ltb_lt in H. now rewrite H.
Qed.

Lemma LIKE_Ok_true (text pattern : string) :
  LIKE text pattern = Ok true
  <-> sqlite3_value_bytes pattern <= SQLITE_MAX_LIKE_PATTERN_LENGTH
      /\ like (list_ascii_of_string pattern) (list_ascii_of_string text) = true.
Proof.
  unfold LIKE.
  destruct (SQLITE_MAX_LIKE_PATTERN_LENGTH <? sqlite3_value_bytes pattern) eqn:E.
  - apply Z.ltb_lt in E. split; [discriminate | lia].
  - apply Z.ltb_ge in E. split.
    + intros H. split; [exact E | congruence].
    + intros [_ ->]. reflexivity.
Qed.

(** A WHERE clause none of whose terms fails is a filter. *)
Lemma WHERE_filter (R : Type) (conditions : list (R -> result bool)) (f : R -> bool)
  (rows : list R) :
  (forall r, In r rows -> AND conditions r = Ok (f r)) ->
  WHERE conditions rows = Ok (filter f rows).
Proof.
  induction rows as [| r rows IH]; intros H; [reflexivity|].
  cbn [WHERE filter]. rewrite (H r (or_introl eq_refl)), IH.
  - reflexivity.
  - intros r' Hr'. apply H. now right.
Qed.

(** A WHERE clause whose first term fails on every row fails as soon as
    there is a row. *)
Lemma WHERE_fails (R : Type) (cond : R -> result bool)
  (conditions : list (R -> result bool)) (err : string) (rows : list R) :
  (forall r, cond r = Err err) -> rows <> [] ->
  WHERE (cond :: conditions) rows = Err err.
Proof.
  intros H Hrows. destruct rows as [| r rows]; [congruence|].
  cbn [WHERE AND]. now rewrite H.
Qed.

(** The join holds a row for every card, and no row when there is no card. *)
Lemma LEFT_JOIN_nil (A B : Type) (on : A -> B -> bool) (left : list A)
  (right : list B) :
  LEFT_JOIN on left right = [] <-> left = [].
Proof.
  destruct left as [| a left]; [split; reflexivity|].
  split; [| discriminate].
  unfold LEFT_JOIN. cbn [flat_map].
  destruct (filter (on a) right); discriminate.
Qed.

Lemma joined_nil (db : DB) :
  FROM_cards_LEFT_JOIN_lists_boards_card_labels db = [] <-> cards db = [].
Proof.
  unfold FROM_cards_LEFT_JOIN_lists_boards_card_labels.
  etransitivity; [apply LEFT_JOIN_nil|].
  etransitivity; [apply LEFT_JOIN_nil|].
  apply LEFT_JOIN_nil.
Qed.

(** [Search] as one query, for a search term within the limit: the rows of
    the join that pass [Search_where], their cards without repetition, newest
    first, in a slice that is not nil. *)
Lemma Search_unfold (db : DB) (params : SearchCardsRequest) :
  searchTerm_within_limit params ->
  CardRepository.Search db params
  = (mk_slice
       (ORDER_BY (fun a b => Card_CreatedAt b <=? Card_CreatedAt a)
          (DISTINCT Card_eqb
             (map joined_c
                (filter (Search_where params)
                   (FROM_cards_LEFT_JOIN_lists_boards_card_labels db))))),
     None).
Proof.
  intros Hfit. unfold CardRepository.Search, SELECT_DISTINCT_cards_WHERE. cbv zeta.
  erewrite WHERE_filter; [rewrite collect_normalised; reflexivity|].
  intros r _. unfold Search_where.
  destruct (String.eqb (Query params) "") eqn:Eq.
  - destruct (BoardID params =? 0), (ListID params =? 0), (Archived params),
      (LabelID params =? 0);
      cbn [negb app AND]; unfold total; cbv beta iota;
      repeat match goal with
             | |- context [if ?b then _ else _] => destruct b
             end; reflexivity.
  - destruct Hfit as [Hq | Hfit]; [rewrite Hq in Eq; discriminate|].
    destruct (BoardID params =? 0), (ListID params =? 0), (Archived params),
      (LabelID params =? 0);
      cbn [negb app AND]; unfold total, cond_title_or_description_LIKE;
      rewrite !(LIKE_within_limit _ _ Hfit); cbv beta iota;
      repeat match goal with
             | |- context [if ?b then _ else _] => destruct b
             end; reflexivity.
Qed.

(** [Search] beyond the limit, the text filter alone: the query fails as
    soon as a card is stored. *)
Lemma Search_beyond_limit (db : DB) (params : SearchCardsRequest) :
  SQLITE_MAX_LIKE_PATTERN_LENGTH
  < sqlite3_value_bytes ("%" ++ Query params ++ "%")%string ->
  text_filter_only params ->
  (cards db = [] -> CardRepository.Search db params = (mk_slice [], None))
  /\ (cards db <> [] ->
      CardRepository.Search db params
      = (nil_slice,
         Some "failed to search cards: LIKE or GLOB pattern too complex")).
Proof.
  intros Hlong (Hb & Hl & Ha & Hlab).
  assert (Eq : String.eqb (Query params) "" = false).
  { destruct (String.eqb (Query params) "") eqn:E; [| reflexivity].
    apply String.eqb_eq in E. rewrite E in Hlong. vm_compute in Hlong. discriminate. }
  unfold CardRepository.Search, SELECT_DISTINCT_cards_WHERE. cbv zeta.
  rewrite Eq, Hb, Hl, Ha, Hlab. cbn [negb Z.eqb app].
  split; intros Hc.
  - apply joined_nil in Hc. rewrite Hc. reflexivity.
  - rewrite (WHERE_fails _ _ _ "LIKE or GLOB pattern too complex").
    + reflexivity.
    + intros r. unfold cond_title_or_description_LIKE.
      now rewrite (LIKE_beyond_limit _ _ Hlong).
    + intros H. now apply joined_nil in H.
Qed.

(** The rows of the join, read off the three LEFT JOINs. *)
Lemma joined_In (db : DB) (r : joined) :
  In r (FROM_cards_LEFT_JOIN_lists_boards_card_labels db)
  <-> In (joined_c r) (cards db)
      /\ match joined_l r with
         | Some l => In l (lists db) /\ Card_ListID (joined_c r) = List_ID l
         | None => forall l, In l (lists db) -> Card_ListID (joined_c r) <> List_ID l
         end
      /\ match joined_b r with
         | Some b => In b (boards db)
                     /\ exists l, joined_l r = Some l /\ List_BoardID l = Board_ID b
         | None => forall b, In b (boards db) ->
                             forall l, joined_l r = Some l -> List_BoardID l <> Board_ID b
         end
      /\ match joined_cl r with
         | Some cl => In cl (card_labels db) /\ Card_ID (joined_c r) = fst cl
         | None => forall cl, In cl (card_labels db) -> Card_ID (joined_c r) <> fst cl
         end.
Proof.
  destruct r as [[[c ol] ob] ocl].
  unfold FROM_cards_LEFT_JOIN_lists_boards_card_labels, joined_c, joined_l, joined_b,
    joined_cl. cbn [fst snd].
  setoid_rewrite (LEFT_JOIN_In _ _ _ _ _ (c, ol, ob) ocl).
  setoid_rewrite (LEFT_JOIN_In _ _ _ _ _ (c, ol) ob).
  setoid_rewrite (LEFT_JOIN_In _ _ _ _ _ c ol). cbn [fst snd].
  assert (H1 : match ol with
               | Some b => In b (lists db) /\ (Card_ListID c =? List_ID b) = true
               | None => forall b, In b (lists db) -> (Card_ListID c =? List_ID b) = false
               end
               <-> match ol with
                   | Some l => In l (lists db) /\ Card_ListID c = List_ID l
                   | None => forall l, In l (lists db) -> Card_ListID c <> List_ID l
                   end).
  { destruct ol as [l |].
    - now rewrite Z.eqb_eq.
    - split; intros H l Hl; specialize (H l Hl); now apply Z.eqb_neq. }
  assert (H2 : match ob with
               | Some b => In b (boards db)
                           /\ match ol with
                              | Some l => List_BoardID l =? Board_ID b
                              | None => false
                              end = true
               | None => forall b, In b (boards db) ->
                                   match ol with
                                   | Some l => List_BoardID l =? Board_ID b
                                   | None => false
                                   end = false
               end
               <-> match ob with
                   | Some b => In b (boards db)
                               /\ exists l, ol = Some l /\ List_BoardID l = Board_ID b
                   | None => forall b, In b (boards db) ->
                                       forall l, ol = Some l -> List_BoardID l <> Board_ID b
                   end).
  { destruct ob as [b |].
    - split; intros [Hb H]; (split; [exact Hb|]).
      + destruct ol as [l |]; [| discriminate]. exists l. now rewrite <- Z.eqb_eq.
      + destruct H as (l & -> & H). now apply Z.eqb_eq.
    - split.
      + intros H b Hb l ->. specialize (H b Hb). now apply Z.eqb_neq.
      + intros H b Hb. destruct ol as [l |]; [| reflexivity].
        apply Z.eqb_neq. now apply (H b Hb l). }
  assert (H3 : match ocl with
               | Some b => In b (card_labels db) /\ (Card_ID c =? fst b) = true
               | None => forall b, In b (card_labels db) -> (Card_ID c =? fst b) = false
               end
               <-> match ocl with
                   | Some cl => In cl (card_labels db) /\ Card_ID c = fst cl
                   | None => forall cl, In cl (card_labels db) -> Card_ID c <> fst cl
                   end).
  { destruct ocl as [cl |].
    - now rewrite Z.eqb_eq.
    - split; intros H cl Hcl; specialize (H cl Hcl); now apply Z.eqb_neq. }
  rewrite H1, H2, H3. tauto.
Qed.

Lemma if_true_or (b c : bool) : (if b then true else c) = true <-> b = true \/ c = true.
Proof. destruct b, c; split; auto; intros [H | H]; discriminate. Qed.

(** The text filter on a card, for a search term within the limit. *)
Lemma Search_text_filter (params : SearchCardsRequest) (c : Card) :
  searchTerm_within_limit params ->
  (if String.eqb (Query params) "" then true
   else like (list_ascii_of_string ("%" ++ Query params ++ "%")%string)
             (list_ascii_of_string (Card_Title c))
        || like (list_ascii_of_string ("%" ++ Query params ++ "%")%string)
                (list_ascii_of_string (Card_Description c))) = true
  <-> (Query params = ""
       \/ LIKE (Card_Title c) ("%" ++ Query params ++ "%")%string = Ok true
       \/ LIKE (Card_Description c) ("%" ++ Query params ++ "%")%string = Ok true).
Proof.
  intros Hfit. rewrite if_true_or, String.eqb_eq, orb_true_iff, !LIKE_Ok_true.
  unfold searchTerm_within_limit in Hfit. tauto.
Qed.

(** A card is selected exactly when it is stored and passes the filters. *)
Lemma Search_selected (db : DB) (params : SearchCardsRequest) (c : Card) :
  searchTerm_within_limit params ->
  In c (map joined_c (filter (Search_where params)
                        (FROM_cards_LEFT_JOIN_lists_boards_card_labels db)))
  <-> In c (cards db) /\ Search_matches db params c.
Proof.
  intros Hfit. rewrite in_map_iff. split.
  - intros (r & <- & Hr). apply filter_In in Hr. destruct Hr as [Hin Hw].
    apply joined_In in Hin. destruct Hin as (Hc & Hl & Hb & Hcl).
    split; [exact Hc|].
    unfold Search_where in Hw.
    apply andb_prop in Hw. destruct Hw as [Hw Hlab].
    apply andb_prop in Hw. destruct Hw as [Hw Harc].
    apply andb_prop in Hw. destruct Hw as [Hw Hlis].
    apply andb_prop in Hw. destruct Hw as [Htxt Hboa].
    unfold Search_matches. repeat split.
    + now apply (Search_text_filter params (joined_c r) Hfit).
    + apply if_true_or in Hboa. destruct Hboa as [H | H].
      * left. now apply Z.eqb_eq.
      * right. unfold cond_b_id in H.
        destruct (joined_b r) as [b |]; [| discriminate].
        apply Z.eqb_eq in H. destruct Hb as (Hb & l & Hjl & Hlb).
        rewrite Hjl in Hl. destruct Hl as [Hl Hcl'].
        exists l, b. repeat split; auto; congruence.
    + apply if_true_or in Hlis. destruct Hlis as [H | H].
      * left. now apply Z.eqb_eq.
      * right. now apply Z.eqb_eq.
    + destruct (Archived params) as [a |]; [| now left].
      right. unfold cond_c_archived in Harc. apply Bool.eqb_prop in Harc. congruence.
    + apply if_true_or in Hlab. destruct Hlab as [H | H].
      * left. now apply Z.eqb_eq.
      * right. unfold cond_cl_label_id in H.
        destruct (joined_cl r) as [[cid lid] |]; [| discriminate].
        cbn [fst snd] in *. apply Z.eqb_eq in H. destruct Hcl as [Hcl Hid].
        now subst.
  - intros (Hc & Htext & Hboard & Hlist & Harch & Hlabel).
    set (on1 := fun (c : Card) (l : List) => Card_ListID c =? List_ID l).
    set (on2 := fun (r : Card * option List) (b : Board) =>
                  match snd r with
                  | Some l => List_BoardID l =? Board_ID b
                  | None => false
                  end).
    set (on3 := fun (r : Card * option List * option Board) (cl : Z * Z) =>
                  Card_ID (fst (fst r)) =? fst cl).
    assert (H2 : exists ol ob,
               In (c, ol, ob)
                  (LEFT_JOIN on2 (LEFT_JOIN on1 (cards db) (lists db)) (boards db))
               /\ (BoardID params = 0
                   \/ exists b, ob = Some b /\ Board_ID b = BoardID params)).
    { destruct Hboard as [H0 | (l & b & Hl & Hid & Hb & Hbl & Hbid)].
      - destruct (LEFT_JOIN_keeps _ _ on1 (cards db) (lists db) c Hc) as [ol H1].
        destruct (LEFT_JOIN_keeps _ _ on2 _ (boards db) (c, ol) H1) as [ob H2].
        exists ol, ob. auto.
      - exists (Some l), (Some b). split; [| right; eauto].
        apply LEFT_JOIN_In. split.
        + apply LEFT_JOIN_In. split; [exact Hc|]. split; [exact Hl|].
          unfold on1. apply Z.eqb_eq. congruence.
        + split; [exact Hb|]. unfold on2. cbn [snd]. apply Z.eqb_eq. congruence. }
    destruct H2 as (ol & ob & H2 & Hob).
    assert (H3 : exists ocl,
               In (c, ol, ob, ocl)
                  (LEFT_JOIN on3
                     (LEFT_JOIN on2 (LEFT_JOIN on1 (cards db) (lists db)) (boards db))
                     (card_labels db))
               /\ (LabelID params = 0
                   \/ exists cl, ocl = Some cl /\ snd cl = LabelID params)).
    { destruct Hlabel as [H0 | Hin].
      - destruct (LEFT_JOIN_keeps _ _ on3 _ (card_labels db) (c, ol, ob) H2) as [ocl H3].
        exists ocl. auto.
      - exists (Some (Card_ID c, LabelID params)). split; [| right; eauto].
        apply LEFT_JOIN_In. split; [exact H2|]. split; [exact Hin|].
        unfold on3. cbn [fst]. apply Z.eqb_refl. }
    destruct H3 as (ocl & H3 & Hocl).
    exists (c, ol, ob, ocl). split; [reflexivity|].
    apply filter_In. split; [exact H3|].
    unfold Search_where, cond_b_id, cond_c_list_id,
      cond_c_archived, cond_cl_label_id, joined_c, joined_b, joined_cl.
    cbn [fst snd].
    repeat (apply andb_true_intro; split).
    + now apply (Search_text_filter params c Hfit).
    + apply if_true_or. destruct Hob as [H | (b & -> & H)].
      * left. now apply Z.eqb_eq.
      * right. now apply Z.eqb_eq.
    + apply if_true_or. destruct Hlist as [H | H]; [left | right]; now apply Z.eqb_eq.
    + destruct Harch as [-> | ->]; [reflexivity|]. apply Bool.eqb_reflx.
    + apply if_true_or. destruct Hocl as [H | (cl & -> & H)].
      * left. now apply Z.eqb_eq.
      * right. now apply Z.eqb_eq.
Qed.

(* ----------------------------------------------------------------- *)
(** *** LIKE and substrings *)






Lemma StronglySorted_impl (A : Type) (R S : A -> A -> Prop) (l : list A) :
  (forall a b, R a b -> S a b) -> StronglySorted R l -> StronglySorted S l.
Proof.
  intros H. induction 1 as [| a l Hl IH Ha]; constructor; [exact IH|].
  eapply Forall_impl; [| exact Ha]. intros b. apply H.
Qed.



(** The cards of list 1 that are not archived, newest first. *)
Example Search_scenario :
  CardRepository.Search db_cards (search_params "" 1 1 (Some false) 0)
  = (mk_slice [mk_card 2 1 "Task B" 2%float 30; mk_card 1 1 "abc" 1%float 20], None).
Proof. vm_compute. reflexivity. Qed.


(* ----------------------------------------------------------------- *)
(** *** Which listings normalise the nil slice *)

(** [GetByListID], [Search] when it succeeds, [LabelRepository.GetAll] and
    [GetCardLabels] never return a nil slice. *)
Lemma normalised_listings_never_nil (db : DB) :
  (forall listID includeArchived,
      is_nil (fst (CardRepository.GetByListID db listID includeArchived)) = false)
  /\ (forall params,
         snd (CardRepository.Search db params) = None ->
         is_nil (fst (CardRepository.Search db params)) = false)
  /\ is_nil (fst (LabelRepository.GetAll db)) = false
  /\ (forall cardID, is_nil (fst (LabelRepository.GetCardLabels db cardID)) = false).
Proof.
  unfold CardRepository.GetByListID, LabelRepository.GetAll, LabelRepository.GetCardLabels.
  cbv zeta. repeat split; intros; try rewrite collect_normalised; try reflexivity.
  revert H. unfold CardRepository.Search. cbv zeta.
  match goal with
  | |- context [SELECT_DISTINCT_cards_WHERE db ?conditions] =>
      destruct (SELECT_DISTINCT_cards_WHERE db conditions)
  end; [| discriminate].
  intros _. now rewrite collect_normalised.
Qed.

(** [ListRepository.GetByBoardID], [CardRepository.GetComments] and
    [BoardRepository.GetAll] return the nil slice when no row matches. *)
Lemma unnormalised_listings_nil (db : DB) :
  (forall boardID,
      (forall l, In l (lists db) -> List_BoardID l <> boardID) ->
      ListRepository.GetByBoardID db boardID = (nil_slice, None))
  /\ (forall cardID,
         (forall m, In m (comments db) -> Comment_CardID m <> cardID) ->
         CardRepository.GetComments db cardID = (nil_slice, None))
  /\ (boards db = [] -> BoardRepository.GetAll db = (nil_slice, None)).
Proof.
  repeat split.
  - intros boardID H. unfold ListRepository.GetByBoardID,
      SELECT_lists_WHERE_board_id_ORDER_BY_position.
    replace (filter (fun l => List_BoardID l =? boardID) (lists db)) with (@nil List);
      [reflexivity|].
    symmetry. apply filter_nil_iff. intros l Hl. apply Z.eqb_neq. now apply H.
  - intros cardID H. unfold CardRepository.GetComments, SELECT_comments_WHERE_card_id.
    replace (filter (fun m => Comment_CardID m =? cardID) (comments db)) with (@nil Comment);
      [reflexivity|].
    symmetry. apply filter_nil_iff. intros m Hm. apply Z.eqb_neq. now apply H.
  - intros H. unfold BoardRepository.GetAll, SELECT_boards_ORDER_BY_created_at_DESC.
    rewrite H. reflexivity.
Qed.

(** C6, at the inputs where it fails. The lists of a board without lists,
    the comments of a card without comments and the boards of an empty store
    come back as the nil slice, which the handlers send as JSON [null]; the
    sibling listings, which normalise the slice, send the empty array. *)
Theorem listings_returning_null :
  (ListRepository.GetByBoardID db_empty_board 1 = (nil_slice, None)
   /\ ListHandler.GetByBoardID db_empty_board 1 = JSON StatusOK nil_slice
   /\ Marshal (fst (ListRepository.GetByBoardID db_empty_board 1)) = json_null)
  /\ (CardRepository.GetComments db_cards 1 = (nil_slice, None)
      /\ CardHandler.GetComments db_cards 1 = JSON StatusOK nil_slice
      /\ Marshal (fst (CardRepository.GetComments db_cards 1)) = json_null)
  /\ (BoardRepository.GetAll db_no_boards = (nil_slice, None)
      /\ BoardHandler.GetAll db_no_boards = JSON StatusOK nil_slice
      /\ Marshal (fst (BoardRepository.GetAll db_no_boards)) = json_null)
  /\ (CardRepository.GetByListID db_cards 2 false = (mk_slice [], None)
      /\ Marshal (fst (CardRepository.GetByListID db_cards 2 false)) = json_list []
      /\ CardRepository.Search db_cards (search_params "zzz" 0 0 None 0)
         = (mk_slice [], None)
      /\ LabelRepository.GetAll db_empty_board = (mk_slice [], None)).
Proof. repeat split. Qed.

(* ================================================================= *)
(** ** The NOT NULL constraint is an invariant

    No operation modelled here stores a NaN position: a NaN is bound as NULL
    and refused by the column constraint, and the statement that fails writes
    nothing. *)

Lemma bind_REAL_Some (x y : float64) : bind_REAL x = Some y -> is_nan x = false.
Proof. unfold bind_REAL. now destruct (is_nan x). Qed.

Lemma ListRepository_Create_NOT_NULL (db : DB) (clk : clock) (list : List) :
  positions_NOT_NULL db ->
  positions_NOT_NULL (fst (fst (ListRepository.Create db clk list))).
Proof.
  intros [Hl Hc]. unfold ListRepository.Create, INSERT_INTO_lists. cbv zeta.
  match goal with |- context [bind_REAL ?x] => destruct (bind_REAL x) eqn:E end;
    [| now split].
  match goal with |- context [existsb ?f ?l] => destruct (existsb f l) end;
    [| now split].
  apply bind_REAL_Some in E. cbn [fst]. split; cbn [lists cards DB_with_lists]; [| exact Hc].
  intros l Hin. apply in_app_or in Hin. destruct Hin as [Hin | [<- | []]]; [now apply Hl|].
  exact E.
Qed.

Lemma CardRepository_Create_NOT_NULL (db : DB) (clk : clock) (card : Card) :
  positions_NOT_NULL db ->
  positions_NOT_NULL (fst (fst (CardRepository.Create db clk card))).
Proof.
  intros [Hl Hc]. unfold CardRepository.Create, INSERT_INTO_cards. cbv zeta.
  match goal with |- context [bind_REAL ?x] => destruct (bind_REAL x) eqn:E end;
    [| now split].
  match goal with |- context [existsb ?f ?l] => destruct (existsb f l) end;
    [| now split].
  apply bind_REAL_Some in E. cbn [fst]. split; cbn [lists cards DB_with_cards]; [exact Hl|].
  intros c Hin. apply in_app_or in Hin. destruct Hin as [Hin | [<- | []]]; [now apply Hc|].
  exact E.
Qed.

Lemma UpdatePosition_NOT_NULL (db : DB) (clk : clock) (id : Z) (p : float64) :
  positions_NOT_NULL db ->
  positions_NOT_NULL (fst (ListRepository.UpdatePosition db clk id p)).
Proof.
  intros [Hl Hc]. unfold ListRepository.UpdatePosition, UPDATE_lists_SET_position.
  destruct (filter (fun l => List_ID l =? id) (lists db)) as [| a rest]; [now split|].
  destruct (bind_REAL p) eqn:E; [| now split].
  apply bind_REAL_Some in E. rewrite length_cons_neq_0. cbn [fst].
  split; cbn [lists cards DB_with_lists]; [| exact Hc].
  unfold update_lists_timestamp. intros l Hin.
  apply in_map_iff in Hin. destruct Hin as (l1 & <- & Hin).
  apply in_map_iff in Hin. destruct Hin as (l0 & <- & Hin).
  destruct (List_ID l0 =? id); cbn.
  - destruct (List_ID l0 =? id); cbn; exact E.
  - destruct (List_ID l0 =? id); cbn; now apply Hl.
Qed.

Lemma CardRepository_Move_NOT_NULL (db : DB) (clk : clock) (cardID newListID : Z)
  (p : float64) :
  positions_NOT_NULL db ->
  positions_NOT_NULL (fst (CardRepository.Move db clk cardID newListID p)).
Proof.
  intros [Hl Hc]. unfold CardRepository.Move, UPDATE_cards_SET_list_id_position.
  destruct (filter (fun c => Card_ID c =? cardID) (cards db)) as [| a rest]; [now split|].
  destruct (bind_REAL p) eqn:E; [| now split].
  destruct (existsb _ (lists db)); [| now split].
  apply bind_REAL_Some in E. rewrite length_cons_neq_0. cbn [fst].
  split; cbn [lists cards DB_with_cards]; [exact Hl|].
  unfold update_cards_timestamp. intros c Hin.
  apply in_map_iff in Hin. destruct Hin as (c1 & <- & Hin).
  apply in_map_iff in Hin. destruct Hin as (c0 & <- & Hin).
  destruct (Card_ID c0 =? cardID); cbn.
  - destruct (Card_ID c0 =? cardID); cbn; exact E.
  - destruct (Card_ID c0 =? cardID); cbn; now apply Hc.
Qed.

Lemma CardRepository_Archive_NOT_NULL (db : DB) (clk : clock) (id : Z) (archive : bool) :
  positions_NOT_NULL db ->
  positions_NOT_NULL (fst (CardRepository.Archive db clk id archive)).
Proof.
  intros [Hl Hc]. unfold CardRepository.Archive, UPDATE_cards_SET_archived.
  destruct (filter (fun c => Card_ID c =? id) (cards db)) as [| a rest]; [now split|].
  rewrite length_cons_neq_0. cbn [fst].
  split; cbn [lists cards DB_with_cards]; [exact Hl|].
  unfold update_cards_timestamp. intros c Hin.
  apply in_map_iff in Hin. destruct Hin as (c1 & <- & Hin).
  apply in_map_iff in Hin. destruct Hin as (c0 & <- & Hin).
  destruct (Card_ID c0 =? id); cbn;
    destruct (Card_ID c0 =? id); cbn; now apply Hc.
Qed.

(** Every handler that writes keeps the stored positions free of NaN. *)
Lemma handlers_keep_positions_NOT_NULL (db : DB) (clk : clock) :
  positions_NOT_NULL db ->
  (forall boardID body, positions_NOT_NULL (fst (ListHandler.Create db clk boardID body)))
  /\ (forall id body, positions_NOT_NULL (fst (ListHandler.Move db clk id body)))
  /\ (forall listID body, positions_NOT_NULL (fst (CardHandler.Create db clk listID body)))
  /\ (forall id body, positions_NOT_NULL (fst (CardHandler.Move db clk id body)))
  /\ (forall id, positions_NOT_NULL (fst (CardHandler.Archive db clk id)))
  /\ (forall id, positions_NOT_NULL (fst (CardHandler.Unarchive db clk id)))
  /\ (forall cardID labelID,
         positions_NOT_NULL (fst (LabelHandler.AssignToCard db cardID labelID))).
Proof.
  intros H. split; [| split; [| split; [| split; [| split; [| split]]]]].
  - intros boardID body. unfold ListHandler.Create.
    destruct (BoardRepository.GetByID db boardID) as [b | msg];
      [| destruct (String.eqb msg "board not found"); exact H].
    destruct (ShouldBindJSON_CreateListRequest body) as [req |]; [| exact H].
    match goal with
    | |- context [ListRepository.Create db clk ?l] =>
        pose proof (ListRepository_Create_NOT_NULL db clk l H) as H';
        destruct (ListRepository.Create db clk l) as [[db1 l1] [err |]]; exact H'
    end.
  - intros id body. unfold ListHandler.Move.
    destruct (ShouldBindJSON_MoveListRequest body) as [req |]; [| exact H].
    destruct (ListRepository.GetByID db id) as [l | msg];
      [| destruct (String.eqb msg "list not found"); exact H].
    destruct (ListRepository.GetAdjacentPositions db (List_BoardID l)
                (MoveListRequest_Position req)) as [[prev next] [err |]]; [exact H|].
    pose proof (UpdatePosition_NOT_NULL db clk id (ListHandler.newPosition prev next) H) as H'.
    destruct (ListRepository.UpdatePosition db clk id (ListHandler.newPosition prev next))
      as [db1 [err |]]; exact H'.
  - intros listID body. unfold CardHandler.Create.
    destruct (ListRepository.GetByID db listID) as [l | msg];
      [| destruct (String.eqb msg "list not found"); exact H].
    destruct (ShouldBindJSON_CreateCardRequest body) as [req |]; [| exact H].
    match goal with
    | |- context [CardRepository.Create db clk ?c] =>
        pose proof (CardRepository_Create_NOT_NULL db clk c H) as H';
        destruct (CardRepository.Create db clk c) as [[db1 c1] [err |]]; exact H'
    end.
  - intros id body. unfold CardHandler.Move.
    destruct (ShouldBindJSON_MoveCardRequest body) as [req |]; [| exact H].
    destruct (CardRepository.GetByID db id) as [c | msg];
      [| destruct (String.eqb msg "card not found"); exact H].
    destruct (ListRepository.GetByID db (MoveCardRequest_ListID req)) as [l | msg];
      [| destruct (String.eqb msg "list not found"); exact H].
    pose proof (CardRepository_Move_NOT_NULL db clk id (MoveCardRequest_ListID req)
                  (MoveCardRequest_Position req) H) as H'.
    destruct (CardRepository.Move db clk id (MoveCardRequest_ListID req)
                (MoveCardRequest_Position req)) as [db1 [err |]]; exact H'.
  - intros id. unfold CardHandler.Archive.
    pose proof (CardRepository_Archive_NOT_NULL db clk id true H) as H'.
    destruct (CardRepository.Archive db clk id true) as [db1 [err |]];
      [destruct (String.eqb err "card not found")|]; exact H'.
  - intros id. unfold CardHandler.Unarchive.
    pose proof (CardRepository_Archive_NOT_NULL db clk id false H) as H'.
    destruct (CardRepository.Archive db clk id false) as [db1 [err |]];
      [destruct (String.eqb err "card not found")|]; exact H'.
  - intros cardID labelID. unfold LabelHandler.AssignToCard.
    destruct (CardRepository.GetByID db cardID) as [c | msg];
      [| destruct (String.eqb msg "card not found"); exact H].
    destruct (LabelRepository.GetByID db labelID) as [l | msg];
      [| destruct (String.eqb msg "label not found"); exact H].
    assert (H' : positions_NOT_NULL (fst (LabelRepository.AssignToCard db cardID labelID))).
    { unfold LabelRepository.AssignToCard, INSERT_INTO_card_labels.
      destruct (SELECT_EXISTS_card_labels db cardID labelID); [exact H|].
      destruct (existsb _ (cards db) && existsb _ (labels db)); exact H. }
    destruct (LabelRepository.AssignToCard db cardID labelID) as [db1 [err |]]; exact H'.
Qed.

(* ================================================================= *)
(** * Properties of the remaining operations *)

(* ================================================================= *)
(** ** Deleting: what goes, what stays *)

Lemma existsb_ext_in (A : Type) (f g : A -> bool) (l : list A) :
  (forall x, In x l -> f x = g x) -> existsb f l = existsb g l.
Proof.
  induction l as [| a l IH]; cbn [existsb]; intros H; [reflexivity|].
  rewrite (H a (or_introl eq_refl)), IH; [reflexivity|].
  intros x Hx. apply H. now right.
Qed.

(** A row with key [i] is among the rows exactly when the lookup finds one. *)
Lemma find_key_None (A : Type) (key : A -> Z) (i : Z) (l : list A) :
  find (fun a => key a =? i) l = None <-> (forall a, In a l -> key a <> i).
Proof.
  split.
  - intros H a Hin Hk. apply find_none with (x := a) in H; [| exact Hin].
    cbn in H. apply Z.eqb_neq in H. contradiction.
  - intros H. destruct (find (fun a => key a =? i) l) as [a |] eqn:E; [| reflexivity].
    apply find_some in E. destruct E as [Hin Hk]. apply Z.eqb_eq in Hk.
    now destruct (H a Hin).
Qed.

Lemma find_key_Some (A : Type) (key : A -> Z) (i : Z) (l : list A) :
  (exists a, In a l /\ key a = i) -> exists a, find (fun a => key a =? i) l = Some a.
Proof.
  intros (a & Hin & Hk).
  destruct (find (fun a => key a =? i) l) as [b |] eqn:E; [eauto|].
  rewrite find_key_None in E. now destruct (E a Hin).
Qed.

Lemma filter_key_cons (A : Type) (key : A -> Z) (i : Z) (l : list A) :
  (exists a, In a l /\ key a = i) ->
  exists a rest, filter (fun a => key a =? i) l = a :: rest.
Proof.
  intros H. destruct (find_key_Some A key i l H) as [a Ha].
  destruct (find_filter_cons A _ _ _ Ha) as [rest Hr]. eauto.
Qed.

Lemma filter_key_nil (A : Type) (key : A -> Z) (i : Z) (l : list A) :
  (forall a, In a l -> key a <> i) -> filter (fun a => key a =? i) l = [].
Proof.
  intros H. apply find_none_filter. now apply find_key_None.
Qed.

(** After [DELETE ... WHERE key = i] no row is found under [i]. *)
Lemma find_after_delete (A : Type) (key : A -> Z) (i : Z) (l : list A) :
  find (fun a => key a =? i) (filter (fun a => negb (key a =? i)) l) = None.
Proof.
  apply find_key_None. intros a Hin. apply filter_In in Hin. destruct Hin as [_ H].
  apply negb_true_iff, Z.eqb_neq in H. exact H.
Qed.

(** The rows a cascade reaches when the parent deleted is the one with key
    [i]: those that reference [i]. *)
Lemma cascade_from_key (A : Type) (key : A -> Z) (i k : Z) (l : list A) :
  (exists a, In a l /\ key a = i) ->
  existsb (fun a => (key a =? i) && (key a =? k)) l = (k =? i).
Proof.
  intros (a & Hin & Hk). destruct (k =? i) eqn:E.
  - apply Z.eqb_eq in E. subst k. apply existsb_exists. exists a.
    split; [exact Hin|]. subst i. now rewrite Z.eqb_refl.
  - apply not_true_is_false. intros H. apply existsb_exists in H.
    destruct H as (b & _ & Hb). apply andb_prop in Hb. destruct Hb as [H1 H2].
    apply Z.eqb_eq in H1, H2. apply Z.eqb_neq in E. congruence.
Qed.

Lemma CardRepository_Delete_stored (db : DB) (id : Z) :
  (exists c, In c (cards db) /\ Card_ID c = id) ->
  CardRepository.Delete db id
  = ({| boards := boards db; lists := lists db;
        cards := filter (fun c => negb (Card_ID c =? id)) (cards db);
        comments := filter (fun m => negb (Comment_CardID m =? id)) (comments db);
        labels := labels db;
        card_labels := filter (fun cl => negb (fst cl =? id)) (card_labels db);
        seq_lists := seq_lists db; seq_cards := seq_cards db |}, None).
Proof.
  intros H. unfold CardRepository.Delete, DELETE_FROM_cards_WHERE_id.
  destruct (filter_key_cons _ Card_ID id (cards db) H) as (a & rest & ->).
  rewrite length_cons_neq_0. unfold DELETE_cards_CASCADE. f_equal. f_equal.
  - apply filter_ext_in. intros m _. now rewrite (cascade_from_key _ Card_ID id _ _ H).
  - apply filter_ext_in. intros cl _. now rewrite (cascade_from_key _ Card_ID id _ _ H).
Qed.

Lemma CardRepository_Delete_not_found (db : DB) (id : Z) :
  (forall c, In c (cards db) -> Card_ID c <> id) ->
  CardRepository.Delete db id = (db, Some "card not found").
Proof.
  intros H. unfold CardRepository.Delete, DELETE_FROM_cards_WHERE_id.
  now rewrite (filter_key_nil _ Card_ID id (cards db) H).
Qed.

(** X1. Deleting a stored card answers 200 and removes that card together
    with its comments and its label associations, and nothing else: the
    other cards, comments and associations stay in place, boards, lists and
    labels are untouched, and the card is not found afterwards.  Deleting a
    card that is not stored answers 404 and leaves the state as it was. *)
Theorem CardHandler_Delete_removes_card_and_dependents (db : DB) (id : Z) :
  ((exists c, In c (cards db) /\ Card_ID c = id) ->
   exists db',
     CardHandler.Delete db id
     = (db', JSON_H StatusOK [("message", "Card deleted successfully")])
     /\ cards db' = filter (fun c => negb (Card_ID c =? id)) (cards db)
     /\ comments db' = filter (fun m => negb (Comment_CardID m =? id)) (comments db)
     /\ card_labels db' = filter (fun cl => negb (fst cl =? id)) (card_labels db)
     /\ boards db' = boards db /\ lists db' = lists db /\ labels db' = labels db
     /\ CardHandler.GetByID db' id = HandleError StatusNotFound "Card not found")
  /\ ((forall c, In c (cards db) -> Card_ID c <> id) ->
      CardHandler.Delete db id = (db, HandleError StatusNotFound "Card not found")).
Proof.
  split; intros H.
  - eexists. unfold CardHandler.Delete. rewrite (CardRepository_Delete_stored db id H).
    split; [reflexivity|]. cbn [cards comments card_labels boards lists labels].
    repeat (split; [reflexivity|]).
    unfold CardHandler.GetByID, CardRepository.GetByID, SELECT_cards_WHERE_id.
    cbn [cards]. now rewrite find_after_delete.
  - unfold CardHandler.Delete. now rewrite (CardRepository_Delete_not_found db id H).
Qed.

Lemma CardHandler_Delete_removes_card_and_dependents_witness :
  (exists c, In c (cards db_busy) /\ Card_ID c = 1)
  /\ exists db',
      CardHandler.Delete db_busy 1
      = (db', JSON_H StatusOK [("message", "Card deleted successfully")])
      /\ cards db' = filter (fun c => negb (Card_ID c =? 1)) (cards db_busy)
      /\ comments db' = filter (fun m => negb (Comment_CardID m =? 1)) (comments db_busy)
      /\ card_labels db' = filter (fun cl => negb (fst cl =? 1)) (card_labels db_busy)
      /\ boards db' = boards db_busy /\ lists db' = lists db_busy
      /\ labels db' = labels db_busy
      /\ CardHandler.GetByID db' 1 = HandleError StatusNotFound "Card not found".
Proof.
  assert (H : exists c, In c (cards db_busy) /\ Card_ID c = 1)
    by (eexists; split; [left; reflexivity | reflexivity]).
  split; [exact H|].
  exact (proj1 (CardHandler_Delete_removes_card_and_dependents db_busy 1) H).
Defined.

Lemma ListRepository_Delete_stored (db : DB) (id : Z) :
  (exists l, In l (lists db) /\ List_ID l = id) ->
  ListRepository.Delete db id
  = ({| boards := boards db;
        lists := filter (fun l => negb (List_ID l =? id)) (lists db);
        cards := filter (fun c => negb (Card_ListID c =? id)) (cards db);
        comments := filter (fun m => negb (card_of_list db id (Comment_CardID m)))
                           (comments db);
        labels := labels db;
        card_labels := filter (fun cl => negb (card_of_list db id (fst cl)))
                              (card_labels db);
        seq_lists := seq_lists db; seq_cards := seq_cards db |}, None).
Proof.
  intros H. unfold ListRepository.Delete, DELETE_FROM_lists_WHERE_id.
  destruct (filter_key_cons _ List_ID id (lists db) H) as (a & rest & ->).
  rewrite length_cons_neq_0.
  unfold DELETE_lists_CASCADE, DELETE_cards_CASCADE, DB_with_lists, card_of_list.
  cbn [boards lists cards comments labels card_labels seq_lists seq_cards].
  f_equal. f_equal.
  - apply filter_ext_in. intros c _. now rewrite (cascade_from_key _ List_ID id _ _ H).
  - apply filter_ext_in. intros m _. f_equal. apply existsb_ext_in. intros c _.
    now rewrite (cascade_from_key _ List_ID id _ _ H).
  - apply filter_ext_in. intros cl _. f_equal. apply existsb_ext_in. intros c _.
    now rewrite (cascade_from_key _ List_ID id _ _ H).
Qed.

Lemma ListRepository_Delete_not_found (db : DB) (id : Z) :
  (forall l, In l (lists db) -> List_ID l <> id) ->
  ListRepository.Delete db id = (db, Some "list not found").
Proof.
  intros H. unfold ListRepository.Delete, DELETE_FROM_lists_WHERE_id.
  now rewrite (filter_key_nil _ List_ID id (lists db) H).
Qed.

(** X2. Deleting a stored list answers 200 and removes the list, the cards
    that lie in it, and the comments and label associations of those cards;
    every other list and card, and the comments and associations of the
    cards that stay, remain in place, and boards and labels are untouched.
    The list is not found afterwards.  Deleting a list that is not stored
    answers 404 and leaves the state as it was. *)
Theorem ListHandler_Delete_cascades_to_cards (db : DB) (id : Z) :
  ((exists l, In l (lists db) /\ List_ID l = id) ->
   exists db',
     ListHandler.Delete db id
     = (db', JSON_H StatusOK [("message", "List deleted successfully")])
     /\ lists db' = filter (fun l => negb (List_ID l =? id)) (lists db)
     /\ cards db' = filter (fun c => negb (Card_ListID c =? id)) (cards db)
     /\ comments db'
        = filter (fun m => negb (card_of_list db id (Comment_CardID m))) (comments db)
     /\ card_labels db'
        = filter (fun cl => negb (card_of_list db id (fst cl))) (card_labels db)
     /\ boards db' = boards db /\ labels db' = labels db
     /\ ListHandler.GetByID db' id = HandleError StatusNotFound "List not found"
     /\ (forall c, In c (cards db') -> Card_ListID c <> id))
  /\ ((forall l, In l (lists db) -> List_ID l <> id) ->
      ListHandler.Delete db id = (db, HandleError StatusNotFound "List not found")).
Proof.
  split; intros H.
  - eexists. unfold ListHandler.Delete. rewrite (ListRepository_Delete_stored db id H).
    split; [reflexivity|]. cbn [cards comments card_labels boards lists labels].
    repeat (split; [reflexivity|]). split.
    + unfold ListHandler.GetByID, ListRepository.GetByID, SELECT_lists_WHERE_id.
      cbn [lists]. now rewrite find_after_delete.
    + intros c Hc. apply filter_In in Hc. destruct Hc as [_ Hc].
      now apply negb_true_iff, Z.eqb_neq in Hc.
  - unfold ListHandler.Delete. now rewrite (ListRepository_Delete_not_found db id H).
Qed.

Lemma ListHandler_Delete_cascades_to_cards_witness :
  (exists l, In l (lists db_busy) /\ List_ID l = 1)
  /\ exists db',
      ListHandler.Delete db_busy 1
      = (db', JSON_H StatusOK [("message", "List deleted successfully")])
      /\ lists db' = [mk_list 2 "Done" 5%float]
      /\ cards db' = [mk_card 3 2 "Shipped" 1%float 40]
      /\ comments db' = [mk_comment 4 3 "fourth" 80]
      /\ card_labels db' = [(3, 1)].
Proof.
  assert (H : exists l, In l (lists db_busy) /\ List_ID l = 1)
    by (eexists; split; [left; reflexivity | reflexivity]).
  split; [exact H|].
  destruct (proj1 (ListHandler_Delete_cascades_to_cards db_busy 1) H)
    as (db' & Hrun & Hl & Hc & Hm & Hcl & _).
  exists db'. rewrite Hl, Hc, Hm, Hcl. split; [exact Hrun|]. repeat split.
Defined.

Lemma BoardRepository_Delete_stored (db : DB) (id : Z) :
  (exists b, In b (boards db) /\ Board_ID b = id) ->
  BoardRepository.Delete db id
  = ({| boards := filter (fun b => negb (Board_ID b =? id)) (boards db);
        lists := filter (fun l => negb (List_BoardID l =? id)) (lists db);
        cards := filter (fun c => negb (list_of_board db id (Card_ListID c))) (cards db);
        comments := filter (fun m => negb (card_of_board db id (Comment_CardID m)))
                           (comments db);
        labels := labels db;
        card_labels := filter (fun cl => negb (card_of_board db id (fst cl)))
                              (card_labels db);
        seq_lists := seq_lists db; seq_cards := seq_cards db |}, None).
Proof.
  intros H. unfold BoardRepository.Delete, DELETE_FROM_boards_WHERE_id.
  destruct (filter_key_cons _ Board_ID id (boards db) H) as (a & rest & ->).
  rewrite length_cons_neq_0. reflexivity.
Qed.

Lemma BoardRepository_Delete_not_found (db : DB) (id : Z) :
  (forall b, In b (boards db) -> Board_ID b <> id) ->
  BoardRepository.Delete db id = (db, Some "board not found").
Proof.
  intros H. unfold BoardRepository.Delete, DELETE_FROM_boards_WHERE_id.
  now rewrite (filter_key_nil _ Board_ID id (boards db) H).
Qed.

(** X3. Deleting a stored board answers 200 and removes the board, its
    lists, the cards of those lists and the comments and label associations
    of those cards; the other boards keep their lists, cards, comments and
    associations, and the labels are untouched.  The board is not found
    afterwards and no list refers to it.  Deleting a board that is not
    stored answers 404 and leaves the state as it was. *)
Theorem BoardHandler_Delete_cascades_to_lists_and_cards (db : DB) (id : Z) :
  ((exists b, In b (boards db) /\ Board_ID b = id) ->
   exists db',
     BoardHandler.Delete db id
     = (db', JSON_H StatusOK [("message", "Board deleted successfully")])
     /\ boards db' = filter (fun b => negb (Board_ID b =? id)) (boards db)
     /\ lists db' = filter (fun l => negb (List_BoardID l =? id)) (lists db)
     /\ cards db'
        = filter (fun c => negb (list_of_board db id (Card_ListID c))) (cards db)
     /\ comments db'
        = filter (fun m => negb (card_of_board db id (Comment_CardID m))) (comments db)
     /\ card_labels db'
        = filter (fun cl => negb (card_of_board db id (fst cl))) (card_labels db)
     /\ labels db' = labels db
     /\ BoardHandler.GetByID db' id = HandleError StatusNotFound "Board not found"
     /\ ListRepository.GetByBoardID db' id = (nil_slice, None))
  /\ ((forall b, In b (boards db) -> Board_ID b <> id) ->
      BoardHandler.Delete db id = (db, HandleError StatusNotFound "Board not found")).
Proof.
  split; intros H.
  - eexists. unfold BoardHandler.Delete. rewrite (BoardRepository_Delete_stored db id H).
    split; [reflexivity|]. cbn [cards comments card_labels boards lists labels].
    repeat (split; [reflexivity|]). split.
    + unfold BoardHandler.GetByID, BoardRepository.GetByID, SELECT_boards_WHERE_id.
      cbn [boards]. now rewrite find_after_delete.
    + unfold ListRepository.GetByBoardID, SELECT_lists_WHERE_board_id_ORDER_BY_position.
      cbn [lists].
      replace (filter (fun l => List_BoardID l =? id)
                 (filter (fun l => negb (List_BoardID l =? id)) (lists db)))
        with (@nil List); [reflexivity|].
      symmetry. apply filter_nil_iff. intros l Hl. apply filter_In in Hl.
      destruct Hl as [_ Hl]. now apply negb_true_iff in Hl.
  - unfold BoardHandler.Delete. now rewrite (BoardRepository_Delete_not_found db id H).
Qed.

Lemma BoardHandler_Delete_cascades_to_lists_and_cards_witness :
  (exists b, In b (boards db_busy) /\ Board_ID b = 1)
  /\ exists db',
      BoardHandler.Delete db_busy 1
      = (db', JSON_H StatusOK [("message", "Board deleted successfully")])
      /\ boards db' = [] /\ lists db' = [] /\ cards db' = [] /\ comments db' = []
      /\ card_labels db' = [] /\ labels db' = labels db_busy.
Proof.
  assert (H : exists b, In b (boards db_busy) /\ Board_ID b = 1)
    by (eexists; split; [left; reflexivity | reflexivity]).
  split; [exact H|].
  destruct (proj1 (BoardHandler_Delete_cascades_to_lists_and_cards db_busy 1) H)
    as (db' & Hrun & Hb & Hl & Hc & Hm & Hcl & Hlab & _).
  exists db'. rewrite Hb, Hl, Hc, Hm, Hcl, Hlab. split; [exact Hrun|]. repeat split.
Defined.

(* ================================================================= *)
(** ** The schema's constraints are an invariant of the service *)

Lemma AUTOINCREMENT_above (seq : Z) (ids : list Z) :
  seq < AUTOINCREMENT seq ids /\ forall i, In i ids -> i < AUTOINCREMENT seq ids.
Proof.
  unfold AUTOINCREMENT. split; [lia|].
  induction ids as [| a ids IH]; cbn [fold_right In]; [intros i []|].
  intros i [<- | Hi]; [lia|]. specialize (IH i Hi). lia.
Qed.

Lemma AUTOINCREMENT_fresh (seq : Z) (ids : list Z) : ~ In (AUTOINCREMENT seq ids) ids.
Proof.
  intros H. apply (proj2 (AUTOINCREMENT_above seq ids)) in H. lia.
Qed.

Section Keys.
Variable A : Type.
Variable B : Type.
Variable key : A -> B.

Lemma NoDup_map_filter (p : A -> bool) (l : list A) :
  NoDup (map key l) -> NoDup (map key (filter p l)).
Proof.
  induction l as [| a l IH]; cbn [map filter]; [trivial|].
  intros H. inversion H as [| ? ? Hn Hd]; subst.
  destruct (p a); cbn [map]; [| now apply IH].
  constructor; [| now apply IH].
  intros Hin. apply Hn. apply in_map_iff in Hin. destruct Hin as (x & Hx & Hin).
  apply filter_In in Hin. apply in_map_iff. exists x. tauto.
Qed.

Lemma NoDup_map_snoc (l : list A) (x : A) :
  NoDup (map key l) -> ~ In (key x) (map key l) -> NoDup (map key (l ++ [x])).
Proof.
  intros Hd Hn. rewrite map_app. cbn [map].
  apply NoDup_app; [exact Hd | repeat constructor; intros [] |].
  intros b Hb [<- | []]. contradiction.
Qed.

Lemma In_map_filter (p : A -> bool) (l : list A) (a : A) :
  In a l -> p a = true -> In (key a) (map key (filter p l)).
Proof.
  intros Hin Hp. apply in_map. apply filter_In. tauto.
Qed.
End Keys.

(** [UPDATE ... WHERE id = i] leaves the keys of the table as they were. *)
Lemma map_key_update (A : Type) (key : A -> Z) (g : A -> A) (i : Z) (l : list A) :
  (forall a, key (g a) = key a) ->
  map key (map (fun a => if key a =? i then g a else a) l) = map key l.
Proof.
  intros Hg. rewrite map_map. apply map_ext. intros a.
  destruct (key a =? i); [apply Hg | reflexivity].
Qed.

Lemma existsb_key_In (A : Type) (key : A -> Z) (i : Z) (l : list A) :
  existsb (fun a => key a =? i) l = true -> In i (map key l).
Proof.
  intros H. apply existsb_exists in H. destruct H as (a & Hin & Hk).
  apply Z.eqb_eq in Hk. subst i. now apply in_map.
Qed.

Ltac frame H :=
  first [ exact (boards_PRIMARY_KEY _ H) | exact (lists_PRIMARY_KEY _ H)
        | exact (cards_PRIMARY_KEY _ H) | exact (comments_PRIMARY_KEY _ H)
        | exact (labels_PRIMARY_KEY _ H) | exact (labels_name_UNIQUE _ H)
        | exact (card_labels_PRIMARY_KEY _ H)
        | exact (lists_board_id_REFERENCES_boards _ H)
        | exact (cards_list_id_REFERENCES_lists _ H)
        | exact (comments_card_id_REFERENCES_cards _ H)
        | exact (card_labels_card_id_REFERENCES_cards _ H)
        | exact (card_labels_label_id_REFERENCES_labels _ H)
        | exact (position_NOT_NULL _ H)
        | exact (proj1 (position_NOT_NULL _ H))
        | exact (proj2 (position_NOT_NULL _ H)) ].

Ltac tables :=
  cbn [boards lists cards comments labels card_labels seq_lists seq_cards
       DB_with_boards DB_with_lists DB_with_cards DB_with_comments DB_with_labels
       DB_with_card_labels].

(** *** Cascades *)

Lemma DELETE_cards_CASCADE_schema (db : DB) (dead : Card -> bool) :
  schema_holds db -> schema_holds (DELETE_cards_CASCADE db dead).
Proof.
  intros H. unfold DELETE_cards_CASCADE. constructor; tables; try frame H.
  - apply NoDup_map_filter. frame H.
  - apply NoDup_map_filter. frame H.
  - apply NoDup_filter. frame H.
  - intros c Hc. apply filter_In in Hc. destruct Hc as [Hc _].
    now apply (cards_list_id_REFERENCES_lists _ H).
  - intros m Hm. apply filter_In in Hm. destruct Hm as [Hm Hlive].
    pose proof (comments_card_id_REFERENCES_cards _ H m Hm) as Hin.
    apply in_map_iff in Hin. destruct Hin as (c & Hk & Hc). rewrite <- Hk.
    apply In_map_filter; [exact Hc|].
    destruct (dead c) eqn:E; [exfalso | reflexivity].
    apply negb_true_iff, not_true_iff_false in Hlive. apply Hlive.
    apply existsb_exists. exists c. split; [exact Hc|].
    rewrite E, Hk. now rewrite Z.eqb_refl.
  - intros cl Hcl. apply filter_In in Hcl. destruct Hcl as [Hcl Hlive].
    pose proof (card_labels_card_id_REFERENCES_cards _ H cl Hcl) as Hin.
    apply in_map_iff in Hin. destruct Hin as (c & Hk & Hc). rewrite <- Hk.
    apply In_map_filter; [exact Hc|].
    destruct (dead c) eqn:E; [exfalso | reflexivity].
    apply negb_true_iff, not_true_iff_false in Hlive. apply Hlive.
    apply existsb_exists. exists c. split; [exact Hc|].
    rewrite E, Hk. now rewrite Z.eqb_refl.
  - intros cl Hcl. apply filter_In in Hcl. destruct Hcl as [Hcl _].
    now apply (card_labels_label_id_REFERENCES_labels _ H).
  - destruct (position_NOT_NULL _ H) as [Hl Hc]. split; tables; [exact Hl|].
    intros c Hin. apply filter_In in Hin. now apply Hc.
Qed.

Lemma DELETE_lists_CASCADE_schema (db : DB) (dead : List -> bool) :
  schema_holds db -> schema_holds (DELETE_lists_CASCADE db dead).
Proof.
  intros H. unfold DELETE_lists_CASCADE.
  match goal with
  | |- context [DELETE_cards_CASCADE db ?d] =>
      pose proof (DELETE_cards_CASCADE_schema db d H) as H1;
      assert (Hcards : cards (DELETE_cards_CASCADE db d)
                       = filter (fun c => negb (d c)) (cards db)) by reflexivity;
      assert (Hboards : boards (DELETE_cards_CASCADE db d) = boards db) by reflexivity;
      set (db1 := DELETE_cards_CASCADE db d) in *
  end.
  constructor; tables; try frame H1.
  - apply NoDup_map_filter. frame H.
  - intros l Hl. apply filter_In in Hl. destruct Hl as [Hl _]. rewrite Hboards.
    now apply (lists_board_id_REFERENCES_boards _ H).
  - intros c Hc. rewrite Hcards in Hc. apply filter_In in Hc. destruct Hc as [Hc Hlive].
    pose proof (cards_list_id_REFERENCES_lists _ H c Hc) as Hin.
    apply in_map_iff in Hin. destruct Hin as (l & Hk & Hl). rewrite <- Hk.
    apply In_map_filter; [exact Hl|].
    destruct (dead l) eqn:E; [exfalso | reflexivity].
    apply negb_true_iff, not_true_iff_false in Hlive. apply Hlive.
    apply existsb_exists. exists l. split; [exact Hl|].
    rewrite E, Hk. now rewrite Z.eqb_refl.
  - destruct (position_NOT_NULL _ H1) as [_ Hc].
    destruct (position_NOT_NULL _ H) as [Hl _]. split; tables; [| exact Hc].
    intros l Hin. apply filter_In in Hin. now apply Hl.
Qed.

(** *** Statements *)

Lemma INSERT_INTO_boards_schema (db : DB) (sq : sqlite_sequence) (row : Board) :
  schema_holds db -> schema_holds (fst (fst (INSERT_INTO_boards db sq row))).
Proof.
  intros H. unfold INSERT_INTO_boards. cbn [fst]. constructor; tables; try frame H.
  - apply NoDup_map_snoc; [frame H | apply AUTOINCREMENT_fresh].
  - intros l Hl. rewrite map_app. apply in_or_app. left.
    now apply (lists_board_id_REFERENCES_boards _ H).
Qed.

Lemma update_boards_timestamp_ids (clk : clock) (id : Z) (bs : list Board) :
  map Board_ID (update_boards_timestamp clk id bs) = map Board_ID bs.
Proof. unfold update_boards_timestamp. now apply map_key_update. Qed.

Lemma UPDATE_boards_schema (db : DB) (clk : clock) (name description : string)
  (updated_at : Time) (id : Z) :
  schema_holds db ->
  schema_holds (fst (UPDATE_boards_SET_name_description db clk name description
                       updated_at id)).
Proof.
  intros H. unfold UPDATE_boards_SET_name_description.
  destruct (filter _ (boards db)) as [| row0 rest0]; [exact H|]. cbn [fst].
  assert (Hids : forall bs,
             map Board_ID
               (update_boards_timestamp clk id
                  (map (fun b => if Board_ID b =? id
                                 then {| Board_ID := Board_ID b; Board_Name := name;
                                         Board_Description := description;
                                         Board_CreatedAt := Board_CreatedAt b;
                                         Board_UpdatedAt := updated_at |}
                                 else b) bs))
             = map Board_ID bs).
  { intros bs. rewrite update_boards_timestamp_ids. now apply map_key_update. }
  constructor; tables; try frame H; rewrite Hids; frame H.
Qed.

Lemma DELETE_FROM_boards_schema (db : DB) (id : Z) :
  schema_holds db -> schema_holds (fst (DELETE_FROM_boards_WHERE_id db id)).
Proof.
  intros H. unfold DELETE_FROM_boards_WHERE_id.
  destruct (filter _ (boards db)) as [| row0 rest0]; [exact H|]. cbn [fst].
  pose proof (DELETE_lists_CASCADE_schema db (fun l => List_BoardID l =? id) H) as H1.
  assert (Hlists : lists (DELETE_lists_CASCADE db (fun l => List_BoardID l =? id))
                   = filter (fun l => negb (List_BoardID l =? id)) (lists db))
    by reflexivity.
  set (db1 := DELETE_lists_CASCADE db (fun l => List_BoardID l =? id)) in *.
  constructor; tables; try frame H1.
  - apply NoDup_map_filter. frame H.
  - intros l Hl. rewrite Hlists in Hl. apply filter_In in Hl. destruct Hl as [Hl Hlive].
    pose proof (lists_board_id_REFERENCES_boards _ H l Hl) as Hin.
    apply in_map_iff in Hin. destruct Hin as (b & Hk & Hb). rewrite <- Hk.
    apply In_map_filter; [exact Hb|]. now rewrite Hk.
Qed.

Lemma update_lists_timestamp_ids (clk : clock) (id : Z) (ls : list List) :
  map List_ID (update_lists_timestamp clk id ls) = map List_ID ls.
Proof. unfold update_lists_timestamp. now apply map_key_update. Qed.

Lemma INSERT_INTO_lists_schema (db db' : DB) (row : List) (id : Z) :
  schema_holds db -> INSERT_INTO_lists db row = Ok (db', id) -> schema_holds db'.
Proof.
  intros H. unfold INSERT_INTO_lists.
  destruct (bind_REAL (List_Position row)) eqn:E; [| discriminate].
  destruct (existsb _ (boards db)) eqn:F; [| discriminate]. intros [= <- <-].
  apply bind_REAL_Some in E. apply existsb_key_In in F.
  constructor; tables; try frame H.
  - apply NoDup_map_snoc; [frame H | apply AUTOINCREMENT_fresh].
  - intros l Hl. apply in_app_or in Hl. destruct Hl as [Hl | [<- | []]]; [| exact F].
    now apply (lists_board_id_REFERENCES_boards _ H).
  - intros c Hc. rewrite map_app. apply in_or_app. left.
    now apply (cards_list_id_REFERENCES_lists _ H).
  - destruct (position_NOT_NULL _ H) as [Hl Hc]. split; tables; [| exact Hc].
    intros l Hin. apply in_app_or in Hin. destruct Hin as [Hin | [<- | []]];
      [now apply Hl | exact E].
Qed.

(** An [UPDATE] of [lists] that keeps [id] and [board_id] and stores no NaN. *)
Lemma lists_update_schema (db : DB) (clk : clock) (g : List -> List) (id : Z) :
  schema_holds db ->
  (forall l, List_ID (g l) = List_ID l) ->
  (forall l, List_BoardID (g l) = List_BoardID l) ->
  (forall l, In l (lists db) -> is_nan (List_Position (g l)) = false) ->
  schema_holds
    (DB_with_lists db
       (update_lists_timestamp clk id
          (map (fun l => if List_ID l =? id then g l else l) (lists db)))
       (seq_lists db)).
Proof.
  intros H Hid Hb Hp.
  assert (Hids : map List_ID
                   (update_lists_timestamp clk id
                      (map (fun l => if List_ID l =? id then g l else l) (lists db)))
                 = map List_ID (lists db)).
  { rewrite update_lists_timestamp_ids. now apply map_key_update. }
  constructor; tables; try frame H; try (rewrite Hids; frame H).
  - intros l Hl. unfold update_lists_timestamp in Hl.
    apply in_map_iff in Hl. destruct Hl as (l1 & <- & Hl).
    apply in_map_iff in Hl. destruct Hl as (l0 & <- & Hl).
    pose proof (lists_board_id_REFERENCES_boards _ H l0 Hl) as Hin.
    destruct (List_ID l0 =? id); cbn;
      destruct (List_ID _ =? id); cbn; rewrite ?Hb; exact Hin.
  - destruct (position_NOT_NULL _ H) as [Hl Hc]. split; tables; [| exact Hc].
    intros l Hin. unfold update_lists_timestamp in Hin.
    apply in_map_iff in Hin. destruct Hin as (l1 & <- & Hin).
    apply in_map_iff in Hin. destruct Hin as (l0 & <- & Hin).
    destruct (List_ID l0 =? id); cbn;
      destruct (List_ID _ =? id); cbn; auto.
Qed.

Lemma UPDATE_lists_SET_position_schema (db db' : DB) (clk : clock) (p : float64)
  (t : Time) (id n : Z) :
  schema_holds db -> UPDATE_lists_SET_position db clk p t id = Ok (db', n) ->
  schema_holds db'.
Proof.
  intros H. unfold UPDATE_lists_SET_position.
  destruct (filter _ (lists db)) as [| row0 rest0]; [now intros [= <- <-]|].
  destruct (bind_REAL p) eqn:E; [| discriminate]. intros [= <- <-].
  apply bind_REAL_Some in E.
  apply (lists_update_schema db clk
           (fun l => List_with_UpdatedAt (List_with_Position l p) t) id H);
    try reflexivity. intros l _. exact E.
Qed.

Lemma UPDATE_lists_SET_name_position_color_schema (db db' : DB) (clk : clock)
  (name : string) (p : float64) (color : string) (t : Time) (id n : Z) :
  schema_holds db ->
  UPDATE_lists_SET_name_position_color db clk name p color t id = Ok (db', n) ->
  schema_holds db'.
Proof.
  intros H. unfold UPDATE_lists_SET_name_position_color.
  destruct (filter _ (lists db)) as [| row0 rest0]; [now intros [= <- <-]|].
  destruct (bind_REAL p) eqn:E; [| discriminate]. intros [= <- <-].
  apply bind_REAL_Some in E.
  apply (lists_update_schema db clk
           (fun l => {| List_ID := List_ID l; List_BoardID := List_BoardID l;
                        List_Name := name; List_Position := p; List_Color := color;
                        List_CreatedAt := List_CreatedAt l; List_UpdatedAt := t |}) id H);
    try reflexivity. intros l _. exact E.
Qed.

Lemma DELETE_FROM_lists_schema (db : DB) (id : Z) :
  schema_holds db -> schema_holds (fst (DELETE_FROM_lists_WHERE_id db id)).
Proof.
  intros H. unfold DELETE_FROM_lists_WHERE_id.
  destruct (filter _ (lists db)) as [| row0 rest0]; [exact H|]. cbn [fst].
  now apply DELETE_lists_CASCADE_schema.
Qed.

Lemma update_cards_timestamp_ids (clk : clock) (id : Z) (cs : list Card) :
  map Card_ID (update_cards_timestamp clk id cs) = map Card_ID cs.
Proof. unfold update_cards_timestamp. now apply map_key_update. Qed.

Lemma INSERT_INTO_cards_schema (db db' : DB) (row : Card) (id : Z) :
  schema_holds db -> INSERT_INTO_cards db row = Ok (db', id) -> schema_holds db'.
Proof.
  intros H. unfold INSERT_INTO_cards.
  destruct (bind_REAL (Card_Position row)) eqn:E; [| discriminate].
  destruct (existsb _ (lists db)) eqn:F; [| discriminate]. intros [= <- <-].
  apply bind_REAL_Some in E. apply existsb_key_In in F.
  constructor; tables; try frame H.
  - apply NoDup_map_snoc; [frame H | apply AUTOINCREMENT_fresh].
  - intros c Hc. apply in_app_or in Hc. destruct Hc as [Hc | [<- | []]]; [| exact F].
    now apply (cards_list_id_REFERENCES_lists _ H).
  - intros m Hm. rewrite map_app. apply in_or_app. left.
    now apply (comments_card_id_REFERENCES_cards _ H).
  - intros cl Hcl. rewrite map_app. apply in_or_app. left.
    now apply (card_labels_card_id_REFERENCES_cards _ H).
  - destruct (position_NOT_NULL _ H) as [Hl Hc]. split; tables; [exact Hl|].
    intros c Hin. apply in_app_or in Hin. destruct Hin as [Hin | [<- | []]];
      [now apply Hc | exact E].
Qed.

(** An [UPDATE] of [cards] that keeps [id], stores no NaN, and refers to a
    stored list. *)
Lemma cards_update_schema (db : DB) (clk : clock) (g : Card -> Card) (id : Z) :
  schema_holds db ->
  (forall c, Card_ID (g c) = Card_ID c) ->
  (forall c, In c (cards db) -> In (Card_ListID (g c)) (map List_ID (lists db))) ->
  (forall c, In c (cards db) -> is_nan (Card_Position (g c)) = false) ->
  schema_holds
    (DB_with_cards db
       (update_cards_timestamp clk id
          (map (fun c => if Card_ID c =? id then g c else c) (cards db)))
       (seq_cards db)).
Proof.
  intros H Hid Hfk Hp.
  assert (Hids : map Card_ID
                   (update_cards_timestamp clk id
                      (map (fun c => if Card_ID c =? id then g c else c) (cards db)))
                 = map Card_ID (cards db)).
  { rewrite update_cards_timestamp_ids. now apply map_key_update. }
  constructor; tables; try frame H; try (rewrite Hids; frame H).
  - intros c Hc. unfold update_cards_timestamp in Hc.
    apply in_map_iff in Hc. destruct Hc as (c1 & <- & Hc).
    apply in_map_iff in Hc. destruct Hc as (c0 & <- & Hc).
    pose proof (cards_list_id_REFERENCES_lists _ H c0 Hc) as Hin.
    pose proof (Hfk c0 Hc) as Hin'.
    destruct (Card_ID c0 =? id); cbn;
      destruct (Card_ID _ =? id); cbn; assumption.
  - destruct (position_NOT_NULL _ H) as [Hl Hc]. split; tables; [exact Hl|].
    intros c Hin. unfold update_cards_timestamp in Hin.
    apply in_map_iff in Hin. destruct Hin as (c1 & <- & Hin).
    apply in_map_iff in Hin. destruct Hin as (c0 & <- & Hin).
    destruct (Card_ID c0 =? id); cbn;
      destruct (Card_ID _ =? id); cbn; auto.
Qed.

Lemma UPDATE_cards_SET_list_id_position_schema (db db' : DB) (clk : clock)
  (list_id : Z) (p : float64) (t : Time) (id n : Z) :
  schema_holds db ->
  UPDATE_cards_SET_list_id_position db clk list_id p t id = Ok (db', n) ->
  schema_holds db'.
Proof.
  intros H. unfold UPDATE_cards_SET_list_id_position.
  destruct (filter _ (cards db)) as [| row0 rest0]; [now intros [= <- <-]|].
  destruct (bind_REAL p) eqn:E; [| discriminate].
  destruct (existsb _ (lists db)) eqn:F; [| discriminate]. intros [= <- <-].
  apply bind_REAL_Some in E. apply existsb_key_In in F.
  apply (cards_update_schema db clk
           (fun c => Card_with_UpdatedAt
                       (Card_with_Position (Card_with_ListID c list_id) p) t) id H);
    try reflexivity; intros c _; assumption.
Qed.

Lemma UPDATE_cards_SET_archived_schema (db db' : DB) (clk : clock)
  (archived : bool) (t : Time) (id n : Z) :
  schema_holds db ->
  UPDATE_cards_SET_archived db clk archived t id = Ok (db', n) ->
  schema_holds db'.
Proof.
  intros H. unfold UPDATE_cards_SET_archived.
  destruct (filter _ (cards db)) as [| row0 rest0]; [now intros [= <- <-]|]. intros [= <- <-].
  apply (cards_update_schema db clk
           (fun c => Card_with_UpdatedAt (Card_with_Archived c archived) t) id H);
    try reflexivity; intros c Hc; cbn.
  - now apply (cards_list_id_REFERENCES_lists _ H).
  - now apply (proj2 (position_NOT_NULL _ H)).
Qed.

Lemma UPDATE_cards_SET_title_schema (db : DB) (clk : clock)
  (title description color : string) (due : option Time) (t : Time) (id : Z) :
  schema_holds db ->
  schema_holds (fst (UPDATE_cards_SET_title_description_color_due_date db clk title
                       description color due t id)).
Proof.
  intros H. unfold UPDATE_cards_SET_title_description_color_due_date.
  destruct (filter _ (cards db)) as [| row0 rest0]; [exact H|]. cbn [fst].
  apply (cards_update_schema db clk
           (fun c => {| Card_ID := Card_ID c; Card_ListID := Card_ListID c;
                        Card_Title := title; Card_Description := description;
                        Card_Position := Card_Position c;
                        Card_Color := color; Card_DueDate := due;
                        Card_Archived := Card_Archived c;
                        Card_CreatedAt := Card_CreatedAt c;
                        Card_UpdatedAt := t |}) id H);
    try reflexivity; intros c Hc; cbn.
  - now apply (cards_list_id_REFERENCES_lists _ H).
  - now apply (proj2 (position_NOT_NULL _ H)).
Qed.

Lemma DELETE_FROM_cards_schema (db : DB) (id : Z) :
  schema_holds db -> schema_holds (fst (DELETE_FROM_cards_WHERE_id db id)).
Proof.
  intros H. unfold DELETE_FROM_cards_WHERE_id.
  destruct (filter _ (cards db)) as [| row0 rest0]; [exact H|]. cbn [fst].
  now apply DELETE_cards_CASCADE_schema.
Qed.

Lemma INSERT_INTO_comments_schema (db db' : DB) (sq sq' : sqlite_sequence)
  (row : Comment) (id : Z) :
  schema_holds db -> INSERT_INTO_comments db sq row = Ok (db', sq', id) ->
  schema_holds db'.
Proof.
  intros H. unfold INSERT_INTO_comments.
  destruct (existsb _ (cards db)) eqn:F; [| discriminate]. intros [= <- <- <-].
  apply existsb_key_In in F.
  constructor; tables; try frame H.
  - apply NoDup_map_snoc; [frame H | apply AUTOINCREMENT_fresh].
  - intros m Hm. apply in_app_or in Hm. destruct Hm as [Hm | [<- | []]]; [| exact F].
    now apply (comments_card_id_REFERENCES_cards _ H).
Qed.

Lemma existsb_name_In (name : string) (ls : list Label) :
  existsb (fun l => String.eqb (Label_Name l) name) ls = false ->
  ~ In name (map Label_Name ls).
Proof.
  intros H Hin. apply in_map_iff in Hin. destruct Hin as (l & Hn & Hl).
  apply not_true_iff_false in H. apply H. apply existsb_exists. exists l.
  split; [exact Hl|]. now apply String.eqb_eq.
Qed.

Lemma INSERT_INTO_labels_schema (db db' : DB) (sq sq' : sqlite_sequence) (clk : clock)
  (name color : string) (row : Label) :
  schema_holds db -> INSERT_INTO_labels db sq clk name color = Ok (db', sq', row) ->
  schema_holds db'.
Proof.
  intros H. unfold INSERT_INTO_labels.
  destruct (existsb _ (labels db)) eqn:F; [discriminate|]. intros [= <- <- <-].
  apply existsb_name_In in F.
  constructor; tables; try frame H.
  - apply NoDup_map_snoc; [frame H | apply AUTOINCREMENT_fresh].
  - apply NoDup_map_snoc; [frame H | exact F].
  - intros cl Hcl. rewrite map_app. apply in_or_app. left.
    now apply (card_labels_label_id_REFERENCES_labels _ H).
Qed.

(** Renaming the one label with key [id] to a name no other label bears
    keeps the names distinct. *)
Lemma rename_keeps_names_distinct (name color : string) (id : Z) (ls : list Label) :
  NoDup (map Label_ID ls) -> NoDup (map Label_Name ls) ->
  existsb (fun l => negb (Label_ID l =? id) && String.eqb (Label_Name l) name) ls = false ->
  NoDup (map Label_Name
           (map (fun l => if Label_ID l =? id
                          then {| Label_ID := Label_ID l; Label_Name := name;
                                  Label_Color := color;
                                  Label_CreatedAt := Label_CreatedAt l |}
                          else l) ls)).
Proof.
  intros Hid Hnm Hother.
  assert (Hfree : forall l, In l ls -> Label_ID l <> id -> Label_Name l <> name).
  { intros l Hl Hne Heq. apply not_true_iff_false in Hother. apply Hother.
    apply existsb_exists. exists l. split; [exact Hl|].
    apply andb_true_intro. split; [now apply negb_true_iff, Z.eqb_neq|].
    now apply String.eqb_eq. }
  clear Hother. induction ls as [| a ls IH]; cbn [map]; [constructor|].
  cbn [map] in Hid, Hnm. inversion Hid as [| ? ? Hid1 Hid2]; subst.
  inversion Hnm as [| ? ? Hnm1 Hnm2]; subst.
  assert (IH' := IH Hid2 Hnm2 (fun l Hl => Hfree l (or_intror Hl))).
  constructor; [| exact IH'].
  intros Hin. apply in_map_iff in Hin. destruct Hin as (l1 & Hname & Hin).
  apply in_map_iff in Hin. destruct Hin as (l0 & <- & Hin).
  destruct (Label_ID a =? id) eqn:Ea; destruct (Label_ID l0 =? id) eqn:El;
    cbn [Label_Name] in Hname.
  - apply Z.eqb_eq in Ea, El. apply Hid1. rewrite Ea, <- El. now apply in_map.
  - apply Z.eqb_neq in El. now apply (Hfree l0 (or_intror Hin) El).
  - apply Z.eqb_neq in Ea. apply (Hfree a (or_introl eq_refl) Ea). now symmetry.
  - apply Hnm1. rewrite <- Hname. now apply in_map.
Qed.

Lemma UPDATE_labels_schema (db db' : DB) (name color : string) (id : Z)
  (row : option Label) :
  schema_holds db -> UPDATE_labels_SET_name_color db name color id = Ok (db', row) ->
  schema_holds db'.
Proof.
  intros H. unfold UPDATE_labels_SET_name_color.
  destruct (find _ (labels db)) as [old |]; [| now intros [= <- <-]].
  destruct (existsb _ (labels db)) eqn:F; [discriminate|]. intros [= <- <-].
  assert (Hids : map Label_ID
                   (map (fun l => if Label_ID l =? id
                                  then {| Label_ID := Label_ID l; Label_Name := name;
                                          Label_Color := color;
                                          Label_CreatedAt := Label_CreatedAt l |}
                                  else l) (labels db))
                 = map Label_ID (labels db)) by now apply map_key_update.
  constructor; tables; try frame H; try (rewrite Hids; frame H).
  - apply rename_keeps_names_distinct; [frame H | frame H | exact F].
Qed.

Lemma card_labels_filter_schema (db : DB) (p : Z * Z -> bool) :
  schema_holds db ->
  schema_holds (DB_with_card_labels db (filter p (card_labels db))).
Proof.
  intros H. constructor; tables; try frame H.
  - apply NoDup_filter. frame H.
  - intros cl Hcl. apply filter_In in Hcl.
    now apply (card_labels_card_id_REFERENCES_cards _ H).
  - intros cl Hcl. apply filter_In in Hcl.
    now apply (card_labels_label_id_REFERENCES_labels _ H).
Qed.

Lemma DELETE_FROM_labels_schema (db : DB) (id : Z) :
  schema_holds db -> schema_holds (fst (DELETE_FROM_labels_WHERE_id db id)).
Proof.
  intros H. unfold DELETE_FROM_labels_WHERE_id.
  destruct (filter _ (labels db)) as [| row0 rest0]; [exact H|]. cbn [fst].
  constructor; tables; try frame H.
  - apply NoDup_map_filter. frame H.
  - apply NoDup_map_filter. frame H.
  - apply NoDup_filter. frame H.
  - intros cl Hcl. apply filter_In in Hcl.
    now apply (card_labels_card_id_REFERENCES_cards _ H).
  - intros cl Hcl. apply filter_In in Hcl. destruct Hcl as [Hcl Hlive].
    pose proof (card_labels_label_id_REFERENCES_labels _ H cl Hcl) as Hin.
    apply in_map_iff in Hin. destruct Hin as (l & Hk & Hl). rewrite <- Hk.
    apply In_map_filter; [exact Hl|]. now rewrite Hk.
Qed.

Lemma INSERT_INTO_card_labels_schema (db db' : DB) (card_id label_id : Z) :
  schema_holds db -> INSERT_INTO_card_labels db card_id label_id = Ok db' ->
  schema_holds db'.
Proof.
  intros H. unfold INSERT_INTO_card_labels.
  destruct (SELECT_EXISTS_card_labels db card_id label_id) eqn:E; [discriminate|].
  destruct (existsb _ (cards db)) eqn:Fc; [| discriminate].
  destruct (existsb _ (labels db)) eqn:Fl; [| discriminate]. intros [= <-].
  apply existsb_key_In in Fc, Fl.
  assert (Hnew : ~ In (card_id, label_id) (card_labels db)).
  { intros Hin. apply SELECT_EXISTS_card_labels_In in Hin. congruence. }
  constructor; tables; try frame H.
  - apply NoDup_app; [frame H | repeat constructor; intros [] |].
    intros cl Hcl [<- | []]. contradiction.
  - intros cl Hcl. apply in_app_or in Hcl. destruct Hcl as [Hcl | [<- | []]]; [| exact Fc].
    now apply (card_labels_card_id_REFERENCES_cards _ H).
  - intros cl Hcl. apply in_app_or in Hcl. destruct Hcl as [Hcl | [<- | []]]; [| exact Fl].
    now apply (card_labels_label_id_REFERENCES_labels _ H).
Qed.

(** *** Repository methods *)

Lemma BoardRepository_Create_schema (db : DB) (sq : sqlite_sequence) (clk : clock)
  (board : Board) :
  schema_holds db ->
  schema_holds (fst (fst (fst (BoardRepository.Create db sq clk board)))).
Proof.
  intros H. unfold BoardRepository.Create.
  match goal with
  | |- context [INSERT_INTO_boards db sq ?b] =>
      pose proof (INSERT_INTO_boards_schema db sq b H) as H';
      destruct (INSERT_INTO_boards db sq b) as [[db1 sq1] id]
  end.
  exact H'.
Qed.

Lemma BoardRepository_Update_schema (db : DB) (clk : clock) (board : Board) :
  schema_holds db -> schema_holds (fst (fst (BoardRepository.Update db clk board))).
Proof.
  intros H. unfold BoardRepository.Update.
  match goal with
  | |- context [UPDATE_boards_SET_name_description db clk ?n ?d ?t ?i] =>
      pose proof (UPDATE_boards_schema db clk n d t i H) as H';
      destruct (UPDATE_boards_SET_name_description db clk n d t i) as [db1 k]
  end.
  destruct (k =? 0); exact H'.
Qed.

Lemma BoardRepository_Delete_schema (db : DB) (id : Z) :
  schema_holds db -> schema_holds (fst (BoardRepository.Delete db id)).
Proof.
  intros H. unfold BoardRepository.Delete.
  pose proof (DELETE_FROM_boards_schema db id H) as H'.
  destruct (DELETE_FROM_boards_WHERE_id db id) as [db1 k].
  destruct (k =? 0); exact H'.
Qed.

Lemma ListRepository_Create_schema (db : DB) (clk : clock) (list : List) :
  schema_holds db -> schema_holds (fst (fst (ListRepository.Create db clk list))).
Proof.
  intros H. unfold ListRepository.Create. cbv zeta.
  match goal with
  | |- context [INSERT_INTO_lists db ?l] =>
      pose proof (INSERT_INTO_lists_schema db) as H';
      destruct (INSERT_INTO_lists db l) as [[db1 id] | err] eqn:E
  end; [| exact H].
  exact (H' db1 _ id H E).
Qed.

Lemma ListRepository_Update_schema (db : DB) (clk : clock) (list : List) :
  schema_holds db -> schema_holds (fst (fst (ListRepository.Update db clk list))).
Proof.
  intros H. unfold ListRepository.Update. cbv zeta.
  match goal with
  | |- context [UPDATE_lists_SET_name_position_color db clk ?n ?p ?c ?t ?i] =>
      pose proof (UPDATE_lists_SET_name_position_color_schema db) as H';
      destruct (UPDATE_lists_SET_name_position_color db clk n p c t i)
        as [[db1 k] | err] eqn:E
  end; [| exact H].
  destruct (k =? 0); exact (H' db1 clk _ _ _ _ _ k H E).
Qed.

Lemma ListRepository_UpdatePosition_schema (db : DB) (clk : clock) (id : Z)
  (p : float64) :
  schema_holds db -> schema_holds (fst (ListRepository.UpdatePosition db clk id p)).
Proof.
  intros H. unfold ListRepository.UpdatePosition.
  destruct (UPDATE_lists_SET_position db clk p (time_Now clk) id) as [[db1 k] | err] eqn:E;
    [| exact H].
  destruct (k =? 0); exact (UPDATE_lists_SET_position_schema db db1 clk _ _ _ k H E).
Qed.

Lemma ListRepository_Delete_schema (db : DB) (id : Z) :
  schema_holds db -> schema_holds (fst (ListRepository.Delete db id)).
Proof.
  intros H. unfold ListRepository.Delete.
  pose proof (DELETE_FROM_lists_schema db id H) as H'.
  destruct (DELETE_FROM_lists_WHERE_id db id) as [db1 k].
  destruct (k =? 0); exact H'.
Qed.

Lemma CardRepository_Create_schema (db : DB) (clk : clock) (card : Card) :
  schema_holds db -> schema_holds (fst (fst (CardRepository.Create db clk card))).
Proof.
  intros H. unfold CardRepository.Create. cbv zeta.
  match goal with
  | |- context [INSERT_INTO_cards db ?c] =>
      pose proof (INSERT_INTO_cards_schema db) as H';
      destruct (INSERT_INTO_cards db c) as [[db1 id] | err] eqn:E
  end; [| exact H].
  exact (H' db1 _ id H E).
Qed.

Lemma CardRepository_Update_schema (db : DB) (clk : clock) (card : Card) :
  schema_holds db -> schema_holds (fst (fst (CardRepository.Update db clk card))).
Proof.
  intros H. unfold CardRepository.Update. cbv zeta.
  match goal with
  | |- context [UPDATE_cards_SET_title_description_color_due_date
                  db clk ?a ?b ?c ?d ?t ?i] =>
      pose proof (UPDATE_cards_SET_title_schema db clk a b c d t i H) as H';
      destruct (UPDATE_cards_SET_title_description_color_due_date db clk a b c d t i)
        as [db1 k]
  end.
  destruct (k =? 0); exact H'.
Qed.

Lemma CardRepository_Move_schema (db : DB) (clk : clock) (cardID newListID : Z)
  (p : float64) :
  schema_holds db -> schema_holds (fst (CardRepository.Move db clk cardID newListID p)).
Proof.
  intros H. unfold CardRepository.Move.
  destruct (UPDATE_cards_SET_list_id_position db clk newListID p (time_Now clk) cardID)
    as [[db1 k] | err] eqn:E; [| exact H].
  destruct (k =? 0);
    exact (UPDATE_cards_SET_list_id_position_schema db db1 clk _ _ _ _ k H E).
Qed.

Lemma CardRepository_Archive_schema (db : DB) (clk : clock) (id : Z) (archive : bool) :
  schema_holds db -> schema_holds (fst (CardRepository.Archive db clk id archive)).
Proof.
  intros H. unfold CardRepository.Archive.
  destruct (UPDATE_cards_SET_archived db clk archive (time_Now clk) id)
    as [[db1 k] | err] eqn:E; [| exact H].
  destruct (k =? 0); exact (UPDATE_cards_SET_archived_schema db db1 clk _ _ _ k H E).
Qed.

Lemma CardRepository_Delete_schema (db : DB) (id : Z) :
  schema_holds db -> schema_holds (fst (CardRepository.Delete db id)).
Proof.
  intros H. unfold CardRepository.Delete.
  pose proof (DELETE_FROM_cards_schema db id H) as H'.
  destruct (DELETE_FROM_cards_WHERE_id db id) as [db1 k].
  destruct (k =? 0); exact H'.
Qed.

Lemma CardRepository_AddComment_schema (db : DB) (sq : sqlite_sequence) (clk : clock)
  (comment : Comment) :
  schema_holds db ->
  schema_holds (fst (fst (fst (CardRepository.AddComment db sq clk comment)))).
Proof.
  intros H. unfold CardRepository.AddComment. cbv zeta.
  match goal with
  | |- context [INSERT_INTO_comments db sq ?m] =>
      pose proof (INSERT_INTO_comments_schema db) as H';
      destruct (INSERT_INTO_comments db sq m) as [[[db1 sq1] id] | err] eqn:E
  end; [| exact H].
  exact (H' db1 sq sq1 _ id H E).
Qed.

Lemma LabelRepository_Create_schema (db : DB) (sq : sqlite_sequence) (clk : clock)
  (req : CreateLabelRequest) :
  schema_holds db -> schema_holds (fst (fst (LabelRepository.Create db sq clk req))).
Proof.
  intros H. unfold LabelRepository.Create.
  destruct (INSERT_INTO_labels db sq clk (CreateLabelRequest_Name req)
              (CreateLabelRequest_Color req)) as [[[db1 sq1] row] | err] eqn:E;
    [| exact H].
  exact (INSERT_INTO_labels_schema db db1 sq sq1 clk _ _ row H E).
Qed.

Lemma LabelRepository_Update_schema (db : DB) (id : Z) (name color : string) :
  schema_holds db -> schema_holds (fst (LabelRepository.Update db id name color)).
Proof.
  intros H. unfold LabelRepository.Update.
  destruct (UPDATE_labels_SET_name_color db name color id) as [[db1 row] | err] eqn:E;
    [| exact H].
  pose proof (UPDATE_labels_schema db db1 name color id row H E) as H'.
  destruct row; exact H'.
Qed.

Lemma LabelRepository_Delete_schema (db : DB) (id : Z) :
  schema_holds db -> schema_holds (fst (LabelRepository.Delete db id)).
Proof.
  intros H. unfold LabelRepository.Delete. cbv zeta.
  unfold DELETE_FROM_card_labels_WHERE_label_id.
  set (d := DB_with_card_labels db _).
  assert (H1 : schema_holds d) by now apply card_labels_filter_schema.
  pose proof (DELETE_FROM_labels_schema d id H1) as H'.
  destruct (DELETE_FROM_labels_WHERE_id d id) as [db1 k].
  destruct (k =? 0); exact H'.
Qed.

Lemma LabelRepository_AssignToCard_schema (db : DB) (cardID labelID : Z) :
  schema_holds db -> schema_holds (fst (LabelRepository.AssignToCard db cardID labelID)).
Proof.
  intros H. unfold LabelRepository.AssignToCard. cbv zeta.
  destruct (SELECT_EXISTS_card_labels db cardID labelID); [exact H|].
  destruct (INSERT_INTO_card_labels db cardID labelID) as [db1 | err] eqn:E; [| exact H].
  exact (INSERT_INTO_card_labels_schema db db1 cardID labelID H E).
Qed.

Lemma LabelRepository_RemoveFromCard_schema (db : DB) (cardID labelID : Z) :
  schema_holds db ->
  schema_holds (fst (LabelRepository.RemoveFromCard db cardID labelID)).
Proof.
  intros H. unfold LabelRepository.RemoveFromCard,
    DELETE_FROM_card_labels_WHERE_card_id_AND_label_id.
  match goal with |- context [Z.of_nat ?n =? 0] => destruct (Z.of_nat n =? 0) end;
    now apply card_labels_filter_schema.
Qed.

(** *** Handlers *)

Ltac not_found :=
  match goal with
  | |- context [String.eqb ?msg ?text] => destruct (String.eqb msg text)
  end.

Lemma serve_keeps_schema (st : store) (clk : clock) (req : request) :
  schema_holds (fst st) -> schema_holds (fst (fst (serve st clk req))).
Proof.
  destruct st as [db sq]. cbn [fst]. intros H.
  destruct req; cbn [serve];
    repeat match goal with
           | |- context [Atoi ?s] => destruct (Atoi s) as [? |]; [| exact H]
           end;
    try exact H.
  - (* POST /boards *)
    unfold BoardHandler.Create.
    destruct (ShouldBindJSON_CreateBoardRequest body) as [req |]; [| exact H].
    match goal with
    | |- context [BoardRepository.Create db sq clk ?b] =>
        pose proof (BoardRepository_Create_schema db sq clk b H) as H';
        destruct (BoardRepository.Create db sq clk b) as [[[db1 sq1] b1] [err |]]
    end; exact H'.
  - (* PUT /boards/:id *)
    unfold BoardHandler.Update.
    destruct (BoardRepository.GetByID db z) as [b | msg]; [| not_found; exact H].
    destruct (ShouldBindJSON_UpdateBoardRequest body) as [req |]; [| exact H].
    match goal with
    | |- context [BoardRepository.Update db clk ?b] =>
        pose proof (BoardRepository_Update_schema db clk b H) as H';
        destruct (BoardRepository.Update db clk b) as [[db1 b1] [err |]]
    end; exact H'.
  - (* DELETE /boards/:id *)
    unfold BoardHandler.Delete.
    pose proof (BoardRepository_Delete_schema db z H) as H'.
    destruct (BoardRepository.Delete db z) as [db1 [err |]]; [not_found|]; exact H'.
  - (* POST /boards/:id/lists *)
    unfold ListHandler.Create.
    destruct (BoardRepository.GetByID db z) as [b | msg]; [| not_found; exact H].
    destruct (ShouldBindJSON_CreateListRequest body) as [req |]; [| exact H].
    match goal with
    | |- context [ListRepository.Create db clk ?l] =>
        pose proof (ListRepository_Create_schema db clk l H) as H';
        destruct (ListRepository.Create db clk l) as [[db1 l1] [err |]]
    end; exact H'.
  - (* PUT /lists/:id *)
    unfold ListHandler.Update.
    destruct (ListRepository.GetByID db z) as [l | msg]; [| not_found; exact H].
    destruct (ShouldBindJSON_UpdateListRequest body) as [req |]; [| exact H].
    match goal with
    | |- context [ListRepository.Update db clk ?l] =>
        pose proof (ListRepository_Update_schema db clk l H) as H';
        destruct (ListRepository.Update db clk l) as [[db1 l1] [err |]]
    end; exact H'.
  - (* PATCH /lists/:id/move *)
    unfold ListHandler.Move.
    destruct (ShouldBindJSON_MoveListRequest body) as [req |]; [| exact H].
    destruct (ListRepository.GetByID db z) as [l | msg]; [| not_found; exact H].
    destruct (ListRepository.GetAdjacentPositions db (List_BoardID l)
                (MoveListRequest_Position req)) as [[prev next] [err |]]; [exact H|].
    pose proof (ListRepository_UpdatePosition_schema db clk z
                  (ListHandler.newPosition prev next) H) as H'.
    destruct (ListRepository.UpdatePosition db clk z (ListHandler.newPosition prev next))
      as [db1 [err |]]; exact H'.
  - (* DELETE /lists/:id *)
    unfold ListHandler.Delete.
    pose proof (ListRepository_Delete_schema db z H) as H'.
    destruct (ListRepository.Delete db z) as [db1 [err |]]; [not_found|]; exact H'.
  - (* POST /lists/:id/cards *)
    unfold CardHandler.Create.
    destruct (ListRepository.GetByID db z) as [l | msg]; [| not_found; exact H].
    destruct (ShouldBindJSON_CreateCardRequest body) as [req |]; [| exact H].
    match goal with
    | |- context [CardRepository.Create db clk ?c] =>
        pose proof (CardRepository_Create_schema db clk c H) as H';
        destruct (CardRepository.Create db clk c) as [[db1 c1] [err |]]
    end; exact H'.
  - (* PUT /cards/:id *)
    unfold CardHandler.Update.
    destruct (CardRepository.GetByID db z) as [c | msg]; [| not_found; exact H].
    destruct (ShouldBindJSON_UpdateCardRequest body) as [req |]; [| exact H].
    match goal with
    | |- context [CardRepository.Update db clk ?c] =>
        pose proof (CardRepository_Update_schema db clk c H) as H';
        destruct (CardRepository.Update db clk c) as [[db1 c1] [err |]]
    end; exact H'.
  - (* PATCH /cards/:id/move *)
    unfold CardHandler.Move.
    destruct (ShouldBindJSON_MoveCardRequest body) as [req |]; [| exact H].
    destruct (CardRepository.GetByID db z) as [c | msg]; [| not_found; exact H].
    destruct (ListRepository.GetByID db (MoveCardRequest_ListID req)) as [l | msg];
      [| not_found; exact H].
    pose proof (CardRepository_Move_schema db clk z (MoveCardRequest_ListID req)
                  (MoveCardRequest_Position req) H) as H'.
    destruct (CardRepository.Move db clk z (MoveCardRequest_ListID req)
                (MoveCardRequest_Position req)) as [db1 [err |]]; exact H'.
  - (* POST /cards/:id/archive *)
    unfold CardHandler.Archive.
    pose proof (CardRepository_Archive_schema db clk z true H) as H'.
    destruct (CardRepository.Archive db clk z true) as [db1 [err |]];
      [not_found|]; exact H'.
  - (* POST /cards/:id/unarchive *)
    unfold CardHandler.Unarchive.
    pose proof (CardRepository_Archive_schema db clk z false H) as H'.
    destruct (CardRepository.Archive db clk z false) as [db1 [err |]];
      [not_found|]; exact H'.
  - (* DELETE /cards/:id *)
    unfold CardHandler.Delete.
    pose proof (CardRepository_Delete_schema db z H) as H'.
    destruct (CardRepository.Delete db z) as [db1 [err |]]; [not_found|]; exact H'.
  - (* POST /cards/:id/comments *)
    unfold CardHandler.AddComment.
    destruct (CardRepository.GetByID db z) as [c | msg]; [| not_found; exact H].
    destruct (ShouldBindJSON_CreateCommentRequest body) as [req |]; [| exact H].
    match goal with
    | |- context [CardRepository.AddComment db sq clk ?m] =>
        pose proof (CardRepository_AddComment_schema db sq clk m H) as H';
        destruct (CardRepository.AddComment db sq clk m) as [[[db1 sq1] m1] [err |]]
    end; exact H'.
  - (* POST /cards/quick *)
    unfold CardHandler.QuickCreate.
    destruct (ShouldBindJSON_QuickCreateRequest body) as [req |]; [| exact H].
    cbv zeta.
    match goal with
    | |- context [match ?b with Some _ => _ | None => (db, HandleError StatusNotFound
                    "No boards available. Please create a board first.") end] =>
        destruct b as [board |]; [| exact H]
    end.
    match goal with
    | |- context [match ?l with Some _ => _ | None => (db, HandleError StatusNotFound
                    "No lists available in the board. Please create a list first.") end] =>
        destruct l as [list |]; [| exact H]
    end.
    match goal with
    | |- context [CardRepository.Create db clk ?c] =>
        pose proof (CardRepository_Create_schema db clk c H) as H';
        destruct (CardRepository.Create db clk c) as [[db1 c1] [err |]]
    end; exact H'.
  - (* POST /labels *)
    unfold LabelHandler.Create.
    destruct (ShouldBindJSON_CreateLabelRequest body) as [req |]; [| exact H].
    pose proof (LabelRepository_Create_schema db sq clk req H) as H'.
    destruct (LabelRepository.Create db sq clk req) as [[db1 sq1] [l | err]]; exact H'.
  - (* PUT /labels/:id *)
    unfold LabelHandler.Update.
    destruct (ShouldBindJSON_CreateLabelRequest body) as [req |]; [| exact H].
    pose proof (LabelRepository_Update_schema db z (CreateLabelRequest_Name req)
                  (CreateLabelRequest_Color req) H) as H'.
    destruct (LabelRepository.Update db z (CreateLabelRequest_Name req)
                (CreateLabelRequest_Color req)) as [db1 [l | err]];
      [| not_found]; exact H'.
  - (* DELETE /labels/:id *)
    unfold LabelHandler.Delete.
    pose proof (LabelRepository_Delete_schema db z H) as H'.
    destruct (LabelRepository.Delete db z) as [db1 [err |]]; [not_found|]; exact H'.
  - (* POST /cards/:id/labels/:label_id *)
    unfold LabelHandler.AssignToCard.
    destruct (CardRepository.GetByID db z) as [c | msg]; [| not_found; exact H].
    destruct (LabelRepository.GetByID db z0) as [l | msg]; [| not_found; exact H].
    pose proof (LabelRepository_AssignToCard_schema db z z0 H) as H'.
    destruct (LabelRepository.AssignToCard db z z0) as [db1 [err |]]; exact H'.
  - (* DELETE /cards/:id/labels/:label_id *)
    unfold LabelHandler.RemoveFromCard.
    pose proof (LabelRepository_RemoveFromCard_schema db z z0 H) as H'.
    destruct (LabelRepository.RemoveFromCard db z z0) as [db1 [err |]];
      [not_found|]; exact H'.
Qed.

Lemma run_snoc (st : store) (trace : list (clock * request)) (clk : clock) (req : request) :
  run st (trace ++ [(clk, req)]) = fst (serve (run st trace) clk req).
Proof. unfold run. now rewrite fold_left_app. Qed.

(** X4. The constraints of the schema are an invariant of the service:
    whatever requests are served, one after the other, from a state in which
    the primary keys, the UNIQUE label names, the foreign keys and the NOT
    NULL positions hold, they hold in the state reached; in particular the
    cascades of the three deletions leave no dangling reference. *)
Theorem run_keeps_schema (st : store) (trace : list (clock * request)) :
  schema_holds (fst st) -> schema_holds (fst (run st trace)).
Proof.
  revert st. induction trace as [| [clk req] trace IH]; intros st H; [exact H|].
  cbn [run fold_left fst snd]. apply IH. now apply serve_keeps_schema.
Qed.

Ltac distinct :=
  match goal with
  | |- NoDup _ =>
      repeat (constructor; [cbn; intuition (discriminate || congruence)|]); constructor
  end.

Ltac stored :=
  cbn; intuition (subst; cbn; auto 20).

Lemma db_seeded_schema : schema_holds db_seeded.
Proof.
  constructor; cbn [db_seeded boards lists cards comments labels card_labels map
                    seed_list seed_label Board_ID List_ID Label_ID Label_Name];
    try distinct; try (intros x Hx; exact (False_ind _ Hx)); try stored.
  split; [stored | intros x Hx; exact (False_ind _ Hx)].
Qed.

Lemma db_busy_schema : schema_holds db_busy.
Proof.
  constructor; cbn [db_busy boards lists cards comments labels card_labels map
                    mk_list mk_card mk_comment board_B1
                    Board_ID List_ID Card_ID Comment_ID Label_ID Label_Name];
    try distinct; try stored.
  split; stored.
Qed.

Lemma run_keeps_schema_witness :
  schema_holds (fst st_seeded)
  /\ schema_holds
       (fst (run st_seeded
               [(clock_at 10, POST_cards_quick
                                {| QuickCreateBody_board_name := None;
                                   QuickCreateBody_list_name := None;
                                   QuickCreateBody_title := Some "Write the report";
                                   QuickCreateBody_description := None;
                                   QuickCreateBody_color := None |});
                (clock_at 20, POST_cards_id_labels_label_id "1" "2");
                (clock_at 30, POST_cards_id_comments "1"
                                {| CreateCommentBody_content := Some "started" |});
                (clock_at 40, DELETE_lists_id "1")])).
Proof.
  split; [exact db_seeded_schema|].
  apply run_keeps_schema. exact db_seeded_schema.
Defined.

(* ================================================================= *)
(** ** A request that is refused writes nothing *)

Lemma DB_eta (db : DB) :
  {| boards := boards db; lists := lists db; cards := cards db; comments := comments db;
     labels := labels db; card_labels := card_labels db;
     seq_lists := seq_lists db; seq_cards := seq_cards db |} = db.
Proof. now destruct db. Qed.

Lemma filter_all (A : Type) (p : A -> bool) (l : list A) :
  (forall x, In x l -> p x = true) -> filter p l = l.
Proof.
  induction l as [| a l IH]; cbn [filter]; intros H; [reflexivity|].
  rewrite (H a (or_introl eq_refl)), IH; [reflexivity|].
  intros x Hx. apply H. now right.
Qed.

Lemma BoardRepository_Update_refused (db : DB) (clk : clock) (board : Board) :
  snd (BoardRepository.Update db clk board) <> None ->
  fst (fst (BoardRepository.Update db clk board)) = db.
Proof.
  unfold BoardRepository.Update, UPDATE_boards_SET_name_description. cbv zeta.
  destruct (filter _ (boards db)) as [| row0 rest0]; [reflexivity|].
  rewrite length_cons_neq_0. cbn [snd]. congruence.
Qed.

Lemma BoardRepository_Delete_refused (db : DB) (id : Z) :
  snd (BoardRepository.Delete db id) <> None -> fst (BoardRepository.Delete db id) = db.
Proof.
  unfold BoardRepository.Delete, DELETE_FROM_boards_WHERE_id.
  destruct (filter _ (boards db)) as [| row0 rest0]; [reflexivity|].
  rewrite length_cons_neq_0. cbn [snd]. congruence.
Qed.

Lemma ListRepository_Create_refused (db : DB) (clk : clock) (list : List) :
  snd (ListRepository.Create db clk list) <> None ->
  fst (fst (ListRepository.Create db clk list)) = db.
Proof.
  unfold ListRepository.Create. cbv zeta.
  match goal with
  | |- context [INSERT_INTO_lists db ?l] =>
      destruct (INSERT_INTO_lists db l) as [[db1 id] | err]
  end; cbn [fst snd]; congruence.
Qed.

Lemma ListRepository_Update_refused (db : DB) (clk : clock) (list : List) :
  snd (ListRepository.Update db clk list) <> None ->
  fst (fst (ListRepository.Update db clk list)) = db.
Proof.
  unfold ListRepository.Update, UPDATE_lists_SET_name_position_color. cbv zeta.
  destruct (filter _ (lists db)) as [| row0 rest0]; [reflexivity|].
  destruct (bind_REAL _); [| reflexivity].
  rewrite length_cons_neq_0. cbn [snd]. congruence.
Qed.

Lemma ListRepository_UpdatePosition_refused (db : DB) (clk : clock) (id : Z) (p : float64) :
  snd (ListRepository.UpdatePosition db clk id p) <> None ->
  fst (ListRepository.UpdatePosition db clk id p) = db.
Proof.
  unfold ListRepository.UpdatePosition, UPDATE_lists_SET_position.
  destruct (filter _ (lists db)) as [| row0 rest0]; [reflexivity|].
  destruct (bind_REAL _); [| reflexivity].
  rewrite length_cons_neq_0. cbn [snd]. congruence.
Qed.

Lemma ListRepository_Delete_refused (db : DB) (id : Z) :
  snd (ListRepository.Delete db id) <> None -> fst (ListRepository.Delete db id) = db.
Proof.
  unfold ListRepository.Delete, DELETE_FROM_lists_WHERE_id.
  destruct (filter _ (lists db)) as [| row0 rest0]; [reflexivity|].
  rewrite length_cons_neq_0. cbn [snd]. congruence.
Qed.

Lemma CardRepository_Create_refused (db : DB) (clk : clock) (card : Card) :
  snd (CardRepository.Create db clk card) <> None ->
  fst (fst (CardRepository.Create db clk card)) = db.
Proof.
  unfold CardRepository.Create. cbv zeta.
  match goal with
  | |- context [INSERT_INTO_cards db ?c] =>
      destruct (INSERT_INTO_cards db c) as [[db1 id] | err]
  end; cbn [fst snd]; congruence.
Qed.

Lemma CardRepository_Update_refused (db : DB) (clk : clock) (card : Card) :
  snd (CardRepository.Update db clk card) <> None ->
  fst (fst (CardRepository.Update db clk card)) = db.
Proof.
  unfold CardRepository.Update, UPDATE_cards_SET_title_description_color_due_date.
  cbv zeta.
  destruct (filter _ (cards db)) as [| row0 rest0]; [reflexivity|].
  rewrite length_cons_neq_0. cbn [snd]. congruence.
Qed.

Lemma CardRepository_Move_refused (db : DB) (clk : clock) (cardID newListID : Z)
  (p : float64) :
  snd (CardRepository.Move db clk cardID newListID p) <> None ->
  fst (CardRepository.Move db clk cardID newListID p) = db.
Proof.
  unfold CardRepository.Move, UPDATE_cards_SET_list_id_position.
  destruct (filter _ (cards db)) as [| row0 rest0]; [reflexivity|].
  destruct (bind_REAL _); [| reflexivity].
  destruct (existsb _ (lists db)); [| reflexivity].
  rewrite length_cons_neq_0. cbn [snd]. congruence.
Qed.

Lemma CardRepository_Archive_refused (db : DB) (clk : clock) (id : Z) (archive : bool) :
  snd (CardRepository.Archive db clk id archive) <> None ->
  fst (CardRepository.Archive db clk id archive) = db.
Proof.
  unfold CardRepository.Archive, UPDATE_cards_SET_archived.
  destruct (filter _ (cards db)) as [| row0 rest0]; [reflexivity|].
  rewrite length_cons_neq_0. cbn [snd]. congruence.
Qed.

Lemma CardRepository_Delete_refused (db : DB) (id : Z) :
  snd (CardRepository.Delete db id) <> None -> fst (CardRepository.Delete db id) = db.
Proof.
  unfold CardRepository.Delete, DELETE_FROM_cards_WHERE_id.
  destruct (filter _ (cards db)) as [| row0 rest0]; [reflexivity|].
  rewrite length_cons_neq_0. cbn [snd]. congruence.
Qed.

Lemma CardRepository_AddComment_refused (db : DB) (sq : sqlite_sequence) (clk : clock)
  (comment : Comment) :
  snd (CardRepository.AddComment db sq clk comment) <> None ->
  fst (fst (CardRepository.AddComment db sq clk comment)) = (db, sq).
Proof.
  unfold CardRepository.AddComment. cbv zeta.
  match goal with
  | |- context [INSERT_INTO_comments db sq ?m] =>
      destruct (INSERT_INTO_comments db sq m) as [[[db1 sq1] id] | err]
  end; cbn [fst snd]; congruence.
Qed.

Lemma LabelRepository_Create_refused (db : DB) (sq : sqlite_sequence) (clk : clock)
  (req : CreateLabelRequest) (err : string) :
  snd (LabelRepository.Create db sq clk req) = Err err ->
  fst (LabelRepository.Create db sq clk req) = (db, sq).
Proof.
  unfold LabelRepository.Create.
  destruct (INSERT_INTO_labels db sq clk _ _) as [[[db1 sq1] row] | msg];
    cbn [fst snd]; congruence.
Qed.

Lemma LabelRepository_Update_refused (db : DB) (id : Z) (name color err : string) :
  snd (LabelRepository.Update db id name color) = Err err ->
  fst (LabelRepository.Update db id name color) = db.
Proof.
  unfold LabelRepository.Update, UPDATE_labels_SET_name_color.
  destruct (find _ (labels db)) as [old |]; [| reflexivity].
  destruct (existsb _ (labels db)); [reflexivity|]. cbn [snd]. congruence.
Qed.

(** [LabelRepository.Delete] runs its two statements one after the other;
    when there is no such label the first one finds nothing to delete,
    because no association can reference a label that is not stored. *)
Lemma LabelRepository_Delete_refused (db : DB) (id : Z) :
  schema_holds db ->
  snd (LabelRepository.Delete db id) <> None -> fst (LabelRepository.Delete db id) = db.
Proof.
  intros H. unfold LabelRepository.Delete, DELETE_FROM_card_labels_WHERE_label_id,
    DELETE_FROM_labels_WHERE_id. cbv zeta. tables.
  destruct (filter (fun l => Label_ID l =? id) (labels db)) as [| row0 rest0] eqn:E;
    [| rewrite length_cons_neq_0; cbn [snd]; congruence].
  intros _. cbn [fst]. unfold DB_with_card_labels.
  rewrite filter_all; [apply DB_eta|].
  intros cl Hcl. apply negb_true_iff, Z.eqb_neq. intros Heq.
  pose proof (card_labels_label_id_REFERENCES_labels _ H cl Hcl) as Hin.
  apply in_map_iff in Hin. destruct Hin as (l & Hk & Hl).
  assert (Hf : In l (filter (fun l => Label_ID l =? id) (labels db))).
  { apply filter_In. split; [exact Hl|]. apply Z.eqb_eq. congruence. }
  rewrite E in Hf. destruct Hf.
Qed.

Lemma LabelRepository_AssignToCard_refused (db : DB) (cardID labelID : Z) :
  snd (LabelRepository.AssignToCard db cardID labelID) <> None ->
  fst (LabelRepository.AssignToCard db cardID labelID) = db.
Proof.
  unfold LabelRepository.AssignToCard. cbv zeta.
  destruct (SELECT_EXISTS_card_labels db cardID labelID); [reflexivity|].
  destruct (INSERT_INTO_card_labels db cardID labelID); cbn [fst snd]; congruence.
Qed.

Lemma LabelRepository_RemoveFromCard_refused (db : DB) (cardID labelID : Z) :
  snd (LabelRepository.RemoveFromCard db cardID labelID) <> None ->
  fst (LabelRepository.RemoveFromCard db cardID labelID) = db.
Proof.
  unfold LabelRepository.RemoveFromCard,
    DELETE_FROM_card_labels_WHERE_card_id_AND_label_id.
  destruct (filter (fun cl => (fst cl =? cardID) && (snd cl =? labelID)) (card_labels db))
    as [| row0 rest0] eqn:E; [| rewrite length_cons_neq_0; cbn [snd]; congruence].
  intros _. cbn [fst List.length Z.of_nat Z.eqb]. unfold DB_with_card_labels.
  rewrite filter_all; [apply DB_eta|].
  intros cl Hcl. apply negb_true_iff.
  rewrite filter_nil_iff in E. now apply E.
Qed.

Ltac codes :=
  unfold StatusOK, StatusCreated, StatusNoContent, StatusBadRequest, StatusNotFound,
    StatusInternalServerError in *.

(** What [ErrorHandler] does to a [c.JSON] of a status below 400: nothing
    when the payload is encoded, and otherwise 500 in the place of a 200. *)
Lemma ErrorHandler_encoded (A : Type) `{Payload A} (code : Z) (obj : A) :
  json_Marshal obj = None -> ErrorHandler (JSON code obj) = JSON code obj.
Proof. intros E. unfold ErrorHandler, Render. now rewrite E. Qed.

Lemma ErrorHandler_refused (A : Type) `{Payload A} (code : Z) (obj : A) (err : string) :
  json_Marshal obj = Some err ->
  ErrorHandler (JSON code obj)
  = JSON_H (if code =? StatusOK then StatusInternalServerError else code)
           [("error", StatusText (if code =? StatusOK then StatusInternalServerError
                                  else code));
            ("message", err)].
Proof. intros E. unfold ErrorHandler, Render. rewrite E. reflexivity. Qed.

Lemma ErrorHandler_error_status (A : Type) `{Payload A} (code : Z) (obj : A) :
  code < 400 -> 400 <= status (ErrorHandler (JSON code obj)) ->
  code = StatusOK /\ status (ErrorHandler (JSON code obj)) = StatusInternalServerError
  /\ json_Marshal obj <> None.
Proof.
  intros Hc. destruct (json_Marshal obj) as [err |] eqn:E.
  - rewrite (ErrorHandler_refused _ _ _ _ E). cbn [status].
    destruct (code =? StatusOK) eqn:Ec; [| lia].
    apply Z.eqb_eq in Ec. intros _. repeat split; [exact Ec | discriminate].
  - rewrite (ErrorHandler_encoded _ _ _ E). cbn [status]. lia.
Qed.

Lemma UnsupportedValueError_finite (x : float64) :
  UnsupportedValueError x <> None -> is_finite x = false.
Proof. unfold UnsupportedValueError. destruct (is_finite x); congruence. Qed.

(** The position an accepted write answers with is a stored one. *)
Lemma ListRepository_Update_stored_position (db db' : DB) (clk : clock)
  (list list' : List) :
  ListRepository.Update db clk list = (db', list', None) ->
  exists l, In l (lists db') /\ List_Position l = List_Position list'.
Proof.
  unfold ListRepository.Update, UPDATE_lists_SET_name_position_color. cbv zeta.
  destruct (filter _ (lists db)) as [| row0 rest0] eqn:E; [discriminate|].
  destruct (bind_REAL _); [| discriminate].
  rewrite length_cons_neq_0. intros [= <- <-].
  assert (Hin : In row0 (filter (fun l => List_ID l =? List_ID list) (lists db)))
    by (cbn [List_ID List_with_UpdatedAt] in E; rewrite E; now left).
  apply filter_In in Hin. destruct Hin as [Hin Hid].
  eexists. split.
  - cbn [lists DB_with_lists]. unfold update_lists_timestamp.
    apply in_map. apply in_map. exact Hin.
  - cbv beta. cbn [List_ID List_with_UpdatedAt] in *. rewrite Hid. cbn.
    rewrite Hid. reflexivity.
Qed.

Lemma ListRepository_UpdatePosition_stored_position (db db' : DB) (clk : clock) (id : Z)
  (p : float64) :
  ListRepository.UpdatePosition db clk id p = (db', None) ->
  exists l, In l (lists db') /\ List_Position l = p.
Proof.
  unfold ListRepository.UpdatePosition, UPDATE_lists_SET_position.
  destruct (filter _ (lists db)) as [| row0 rest0] eqn:E; [discriminate|].
  destruct (bind_REAL _); [| discriminate].
  rewrite length_cons_neq_0. intros [= <-].
  assert (Hin : In row0 (filter (fun l => List_ID l =? id) (lists db)))
    by (rewrite E; now left).
  apply filter_In in Hin. destruct Hin as [Hin Hid].
  eexists. split.
  - cbn [lists DB_with_lists]. unfold update_lists_timestamp.
    apply in_map. apply in_map. exact Hin.
  - cbv beta. rewrite Hid. cbn. rewrite Hid. reflexivity.
Qed.

Lemma CardRepository_Move_stored_position (db db' : DB) (clk : clock)
  (cardID newListID : Z) (p : float64) :
  CardRepository.Move db clk cardID newListID p = (db', None) ->
  exists c, In c (cards db') /\ Card_Position c = p.
Proof.
  unfold CardRepository.Move, UPDATE_cards_SET_list_id_position.
  destruct (filter _ (cards db)) as [| row0 rest0] eqn:E; [discriminate|].
  destruct (bind_REAL _); [| discriminate].
  destruct (existsb _ (lists db)); [| discriminate].
  rewrite length_cons_neq_0. intros [= <-].
  assert (Hin : In row0 (filter (fun c => Card_ID c =? cardID) (cards db)))
    by (rewrite E; now left).
  apply filter_In in Hin. destruct Hin as [Hin Hid].
  eexists. split.
  - cbn [cards DB_with_cards]. unfold update_cards_timestamp.
    apply in_map. apply in_map. exact Hin.
  - cbv beta. rewrite Hid. cbn. rewrite Hid. reflexivity.
Qed.

Lemma CardRepository_Update_keeps_position (db db' : DB) (clk : clock)
  (card card' old : Card) :
  CardRepository.Update db clk card = (db', card', None) ->
  In old (cards db) ->
  Card_Position card' = Card_Position card
  /\ exists c, In c (cards db') /\ Card_Position c = Card_Position old.
Proof.
  unfold CardRepository.Update, UPDATE_cards_SET_title_description_color_due_date.
  cbv zeta.
  destruct (filter _ (cards db)) as [| row0 rest0] eqn:E; [discriminate|].
  rewrite length_cons_neq_0. intros [= <- <-] Hold. split; [reflexivity|].
  eexists. split.
  - cbn [cards DB_with_cards]. unfold update_cards_timestamp.
    apply in_map. apply in_map. exact Hold.
  - cbv beta. destruct (Card_ID old =? _); cbn; destruct (_ =? _); reflexivity.
Qed.

Ltac untouched := intros; left; reflexivity.

Ltac unchanged Herr :=
  left; cbn [fst snd] in Herr; rewrite Herr by congruence; reflexivity.

(** An accepted request whose payload holds no [float64], or is answered
    with another status than 200, is not answered 400 or above. *)
Ltac accepted Hs :=
  exfalso; cbn [fst snd reply_status] in Hs;
  first [ rewrite ErrorHandler_encoded in Hs by reflexivity
        | let H := fresh in
          apply ErrorHandler_error_status in Hs; [| codes; lia];
          destruct Hs as [H _]; revert H; codes; lia
        | idtac ];
  cbn [status ErrorHandler Render] in Hs; codes; lia.

(** X5. A request answered with an error status (400 or above) has written
    nothing, with one exception: from a state in which the schema's
    constraints hold, either the state is exactly as it was, or the answer is
    the 500 that [ErrorHandler] gives after a write whose response could not
    be encoded, and the state reached holds a position that is not finite.
    In particular every 4xx answer, and every error answer that leaves the
    positions finite, has changed nothing. *)
Theorem refused_request_writes_nothing (st : store) (clk : clock) (req : request) :
  schema_holds (fst st) -> 400 <= snd (serve st clk req) ->
  fst (serve st clk req) = st
  \/ (snd (serve st clk req) = StatusInternalServerError
      /\ ~ positions_finite (fst (fst (serve st clk req)))).
Proof.
  destruct st as [db sq]. cbn [fst]. intros H.
  destruct req; cbn [serve];
    repeat match goal with
           | |- context [Atoi ?s] => destruct (Atoi s) as [? |]; [| untouched]
           end;
    try untouched; intros Hs.
  - (* POST /boards *)
    revert Hs. unfold BoardHandler.Create, BoardRepository.Create, INSERT_INTO_boards.
    cbv zeta.
    destruct (ShouldBindJSON_CreateBoardRequest body) as [req |]; [| untouched].
    intros Hs. accepted Hs.
  - (* PUT /boards/:id *)
    revert Hs. unfold BoardHandler.Update.
    destruct (BoardRepository.GetByID db z) as [b | msg]; [| not_found; untouched].
    destruct (ShouldBindJSON_UpdateBoardRequest body) as [req |]; [| untouched].
    match goal with
    | |- context [BoardRepository.Update db clk ?b] =>
        pose proof (BoardRepository_Update_refused db clk b) as Herr;
        destruct (BoardRepository.Update db clk b) as [[db1 b1] [err |]]
    end; intros Hs; [unchanged Herr | accepted Hs].
  - (* DELETE /boards/:id *)
    revert Hs. unfold BoardHandler.Delete.
    pose proof (BoardRepository_Delete_refused db z) as Herr.
    destruct (BoardRepository.Delete db z) as [db1 [err |]]; intros Hs;
      [not_found; unchanged Herr | accepted Hs].
  - (* POST /boards/:id/lists *)
    revert Hs. unfold ListHandler.Create.
    destruct (BoardRepository.GetByID db z) as [b | msg]; [| not_found; untouched].
    destruct (ShouldBindJSON_CreateListRequest body) as [req |]; [| untouched].
    match goal with
    | |- context [ListRepository.Create db clk ?l] =>
        pose proof (ListRepository_Create_refused db clk l) as Herr;
        destruct (ListRepository.Create db clk l) as [[db1 l1] [err |]]
    end; intros Hs; [unchanged Herr | accepted Hs].
  - (* PUT /lists/:id *)
    revert Hs. unfold ListHandler.Update.
    destruct (ListRepository.GetByID db z) as [l | msg]; [| not_found; untouched].
    destruct (ShouldBindJSON_UpdateListRequest body) as [req |]; [| untouched].
    match goal with
    | |- context [ListRepository.Update db clk ?l] =>
        pose proof (ListRepository_Update_refused db clk l) as Herr;
        destruct (ListRepository.Update db clk l) as [[db1 l1] [err |]] eqn:Hrun
    end; intros Hs; [unchanged Herr|].
    right. cbn [fst snd] in Hs |- *.
    apply ErrorHandler_error_status in Hs; [| codes; lia].
    destruct Hs as (_ & Hs & Hm). split; [exact Hs|].
    apply UnsupportedValueError_finite in Hm.
    destruct (ListRepository_Update_stored_position _ _ _ _ _ Hrun) as (l' & Hin & Hp).
    intros [Hl _]. specialize (Hl l' Hin). congruence.
  - (* PATCH /lists/:id/move *)
    revert Hs. unfold ListHandler.Move.
    destruct (ShouldBindJSON_MoveListRequest body) as [req |]; [| untouched].
    destruct (ListRepository.GetByID db z) as [l | msg]; [| not_found; untouched].
    destruct (ListRepository.GetAdjacentPositions db (List_BoardID l)
                (MoveListRequest_Position req)) as [[prev next] [err |]]; [untouched|].
    pose proof (ListRepository_UpdatePosition_refused db clk z
                  (ListHandler.newPosition prev next)) as Herr.
    destruct (ListRepository.UpdatePosition db clk z (ListHandler.newPosition prev next))
      as [db1 [err |]] eqn:Hrun; intros Hs; [unchanged Herr|].
    right. cbn [fst snd] in Hs |- *.
    apply ErrorHandler_error_status in Hs; [| codes; lia].
    destruct Hs as (_ & Hs & Hm). split; [exact Hs|].
    apply UnsupportedValueError_finite in Hm.
    destruct (ListRepository_UpdatePosition_stored_position _ _ _ _ _ Hrun)
      as (l' & Hin & Hp).
    intros [Hl _]. specialize (Hl l' Hin). rewrite Hp in Hl.
    cbn [List_Position List_with_Position] in Hm. congruence.
  - (* DELETE /lists/:id *)
    revert Hs. unfold ListHandler.Delete.
    pose proof (ListRepository_Delete_refused db z) as Herr.
    destruct (ListRepository.Delete db z) as [db1 [err |]]; intros Hs;
      [not_found; unchanged Herr | accepted Hs].
  - (* POST /lists/:id/cards *)
    revert Hs. unfold CardHandler.Create.
    destruct (ListRepository.GetByID db z) as [l | msg]; [| not_found; untouched].
    destruct (ShouldBindJSON_CreateCardRequest body) as [req |]; [| untouched].
    match goal with
    | |- context [CardRepository.Create db clk ?c] =>
        pose proof (CardRepository_Create_refused db clk c) as Herr;
        destruct (CardRepository.Create db clk c) as [[db1 c1] [err |]]
    end; intros Hs; [unchanged Herr | accepted Hs].
  - (* PUT /cards/:id *)
    revert Hs. unfold CardHandler.Update.
    destruct (CardRepository.GetByID db z) as [c | msg] eqn:Hget;
      [| not_found; untouched].
    destruct (ShouldBindJSON_UpdateCardRequest body) as [req |]; [| untouched].
    match goal with
    | |- context [CardRepository.Update db clk ?u] =>
        pose proof (CardRepository_Update_refused db clk u) as Herr;
        assert (Hpos : Card_Position u = Card_Position c)
          by (repeat match goal with
                     | |- context [if ?b then _ else _] => destruct b
                     | |- context [match ?o with Some _ => _ | None => _ end] =>
                         destruct o
                     end; reflexivity);
        destruct (CardRepository.Update db clk u) as [[db1 c1] [err |]] eqn:Hrun
    end; intros Hs; [unchanged Herr|].
    right. cbn [fst snd] in Hs |- *.
    apply ErrorHandler_error_status in Hs; [| codes; lia].
    destruct Hs as (_ & Hs & Hm). split; [exact Hs|].
    apply UnsupportedValueError_finite in Hm.
    assert (Hold : In c (cards db)).
    { unfold CardRepository.GetByID, SELECT_cards_WHERE_id in Hget.
      destruct (find _ (cards db)) as [c' |] eqn:E; [| discriminate].
      injection Hget as <-. now apply find_some in E. }
    destruct (CardRepository_Update_keeps_position _ _ _ _ _ c Hrun Hold)
      as (Hsame & c' & Hin & Hp).
    intros [_ Hc]. specialize (Hc c' Hin). congruence.
  - (* PATCH /cards/:id/move *)
    revert Hs. unfold CardHandler.Move.
    destruct (ShouldBindJSON_MoveCardRequest body) as [req |]; [| untouched].
    destruct (CardRepository.GetByID db z) as [c | msg]; [| not_found; untouched].
    destruct (ListRepository.GetByID db (MoveCardRequest_ListID req)) as [l | msg];
      [| not_found; untouched].
    pose proof (CardRepository_Move_refused db clk z (MoveCardRequest_ListID req)
                  (MoveCardRequest_Position req)) as Herr.
    destruct (CardRepository.Move db clk z (MoveCardRequest_ListID req)
                (MoveCardRequest_Position req)) as [db1 [err |]] eqn:Hrun; intros Hs;
      [unchanged Herr|].
    right. cbn [fst snd] in Hs |- *.
    apply ErrorHandler_error_status in Hs; [| codes; lia].
    destruct Hs as (_ & Hs & Hm). split; [exact Hs|].
    apply UnsupportedValueError_finite in Hm.
    destruct (CardRepository_Move_stored_position _ _ _ _ _ _ Hrun) as (c' & Hin & Hp).
    intros [_ Hc]. specialize (Hc c' Hin). rewrite Hp in Hc.
    cbn [Card_Position Card_with_Position Card_with_ListID] in Hm. congruence.
  - (* POST /cards/:id/archive *)
    revert Hs. unfold CardHandler.Archive.
    pose proof (CardRepository_Archive_refused db clk z true) as Herr.
    destruct (CardRepository.Archive db clk z true) as [db1 [err |]]; intros Hs;
      [not_found; unchanged Herr | accepted Hs].
  - (* POST /cards/:id/unarchive *)
    revert Hs. unfold CardHandler.Unarchive.
    pose proof (CardRepository_Archive_refused db clk z false) as Herr.
    destruct (CardRepository.Archive db clk z false) as [db1 [err |]]; intros Hs;
      [not_found; unchanged Herr | accepted Hs].
  - (* DELETE /cards/:id *)
    revert Hs. unfold CardHandler.Delete.
    pose proof (CardRepository_Delete_refused db z) as Herr.
    destruct (CardRepository.Delete db z) as [db1 [err |]]; intros Hs;
      [not_found; unchanged Herr | accepted Hs].
  - (* POST /cards/:id/comments *)
    revert Hs. unfold CardHandler.AddComment.
    destruct (CardRepository.GetByID db z) as [c | msg]; [| not_found; untouched].
    destruct (ShouldBindJSON_CreateCommentRequest body) as [req |]; [| untouched].
    match goal with
    | |- context [CardRepository.AddComment db sq clk ?m] =>
        pose proof (CardRepository_AddComment_refused db sq clk m) as Herr;
        destruct (CardRepository.AddComment db sq clk m) as [[[db1 sq1] m1] [err |]]
    end; intros Hs; [| accepted Hs].
    left. cbn [fst snd] in Herr. apply Herr. congruence.
  - (* POST /cards/quick *)
    revert Hs. unfold CardHandler.QuickCreate.
    destruct (ShouldBindJSON_QuickCreateRequest body) as [req |]; [| untouched].
    cbv zeta.
    match goal with
    | |- context [match ?b with Some _ => _ | None => (db, HandleError StatusNotFound
                    "No boards available. Please create a board first.") end] =>
        destruct b as [board |]; [| untouched]
    end.
    match goal with
    | |- context [match ?l with Some _ => _ | None => (db, HandleError StatusNotFound
                    "No lists available in the board. Please create a list first.") end] =>
        destruct l as [list |]; [| untouched]
    end.
    match goal with
    | |- context [CardRepository.Create db clk ?c] =>
        pose proof (CardRepository_Create_refused db clk c) as Herr;
        destruct (CardRepository.Create db clk c) as [[db1 c1] [err |]]
    end; intros Hs; [unchanged Herr | accepted Hs].
  - (* POST /labels *)
    revert Hs. unfold LabelHandler.Create.
    destruct (ShouldBindJSON_CreateLabelRequest body) as [req |]; [| untouched].
    pose proof (LabelRepository_Create_refused db sq clk req) as Herr.
    destruct (LabelRepository.Create db sq clk req) as [[db1 sq1] [l | err]]; intros Hs;
      [accepted Hs|].
    left. cbn [fst snd] in Herr. now apply (Herr err).
  - (* PUT /labels/:id *)
    revert Hs. unfold LabelHandler.Update.
    destruct (ShouldBindJSON_CreateLabelRequest body) as [req |]; [| untouched].
    pose proof (LabelRepository_Update_refused db z (CreateLabelRequest_Name req)
                  (CreateLabelRequest_Color req)) as Herr.
    destruct (LabelRepository.Update db z (CreateLabelRequest_Name req)
                (CreateLabelRequest_Color req)) as [db1 [l | err]]; intros Hs;
      [accepted Hs|].
    left. cbn [fst snd] in Herr. rewrite (Herr err eq_refl). now not_found.
  - (* DELETE /labels/:id *)
    revert Hs. unfold LabelHandler.Delete.
    pose proof (LabelRepository_Delete_refused db z H) as Herr.
    destruct (LabelRepository.Delete db z) as [db1 [err |]]; intros Hs;
      [not_found; unchanged Herr | accepted Hs].
  - (* POST /cards/:id/labels/:label_id *)
    revert Hs. unfold LabelHandler.AssignToCard.
    destruct (CardRepository.GetByID db z) as [c | msg]; [| not_found; untouched].
    destruct (LabelRepository.GetByID db z0) as [l | msg]; [| not_found; untouched].
    pose proof (LabelRepository_AssignToCard_refused db z z0) as Herr.
    destruct (LabelRepository.AssignToCard db z z0) as [db1 [err |]]; intros Hs;
      [unchanged Herr | accepted Hs].
  - (* DELETE /cards/:id/labels/:label_id *)
    revert Hs. unfold LabelHandler.RemoveFromCard.
    pose proof (LabelRepository_RemoveFromCard_refused db z z0) as Herr.
    destruct (LabelRepository.RemoveFromCard db z z0) as [db1 [err |]]; intros Hs;
      [not_found; unchanged Herr | accepted Hs].
Qed.

Lemma refused_request_writes_nothing_witness :
  schema_holds (fst (db_busy, sq_busy))
  /\ 400 <= snd (serve (db_busy, sq_busy) (clock_at 90) (DELETE_labels_id "7"))
  /\ (fst (serve (db_busy, sq_busy) (clock_at 90) (DELETE_labels_id "7"))
      = (db_busy, sq_busy)
      \/ (snd (serve (db_busy, sq_busy) (clock_at 90) (DELETE_labels_id "7"))
          = StatusInternalServerError
          /\ ~ positions_finite
                 (fst (fst (serve (db_busy, sq_busy) (clock_at 90)
                              (DELETE_labels_id "7")))))).
Proof.
  assert (H : 400 <= snd (serve (db_busy, sq_busy) (clock_at 90) (DELETE_labels_id "7")))
    by (vm_compute; discriminate).
  split; [exact db_busy_schema|]. split; [exact H|].
  exact (refused_request_writes_nothing (db_busy, sq_busy) (clock_at 90)
           (DELETE_labels_id "7") db_busy_schema H).
Defined.

(* ================================================================= *)
(** ** What is created is found *)







(* ================================================================= *)
(** ** Updating: the fields a request leaves out *)

Lemma updated_string_spec (field : option string) (old : string) :
  (if negb (String.eqb (string_or_zero field) "") then string_or_zero field else old)
  = updated_string field old.
Proof.
  destruct field as [s |]; cbn [string_or_zero updated_string]; [| reflexivity].
  now destruct (String.eqb s "").
Qed.

Lemma updated_position_spec (field : option float64) (old : float64) :
  (if negb (float64_or_zero field =? 0)%float then float64_or_zero field else old)
  = updated_position field old.
Proof.
  destruct field as [p |]; cbn [float64_or_zero updated_position]; [| reflexivity].
  now destruct (p =? 0)%float.
Qed.

(** X7. A list update changes the fields the body provides and nothing
    else: after a 200 the response is the stored list with its name,
    position and color replaced where the body carries a non-empty name, a
    non-zero position, a non-empty color (an absent, empty or zero field
    keeps the stored value, so a position cannot be set to 0 this way), with
    [updated_at] at the instant of the request; id, board and creation time
    are kept.  The row stored equals the response up to [updated_at], which
    the timestamp trigger sets; every other list and every other table is
    unchanged. *)
Theorem ListHandler_Update_keeps_absent_fields (db db' : DB) (clk : clock) (id : Z)
  (body : UpdateListBody) (list : List) :
  ListHandler.Update db clk id body = (db', JSON StatusOK list) ->
  exists old,
    ListRepository.GetByID db id = Ok old
    /\ list = {| List_ID := List_ID old; List_BoardID := List_BoardID old;
                 List_Name := updated_string (UpdateListBody_name body) (List_Name old);
                 List_Position :=
                   updated_position (UpdateListBody_position body) (List_Position old);
                 List_Color := updated_string (UpdateListBody_color body) (List_Color old);
                 List_CreatedAt := List_CreatedAt old;
                 List_UpdatedAt := time_Now clk |}
    /\ ListRepository.GetByID db' id
       = Ok (List_with_UpdatedAt list (CURRENT_TIMESTAMP clk))
    /\ (forall j, j <> id -> ListRepository.GetByID db' j = ListRepository.GetByID db j)
    /\ boards db' = boards db /\ cards db' = cards db /\ comments db' = comments db
    /\ labels db' = labels db /\ card_labels db' = card_labels db.
Proof.
  unfold ListHandler.Update, ListRepository.GetByID, SELECT_lists_WHERE_id.
  destruct (find (fun l => List_ID l =? id) (lists db)) as [old |] eqn:Eold;
    [| destruct (String.eqb _ _); discriminate].
  unfold ShouldBindJSON_UpdateListRequest. cbv zeta.
  destruct (omitempty_min1_max255 _); [| discriminate].
  cbn [UpdateListRequest_Name UpdateListRequest_Position UpdateListRequest_Color].
  unfold List_with_Position, List_with_Color.
  set (l1 := if negb (String.eqb (string_or_zero (UpdateListBody_name body)) "")
             then _ else old).
  set (l2 := if negb (float64_or_zero (UpdateListBody_position body) =? 0)%float
             then _ else l1).
  set (l3 := if negb (String.eqb (string_or_zero (UpdateListBody_color body)) "")
             then _ else l2).
  assert (E3 : l3 = {| List_ID := List_ID old; List_BoardID := List_BoardID old;
                       List_Name := updated_string (UpdateListBody_name body)
                                                   (List_Name old);
                       List_Position := updated_position (UpdateListBody_position body)
                                                         (List_Position old);
                       List_Color := updated_string (UpdateListBody_color body)
                                                    (List_Color old);
                       List_CreatedAt := List_CreatedAt old;
                       List_UpdatedAt := List_UpdatedAt old |}).
  { rewrite <- updated_string_spec, <- updated_position_spec, <- updated_string_spec.
    subst l3 l2 l1. destruct old.
    destruct (negb (String.eqb (string_or_zero (UpdateListBody_name body)) ""));
      destruct (negb (float64_or_zero (UpdateListBody_position body) =? 0)%float);
      destruct (negb (String.eqb (string_or_zero (UpdateListBody_color body)) ""));
      reflexivity. }
  clearbody l3. clear l1 l2. subst l3.
  unfold ListRepository.Update, UPDATE_lists_SET_name_position_color, List_with_UpdatedAt.
  cbv zeta.
  cbn [List_ID List_BoardID List_Name List_Position List_Color List_CreatedAt
       List_UpdatedAt].
  assert (Hid : List_ID old = id).
  { apply find_some in Eold. now apply Z.eqb_eq. }
  rewrite Hid.
  destruct (filter (fun l => List_ID l =? id) (lists db)) as [| row0 rest0];
    [discriminate|].
  destruct (bind_REAL _); [| discriminate].
  rewrite length_cons_neq_0. intros [= <- <-].
  exists old. split; [reflexivity|]. split; [now rewrite Hid|]. tables.
  unfold update_lists_timestamp. split; [| split].
  - rewrite (find_update_same _ List_ID), (find_update_same _ List_ID), Eold by reflexivity.
    cbn [option_map]. rewrite Hid. reflexivity.
  - intros j Hj.
    now rewrite (find_update_other _ List_ID), (find_update_other _ List_ID).
  - repeat split.
Qed.

Lemma ListHandler_Update_keeps_absent_fields_witness :
  exists db',
    ListHandler.Update db_busy clock_2 2
      {| UpdateListBody_name := Some "Shipped"; UpdateListBody_position := Some 0%float;
         UpdateListBody_color := None |}
    = (db', JSON StatusOK
              {| List_ID := 2; List_BoardID := 1; List_Name := "Shipped";
                 List_Position := 5%float; List_Color := "#6b7280";
                 List_CreatedAt := 10; List_UpdatedAt := 2000 |})
    /\ ListRepository.GetByID db' 2
       = Ok {| List_ID := 2; List_BoardID := 1; List_Name := "Shipped";
               List_Position := 5%float; List_Color := "#6b7280";
               List_CreatedAt := 10; List_UpdatedAt := 2001 |}.
Proof.
  eexists.
  assert (H : ListHandler.Update db_busy clock_2 2
                {| UpdateListBody_name := Some "Shipped";
                   UpdateListBody_position := Some 0%float;
                   UpdateListBody_color := None |}
              = (_, JSON StatusOK
                      {| List_ID := 2; List_BoardID := 1; List_Name := "Shipped";
                         List_Position := 5%float; List_Color := "#6b7280";
                         List_CreatedAt := 10; List_UpdatedAt := 2000 |}))
    by (vm_compute; reflexivity).
  split; [exact H|].
  destruct (ListHandler_Update_keeps_absent_fields _ _ _ _ _ _ H)
    as (old & _ & _ & Hstored & _).
  exact Hstored.
Defined.

(** X8. A card update never moves or archives a card: after a 200 the
    response is the stored card with its title, description and color
    replaced where the body carries a non-empty value, and its due date
    replaced where the body carries one (a due date cannot be cleared this
    way); list, position, archived flag, id and creation time are kept.  The
    row stored equals the response up to [updated_at], which the timestamp
    trigger sets; every other card and every other table is unchanged. *)
Theorem CardHandler_Update_keeps_placement (db db' : DB) (clk : clock) (id : Z)
  (body : UpdateCardBody) (card : Card) :
  CardHandler.Update db clk id body = (db', JSON StatusOK card) ->
  exists old,
    CardRepository.GetByID db id = Ok old
    /\ card = {| Card_ID := Card_ID old; Card_ListID := Card_ListID old;
                 Card_Title := updated_string (UpdateCardBody_title body) (Card_Title old);
                 Card_Description :=
                   updated_string (UpdateCardBody_description body) (Card_Description old);
                 Card_Position := Card_Position old;
                 Card_Color := updated_string (UpdateCardBody_color body) (Card_Color old);
                 Card_DueDate :=
                   updated_due_date (UpdateCardBody_due_date body) (Card_DueDate old);
                 Card_Archived := Card_Archived old;
                 Card_CreatedAt := Card_CreatedAt old;
                 Card_UpdatedAt := time_Now clk |}
    /\ CardRepository.GetByID db' id
       = Ok (Card_with_UpdatedAt card (CURRENT_TIMESTAMP clk))
    /\ (forall j, j <> id -> CardRepository.GetByID db' j = CardRepository.GetByID db j)
    /\ boards db' = boards db /\ lists db' = lists db /\ comments db' = comments db
    /\ labels db' = labels db /\ card_labels db' = card_labels db.
Proof.
  unfold CardHandler.Update, CardRepository.GetByID, SELECT_cards_WHERE_id.
  destruct (find (fun c => Card_ID c =? id) (cards db)) as [old |] eqn:Eold;
    [| destruct (String.eqb _ _); discriminate].
  unfold ShouldBindJSON_UpdateCardRequest. cbv zeta.
  destruct (omitempty_min1_max255 _); [| discriminate].
  cbn [UpdateCardRequest_Title UpdateCardRequest_Description UpdateCardRequest_Color
       UpdateCardRequest_DueDate].
  set (c1 := if negb (String.eqb (string_or_zero (UpdateCardBody_title body)) "")
             then _ else old).
  set (c2 := if negb (String.eqb (string_or_zero (UpdateCardBody_description body)) "")
             then _ else c1).
  set (c3 := if negb (String.eqb (string_or_zero (UpdateCardBody_color body)) "")
             then _ else c2).
  set (c4 := match UpdateCardBody_due_date body with Some _ => _ | None => c3 end).
  assert (E4 : c4 = {| Card_ID := Card_ID old; Card_ListID := Card_ListID old;
                       Card_Title := updated_string (UpdateCardBody_title body)
                                                    (Card_Title old);
                       Card_Description :=
                         updated_string (UpdateCardBody_description body)
                                        (Card_Description old);
                       Card_Position := Card_Position old;
                       Card_Color := updated_string (UpdateCardBody_color body)
                                                    (Card_Color old);
                       Card_DueDate := updated_due_date (UpdateCardBody_due_date body)
                                                        (Card_DueDate old);
                       Card_Archived := Card_Archived old;
                       Card_CreatedAt := Card_CreatedAt old;
                       Card_UpdatedAt := Card_UpdatedAt old |}).
  { rewrite <- !updated_string_spec. subst c4 c3 c2 c1. destruct old.
    destruct (negb (String.eqb (string_or_zero (UpdateCardBody_title body)) ""));
      destruct (negb (String.eqb (string_or_zero (UpdateCardBody_description body)) ""));
      destruct (negb (String.eqb (string_or_zero (UpdateCardBody_color body)) ""));
      destruct (UpdateCardBody_due_date body); reflexivity. }
  clearbody c4. clear c1 c2 c3. subst c4.
  unfold CardRepository.Update, UPDATE_cards_SET_title_description_color_due_date,
    Card_with_UpdatedAt.
  cbv zeta.
  cbn [Card_ID Card_ListID Card_Title Card_Description Card_Position Card_Color
       Card_DueDate Card_Archived Card_CreatedAt Card_UpdatedAt].
  assert (Hid : Card_ID old = id).
  { apply find_some in Eold. now apply Z.eqb_eq. }
  rewrite Hid.
  destruct (filter (fun c => Card_ID c =? id) (cards db)) as [| row0 rest0];
    [discriminate|].
  rewrite length_cons_neq_0. intros [= <- <-].
  exists old. split; [reflexivity|]. split; [now rewrite Hid|]. tables.
  unfold update_cards_timestamp. split; [| split].
  - rewrite (find_update_same _ Card_ID), (find_update_same _ Card_ID), Eold by reflexivity.
    cbn [option_map]. rewrite Hid. reflexivity.
  - intros j Hj.
    now rewrite (find_update_other _ Card_ID), (find_update_other _ Card_ID).
  - repeat split.
Qed.

Lemma CardHandler_Update_keeps_placement_witness :
  exists db',
    CardHandler.Update db_busy clock_2 2
      {| UpdateCardBody_title := Some "Task B, revised"; UpdateCardBody_description := None;
         UpdateCardBody_color := Some ""; UpdateCardBody_due_date := Some 500 |}
    = (db', JSON StatusOK
              {| Card_ID := 2; Card_ListID := 1; Card_Title := "Task B, revised";
                 Card_Description := ""; Card_Position := 2%float; Card_Color := "";
                 Card_DueDate := Some 500; Card_Archived := false;
                 Card_CreatedAt := 30; Card_UpdatedAt := 2000 |})
    /\ CardRepository.GetByID db' 2
       = Ok {| Card_ID := 2; Card_ListID := 1; Card_Title := "Task B, revised";
               Card_Description := ""; Card_Position := 2%float; Card_Color := "";
               Card_DueDate := Some 500; Card_Archived := false;
               Card_CreatedAt := 30; Card_UpdatedAt := 2001 |}.
Proof.
  eexists.
  assert (H : CardHandler.Update db_busy clock_2 2
                {| UpdateCardBody_title := Some "Task B, revised";
                   UpdateCardBody_description := None;
                   UpdateCardBody_color := Some "";
                   UpdateCardBody_due_date := Some 500 |}
              = (_, JSON StatusOK
                      {| Card_ID := 2; Card_ListID := 1; Card_Title := "Task B, revised";
                         Card_Description := ""; Card_Position := 2%float;
                         Card_Color := ""; Card_DueDate := Some 500;
                         Card_Archived := false;
                         Card_CreatedAt := 30; Card_UpdatedAt := 2000 |}))
    by (vm_compute; reflexivity).
  split; [exact H|].
  destruct (CardHandler_Update_keeps_placement _ _ _ _ _ _ H)
    as (old & _ & _ & Hstored & _).
  exact Hstored.
Defined.

(* ================================================================= *)
(** ** Boards *)

(** X9. A board is created exactly when the body carries a name of 1 to
    255 characters: the answer is then 201 with a board that has that name,
    the body's description (empty when absent), both timestamps at the
    instant of the request and an id no stored board has; the board is
    appended to the stored boards and nothing else changes.  Any other body
    is answered 400 and nothing is stored. *)
Theorem BoardHandler_Create_validates_name (db : DB) (sq : sqlite_sequence) (clk : clock)
  (body : CreateBoardBody) :
  let name := string_or_zero (CreateBoardBody_name body) in
  (1 <= Z.of_nat (String.length name) <= 255 ->
   exists id,
     let board := {| Board_ID := id; Board_Name := name;
                     Board_Description :=
                       string_or_zero (CreateBoardBody_description body);
                     Board_CreatedAt := time_Now clk; Board_UpdatedAt := time_Now clk |} in
     BoardHandler.Create db sq clk body
     = (DB_with_boards db (boards db ++ [board]),
        {| seq_boards := id; seq_comments := seq_comments sq;
           seq_labels := seq_labels sq |},
        JSON StatusCreated board)
     /\ ~ In id (map Board_ID (boards db)) /\ seq_boards sq < id)
  /\ (~ 1 <= Z.of_nat (String.length name) <= 255 ->
      BoardHandler.Create db sq clk body
      = (db, sq, HandleError StatusBadRequest "Invalid request body")).
Proof.
  intros name. unfold BoardHandler.Create, ShouldBindJSON_CreateBoardRequest. cbv zeta.
  cbn [CreateBoardRequest_Name CreateBoardRequest_Description]. fold name.
  unfold required_min1_max255.
  split; intros Hlen.
  - assert (Hne : String.eqb name "" = false).
    { destruct name; [cbn in Hlen; lia | reflexivity]. }
    rewrite Hne. cbn [negb andb].
    destruct (Z.leb_spec 1 (Z.of_nat (String.length name))); [| lia].
    destruct (Z.leb_spec (Z.of_nat (String.length name)) 255); [| lia].
    cbn [andb]. unfold BoardRepository.Create, INSERT_INTO_boards. cbv zeta.
    cbn [Board_ID Board_Name Board_Description Board_CreatedAt Board_UpdatedAt].
    eexists. split; [reflexivity|]. split; [apply AUTOINCREMENT_fresh|].
    exact (proj1 (AUTOINCREMENT_above _ _)).
  - destruct (String.eqb name ""); [reflexivity|]. cbn [negb andb].
    destruct (Z.leb_spec 1 (Z.of_nat (String.length name)));
      destruct (Z.leb_spec (Z.of_nat (String.length name)) 255);
      try reflexivity; lia.
Qed.

Lemma BoardHandler_Create_validates_name_witness :
  1 <= Z.of_nat (String.length "Roadmap") <= 255
  /\ exists id,
      BoardHandler.Create db_seeded sq_seeded (clock_at 10)
        {| CreateBoardBody_name := Some "Roadmap"; CreateBoardBody_description := None |}
      = (DB_with_boards db_seeded
           (boards db_seeded
            ++ [{| Board_ID := id; Board_Name := "Roadmap"; Board_Description := "";
                   Board_CreatedAt := 10; Board_UpdatedAt := 10 |}]),
         {| seq_boards := id; seq_comments := 0; seq_labels := 6 |},
         JSON StatusCreated
           {| Board_ID := id; Board_Name := "Roadmap"; Board_Description := "";
              Board_CreatedAt := 10; Board_UpdatedAt := 10 |})
      /\ ~ In id (map Board_ID (boards db_seeded)) /\ seq_boards sq_seeded < id.
Proof.
  assert (H : 1 <= Z.of_nat (String.length "Roadmap") <= 255) by (cbn; lia).
  split; [exact H|].
  exact (proj1 (BoardHandler_Create_validates_name db_seeded sq_seeded (clock_at 10)
                  {| CreateBoardBody_name := Some "Roadmap";
                     CreateBoardBody_description := None |}) H).
Defined.

(** X10. A board update changes the fields the body provides and nothing
    else: after a 200 the response is the stored board with its name and
    description replaced where the body carries a non-empty value, with
    [updated_at] at the instant of the request; the row stored equals the
    response up to [updated_at], which the timestamp trigger sets, every
    other board is found as before, and the lists, cards, comments and
    labels are unchanged. *)
Theorem BoardHandler_Update_keeps_absent_fields (db db' : DB) (clk : clock) (id : Z)
  (body : UpdateBoardBody) (board : Board) :
  BoardHandler.Update db clk id body = (db', JSON StatusOK board) ->
  exists old,
    BoardRepository.GetByID db id = Ok old
    /\ board = {| Board_ID := Board_ID old;
                  Board_Name := updated_string (UpdateBoardBody_name body) (Board_Name old);
                  Board_Description :=
                    updated_string (UpdateBoardBody_description body)
                                   (Board_Description old);
                  Board_CreatedAt := Board_CreatedAt old;
                  Board_UpdatedAt := time_Now clk |}
    /\ BoardRepository.GetByID db' id
       = Ok {| Board_ID := Board_ID board; Board_Name := Board_Name board;
               Board_Description := Board_Description board;
               Board_CreatedAt := Board_CreatedAt board;
               Board_UpdatedAt := CURRENT_TIMESTAMP clk |}
    /\ (forall j, j <> id -> BoardRepository.GetByID db' j = BoardRepository.GetByID db j)
    /\ lists db' = lists db /\ cards db' = cards db /\ comments db' = comments db
    /\ labels db' = labels db /\ card_labels db' = card_labels db.
Proof.
  unfold BoardHandler.Update, BoardRepository.GetByID, SELECT_boards_WHERE_id.
  destruct (find (fun b => Board_ID b =? id) (boards db)) as [old |] eqn:Eold;
    [| destruct (String.eqb _ _); discriminate].
  unfold ShouldBindJSON_UpdateBoardRequest. cbv zeta.
  destruct (omitempty_min1_max255 _); [| discriminate].
  cbn [UpdateBoardRequest_Name UpdateBoardRequest_Description].
  set (b1 := if negb (String.eqb (string_or_zero (UpdateBoardBody_name body)) "")
             then _ else old).
  set (b2 := if negb (String.eqb (string_or_zero (UpdateBoardBody_description body)) "")
             then _ else b1).
  assert (E2 : b2 = {| Board_ID := Board_ID old;
                       Board_Name := updated_string (UpdateBoardBody_name body)
                                                    (Board_Name old);
                       Board_Description :=
                         updated_string (UpdateBoardBody_description body)
                                        (Board_Description old);
                       Board_CreatedAt := Board_CreatedAt old;
                       Board_UpdatedAt := Board_UpdatedAt old |}).
  { rewrite <- !updated_string_spec. subst b2 b1. destruct old.
    destruct (negb (String.eqb (string_or_zero (UpdateBoardBody_name body)) ""));
      destruct (negb (String.eqb (string_or_zero (UpdateBoardBody_description body)) ""));
      reflexivity. }
  clearbody b2. clear b1. subst b2.
  unfold BoardRepository.Update, UPDATE_boards_SET_name_description. cbv zeta.
  cbn [Board_ID Board_Name Board_Description Board_CreatedAt Board_UpdatedAt].
  assert (Hid : Board_ID old = id).
  { apply find_some in Eold. now apply Z.eqb_eq. }
  rewrite Hid.
  destruct (filter (fun b => Board_ID b =? id) (boards db)) as [| row0 rest0];
    [discriminate|].
  rewrite length_cons_neq_0. intros [= <- <-].
  exists old. split; [reflexivity|]. split; [now rewrite Hid|]. tables.
  cbn [Board_ID Board_Name Board_Description Board_CreatedAt Board_UpdatedAt].
  unfold update_boards_timestamp. split; [| split].
  - rewrite (find_update_same _ Board_ID), (find_update_same _ Board_ID), Eold
      by reflexivity.
    cbn [option_map Board_ID Board_Name Board_Description Board_CreatedAt].
    rewrite Hid. reflexivity.
  - intros j Hj.
    now rewrite (find_update_other _ Board_ID), (find_update_other _ Board_ID).
  - repeat split.
Qed.

Lemma BoardHandler_Update_keeps_absent_fields_witness :
  exists db',
    BoardHandler.Update db_seeded clock_2 1
      {| UpdateBoardBody_name := Some "Team Board"; UpdateBoardBody_description := None |}
    = (db', JSON StatusOK
              {| Board_ID := 1; Board_Name := "Team Board";
                 Board_Description := "Default kanban board";
                 Board_CreatedAt := 0; Board_UpdatedAt := 2000 |})
    /\ BoardRepository.GetByID db' 1
       = Ok {| Board_ID := 1; Board_Name := "Team Board";
               Board_Description := "Default kanban board";
               Board_CreatedAt := 0; Board_UpdatedAt := 2001 |}.
Proof.
  eexists.
  assert (H : BoardHandler.Update db_seeded clock_2 1
                {| UpdateBoardBody_name := Some "Team Board";
                   UpdateBoardBody_description := None |}
              = (_, JSON StatusOK
                      {| Board_ID := 1; Board_Name := "Team Board";
                         Board_Description := "Default kanban board";
                         Board_CreatedAt := 0; Board_UpdatedAt := 2000 |}))
    by (vm_compute; reflexivity).
  split; [exact H|].
  destruct (BoardHandler_Update_keeps_absent_fields _ _ _ _ _ _ H)
    as (old & _ & _ & Hstored & _).
  exact Hstored.
Defined.

(* ================================================================= *)
(** ** Comments *)

Lemma newest_first_sorted (A : Type) (at_ : A -> Time) (rows : list A) :
  StronglySorted (fun a b => at_ b <= at_ a)
    (ORDER_BY (fun a b => at_ b <=? at_ a) rows).
Proof.
  eapply StronglySorted_impl; [| apply ORDER_BY_sorted].
  - intros a b H. cbv beta in H. now apply Z.leb_le.
  - intros a b. cbv beta. rewrite !Z.leb_le. lia.
  - intros a b c. cbv beta. rewrite !Z.leb_le. lia.
Qed.

(** X11. A comment that was added is listed: after a 201 from AddComment
    the comment of the response carries the card's id, the body's content
    and the instant of the request, under an id no stored comment has; it is
    appended to the stored comments and no other table changes.  The
    listing of the card's comments then answers 200 with exactly the card's
    earlier comments and the new one, newest first, and the comments of
    every other card are listed as before. *)
Theorem AddComment_then_GetComments (db db' : DB) (sq sq' : sqlite_sequence) (clk : clock)
  (cardID : Z) (body : CreateCommentBody) (comment : Comment) :
  CardHandler.AddComment db sq clk cardID body = (db', sq', JSON StatusCreated comment) ->
  Comment_CardID comment = cardID
  /\ Some (Comment_Content comment) = CreateCommentBody_content body
  /\ Comment_CreatedAt comment = time_Now clk
  /\ ~ In (Comment_ID comment) (map Comment_ID (comments db))
  /\ comments db' = comments db ++ [comment]
  /\ boards db' = boards db /\ lists db' = lists db /\ cards db' = cards db
  /\ labels db' = labels db /\ card_labels db' = card_labels db
  /\ (exists listed,
         CardHandler.GetComments db' cardID = JSON StatusOK (mk_slice listed)
         /\ Permutation listed (comment :: comments_of db cardID)
         /\ StronglySorted (fun a b => Comment_CreatedAt b <= Comment_CreatedAt a) listed)
  /\ (forall j, j <> cardID ->
                CardRepository.GetComments db' j = CardRepository.GetComments db j).
Proof.
  unfold CardHandler.AddComment.
  destruct (CardRepository.GetByID db cardID) as [card | msg] eqn:Ecard;
    [| destruct (String.eqb _ _); discriminate].
  unfold ShouldBindJSON_CreateCommentRequest. cbv zeta.
  cbn [CreateCommentRequest_Content].
  destruct (required_min1 _) eqn:Ereq; [| discriminate].
  unfold CardRepository.AddComment, INSERT_INTO_comments. cbv zeta.
  cbn [Comment_ID Comment_CardID Comment_Content Comment_CreatedAt].
  destruct (existsb _ (cards db)); [| discriminate].
  intros [= <- _ <-].
  cbn [Comment_ID Comment_CardID Comment_Content Comment_CreatedAt]. tables.
  split; [reflexivity|]. split.
  { destruct (CreateCommentBody_content body) as [s |]; [reflexivity|].
    cbn in Ereq. discriminate. }
  split; [reflexivity|]. split; [apply AUTOINCREMENT_fresh|].
  repeat (split; [reflexivity|]). split.
  - unfold CardHandler.GetComments.
    replace (CardRepository.GetByID _ cardID) with (@Ok Card card) by (symmetry; exact Ecard).
    unfold CardRepository.GetComments, SELECT_comments_WHERE_card_id. tables.
    rewrite filter_app. cbn [filter Comment_CardID]. rewrite Z.eqb_refl.
    fold (comments_of db cardID).
    match goal with
    | |- context [collect (ORDER_BY ?le ?rows)] =>
        pose proof (ORDER_BY_Permutation _ le rows) as Hperm;
        pose proof (newest_first_sorted _ Comment_CreatedAt rows) as Hsort;
        destruct (ORDER_BY le rows) as [| first rest] eqn:Eo
    end.
    + apply Permutation_nil in Hperm. now destruct (comments_of db cardID).
    + rewrite collect_spec. eexists. split; [reflexivity|]. split; [| exact Hsort].
      rewrite Hperm. rewrite Permutation_app_comm. reflexivity.
  - intros j Hj. unfold CardRepository.GetComments, SELECT_comments_WHERE_card_id. tables.
    rewrite filter_app. cbn [filter Comment_CardID].
    assert (E : (cardID =? j) = false) by (apply Z.eqb_neq; congruence).
    rewrite E, app_nil_r. reflexivity.
Qed.

Lemma AddComment_then_GetComments_witness :
  exists db' sq',
    let comment := mk_comment 5 1 "done" 2000 in
    CardHandler.AddComment db_busy sq_busy clock_2 1
      {| CreateCommentBody_content := Some "done" |}
    = (db', sq', JSON StatusCreated comment)
    /\ exists listed,
        CardHandler.GetComments db' 1 = JSON StatusOK (mk_slice listed)
        /\ Permutation listed (comment :: comments_of db_busy 1)
        /\ StronglySorted (fun a b => Comment_CreatedAt b <= Comment_CreatedAt a) listed.
Proof.
  eexists. eexists.
  assert (H : CardHandler.AddComment db_busy sq_busy clock_2 1
                {| CreateCommentBody_content := Some "done" |}
              = (_, _, JSON StatusCreated (mk_comment 5 1 "done" 2000)))
    by (vm_compute; reflexivity).
  cbv zeta. split; [exact H|].
  destruct (AddComment_then_GetComments _ _ _ _ _ _ _ _ H)
    as (_ & _ & _ & _ & _ & _ & _ & _ & _ & _ & Hlisted & _).
  exact Hlisted.
Defined.

(* ================================================================= *)
(** ** Labels *)

(** [ORDER BY name]: the comparison of names is a total preorder. *)
Lemma String_leb_trans (a b c : string) :
  String.leb a b = true -> String.leb b c = true -> String.leb a c = true.
Proof.
  unfold String.leb. revert b c.
  induction a as [| x a IH]; intros [| y b] [| z c]; cbn [String.compare];
    try easy.
  unfold Ascii.compare.
  destruct (N.compare_spec (N_of_ascii x) (N_of_ascii y)) as [Exy | Lxy | Gxy];
    [| | easy];
    (destruct (N.compare_spec (N_of_ascii y) (N_of_ascii z)) as [Eyz | Lyz | Gyz];
     [| | easy]); intros H1 H2.
  - rewrite Exy, Eyz, N.compare_refl. now apply (IH b c).
  - rewrite Exy. apply N.compare_lt_iff in Lyz. now rewrite Lyz.
  - rewrite <- Eyz. apply N.compare_lt_iff in Lxy. now rewrite Lxy.
  - assert (L : (N_of_ascii x < N_of_ascii z)%N) by lia.
    apply N.compare_lt_iff in L. now rewrite L.
Qed.

Lemma by_name_sorted (rows : list Label) :
  StronglySorted (fun a b => String.leb (Label_Name a) (Label_Name b) = true)
    (ORDER_BY (fun a b => String.leb (Label_Name a) (Label_Name b)) rows).
Proof.
  apply ORDER_BY_sorted.
  - intros a b. apply String.leb_total.
  - intros a b c. apply String_leb_trans.
Qed.

Lemma card_labels_filter_In (p : Z * Z -> bool) (db : DB) (x : Z * Z) :
  In x (filter p (card_labels db)) <-> In x (card_labels db) /\ p x = true.
Proof. apply filter_In. Qed.

(** X12. Removing an association undoes assigning it: after AssignToCard
    has answered 200 for a card and a label, RemoveFromCard for the same
    pair answers 204 and leaves no association of the two, while every other
    association and every other table is as before the assignment; when the
    pair was not associated before, the state is back to what it was.
    Removing the pair once more answers 404 and changes nothing. *)
Theorem RemoveFromCard_undoes_AssignToCard (db db1 : DB) (cardID labelID : Z) :
  LabelHandler.AssignToCard db cardID labelID
  = (db1, JSON_H StatusOK [("message", "Label assigned to card successfully")]) ->
  exists db2,
    LabelHandler.RemoveFromCard db1 cardID labelID = (db2, Status StatusNoContent)
    /\ association_rows db2 cardID labelID = 0%nat
    /\ card_labels db2
       = filter (fun cl => negb ((fst cl =? cardID) && (snd cl =? labelID)))
                (card_labels db)
    /\ boards db2 = boards db /\ lists db2 = lists db /\ cards db2 = cards db
    /\ comments db2 = comments db /\ labels db2 = labels db
    /\ (~ In (cardID, labelID) (card_labels db) -> db2 = db)
    /\ LabelHandler.RemoveFromCard db2 cardID labelID
       = (db2, Wrote (JSON_H StatusNotFound
                        [("error", "Not Found");
                         ("message", "Label assignment not found")])).
Proof.
  unfold LabelHandler.AssignToCard.
  destruct (CardRepository.GetByID db cardID) as [c | msg];
    [| destruct (String.eqb _ _); discriminate].
  destruct (LabelRepository.GetByID db labelID) as [l | msg];
    [| destruct (String.eqb _ _); discriminate].
  set (p := fun cl : Z * Z => (fst cl =? cardID) && (snd cl =? labelID)).
  assert (Hp : p (cardID, labelID) = true).
  { unfold p. cbn [fst snd]. now rewrite !Z.eqb_refl. }
  assert (Hq : forall cl, p cl = true -> cl = (cardID, labelID)).
  { intros [a b] H. unfold p in H. cbn [fst snd] in H. apply andb_prop in H.
    destruct H as [Ha Hb]. apply Z.eqb_eq in Ha, Hb. congruence. }
  assert (Hcl : forall db0, card_labels db0 = card_labels db
                            \/ card_labels db0 = card_labels db ++ [(cardID, labelID)] ->
                In (cardID, labelID) (card_labels db0) ->
                filter (fun cl => negb (p cl)) (card_labels db0)
                = filter (fun cl => negb (p cl)) (card_labels db)
                /\ filter p (card_labels db0) <> []).
  { intros db0 Hdb0 Hin. split.
    - destruct Hdb0 as [-> | ->]; [reflexivity|].
      rewrite filter_app. cbn [filter]. rewrite Hp. cbn [negb]. apply app_nil_r.
    - intros Hnil. rewrite filter_nil_iff in Hnil. specialize (Hnil _ Hin). congruence. }
  assert (Hdone : forall db0,
             boards db0 = boards db -> lists db0 = lists db -> cards db0 = cards db ->
             comments db0 = comments db -> labels db0 = labels db ->
             seq_lists db0 = seq_lists db -> seq_cards db0 = seq_cards db ->
             card_labels db0 = card_labels db
             \/ card_labels db0 = card_labels db ++ [(cardID, labelID)] ->
             In (cardID, labelID) (card_labels db0) ->
             exists db2,
               LabelHandler.RemoveFromCard db0 cardID labelID = (db2, Status StatusNoContent)
               /\ association_rows db2 cardID labelID = 0%nat
               /\ card_labels db2 = filter (fun cl => negb (p cl)) (card_labels db)
               /\ boards db2 = boards db /\ lists db2 = lists db /\ cards db2 = cards db
               /\ comments db2 = comments db /\ labels db2 = labels db
               /\ (~ In (cardID, labelID) (card_labels db) -> db2 = db)
               /\ LabelHandler.RemoveFromCard db2 cardID labelID
                  = (db2, Wrote (JSON_H StatusNotFound
                                   [("error", "Not Found");
                                    ("message", "Label assignment not found")]))).
  { intros db0 Hb Hl Hc Hm Hlab Hs1 Hs2 Hdb0 Hin.
    destruct (Hcl db0 Hdb0 Hin) as [Hkeep Hsome].
    unfold LabelHandler.RemoveFromCard, LabelRepository.RemoveFromCard,
      DELETE_FROM_card_labels_WHERE_card_id_AND_label_id.
    change (fun cl : Z * Z => negb ((fst cl =? cardID) && (snd cl =? labelID)))
      with (fun cl => negb (p cl)).
    change (fun cl : Z * Z => (fst cl =? cardID) && (snd cl =? labelID)) with p.
    destruct (filter p (card_labels db0)) as [| row0 rest0]; [congruence|].
    rewrite length_cons_neq_0. eexists. split; [reflexivity|]. tables.
    rewrite Hkeep.
    assert (Hgone : ~ In (cardID, labelID) (filter (fun cl => negb (p cl)) (card_labels db))).
    { intros H. apply filter_In in H. destruct H as [_ H]. rewrite Hp in H. discriminate. }
    split; [| split; [reflexivity | repeat (split; [assumption|]); split]].
    - unfold association_rows. tables. now apply count_occ_not_In.
    - intros Hnot. unfold DB_with_card_labels.
      rewrite Hb, Hl, Hc, Hm, Hlab, Hs1, Hs2, filter_all; [apply DB_eta|].
      intros cl Hcl'. destruct (p cl) eqn:E; [| reflexivity].
      apply Hq in E. subst cl. contradiction.
    - replace (filter p (filter (fun cl => negb (p cl)) (card_labels db)))
        with (@nil (Z * Z)).
      + cbn [List.length Z.of_nat Z.eqb String.eqb]. unfold DB_with_card_labels. tables.
        rewrite (filter_all _ (fun cl => negb (p cl))); [reflexivity|].
        intros cl Hcl'. apply filter_In in Hcl'. now destruct Hcl'.
      + symmetry. apply filter_nil_iff. intros cl Hcl'. apply filter_In in Hcl'.
        destruct Hcl' as [_ Hcl']. now apply negb_true_iff in Hcl'. }
  destruct (SELECT_EXISTS_card_labels db cardID labelID) eqn:Eex;
    unfold LabelRepository.AssignToCard; rewrite Eex.
  - intros [= <-]. apply SELECT_EXISTS_card_labels_In in Eex.
    apply Hdone; auto.
  - unfold INSERT_INTO_card_labels. rewrite Eex.
    destruct (existsb _ (cards db) && existsb _ (labels db)); [| discriminate].
    intros [= <-]. apply Hdone; try reflexivity; tables; [now right|].
    apply in_or_app. right. now left.
Qed.

Lemma RemoveFromCard_undoes_AssignToCard_witness :
  exists db1 db2,
    LabelHandler.AssignToCard db_busy 1 2
    = (db1, JSON_H StatusOK [("message", "Label assigned to card successfully")])
    /\ LabelHandler.RemoveFromCard db1 1 2 = (db2, Status StatusNoContent)
    /\ db2 = db_busy.
Proof.
  eexists.
  assert (H : LabelHandler.AssignToCard db_busy 1 2
              = (_, JSON_H StatusOK [("message", "Label assigned to card successfully")]))
    by (vm_compute; reflexivity).
  destruct (RemoveFromCard_undoes_AssignToCard _ _ _ _ H)
    as (db2 & Hrm & _ & _ & _ & _ & _ & _ & _ & Hback & _).
  exists db2. split; [exact H|]. split; [exact Hrm|].
  apply Hback. vm_compute. intuition discriminate.
Defined.

Lemma existsb_name_true (name : string) (ls : list Label) :
  In name (map Label_Name ls) ->
  existsb (fun l => String.eqb (Label_Name l) name) ls = true.
Proof.
  intros Hin. apply in_map_iff in Hin. destruct Hin as (l & Hn & Hl).
  apply existsb_exists. exists l. split; [exact Hl|]. now apply String.eqb_eq.
Qed.

Lemma validate_CreateLabelRequest_ok (req : CreateLabelRequest) :
  validate_CreateLabelRequest req = []
  <-> 1 <= Z.of_nat (String.length (CreateLabelRequest_Name req)) <= 50
      /\ CreateLabelRequest_Color req <> "".
Proof.
  unfold validate_CreateLabelRequest.
  destruct (String.eqb_spec (CreateLabelRequest_Name req) "") as [En | En].
  - rewrite En. cbn. split; [discriminate | lia].
  - assert (Hpos : 1 <= Z.of_nat (String.length (CreateLabelRequest_Name req))).
    { destruct (CreateLabelRequest_Name req); [congruence | cbn; lia]. }
    destruct (Z.ltb_spec (Z.of_nat (String.length (CreateLabelRequest_Name req))) 1);
      [lia|].
    destruct (Z.ltb_spec 50 (Z.of_nat (String.length (CreateLabelRequest_Name req)))).
    + cbn. split; [discriminate | lia].
    + destruct (String.eqb_spec (CreateLabelRequest_Color req) "") as [Ec | Ec]; cbn.
      * split; [discriminate | tauto].
      * split; [intros _; split; [lia | exact Ec] | reflexivity].
Qed.

(** X13. Label names stay unique: a label is created exactly when the body
    carries a name of 1 to 50 characters and a non-empty color and no stored
    label bears that name.  The answer is then 201 with a label that has
    the body's name and color, the store's timestamp and an id no stored
    label has, appended to the stored labels.  A name already in use is
    answered 500 and a body that fails validation 400, and in both cases
    nothing is stored. *)
Theorem LabelHandler_Create_keeps_names_unique (db : DB) (sq : sqlite_sequence)
  (clk : clock) (body : CreateLabelBody) :
  let name := string_or_zero (CreateLabelBody_name body) in
  let color := string_or_zero (CreateLabelBody_color body) in
  let valid := 1 <= Z.of_nat (String.length name) <= 50 /\ color <> "" in
  (valid -> ~ In name (map Label_Name (labels db)) ->
   exists id,
     let label := {| Label_ID := id; Label_Name := name; Label_Color := color;
                     Label_CreatedAt := CURRENT_TIMESTAMP clk |} in
     LabelHandler.Create db sq clk body
     = (DB_with_labels db (labels db ++ [label]),
        {| seq_boards := seq_boards sq; seq_comments := seq_comments sq;
           seq_labels := id |},
        JSON StatusCreated label)
     /\ ~ In id (map Label_ID (labels db)) /\ seq_labels sq < id)
  /\ (valid -> In name (map Label_Name (labels db)) ->
      exists message,
        LabelHandler.Create db sq clk body
        = (db, sq, JSON_H StatusInternalServerError
                     [("error", "Internal Server Error"); ("message", message)]))
  /\ (~ valid ->
      exists message,
        LabelHandler.Create db sq clk body
        = (db, sq, JSON_H StatusBadRequest
                     [("error", "Bad Request"); ("message", message)])).
Proof.
  intros name color valid.
  unfold LabelHandler.Create, ShouldBindJSON_CreateLabelRequest. cbv zeta.
  match goal with
  | |- context [validate_CreateLabelRequest ?r] =>
      pose proof (validate_CreateLabelRequest_ok r) as Hv;
      cbn [CreateLabelRequest_Name CreateLabelRequest_Color] in Hv;
      destruct (validate_CreateLabelRequest r) as [| e errs]
  end.
  - assert (Hvalid : valid) by exact (proj1 Hv eq_refl).
    unfold LabelRepository.Create, INSERT_INTO_labels.
    cbn [CreateLabelRequest_Name CreateLabelRequest_Color]. fold name color.
    split; [| split].
    + intros _ Hfree.
      destruct (existsb _ (labels db)) eqn:E.
      * exfalso. apply Hfree. apply existsb_exists in E. destruct E as (l & Hl & Hn).
        apply String.eqb_eq in Hn. rewrite <- Hn. now apply in_map.
      * eexists. split; [reflexivity|]. split; [apply AUTOINCREMENT_fresh|].
        exact (proj1 (AUTOINCREMENT_above _ _)).
    + intros _ Hused. rewrite (existsb_name_true _ _ Hused). eexists. reflexivity.
    + intros Hn. contradiction.
  - assert (Hinvalid : ~ valid) by (intros H; apply (proj2 Hv) in H; discriminate).
    split; [| split]; try (intros H; contradiction).
    intros _. eexists. reflexivity.
Qed.

Lemma LabelHandler_Create_keeps_names_unique_witness :
  (1 <= Z.of_nat (String.length "Bug") <= 50 /\ "#000000" <> "")
  /\ In "Bug" (map Label_Name (labels db_seeded))
  /\ exists message,
      LabelHandler.Create db_seeded sq_seeded (clock_at 10)
        {| CreateLabelBody_name := Some "Bug"; CreateLabelBody_color := Some "#000000" |}
      = (db_seeded, sq_seeded,
         JSON_H StatusInternalServerError
           [("error", "Internal Server Error"); ("message", message)]).
Proof.
  assert (Hv : 1 <= Z.of_nat (String.length "Bug") <= 50 /\ "#000000" <> "")
    by (split; [cbn; lia | discriminate]).
  assert (Hin : In "Bug" (map Label_Name (labels db_seeded))) by (left; reflexivity).
  split; [exact Hv|]. split; [exact Hin|].
  exact (proj1 (proj2 (LabelHandler_Create_keeps_names_unique db_seeded sq_seeded
                         (clock_at 10)
                         {| CreateLabelBody_name := Some "Bug";
                            CreateLabelBody_color := Some "#000000" |})) Hv Hin).
Defined.

(** X14. Deleting a stored label answers 204 and removes the label with
    all of its associations: the other labels, the associations of the
    other labels and every card, list, board and comment stay as they were,
    and the label is not found afterwards.  Deleting a label that is not
    stored answers 404 and, in a state where the foreign keys hold, changes
    nothing. *)
Theorem LabelHandler_Delete_removes_label_and_associations (db : DB) (id : Z) :
  ((exists l, In l (labels db) /\ Label_ID l = id) ->
   exists db',
     LabelHandler.Delete db id = (db', Status StatusNoContent)
     /\ labels db' = filter (fun l => negb (Label_ID l =? id)) (labels db)
     /\ card_labels db' = filter (fun cl => negb (snd cl =? id)) (card_labels db)
     /\ boards db' = boards db /\ lists db' = lists db /\ cards db' = cards db
     /\ comments db' = comments db
     /\ LabelHandler.GetByID db' id
        = JSON_H StatusNotFound [("error", "Not Found"); ("message", "Label not found")])
  /\ (schema_holds db -> (forall l, In l (labels db) -> Label_ID l <> id) ->
      LabelHandler.Delete db id
      = (db, Wrote (JSON_H StatusNotFound
                      [("error", "Not Found"); ("message", "Label not found")]))).
Proof.
  split.
  - intros H. unfold LabelHandler.Delete, LabelRepository.Delete,
      DELETE_FROM_card_labels_WHERE_label_id, DELETE_FROM_labels_WHERE_id. cbv zeta.
    tables.
    destruct (filter_key_cons _ Label_ID id (labels db) H) as (a & rest & ->).
    rewrite length_cons_neq_0. eexists. split; [reflexivity|]. tables.
    split; [reflexivity|]. split.
    + rewrite (filter_all _ _ (filter _ (card_labels db))); [reflexivity|].
      intros cl Hcl. apply filter_In in Hcl. now destruct Hcl.
    + repeat (split; [reflexivity|]).
      unfold LabelHandler.GetByID, LabelRepository.GetByID, SELECT_labels_WHERE_id.
      tables. now rewrite find_after_delete.
  - intros Hs Hnone. unfold LabelHandler.Delete.
    pose proof (LabelRepository_Delete_refused db id Hs) as Hsame.
    assert (Herr : snd (LabelRepository.Delete db id) = Some "label not found").
    { unfold LabelRepository.Delete, DELETE_FROM_card_labels_WHERE_label_id,
        DELETE_FROM_labels_WHERE_id. cbv zeta. tables.
      now rewrite (filter_key_nil _ Label_ID id (labels db) Hnone). }
    destruct (LabelRepository.Delete db id) as [db1 err]. cbn [fst snd] in *.
    subst err. rewrite Hsame by discriminate. reflexivity.
Qed.

Lemma LabelHandler_Delete_removes_label_and_associations_witness :
  (exists l, In l (labels db_busy) /\ Label_ID l = 1)
  /\ exists db',
      LabelHandler.Delete db_busy 1 = (db', Status StatusNoContent)
      /\ labels db' = [{| Label_ID := 2; Label_Name := "ui"; Label_Color := "#3b82f6";
                          Label_CreatedAt := 6 |}]
      /\ card_labels db' = [(2, 2)]
      /\ cards db' = cards db_busy.
Proof.
  assert (H : exists l, In l (labels db_busy) /\ Label_ID l = 1)
    by (eexists; split; [left; reflexivity | reflexivity]).
  split; [exact H|].
  destruct (proj1 (LabelHandler_Delete_removes_label_and_associations db_busy 1) H)
    as (db' & Hrun & Hl & Hcl & _ & _ & Hc & _).
  exists db'. rewrite Hl, Hcl, Hc. split; [exact Hrun|]. repeat split.
Defined.

Lemma SELECT_labels_JOIN_In (db : DB) (cardID : Z) (l : Label) :
  In l (SELECT_labels_JOIN_card_labels_WHERE_card_id db cardID) <-> assigned db cardID l.
Proof.
  unfold SELECT_labels_JOIN_card_labels_WHERE_card_id, assigned.
  rewrite ORDER_BY_In, in_flat_map. split.
  - intros (l0 & Hl0 & Hin). apply in_map_iff in Hin. destruct Hin as (cl & <- & Hcl).
    apply filter_In in Hcl. destruct Hcl as [Hcl Hm]. apply andb_prop in Hm.
    destruct Hm as [H1 H2]. apply Z.eqb_eq in H1, H2. split; [exact Hl0|].
    destruct cl as [a b]. cbn [fst snd] in *. now subst.
  - intros [Hl Hcl]. exists l. split; [exact Hl|]. apply in_map_iff.
    exists (cardID, Label_ID l). split; [reflexivity|]. apply filter_In.
    split; [exact Hcl|]. cbn [fst snd]. now rewrite !Z.eqb_refl.
Qed.

Lemma NoDup_map_inv_key (A : Type) (key : A -> Z) (l : list A) :
  NoDup (map key l) -> NoDup l.
Proof.
  induction l as [| a l IH]; cbn [map]; intros H; [constructor|].
  inversion H as [| ? ? Hn Hd]; subst. constructor; [| now apply IH].
  intros Hin. apply Hn. now apply in_map.
Qed.

Lemma NoDup_flat_map_at_most_once (A : Type) (f : A -> list A) (l : list A) :
  NoDup l -> (forall a, f a = [] \/ f a = [a]) -> NoDup (flat_map f l).
Proof.
  intros Hd Hf. induction l as [| a l IH]; cbn [flat_map]; [constructor|].
  inversion Hd as [| ? ? Hn Hd']; subst. specialize (IH Hd').
  destruct (Hf a) as [-> | ->]; [exact IH|]. cbn [app]. constructor; [| exact IH].
  intros Hin. apply in_flat_map in Hin. destruct Hin as (b & Hb & Hin).
  destruct (Hf b) as [E | E]; rewrite E in Hin; [destruct Hin|].
  destruct Hin as [<- | []]. contradiction.
Qed.

Lemma NoDup_all_equal (A : Type) (x : A) (l : list A) :
  NoDup l -> (forall y, In y l -> y = x) -> l = [] \/ l = [x].
Proof.
  intros Hd Hall. destruct l as [| a [| b l]]; [now left | right | exfalso].
  - now rewrite (Hall a (or_introl eq_refl)).
  - inversion Hd as [| ? ? Hn _]; subst. apply Hn. left.
    rewrite (Hall a), (Hall b); cbn; auto.
Qed.

(** X15. The labels of a card: for a stored card the listing answers 200
    with a collection that is never null and holds exactly the stored labels
    associated with the card, in ascending order of name, each once when the
    schema's constraints hold.  For a card that is not stored it answers
    404. *)
Theorem GetCardLabels_lists_the_assigned_labels (db : DB) (cardID : Z) :
  ((exists c, In c (cards db) /\ Card_ID c = cardID) ->
   exists listed,
     LabelHandler.GetCardLabels db cardID = JSON StatusOK (mk_slice listed)
     /\ (forall l, In l listed <-> assigned db cardID l)
     /\ StronglySorted (fun a b => String.leb (Label_Name a) (Label_Name b) = true)
                       listed
     /\ (schema_holds db -> NoDup listed))
  /\ ((forall c, In c (cards db) -> Card_ID c <> cardID) ->
      LabelHandler.GetCardLabels db cardID
      = JSON_H StatusNotFound [("error", "Not Found"); ("message", "Card not found")]).
Proof.
  unfold LabelHandler.GetCardLabels, CardRepository.GetByID, SELECT_cards_WHERE_id.
  split; intros H.
  - destruct (find_key_Some _ Card_ID cardID (cards db) H) as [c ->].
    unfold LabelRepository.GetCardLabels. cbv zeta. rewrite collect_normalised.
    eexists. split; [reflexivity|]. split; [| split].
    + intros l. apply SELECT_labels_JOIN_In.
    + apply by_name_sorted.
    + intros Hs. unfold SELECT_labels_JOIN_card_labels_WHERE_card_id.
      apply ORDER_BY_NoDup.
      apply (NoDup_flat_map_at_most_once _
               (fun l => map (fun _ => l)
                             (filter (fun cl => (Label_ID l =? snd cl) && (fst cl =? cardID))
                                     (card_labels db)))).
      * apply (NoDup_map_inv_key _ Label_ID). apply (labels_PRIMARY_KEY _ Hs).
      * intros l.
        destruct (NoDup_all_equal _ (cardID, Label_ID l)
                    (filter (fun cl => (Label_ID l =? snd cl) && (fst cl =? cardID))
                            (card_labels db))) as [-> | ->]; [| | now left | now right].
        -- apply NoDup_filter. apply (card_labels_PRIMARY_KEY _ Hs).
        -- intros [a b] Hin. apply filter_In in Hin. destruct Hin as [_ Hm].
           cbn [fst snd] in Hm. apply andb_prop in Hm. destruct Hm as [H1 H2].
           apply Z.eqb_eq in H1, H2. congruence.
  - apply (find_key_None _ Card_ID) in H. now rewrite H.
Qed.

Lemma GetCardLabels_lists_the_assigned_labels_witness :
  (exists c, In c (cards db_busy) /\ Card_ID c = 2)
  /\ exists listed,
      LabelHandler.GetCardLabels db_busy 2 = JSON StatusOK (mk_slice listed)
      /\ (forall l, In l listed <-> assigned db_busy 2 l)
      /\ map Label_Name listed = ["bug"; "ui"].
Proof.
  assert (H : exists c, In c (cards db_busy) /\ Card_ID c = 2)
    by (eexists; split; [right; left; reflexivity | reflexivity]).
  split; [exact H|].
  destruct (proj1 (GetCardLabels_lists_the_assigned_labels db_busy 2) H)
    as (listed & Hrun & Hin & _).
  exists listed. split; [exact Hrun|]. split; [exact Hin|].
  assert (E : JSON StatusOK (mk_slice listed)
              = LabelHandler.GetCardLabels db_busy 2) by (symmetry; exact Hrun).
  vm_compute in E. injection E as ->. reflexivity.
Defined.

(** X16. A label that was assigned is listed: after AssignToCard has
    answered 200 for a card and a label, the listing of the card's labels
    answers 200 and holds the stored label with that id; after
    RemoveFromCard has answered 204 for the pair, the listing holds no label
    with that id. *)
Theorem AssignToCard_then_GetCardLabels (db db1 : DB) (cardID labelID : Z) :
  (LabelHandler.AssignToCard db cardID labelID
   = (db1, JSON_H StatusOK [("message", "Label assigned to card successfully")]) ->
   exists label listed,
     LabelRepository.GetByID db labelID = Ok label
     /\ LabelHandler.GetCardLabels db1 cardID = JSON StatusOK (mk_slice listed)
     /\ In label listed)
  /\ (LabelHandler.RemoveFromCard db cardID labelID = (db1, Status StatusNoContent) ->
      forall listed,
        LabelHandler.GetCardLabels db1 cardID = JSON StatusOK (mk_slice listed) ->
        forall l, In l listed -> Label_ID l <> labelID).
Proof.
  split.
  - unfold LabelHandler.AssignToCard.
    destruct (CardRepository.GetByID db cardID) as [c | msg] eqn:Ec;
      [| destruct (String.eqb _ _); discriminate].
    destruct (LabelRepository.GetByID db labelID) as [label | msg] eqn:El;
      [| destruct (String.eqb _ _); discriminate].
    intros Hrun. exists label.
    assert (Hlabel : In label (labels db) /\ Label_ID label = labelID).
    { unfold LabelRepository.GetByID, SELECT_labels_WHERE_id in El.
      destruct (find _ (labels db)) as [l0 |] eqn:Ef; [| discriminate].
      injection El as ->. apply find_some in Ef. now rewrite Z.eqb_eq in Ef. }
    assert (Hdb1 : cards db1 = cards db /\ labels db1 = labels db
                   /\ In (cardID, labelID) (card_labels db1)).
    { revert Hrun. unfold LabelRepository.AssignToCard. cbv zeta.
      destruct (SELECT_EXISTS_card_labels db cardID labelID) eqn:Eex.
      - intros [= <-]. now apply SELECT_EXISTS_card_labels_In in Eex.
      - unfold INSERT_INTO_card_labels. rewrite Eex.
        destruct (existsb _ (cards db) && existsb _ (labels db)); [| discriminate].
        intros [= <-]. tables. repeat split. apply in_or_app. right. now left. }
    destruct Hdb1 as (Hc1 & Hl1 & Hin1).
    unfold LabelHandler.GetCardLabels, CardRepository.GetByID, SELECT_cards_WHERE_id.
    rewrite Hc1.
    unfold CardRepository.GetByID, SELECT_cards_WHERE_id in Ec.
    destruct (find _ (cards db)) as [c0 |]; [| discriminate].
    unfold LabelRepository.GetCardLabels. cbv zeta. rewrite collect_normalised.
    eexists. split; [reflexivity|]. split; [reflexivity|].
    apply SELECT_labels_JOIN_In. split; [now rewrite Hl1|].
    destruct Hlabel as [_ ->]. exact Hin1.
  - unfold LabelHandler.RemoveFromCard, LabelRepository.RemoveFromCard,
      DELETE_FROM_card_labels_WHERE_card_id_AND_label_id.
    match goal with |- context [Z.of_nat ?n =? 0] => destruct (Z.of_nat n =? 0) end;
      [destruct (String.eqb _ _); discriminate|].
    intros [= <-] listed.
    unfold LabelHandler.GetCardLabels.
    destruct (CardRepository.GetByID _ cardID) as [c | msg];
      [| destruct (String.eqb _ _); discriminate].
    unfold LabelRepository.GetCardLabels. cbv zeta. rewrite collect_normalised.
    intros [= <-] l Hin Hid. apply SELECT_labels_JOIN_In in Hin.
    destruct Hin as [_ Hin]. unfold DB_with_card_labels in Hin. tables.
    rewrite Hid in Hin. apply filter_In in Hin. destruct Hin as [_ Hin].
    cbn [fst snd] in Hin. rewrite !Z.eqb_refl in Hin. discriminate.
Qed.

Lemma AssignToCard_then_GetCardLabels_witness :
  exists db1 label listed,
    LabelHandler.AssignToCard db_busy 1 2
    = (db1, JSON_H StatusOK [("message", "Label assigned to card successfully")])
    /\ LabelRepository.GetByID db_busy 2 = Ok label
    /\ LabelHandler.GetCardLabels db1 1 = JSON StatusOK (mk_slice listed)
    /\ In label listed.
Proof.
  eexists.
  assert (H : LabelHandler.AssignToCard db_busy 1 2
              = (_, JSON_H StatusOK [("message", "Label assigned to card successfully")]))
    by (vm_compute; reflexivity).
  destruct (proj1 (AssignToCard_then_GetCardLabels _ _ _ _) H)
    as (label & listed & H1 & H2 & H3).
  exists label, listed. tauto.
Defined.

(** X17. A label update replaces the name and the color of the one label
    and keeps its id, its creation time and its associations: after a 200
    the response is the stored label with the body's name and color, it is
    what is stored under that id, every other label is found as before and
    no other table changes.  With a body that passes validation, a name that
    another label bears is answered 500 for a stored id and an id that is
    not stored 404, and in both cases nothing changes. *)
Theorem LabelHandler_Update_renames_one_label (db : DB) (id : Z) (body : CreateLabelBody) :
  (forall db' label,
      LabelHandler.Update db id body = (db', JSON StatusOK label) ->
      exists old,
        LabelRepository.GetByID db id = Ok old
        /\ Some (Label_Name label) = CreateLabelBody_name body
        /\ Some (Label_Color label) = CreateLabelBody_color body
        /\ Label_ID label = Label_ID old /\ Label_CreatedAt label = Label_CreatedAt old
        /\ LabelRepository.GetByID db' id = Ok label
        /\ (forall j, j <> id -> LabelRepository.GetByID db' j = LabelRepository.GetByID db j)
        /\ (forall l, In l (labels db) -> Label_ID l <> id ->
                      Label_Name l <> Label_Name label)
        /\ card_labels db' = card_labels db /\ cards db' = cards db
        /\ lists db' = lists db /\ boards db' = boards db /\ comments db' = comments db)
  /\ (forall req,
         ShouldBindJSON_CreateLabelRequest body = Ok req ->
         (exists l, In l (labels db) /\ Label_ID l = id) ->
         (exists l, In l (labels db) /\ Label_ID l <> id
                    /\ Label_Name l = CreateLabelRequest_Name req) ->
         exists message,
           LabelHandler.Update db id body
           = (db, JSON_H StatusInternalServerError
                    [("error", "Internal Server Error"); ("message", message)]))
  /\ (forall req,
         ShouldBindJSON_CreateLabelRequest body = Ok req ->
         (forall l, In l (labels db) -> Label_ID l <> id) ->
         LabelHandler.Update db id body
         = (db, JSON_H StatusNotFound
                  [("error", "Not Found"); ("message", "Label not found")])).
Proof.
  unfold LabelHandler.Update.
  split; [| split].
  - intros db' label.
    destruct (ShouldBindJSON_CreateLabelRequest body) as [req | msg] eqn:Ereq;
      [| discriminate].
    unfold LabelRepository.Update, UPDATE_labels_SET_name_color,
      LabelRepository.GetByID, SELECT_labels_WHERE_id.
    destruct (find (fun l => Label_ID l =? id) (labels db)) as [old |] eqn:Eold;
      [| discriminate].
    destruct (existsb _ (labels db)) eqn:Eother;
      [destruct (String.eqb _ _); discriminate|].
    intros [= <- <-]. exists old. split; [reflexivity|].
    assert (Hbody : Some (CreateLabelRequest_Name req) = CreateLabelBody_name body
                    /\ Some (CreateLabelRequest_Color req) = CreateLabelBody_color body).
    { revert Ereq. unfold ShouldBindJSON_CreateLabelRequest. cbv zeta.
      match goal with
      | |- context [validate_CreateLabelRequest ?r] =>
          pose proof (validate_CreateLabelRequest_ok r) as Hv;
          destruct (validate_CreateLabelRequest r)
      end; [| discriminate].
      intros [= <-]. cbn [CreateLabelRequest_Name CreateLabelRequest_Color] in *.
      destruct (proj1 Hv eq_refl) as [Hlen Hcol].
      destruct (CreateLabelBody_name body); [| cbn in Hlen; lia].
      destruct (CreateLabelBody_color body); [| now destruct Hcol].
      now split. }
    destruct Hbody as [Hname Hcolor].
    cbn [Label_ID Label_Name Label_Color Label_CreatedAt]. tables.
    assert (Hid : Label_ID old = id).
    { apply find_some in Eold. now apply Z.eqb_eq. }
    repeat (split; [assumption || reflexivity|]).
    split; [| split; [| split; [| repeat split]]].
    + rewrite (find_update_same _ Label_ID), Eold by reflexivity.
      cbn [option_map]. reflexivity.
    + intros j Hj. now rewrite (find_update_other _ Label_ID).
    + intros l Hl Hne Heq. apply not_true_iff_false in Eother. apply Eother.
      apply existsb_exists. exists l. split; [exact Hl|].
      apply andb_true_intro. split; [now apply negb_true_iff, Z.eqb_neq|].
      now apply String.eqb_eq.
  - intros req -> Hstored (l & Hl & Hne & Hname).
    unfold LabelRepository.Update, UPDATE_labels_SET_name_color.
    destruct (find_key_Some _ Label_ID id (labels db) Hstored) as [old ->].
    assert (E : existsb (fun l => negb (Label_ID l =? id)
                                  && String.eqb (Label_Name l) (CreateLabelRequest_Name req))
                        (labels db) = true).
    { apply existsb_exists. exists l. split; [exact Hl|]. apply andb_true_intro.
      split; [now apply negb_true_iff, Z.eqb_neq | now apply String.eqb_eq]. }
    rewrite E. eexists. cbn. reflexivity.
  - intros req -> Hnone.
    unfold LabelRepository.Update, UPDATE_labels_SET_name_color.
    apply (find_key_None _ Label_ID) in Hnone. now rewrite Hnone.
Qed.

Lemma LabelHandler_Update_renames_one_label_witness :
  exists db' old,
    let label := {| Label_ID := 2; Label_Name := "design"; Label_Color := "#123456";
                    Label_CreatedAt := 6 |} in
    LabelHandler.Update db_busy 2
      {| CreateLabelBody_name := Some "design"; CreateLabelBody_color := Some "#123456" |}
    = (db', JSON StatusOK label)
    /\ LabelRepository.GetByID db_busy 2 = Ok old
    /\ LabelRepository.GetByID db' 2 = Ok label
    /\ card_labels db' = card_labels db_busy.
Proof.
  eexists.
  assert (H : LabelHandler.Update db_busy 2
                {| CreateLabelBody_name := Some "design";
                   CreateLabelBody_color := Some "#123456" |}
              = (_, JSON StatusOK {| Label_ID := 2; Label_Name := "design";
                                     Label_Color := "#123456"; Label_CreatedAt := 6 |}))
    by (vm_compute; reflexivity).
  destruct (proj1 (LabelHandler_Update_renames_one_label db_busy 2 _) _ _ H)
    as (old & H1 & _ & _ & _ & _ & H2 & _ & _ & H3 & _).
  exists old. cbv zeta. tauto.
Defined.

(* ================================================================= *)
(** ** Listings in position order *)

Lemma leb_units x y :
  is_nan x = false -> is_nan y = false -> (x <=? y)%float = (units x <=? units y).
Proof.
  intros Nx Ny. rewrite leb_spec. unfold SFleb. rewrite compare_units by assumption.
  unfold Z.leb. destruct (units x ?= units y); reflexivity.
Qed.

(** [ORDER BY] sorts the rows on which the comparison is a total preorder. *)
Section OrderingOn.
Variable A : Type.
Variable le : A -> A -> bool.
Variable P : A -> Prop.
Hypothesis le_total_on : forall a b, P a -> P b -> le a b = true \/ le b a = true.
Hypothesis le_trans_on :
  forall a b c, P a -> P b -> P c -> le a b = true -> le b c = true -> le a c = true.

Lemma insert_by_sorted_on (x : A) (l : list A) :
  P x -> Forall P l ->
  StronglySorted (fun a b => le a b = true) l ->
  StronglySorted (fun a b => le a b = true) (insert_by le x l).
Proof.
  intros Px. induction l as [| y l IH]; intros Pl Hs; cbn [insert_by].
  - repeat constructor.
  - inversion Hs as [| ? ? Hl Hy]; subst. inversion Pl as [| ? ? Py Pl']; subst.
    rewrite Forall_forall in Pl'.
    destruct (le x y) eqn:E.
    + constructor; [exact Hs|]. constructor; [exact E|].
      rewrite Forall_forall in Hy |- *. intros z Hz.
      apply (le_trans_on x y z); auto.
    + constructor; [apply IH; [now apply Forall_forall | exact Hl]|].
      rewrite Forall_forall in Hy |- *. intros z Hz.
      apply (Permutation_in _ (insert_by_Permutation _ le x l)) in Hz.
      destruct Hz as [<- | Hz]; [| now apply Hy].
      destruct (le_total_on x y Px Py); congruence.
Qed.

Lemma ORDER_BY_sorted_on (l : list A) :
  Forall P l -> StronglySorted (fun a b => le a b = true) (ORDER_BY le l).
Proof.
  induction l as [| x l IH]; intros Pl; cbn [ORDER_BY fold_right]; [constructor|].
  inversion Pl as [| ? ? Px Pl']; subst. fold (ORDER_BY le l).
  apply insert_by_sorted_on; [exact Px | | now apply IH].
  apply Forall_forall. intros y Hy. apply ORDER_BY_In in Hy.
  rewrite Forall_forall in Pl'. now apply Pl'.
Qed.
End OrderingOn.

Lemma by_position_sorted (A : Type) (position : A -> float64) (rows : list A) :
  (forall r, In r rows -> is_nan (position r) = false) ->
  StronglySorted (fun a b => (position a <=? position b)%float = true)
    (ORDER_BY (fun a b => (position a <=? position b)%float) rows).
Proof.
  intros Hnn.
  apply (ORDER_BY_sorted_on _ _ (fun r => is_nan (position r) = false)).
  - intros a b Na Nb. cbv beta. rewrite !leb_units by assumption. rewrite !Z.leb_le. lia.
  - intros a b c Na Nb Nc. cbv beta. rewrite !leb_units by assumption.
    rewrite !Z.leb_le. lia.
  - now apply Forall_forall.
Qed.

Lemma first_error_None (A : Type) (f : A -> error) (l : list A) :
  first_error f l = None <-> forall a, In a l -> f a = None.
Proof.
  induction l as [| a l IH]; cbn [first_error].
  - split; [intros _ a [] | reflexivity].
  - destruct (f a) as [err |] eqn:E.
    + split; [discriminate|]. intros H. rewrite <- E. apply H. now left.
    + rewrite IH. split.
      * intros H b [<- | Hb]; [exact E | now apply H].
      * intros H b Hb. apply H. now right.
Qed.

Lemma UnsupportedValueError_None (x : float64) :
  UnsupportedValueError x = None <-> is_finite x = true.
Proof. unfold UnsupportedValueError. destruct (is_finite x); split; congruence. Qed.

(** X18. The lists of a board are listed in position order: for a stored
    board the handler lists exactly the stored lists of that board, each as
    often as it is stored, ordered by ascending position where no position
    is a NaN (which the NOT NULL constraint ensures).  The client receives
    that listing, with status 200, when every position in it is finite, and
    the 500 of the error middleware when one of them is infinite; for a
    board that is not stored the answer is 404. *)
Theorem GetByBoardID_lists_in_position_order (db : DB) (boardID : Z) :
  ((exists b, In b (boards db) /\ Board_ID b = boardID) ->
   exists listed,
     Permutation (elems listed)
                 (filter (fun l => List_BoardID l =? boardID) (lists db))
     /\ (positions_NOT_NULL db ->
         StronglySorted (fun a b => (List_Position a <=? List_Position b)%float = true)
                        (elems listed))
     /\ ((forall l, In l (lists db) -> List_BoardID l = boardID ->
                    is_finite (List_Position l) = true) ->
         ErrorHandler (ListHandler.GetByBoardID db boardID) = JSON StatusOK listed)
     /\ ((exists l, In l (lists db) /\ List_BoardID l = boardID
                    /\ is_finite (List_Position l) = false) ->
         exists message,
           ErrorHandler (ListHandler.GetByBoardID db boardID)
           = JSON_H StatusInternalServerError
               [("error", "Internal Server Error"); ("message", message)]))
  /\ ((forall b, In b (boards db) -> Board_ID b <> boardID) ->
      ErrorHandler (ListHandler.GetByBoardID db boardID)
      = HandleError StatusNotFound "Board not found").
Proof.
  unfold ListHandler.GetByBoardID, BoardRepository.GetByID, SELECT_boards_WHERE_id.
  split; intros H.
  - destruct (find_key_Some _ Board_ID boardID (boards db) H) as [b ->].
    unfold ListRepository.GetByBoardID. cbv zeta.
    exists (collect (SELECT_lists_WHERE_board_id_ORDER_BY_position db boardID)).
    assert (E : forall rows : list List, elems (collect rows) = rows).
    { intros rows. rewrite collect_spec. now destruct rows. }
    rewrite E. unfold SELECT_lists_WHERE_board_id_ORDER_BY_position.
    split; [apply ORDER_BY_Permutation|]. split.
    { intros [Hl _]. apply by_position_sorted. intros l Hin. apply filter_In in Hin.
      now apply Hl. }
    set (rows := ORDER_BY _ _).
    assert (Hrows : forall l, In l rows <-> In l (lists db) /\ List_BoardID l = boardID).
    { intros l. unfold rows. rewrite ORDER_BY_In, filter_In, Z.eqb_eq. tauto. }
    split.
    + intros Hfin. apply ErrorHandler_encoded.
      unfold json_Marshal, Payload_slice. rewrite E. apply first_error_None.
      intros l Hl. apply Hrows in Hl. apply UnsupportedValueError_None.
      now apply Hfin.
    + intros (l & Hl & Hb & Hinf).
      destruct (json_Marshal (collect rows)) as [err |] eqn:Em.
      * exists err. now rewrite (ErrorHandler_refused _ _ _ _ Em).
      * exfalso. unfold json_Marshal, Payload_slice in Em. rewrite E in Em.
        rewrite first_error_None in Em.
        assert (Hin : In l rows) by now apply Hrows.
        apply Em in Hin. apply UnsupportedValueError_None in Hin. congruence.
  - apply (find_key_None _ Board_ID) in H. now rewrite H.
Qed.

Lemma GetByBoardID_lists_in_position_order_witness :
  (exists b, In b (boards db_seeded) /\ Board_ID b = 1)
  /\ (forall l, In l (lists db_seeded) -> List_BoardID l = 1 ->
                is_finite (List_Position l) = true)
  /\ exists listed,
      ErrorHandler (ListHandler.GetByBoardID db_seeded 1) = JSON StatusOK listed
      /\ map List_Name (elems listed)
         = ["Backlog"; "To Do"; "In Progress"; "Review"; "Done"].
Proof.
  assert (H : exists b, In b (boards db_seeded) /\ Board_ID b = 1)
    by (eexists; split; [left; reflexivity | reflexivity]).
  assert (F : forall l, In l (lists db_seeded) -> List_BoardID l = 1 ->
                        is_finite (List_Position l) = true).
  { intros l Hl _. cbn in Hl.
    repeat (destruct Hl as [<- | Hl]; [reflexivity|]). destruct Hl. }
  split; [exact H|]. split; [exact F|].
  destruct (proj1 (GetByBoardID_lists_in_position_order db_seeded 1) H)
    as (listed & _ & _ & Hrun & _).
  exists listed. split; [exact (Hrun F)|].
  assert (E : JSON StatusOK listed = ErrorHandler (ListHandler.GetByBoardID db_seeded 1))
    by (symmetry; exact (Hrun F)).
  vm_compute in E. injection E as ->. reflexivity.
Defined.

Lemma listed_filter (db : DB) (listID : Z) (includeArchived : bool) (c : Card) :
  In c (filter (fun c => (Card_ListID c =? listID)
                         && (includeArchived || negb (Card_Archived c))) (cards db))
  <-> listed db listID includeArchived c.
Proof.
  unfold listed. rewrite filter_In, andb_true_iff, orb_true_iff, negb_true_iff, Z.eqb_eq.
  tauto.
Qed.

Lemma GetByListID_shows (db : DB) (listID : Z) (includeArchived : bool) :
  exists shown,
    CardRepository.GetByListID db listID includeArchived = (mk_slice shown, None)
    /\ Permutation shown
         (filter (fun c => (Card_ListID c =? listID)
                           && (includeArchived || negb (Card_Archived c))) (cards db))
    /\ (forall c, In c shown <-> listed db listID includeArchived c).
Proof.
  unfold CardRepository.GetByListID. cbv zeta. rewrite collect_normalised.
  eexists. split; [reflexivity|].
  unfold SELECT_cards_WHERE_list_id_ORDER_BY_position.
  split; [apply ORDER_BY_Permutation|].
  intros c. rewrite ORDER_BY_In. apply listed_filter.
Qed.

(** X19. The cards of a list are listed in position order, the archived
    ones only on demand: for a stored list the listing answers 200 with a
    collection that is never null and holds exactly the stored cards of
    that list that are not archived, or all of them when archived cards are
    asked for, ordered by ascending position where no position is a NaN;
    for a list that is not stored it answers 404. *)
Theorem GetByListID_hides_archived_cards (db : DB) (listID : Z) (includeArchived : bool) :
  ((exists l, In l (lists db) /\ List_ID l = listID) ->
   exists shown,
     CardHandler.GetByListID db listID includeArchived = JSON StatusOK (mk_slice shown)
     /\ (forall c, In c shown <-> listed db listID includeArchived c)
     /\ Permutation shown
          (filter (fun c => (Card_ListID c =? listID)
                            && (includeArchived || negb (Card_Archived c))) (cards db))
     /\ (positions_NOT_NULL db ->
         StronglySorted (fun a b => (Card_Position a <=? Card_Position b)%float = true)
                        shown))
  /\ ((forall l, In l (lists db) -> List_ID l <> listID) ->
      CardHandler.GetByListID db listID includeArchived
      = HandleError StatusNotFound "List not found").
Proof.
  unfold CardHandler.GetByListID, ListRepository.GetByID, SELECT_lists_WHERE_id.
  split; intros H.
  - destruct (find_key_Some _ List_ID listID (lists db) H) as [l ->].
    destruct (GetByListID_shows db listID includeArchived) as (shown & Hrun & Hperm & Hin).
    rewrite Hrun. exists shown. split; [reflexivity|]. split; [exact Hin|].
    split; [exact Hperm|]. intros [_ Hc].
    unfold CardRepository.GetByListID in Hrun. cbv zeta in Hrun.
    rewrite collect_normalised in Hrun. injection Hrun as <-.
    apply by_position_sorted. intros c Hc'. apply filter_In in Hc'. now apply Hc.
  - apply (find_key_None _ List_ID) in H. now rewrite H.
Qed.

Lemma GetByListID_hides_archived_cards_witness :
  (exists l, In l (lists db_busy) /\ List_ID l = 1)
  /\ exists shown,
      CardHandler.GetByListID db_busy 1 false = JSON StatusOK (mk_slice shown)
      /\ (forall c, In c shown <-> listed db_busy 1 false c)
      /\ map Card_Title shown = ["abc"; "Task B"].
Proof.
  assert (H : exists l, In l (lists db_busy) /\ List_ID l = 1)
    by (eexists; split; [left; reflexivity | reflexivity]).
  split; [exact H|].
  destruct (proj1 (GetByListID_hides_archived_cards db_busy 1 false) H)
    as (shown & Hrun & Hin & _).
  exists shown. split; [exact Hrun|]. split; [exact Hin|].
  assert (E : JSON StatusOK (mk_slice shown) = CardHandler.GetByListID db_busy 1 false)
    by (symmetry; exact Hrun).
  vm_compute in E. injection E as ->. reflexivity.
Defined.

(** X20. Archiving hides a card and unarchiving shows it again: after
    Archive has answered 200 for a card, no listing that leaves archived
    cards out shows a card with that id, while the listing of its list that
    includes them does; after Unarchive has answered 200, the card stored
    under that id is shown in the listing of its list. *)
Theorem Archive_hides_and_Unarchive_shows (db db' : DB) (clk : clock) (id : Z) :
  (CardHandler.Archive db clk id
   = (db', JSON_H StatusOK [("message", "Card archived successfully")]) ->
   (forall listID c, listed db' listID false c -> Card_ID c <> id)
   /\ exists c, CardRepository.GetByID db' id = Ok c
                /\ Card_Archived c = true
                /\ listed db' (Card_ListID c) true c)
  /\ (CardHandler.Unarchive db clk id
      = (db', JSON_H StatusOK [("message", "Card unarchived successfully")]) ->
      exists c, CardRepository.GetByID db' id = Ok c
                /\ Card_Archived c = false
                /\ listed db' (Card_ListID c) false c).
Proof.
  assert (Hstored : forall archive db1,
             CardRepository.Archive db clk id archive = (db1, None) ->
             (forall c, In c (cards db1) -> Card_ID c = id -> Card_Archived c = archive)
             /\ exists c, CardRepository.GetByID db1 id = Ok c
                          /\ Card_Archived c = archive /\ In c (cards db1)).
  { intros archive db1. unfold CardRepository.Archive, UPDATE_cards_SET_archived.
    destruct (filter (fun c => Card_ID c =? id) (cards db)) as [| row0 rest0] eqn:Ef;
      [discriminate|].
    rewrite length_cons_neq_0. intros [= <-]. tables. split.
    - intros c Hin Hid. unfold update_cards_timestamp in Hin.
      apply in_map_iff in Hin. destruct Hin as (c1 & <- & Hin).
      apply in_map_iff in Hin. destruct Hin as (c0 & <- & Hin).
      destruct (Card_ID c0 =? id) eqn:E0; cbn [Card_ID Card_with_UpdatedAt
                                                 Card_with_Archived] in *.
      + rewrite E0. reflexivity.
      + rewrite E0 in Hid |- *. apply Z.eqb_neq in E0. contradiction.
    - assert (Hin0 : In row0 (cards db) /\ Card_ID row0 = id).
      { assert (H : In row0 (filter (fun c => Card_ID c =? id) (cards db)))
          by (rewrite Ef; now left).
        apply filter_In in H. now rewrite Z.eqb_eq in H. }
      destruct (find_key_Some _ Card_ID id (cards db)) as [old Hold]; [now exists row0|].
      unfold CardRepository.GetByID, SELECT_cards_WHERE_id. tables.
      unfold update_cards_timestamp.
      rewrite (find_update_same _ Card_ID), (find_update_same _ Card_ID), Hold
        by reflexivity.
      cbn [option_map]. eexists. split; [reflexivity|]. split; [reflexivity|].
      apply find_some in Hold. destruct Hold as [Hold Hk].
      apply in_map_iff. eexists. split; [| apply in_map_iff; eexists; split;
                                           [reflexivity | exact Hold]].
      cbv beta. rewrite Hk. cbn [Card_ID Card_with_UpdatedAt Card_with_Archived].
      rewrite Hk. reflexivity. }
  split.
  - unfold CardHandler.Archive.
    destruct (CardRepository.Archive db clk id true) as [db1 [err |]] eqn:E;
      [destruct (String.eqb _ _); discriminate|].
    intros [= <-]. destruct (Hstored true db1 E) as [Hall (c & Hget & Harch & Hin)].
    split.
    + intros listID c0 (Hin0 & _ & [Hinc | Hna]) Hid; [discriminate|].
      rewrite (Hall c0 Hin0 Hid) in Hna. discriminate.
    + exists c. split; [exact Hget|]. split; [exact Harch|].
      split; [exact Hin|]. split; [reflexivity | now left].
  - unfold CardHandler.Unarchive.
    destruct (CardRepository.Archive db clk id false) as [db1 [err |]] eqn:E;
      [destruct (String.eqb _ _); discriminate|].
    intros [= <-]. destruct (Hstored false db1 E) as [_ (c & Hget & Harch & Hin)].
    exists c. split; [exact Hget|]. split; [exact Harch|].
    split; [exact Hin|]. split; [reflexivity | now right].
Qed.

Lemma Archive_hides_and_Unarchive_shows_witness :
  exists db',
    CardHandler.Archive db_busy clock_2 2
    = (db', JSON_H StatusOK [("message", "Card archived successfully")])
    /\ (forall listID c, listed db' listID false c -> Card_ID c <> 2)
    /\ CardRepository.GetByListID db' 1 false
       = (mk_slice [mk_card 1 1 "abc" 1%float 20], None).
Proof.
  eexists.
  assert (H : CardHandler.Archive db_busy clock_2 2
              = (_, JSON_H StatusOK [("message", "Card archived successfully")]))
    by (vm_compute; reflexivity).
  split; [exact H|].
  split; [exact (proj1 (proj1 (Archive_hides_and_Unarchive_shows _ _ _ _) H))|].
  vm_compute. reflexivity.
Defined.

(** X21. A moved card is listed where it was moved to, and nowhere else:
    after Move has answered 200, the card stored under the id lies in the
    target list at the requested position and is shown in the listing of
    that list (with archived cards included, and without them too unless the
    card is archived), and the listing of no other list shows a card with
    that id. *)
Theorem Move_then_GetByListID (db db' : DB) (clk : clock) (id : Z) (body : MoveCardBody)
  (card : Card) :
  CardHandler.Move db clk id body = (db', JSON StatusOK card) ->
  exists listID position c,
    MoveCardBody_list_id body = Some listID
    /\ MoveCardBody_position body = Some position
    /\ CardRepository.GetByID db' id = Ok c
    /\ Card_ListID c = listID /\ Card_Position c = position
    /\ listed db' listID true c
    /\ (Card_Archived c = false -> listed db' listID false c)
    /\ (forall other includeArchived c0,
           other <> listID -> listed db' other includeArchived c0 -> Card_ID c0 <> id).
Proof.
  unfold CardHandler.Move, ShouldBindJSON_MoveCardRequest. cbv zeta.
  cbn [MoveCardRequest_ListID MoveCardRequest_Position].
  destruct (required_int _ && required_float64 _) eqn:Ereq; [| discriminate].
  cbn [MoveCardRequest_ListID MoveCardRequest_Position].
  destruct (CardRepository.GetByID db id) as [old | msg] eqn:Eold;
    [| destruct (String.eqb _ _); discriminate].
  destruct (ListRepository.GetByID db _) as [l | msg];
    [| destruct (String.eqb _ _); discriminate].
  destruct (CardRepository.Move db clk id _ _) as [db1 [err |]] eqn:Emove;
    [discriminate|].
  intros [= <- _].
  apply andb_prop in Ereq. destruct Ereq as [Hl Hp].
  destruct (MoveCardBody_list_id body) as [listID |]; [| discriminate].
  destruct (MoveCardBody_position body) as [position |]; [| discriminate].
  cbn [int_or_zero float64_or_zero] in *.
  apply GetByID_card_Ok in Eold.
  destruct (CardRepository_Move_stored _ _ _ _ _ _ _ Eold Emove) as (Hnew & _).
  set (c := Card_with_UpdatedAt
              (Card_with_Position (Card_with_ListID old listID) position)
              (CURRENT_TIMESTAMP clk)) in *.
  exists listID, position, c.
  assert (Hin : In c (cards db1)).
  { unfold SELECT_cards_WHERE_id in Hnew. now apply find_some in Hnew. }
  repeat (split; [reflexivity|]). split; [now apply GetByID_card_Ok|].
  repeat (split; [reflexivity|]).
  split; [split; [exact Hin | split; [reflexivity | now left]]|].
  split; [intros Ha; split; [exact Hin | split; [reflexivity | now right]]|].
  intros other inc c0 Hother (Hin0 & Hlist & _) Hid. apply Hother. rewrite <- Hlist.
  revert Emove Hin0. unfold CardRepository.Move, UPDATE_cards_SET_list_id_position.
  destruct (filter (fun c => Card_ID c =? id) (cards db)) as [| row0 rest0];
    [discriminate|].
  destruct (bind_REAL position); [| discriminate].
  destruct (existsb _ (lists db)); [| discriminate].
  rewrite length_cons_neq_0. intros [= <-]. tables. unfold update_cards_timestamp.
  intros Hin0. apply in_map_iff in Hin0. destruct Hin0 as (c1 & <- & Hin0).
  apply in_map_iff in Hin0. destruct Hin0 as (c2 & <- & Hin0).
  destruct (Card_ID c2 =? id) eqn:E2;
    cbn [Card_ID Card_ListID Card_with_UpdatedAt Card_with_Position Card_with_ListID] in *.
  - rewrite E2. reflexivity.
  - rewrite E2 in Hid. apply Z.eqb_neq in E2. contradiction.
Qed.

Lemma Move_then_GetByListID_witness :
  exists db' card,
    CardHandler.Move db_busy clock_2 2 (move_card_body 2 (0.5)%float)
    = (db', JSON StatusOK card)
    /\ exists c,
        CardRepository.GetByID db' 2 = Ok c
        /\ Card_ListID c = 2 /\ Card_Position c = (0.5)%float
        /\ listed db' 2 true c
        /\ (forall other includeArchived c0,
               other <> 2 -> listed db' other includeArchived c0 -> Card_ID c0 <> 2).
Proof.
  eexists. eexists.
  assert (H : CardHandler.Move db_busy clock_2 2 (move_card_body 2 (0.5)%float)
              = (_, JSON StatusOK _)) by (vm_compute; reflexivity).
  split; [exact H|].
  destruct (Move_then_GetByListID _ _ _ _ _ _ H)
    as (listID & position & c & Hl & Hp & Hget & Hlist & Hpos & Hshown & _ & Hother).
  injection Hl as <-. injection Hp as <-. exists c. tauto.
Defined.

(* ================================================================= *)
(** ** Quick creation *)

Lemma quick_name_spec (field : option string) (default : string) :
  (if String.eqb (string_or_zero field) "" then default else string_or_zero field)
  = updated_string field default.
Proof.
  destruct field as [s |]; cbn [string_or_zero updated_string]; reflexivity.
Qed.

Lemma first_of_sorted (A : Type) (R : A -> A -> Prop) (le : A -> A -> bool)
  (rows : list A) (h : A) (t : list A) :
  StronglySorted R (ORDER_BY le rows) ->
  (forall a, In a rows -> R a a) ->
  ORDER_BY le rows = h :: t ->
  In h rows /\ forall a, In a rows -> R h a.
Proof.
  intros Hs Hrefl E. rewrite E in Hs. inversion Hs as [| ? ? _ Hh]; subst.
  assert (Hin : In h rows) by (apply (ORDER_BY_In _ le); rewrite E; now left).
  split; [exact Hin|]. intros a Ha. apply (ORDER_BY_In _ le) in Ha. rewrite E in Ha.
  destruct Ha as [<- | Ha]; [now apply Hrefl|].
  rewrite Forall_forall in Hh. now apply Hh.
Qed.

Lemma elems_collect (A : Type) (rows : list A) : elems (collect rows) = rows.
Proof. rewrite collect_spec. now destruct rows. Qed.

(** X22. Where a quick card goes, in a state where no stored position is a
    NaN: after a 201 the card lies in a stored list of a stored board,
    chosen as follows.  The board is one that bears
    the requested name ("Main Board" when the body names none) if there is
    one, and otherwise a board created latest; the list is one of that board
    that bears the requested name ("Backlog" when the body names none) if
    there is one, and otherwise a list of that board at the lowest position.
    The card is appended to that list (greatest position of its cards plus
    1.0, or 1.0 when it has none), with the body's title, not archived and
    without due date, and it is the one row added to the stored cards. *)
Theorem QuickCreate_places_the_card (db db' : DB) (clk : clock) (body : QuickCreateBody)
  (card : Card) :
  positions_NOT_NULL db ->
  CardHandler.QuickCreate db clk body = (db', JSON StatusCreated card) ->
  exists board list,
    In board (boards db) /\ In list (lists db)
    /\ List_BoardID list = Board_ID board /\ Card_ListID card = List_ID list
    /\ ((exists b, In b (boards db) /\ Board_Name b = quick_board_name body) ->
        Board_Name board = quick_board_name body)
    /\ ((forall b, In b (boards db) -> Board_Name b <> quick_board_name body) ->
        forall b, In b (boards db) -> Board_CreatedAt b <= Board_CreatedAt board)
    /\ ((exists l, In l (lists db) /\ List_BoardID l = Board_ID board
                   /\ List_Name l = quick_list_name body) ->
        List_Name list = quick_list_name body)
    /\ ((forall l, In l (lists db) -> List_BoardID l = Board_ID board ->
                   List_Name l <> quick_list_name body) ->
        forall l, In l (lists db) -> List_BoardID l = Board_ID board ->
                  (List_Position list <=? List_Position l)%float = true)
    /\ appended_position (card_positions db (List_ID list)) (Card_Position card)
    /\ Some (Card_Title card) = QuickCreateBody_title body
    /\ Card_Archived card = false /\ Card_DueDate card = None
    /\ cards db' = cards db ++ [card].
Proof.
  intros Hnn. unfold CardHandler.QuickCreate, ShouldBindJSON_QuickCreateRequest.
  cbv zeta.
  cbn [QuickCreateRequest_BoardName QuickCreateRequest_ListName QuickCreateRequest_Title
       QuickCreateRequest_Description QuickCreateRequest_Color].
  destruct (required_string _) eqn:Etitle; [| discriminate].
  cbn [QuickCreateRequest_BoardName QuickCreateRequest_ListName QuickCreateRequest_Title
       QuickCreateRequest_Description QuickCreateRequest_Color].
  rewrite !quick_name_spec. fold (quick_board_name body) (quick_list_name body).
  (* the board *)
  assert (Hboard : forall board,
             match BoardRepository.GetByName db (quick_board_name body) with
             | Ok board => Some board
             | Err _ =>
                 let (boards, err) := BoardRepository.GetAll db in
                 match err, elems boards with
                 | None, board :: _ => Some board
                 | _, _ => None
                 end
             end = Some board ->
             In board (boards db)
             /\ ((exists b, In b (boards db) /\ Board_Name b = quick_board_name body) ->
                 Board_Name board = quick_board_name body)
             /\ ((forall b, In b (boards db) -> Board_Name b <> quick_board_name body) ->
                 forall b, In b (boards db) -> Board_CreatedAt b <= Board_CreatedAt board)).
  { intros board. unfold BoardRepository.GetByName, SELECT_boards_WHERE_name.
    destruct (find _ (boards db)) as [b0 |] eqn:Ef.
    - intros [= <-]. apply find_some in Ef. destruct Ef as [Hin Hname].
      apply String.eqb_eq in Hname. split; [exact Hin|]. split; [now intros _|].
      intros Hnone. now destruct (Hnone b0 Hin).
    - unfold BoardRepository.GetAll, SELECT_boards_ORDER_BY_created_at_DESC. cbv zeta.
      rewrite elems_collect.
      destruct (ORDER_BY _ (boards db)) as [| h t] eqn:Eo; [discriminate|].
      intros [= <-].
      destruct (first_of_sorted _ _ _ _ _ _
                  (newest_first_sorted _ Board_CreatedAt (boards db))
                  (fun a _ => Z.le_refl _) Eo) as [Hin Hleast].
      split; [exact Hin|]. split.
      + intros (b & Hb & Hname). exfalso.
        apply (find_none _ _ Ef) in Hb. apply String.eqb_neq in Hb. contradiction.
      + intros _ b Hb. exact (Hleast b Hb). }
  match goal with
  | |- context [match ?b with Some _ => _ | None => (db, HandleError StatusNotFound
                  "No boards available. Please create a board first.") end] =>
      destruct b as [board |] eqn:Eb; [| discriminate]
  end.
  destruct (Hboard board eq_refl) as (Hbin & Hbnamed & Hbnewest). clear Hboard Eb.
  (* the list *)
  assert (Hlist : forall list,
             match ListRepository.GetByBoardAndName db (Board_ID board)
                     (quick_list_name body) with
             | Ok list => Some list
             | Err _ =>
                 let (lists, err) := ListRepository.GetByBoardID db (Board_ID board) in
                 match err, elems lists with
                 | None, list :: _ => Some list
                 | _, _ => None
                 end
             end = Some list ->
             In list (lists db) /\ List_BoardID list = Board_ID board
             /\ ((exists l, In l (lists db) /\ List_BoardID l = Board_ID board
                            /\ List_Name l = quick_list_name body) ->
                 List_Name list = quick_list_name body)
             /\ ((forall l, In l (lists db) -> List_BoardID l = Board_ID board ->
                            List_Name l <> quick_list_name body) ->
                 forall l, In l (lists db) -> List_BoardID l = Board_ID board ->
                           (List_Position list <=? List_Position l)%float = true)).
  { intros list. unfold ListRepository.GetByBoardAndName,
      SELECT_lists_WHERE_board_id_AND_name.
    destruct (find _ (lists db)) as [l0 |] eqn:Ef.
    - intros [= <-]. apply find_some in Ef. destruct Ef as [Hin Hm].
      apply andb_prop in Hm. destruct Hm as [Hb Hname].
      apply Z.eqb_eq in Hb. apply String.eqb_eq in Hname.
      split; [exact Hin|]. split; [exact Hb|]. split; [now intros _|].
      intros Hnone. now destruct (Hnone l0 Hin Hb).
    - unfold ListRepository.GetByBoardID, SELECT_lists_WHERE_board_id_ORDER_BY_position.
      cbv zeta. rewrite elems_collect.
      set (rows := filter (fun l => List_BoardID l =? Board_ID board) (lists db)).
      destruct (ORDER_BY _ rows) as [| h t] eqn:Eo; [discriminate|].
      intros [= <-].
      assert (Hrows : forall l, In l rows -> is_nan (List_Position l) = false).
      { intros l Hl. apply filter_In in Hl. now apply (proj1 Hnn). }
      assert (Hrefl : forall a, In a rows ->
                                (List_Position a <=? List_Position a)%float = true).
      { intros a Ha. rewrite leb_units by auto. apply Z.leb_refl. }
      destruct (first_of_sorted _ _ _ _ _ _
                  (by_position_sorted _ List_Position rows Hrows) Hrefl Eo)
        as [Hin Hleast].
      apply filter_In in Hin. destruct Hin as [Hin Hb]. apply Z.eqb_eq in Hb.
      split; [exact Hin|]. split; [exact Hb|]. split.
      + intros (l & Hl & Hlb & Hname). exfalso.
        apply (find_none _ _ Ef) in Hl. rewrite Hlb, Z.eqb_refl in Hl.
        cbn [andb] in Hl. apply String.eqb_neq in Hl. contradiction.
      + intros _ l Hl Hlb. apply Hleast. apply filter_In. split; [exact Hl|].
        now apply Z.eqb_eq. }
  match goal with
  | |- context [match ?l with Some _ => _ | None => (db, HandleError StatusNotFound
                  "No lists available in the board. Please create a list first.") end] =>
      destruct l as [list |] eqn:El; [| discriminate]
  end.
  destruct (Hlist list eq_refl) as (Hlin & Hlboard & Hlnamed & Hlfirst). clear Hlist El.
  match goal with
  | |- context [CardRepository.Create db clk ?c] =>
      destruct (CardRepository.Create db clk c) as [[db1 c1] [err |]] eqn:Ecreate
  end; [discriminate|].
  intros [= <- <-].
  destruct (CardRepository_Create_stored _ _ _ _ _ Ecreate) as (Hcards & _ & Hlid & Hpos).
  cbn [Card_ListID Card_Position] in Hlid, Hpos.
  exists board, list. repeat (split; [assumption|]).
  split.
  { rewrite Hpos.
    replace (0 =? 0)%float with true by reflexivity.
    apply sql_MAX_appended. now apply card_positions_not_nan. }
  revert Ecreate. unfold CardRepository.Create, INSERT_INTO_cards. cbv zeta.
  destruct (bind_REAL _); [| discriminate].
  destruct (existsb _ (lists db)); [| discriminate].
  intros [= <- <-].
  cbn [Card_Title Card_Archived Card_DueDate Card_with_ID Card_with_UpdatedAt
       Card_with_CreatedAt Card_with_Position].
  split.
  { destruct (0 =? 0)%float; cbn [Card_Title Card_with_Position];
      (destruct (QuickCreateBody_title body); [reflexivity | discriminate]). }
  split; [now destruct (0 =? 0)%float|]. split; [now destruct (0 =? 0)%float|].
  reflexivity.
Qed.

Lemma QuickCreate_places_the_card_witness :
  positions_NOT_NULL db_seeded
  /\ exists db' card,
      CardHandler.QuickCreate db_seeded (clock_at 10)
        {| QuickCreateBody_board_name := Some "Roadmap";
           QuickCreateBody_list_name := Some "Someday";
           QuickCreateBody_title := Some "Write the report";
           QuickCreateBody_description := None; QuickCreateBody_color := None |}
      = (db', JSON StatusCreated card)
      /\ exists board list,
          In board (boards db_seeded) /\ In list (lists db_seeded)
          /\ List_BoardID list = Board_ID board /\ Card_ListID card = List_ID list
          /\ appended_position (card_positions db_seeded (List_ID list))
                               (Card_Position card).
Proof.
  split; [exact (position_NOT_NULL _ db_seeded_schema)|].
  eexists. eexists.
  assert (H : CardHandler.QuickCreate db_seeded (clock_at 10)
                {| QuickCreateBody_board_name := Some "Roadmap";
                   QuickCreateBody_list_name := Some "Someday";
                   QuickCreateBody_title := Some "Write the report";
                   QuickCreateBody_description := None; QuickCreateBody_color := None |}
              = (_, JSON StatusCreated _)) by (vm_compute; reflexivity).
  split; [exact H|].
  destruct (QuickCreate_places_the_card _ _ _ _ _
              (position_NOT_NULL _ db_seeded_schema) H)
    as (board & list & H1 & H2 & H3 & H4 & _ & _ & _ & _ & H5 & _).
  exists board, list. tauto.
Defined.

Lemma ORDER_BY_nil (A : Type) (le : A -> A -> bool) (rows : list A) :
  rows = [] <-> ORDER_BY le rows = [].
Proof.
  split; [now intros -> |]. intros H.
  pose proof (ORDER_BY_Permutation _ le rows) as Hp. rewrite H in Hp.
  now apply Permutation_nil in Hp.
Qed.

(** X23. When a quick card is refused: a body without a title, or with an
    empty one, is answered 400; with a title, the request is answered 404
    "No boards available" exactly when no board is stored, and 404 "No lists
    available in the board" when boards are stored but no list is.  None of
    these answers changes the state. *)
Theorem QuickCreate_refusals (db : DB) (clk : clock) (body : QuickCreateBody) :
  (string_or_zero (QuickCreateBody_title body) = "" ->
   CardHandler.QuickCreate db clk body
   = (db, HandleError StatusBadRequest "Invalid request body"))
  /\ (string_or_zero (QuickCreateBody_title body) <> "" ->
      (boards db = []
       <-> CardHandler.QuickCreate db clk body
           = (db, HandleError StatusNotFound
                    "No boards available. Please create a board first."))
      /\ (boards db <> [] -> lists db = [] ->
          CardHandler.QuickCreate db clk body
          = (db, HandleError StatusNotFound
                   "No lists available in the board. Please create a list first."))).
Proof.
  unfold CardHandler.QuickCreate, ShouldBindJSON_QuickCreateRequest.
  cbv zeta.
  cbn [QuickCreateRequest_BoardName QuickCreateRequest_ListName QuickCreateRequest_Title
       QuickCreateRequest_Description QuickCreateRequest_Color].
  split; [intros Ht; unfold required_string; rewrite Ht; reflexivity|]. intros Htitle.
  assert (Hreq : required_string (string_or_zero (QuickCreateBody_title body)) = true).
  { unfold required_string. apply String.eqb_neq in Htitle. now rewrite Htitle. }
  rewrite Hreq.
  cbn [QuickCreateRequest_BoardName QuickCreateRequest_ListName QuickCreateRequest_Title
       QuickCreateRequest_Description QuickCreateRequest_Color].
  rewrite !quick_name_spec. fold (quick_board_name body) (quick_list_name body).
  unfold BoardRepository.GetByName, SELECT_boards_WHERE_name, BoardRepository.GetAll,
    SELECT_boards_ORDER_BY_created_at_DESC. cbv zeta. rewrite elems_collect.
  assert (Hno_list : forall board,
             lists db = [] ->
             match ListRepository.GetByBoardAndName db (Board_ID board)
                     (quick_list_name body) with
             | Ok list => Some list
             | Err _ =>
                 let (lists, err) := ListRepository.GetByBoardID db (Board_ID board) in
                 match err, elems lists with
                 | None, list :: _ => Some list
                 | _, _ => None
                 end
             end = None).
  { intros board Hl. unfold ListRepository.GetByBoardAndName,
      SELECT_lists_WHERE_board_id_AND_name, ListRepository.GetByBoardID,
      SELECT_lists_WHERE_board_id_ORDER_BY_position. now rewrite Hl. }
  split; [split|].
  - intros ->. reflexivity.
  - destruct (find _ (boards db)) as [b0 |] eqn:Ef.
    + match goal with
      | |- context [match ?l with Some _ => _ | None => (db, HandleError StatusNotFound
                      "No lists available in the board. Please create a list first.") end] =>
          destruct l as [list |]; [| discriminate]
      end.
      match goal with
      | |- context [CardRepository.Create db clk ?c] =>
          destruct (CardRepository.Create db clk c) as [[db1 c1] [err |]]
      end; discriminate.
    + destruct (ORDER_BY _ (boards db)) as [| h t] eqn:Eo;
        [intros _; now apply (ORDER_BY_nil _ _ (boards db)) in Eo|].
      match goal with
      | |- context [match ?l with Some _ => _ | None => (db, HandleError StatusNotFound
                      "No lists available in the board. Please create a list first.") end] =>
          destruct l as [list |]; [| discriminate]
      end.
      match goal with
      | |- context [CardRepository.Create db clk ?c] =>
          destruct (CardRepository.Create db clk c) as [[db1 c1] [err |]]
      end; discriminate.
  - intros Hb Hl.
    destruct (find _ (boards db)) as [b0 |] eqn:Ef.
    + now rewrite (Hno_list b0 Hl).
    + destruct (ORDER_BY _ (boards db)) as [| h t] eqn:Eo;
        [apply (ORDER_BY_nil _ _ (boards db)) in Eo; contradiction|].
      now rewrite (Hno_list h Hl).
Qed.

Lemma QuickCreate_refusals_witness :
  string_or_zero (Some "Write the report") <> ""
  /\ boards db_no_boards = []
  /\ CardHandler.QuickCreate db_no_boards (clock_at 10)
       {| QuickCreateBody_board_name := None; QuickCreateBody_list_name := None;
          QuickCreateBody_title := Some "Write the report";
          QuickCreateBody_description := None; QuickCreateBody_color := None |}
     = (db_no_boards, HandleError StatusNotFound
                        "No boards available. Please create a board first.").
Proof.
  assert (H : string_or_zero (Some "Write the report") <> "") by discriminate.
  split; [exact H|]. split; [reflexivity|].
  exact (proj1 (proj1 (proj2 (QuickCreate_refusals db_no_boards (clock_at 10)
                                {| QuickCreateBody_board_name := None;
                                   QuickCreateBody_list_name := None;
                                   QuickCreateBody_title := Some "Write the report";
                                   QuickCreateBody_description := None;
                                   QuickCreateBody_color := None |}) H)) eq_refl).
Defined.

(* ================================================================= *)
(** ** The search endpoint *)

Lemma c_Query_cons (key value k : string) (query : list (string * string)) :
  c_Query ((key, value) :: query) k
  = if String.eqb key k then value else c_Query query k.
Proof. unfold c_Query. cbn [find fst snd]. now destruct (String.eqb key k). Qed.

(** The handler keeps the [query] parameter as it reads the others. *)
Lemma Search_with_params (db : DB) (query : list (string * string)) :
  exists params,
    Query params = c_Query query "query"
    /\ CardHandler.Search db query
       = match CardRepository.Search db params with
         | (_, Some _) => HandleError StatusInternalServerError "Failed to search cards"
         | (cards, None) => JSON StatusOK cards
         end.
Proof.
  unfold CardHandler.Search. cbv zeta.
  match goal with
  | |- context [CardRepository.Search db ?P] => exists P
  end.
  split; [| reflexivity].
  repeat match goal with
         | |- context [if ?b then _ else _] => destruct b
         | |- context [match Atoi ?x with _ => _ end] => destruct (Atoi x)
         end; reflexivity.
Qed.

(** X24. The search endpoint never refuses a parameter for its form.  While
    the pattern [%query%] is within SQLite's limit of 50000 bytes, every
    query is answered with [c.JSON(200, cards)], the cards stored ones in a
    collection that is never null, and the client receives that answer when
    the stored card positions are finite.  A numeric parameter ([board_id],
    [list_id] or [label_id]) whose value is empty, is not a decimal integer
    or is zero filters nothing: the answer is the one given without that
    parameter.  An [archived] parameter with any non-empty value other than
    [true] asks for the cards that are not archived.  A query whose pattern
    is beyond the limit, with no other parameter, is answered 500 as soon as
    a card is stored. *)
Theorem Search_ignores_unusable_parameters (db : DB) (query : list (string * string)) :
  (sqlite3_value_bytes ("%" ++ c_Query query "query" ++ "%")%string
   <= SQLITE_MAX_LIKE_PATTERN_LENGTH ->
   exists found,
     CardHandler.Search db query = JSON StatusOK (mk_slice found)
     /\ (forall c, In c found -> In c (cards db))
     /\ ((forall c, In c (cards db) -> is_finite (Card_Position c) = true) ->
         ErrorHandler (CardHandler.Search db query) = JSON StatusOK (mk_slice found)))
  /\ (SQLITE_MAX_LIKE_PATTERN_LENGTH
      < sqlite3_value_bytes ("%" ++ c_Query query "query" ++ "%")%string ->
      c_Query query "board_id" = "" -> c_Query query "list_id" = "" ->
      c_Query query "archived" = "" -> c_Query query "label_id" = "" ->
      cards db <> [] ->
      CardHandler.Search db query
      = HandleError StatusInternalServerError "Failed to search cards")
  /\ (forall value,
         no_filter value = true -> c_Query query "board_id" = "" ->
         CardHandler.Search db (("board_id", value) :: query) = CardHandler.Search db query)
  /\ (forall value,
         no_filter value = true -> c_Query query "list_id" = "" ->
         CardHandler.Search db (("list_id", value) :: query) = CardHandler.Search db query)
  /\ (forall value,
         no_filter value = true -> c_Query query "label_id" = "" ->
         CardHandler.Search db (("label_id", value) :: query) = CardHandler.Search db query)
  /\ (forall value,
         value <> "" -> value <> "true" ->
         CardHandler.Search db (("archived", value) :: query)
         = CardHandler.Search db (("archived", "false") :: query)).
Proof.
  split; [| split; [| split; [| split; [| split]]]].
  - intros Hfit. destruct (Search_with_params db query) as (params & HQ & ->).
    assert (Hfit' : searchTerm_within_limit params).
    { right. now rewrite HQ. }
    rewrite (Search_unfold db params Hfit'). eexists. split; [reflexivity|].
    assert (Hin : forall c,
               In c (ORDER_BY (fun a b => Card_CreatedAt b <=? Card_CreatedAt a)
                       (DISTINCT Card_eqb
                          (map joined_c
                             (filter (Search_where params)
                                (FROM_cards_LEFT_JOIN_lists_boards_card_labels db)))))
               -> In c (cards db)).
    { intros c. rewrite ORDER_BY_In, (DISTINCT_In _ Card_eqb Card_eqb_eq).
      intros Hc. now apply (Search_selected db params c Hfit') in Hc. }
    split; [exact Hin|].
    intros Hfin. apply ErrorHandler_encoded.
    apply first_error_None. intros c Hc.
    apply UnsupportedValueError_None. apply Hfin. now apply Hin.
  - intros Hlong Hb Hl Ha Hlab Hcards. unfold CardHandler.Search. cbv zeta.
    rewrite Hb, Hl, Ha, Hlab. change (String.eqb "" "") with true. cbn [negb].
    rewrite (proj2 (Search_beyond_limit db
                      {| Query := c_Query query "query"; BoardID := 0; ListID := 0;
                         Archived := None; LabelID := 0 |}
                      Hlong (conj eq_refl (conj eq_refl (conj eq_refl eq_refl))))
               Hcards).
    reflexivity.
  - intros value Hno Habsent. unfold CardHandler.Search. cbv zeta.
    rewrite !c_Query_cons.
    change (String.eqb "board_id" "query") with false.
    change (String.eqb "board_id" "board_id") with true.
    change (String.eqb "board_id" "list_id") with false.
    change (String.eqb "board_id" "archived") with false.
    change (String.eqb "board_id" "label_id") with false.
    cbv iota. rewrite Habsent. change (String.eqb "" "") with true. cbn [negb].
    unfold no_filter in Hno.
    destruct (String.eqb value ""); cbn [negb]; [reflexivity|].
    destruct (Atoi value) as [id |]; [| reflexivity].
    apply Z.eqb_eq in Hno. subst id. reflexivity.
  - intros value Hno Habsent. unfold CardHandler.Search. cbv zeta.
    rewrite !c_Query_cons.
    change (String.eqb "list_id" "query") with false.
    change (String.eqb "list_id" "board_id") with false.
    change (String.eqb "list_id" "list_id") with true.
    change (String.eqb "list_id" "archived") with false.
    change (String.eqb "list_id" "label_id") with false.
    cbv iota. rewrite Habsent. change (String.eqb "" "") with true. cbn [negb].
    unfold no_filter in Hno.
    destruct (String.eqb value ""); cbn [negb]; [reflexivity|].
    destruct (Atoi value) as [id |]; [| reflexivity].
    apply Z.eqb_eq in Hno. subst id.
    destruct (negb (String.eqb (c_Query query "board_id") ""));
      [destruct (Atoi (c_Query query "board_id"))|]; reflexivity.
  - intros value Hno Habsent. unfold CardHandler.Search. cbv zeta.
    rewrite !c_Query_cons.
    change (String.eqb "label_id" "query") with false.
    change (String.eqb "label_id" "board_id") with false.
    change (String.eqb "label_id" "list_id") with false.
    change (String.eqb "label_id" "archived") with false.
    change (String.eqb "label_id" "label_id") with true.
    cbv iota. rewrite Habsent. change (String.eqb "" "") with true. cbn [negb].
    unfold no_filter in Hno.
    destruct (String.eqb value ""); cbn [negb]; [reflexivity|].
    destruct (Atoi value) as [id |]; [| reflexivity].
    apply Z.eqb_eq in Hno. subst id.
    destruct (negb (String.eqb (c_Query query "board_id") ""));
      [destruct (Atoi (c_Query query "board_id"))|];
      (destruct (negb (String.eqb (c_Query query "list_id") ""));
       [destruct (Atoi (c_Query query "list_id"))|]);
      destruct (negb (String.eqb (c_Query query "archived") "")); reflexivity.
  - intros value Hne Hnt. unfold CardHandler.Search. cbv zeta.
    rewrite !c_Query_cons.
    change (String.eqb "archived" "query") with false.
    change (String.eqb "archived" "board_id") with false.
    change (String.eqb "archived" "list_id") with false.
    change (String.eqb "archived" "archived") with true.
    change (String.eqb "archived" "label_id") with false.
    cbv iota. apply String.eqb_neq in Hne, Hnt. rewrite Hne, Hnt.
    change (String.eqb "false" "") with false.
    change (String.eqb "false" "true") with false. reflexivity.
Qed.

(** The unusable [board_id=abc] changes nothing, and a query of 49999 bytes
    is answered 500. *)
Lemma Search_ignores_unusable_parameters_witness :
  (no_filter "abc" = true
   /\ c_Query [("query", "task")] "board_id" = ""
   /\ CardHandler.Search db_busy [("board_id", "abc"); ("query", "task")]
      = CardHandler.Search db_busy [("query", "task")])
  /\ (SQLITE_MAX_LIKE_PATTERN_LENGTH
      < sqlite3_value_bytes ("%" ++ c_Query [("query", query_49999)] "query" ++ "%")%string
      /\ cards db_busy <> []
      /\ CardHandler.Search db_busy [("query", query_49999)]
         = HandleError StatusInternalServerError "Failed to search cards").
Proof.
  assert (Hlong : SQLITE_MAX_LIKE_PATTERN_LENGTH
                  < sqlite3_value_bytes
                      ("%" ++ c_Query [("query", query_49999)] "query" ++ "%")%string).
  { vm_compute. reflexivity. }
  assert (Hcards : cards db_busy <> []).
  { discriminate. }
  split.
  - split; [reflexivity|]. split; [reflexivity|].
    exact (proj1 (proj2 (proj2 (Search_ignores_unusable_parameters
                                  db_busy [("query", "task")])))
             "abc" eq_refl eq_refl).
  - split; [exact Hlong|]. split; [exact Hcards|].
    exact (proj1 (proj2 (Search_ignores_unusable_parameters
                           db_busy [("query", query_49999)]))
             Hlong eq_refl eq_refl eq_refl eq_refl Hcards).
Defined.

(* ================================================================= *)
(** ** Neighbours of a position among the cards of a list *)

Lemma neighbours_of (ps : list float64) (target : float64) :
  exists prev next,
    (let prev := Scan_NullFloat64 (sql_MAX (filter (fun p => (p <? target)%float) ps)) in
     let next := Scan_NullFloat64 (sql_MIN (filter (fun p => (target <? p)%float) ps)) in
     let prev := if negb (Valid prev)
                 then {| Float64 := 0%float; Valid := Valid prev |} else prev in
     let next := if negb (Valid next)
                 then {| Float64 := (Float64 prev + 2)%float; Valid := Valid next |}
                 else next in
     (Float64 prev, Float64 next, @None string)) = (prev, next, None)
    /\ prev_neighbour ps target prev
    /\ next_neighbour ps target prev next.
Proof.
  assert (Hmax : (sql_MAX (filter (fun p => (p <? target)%float) ps) = None
                  /\ forall p, In p ps -> (p <? target)%float = false)
                 \/ exists m, sql_MAX (filter (fun p => (p <? target)%float) ps) = Some m
                              /\ greatest (filter (fun p => (p <? target)%float) ps) m).
  { destruct (filter (fun p => (p <? target)%float) ps) as [| a l] eqn:E.
    - left. split; [reflexivity | now apply filter_nil_iff].
    - right. rewrite <- E. apply sql_MAX_greatest;
        [apply below_not_nan | rewrite E; discriminate]. }
  assert (Hmin : (sql_MIN (filter (fun p => (target <? p)%float) ps) = None
                  /\ forall p, In p ps -> (target <? p)%float = false)
                 \/ exists m, sql_MIN (filter (fun p => (target <? p)%float) ps) = Some m
                              /\ least (filter (fun p => (target <? p)%float) ps) m).
  { destruct (filter (fun p => (target <? p)%float) ps) as [| a l] eqn:E.
    - left. split; [reflexivity | now apply filter_nil_iff].
    - right. rewrite <- E. apply sql_MIN_least;
        [apply above_not_nan | rewrite E; discriminate]. }
  destruct Hmax as [[-> Hb] | (m & -> & Hg)]; destruct Hmin as [[-> Ha] | (n & -> & Hl)];
    cbn [Scan_NullFloat64 Valid Float64 negb].
  - exists 0%float, (0 + 2)%float. split; [reflexivity|]. split; [right | right]; auto.
  - exists 0%float, n. split; [reflexivity|]. split; [right | left]; auto.
  - exists m, (m + 2)%float. split; [reflexivity|]. split; [left | right]; auto.
  - exists m, n. split; [reflexivity|]. split; [left | left]; auto.
Qed.

(** X25. The neighbours of a target position among the cards of a list:
    [GetAdjacentPositions] never fails, and gives as [prev] the greatest
    stored position of the list's cards strictly below the target, or 0
    when there is none, and as [next] the least one strictly above it, or
    [prev + 2] when there is none; no card is left out of the search.  When
    a card lies strictly below the target and another strictly above it,
    the two results are stored positions with [prev < target < next]. *)
Theorem CardRepository_GetAdjacentPositions_neighbours (db : DB) (listID : Z)
  (target : float64) :
  exists prev next,
    CardRepository.GetAdjacentPositions db listID target = (prev, next, None)
    /\ prev_neighbour (card_positions db listID) target prev
    /\ next_neighbour (card_positions db listID) target prev next
    /\ ((exists p, In p (card_positions db listID) /\ (p <? target)%float = true) ->
        (exists p, In p (card_positions db listID) /\ (target <? p)%float = true) ->
        In prev (card_positions db listID) /\ In next (card_positions db listID)
        /\ (prev <? target)%float = true /\ (target <? next)%float = true
        /\ (prev <? next)%float = true).
Proof.
  unfold CardRepository.GetAdjacentPositions,
    SELECT_MAX_position_FROM_cards_below, SELECT_MIN_position_FROM_cards_above.
  rewrite (map_filter_comm _ _ Card_Position (fun c => Card_ListID c =? listID)
             (fun p => (p <? target)%float)).
  rewrite (map_filter_comm _ _ Card_Position (fun c => Card_ListID c =? listID)
             (fun p => (target <? p)%float)).
  fold (card_positions db listID).
  destruct (neighbours_of (card_positions db listID) target)
    as (prev & next & Hrun & Hprev & Hnext).
  exists prev, next. split; [exact Hrun|]. split; [exact Hprev|]. split; [exact Hnext|].
  intros (p & Hp & Hbelow) (q & Hq & Habove).
  destruct Hprev as [[Hin _] | [Hnone _]]; [| rewrite (Hnone p Hp) in Hbelow; discriminate].
  destruct Hnext as [[Hin' _] | [Hnone _]]; [| rewrite (Hnone q Hq) in Habove; discriminate].
  apply filter_In in Hin, Hin'. destruct Hin as [Hin Hlt], Hin' as [Hin' Hlt'].
  repeat (split; [assumption|]).
  destruct (ltb_not_nan _ _ Hlt) as [Np _]. destruct (ltb_not_nan _ _ Hlt') as [_ Nn].
  rewrite ltb_units by assumption. apply Z.ltb_lt.
  apply ltb_true_units in Hlt, Hlt'. lia.
Qed.

Lemma CardRepository_GetAdjacentPositions_neighbours_witness :
  CardRepository.GetAdjacentPositions db_busy 1 (1.5)%float = (1%float, 2%float, None)
  /\ exists prev next,
      CardRepository.GetAdjacentPositions db_busy 1 (1.5)%float = (prev, next, None)
      /\ prev_neighbour (card_positions db_busy 1) (1.5)%float prev
      /\ next_neighbour (card_positions db_busy 1) (1.5)%float prev next.
Proof.
  split; [reflexivity|].
  destruct (CardRepository_GetAdjacentPositions_neighbours db_busy 1 (1.5)%float)
    as (prev & next & H1 & H2 & H3 & _).
  exists prev, next. tauto.
Defined.

(* ================================================================= *)
(** ** Reading a card, and the full listings *)

(** X26. A card is read with its comments: for a stored card [GetByID]
    answers 200 with a stored card of that id and, in its [Comments] field,
    exactly the comments of that card, newest first; the field is left nil
    exactly when the card has no comment.  For a card that is not stored it
    answers 404. *)
Theorem CardHandler_GetByID_shows_card_with_comments (db : DB) (id : Z) :
  ((exists c, In c (cards db) /\ Card_ID c = id) ->
   exists card shown,
     CardHandler.GetByID db id = JSON StatusOK (card, shown)
     /\ In card (cards db) /\ Card_ID card = id
     /\ Permutation (elems shown) (comments_of db id)
     /\ StronglySorted (fun a b => Comment_CreatedAt b <= Comment_CreatedAt a)
                       (elems shown)
     /\ (is_nil shown = true <-> comments_of db id = []))
  /\ ((forall c, In c (cards db) -> Card_ID c <> id) ->
      CardHandler.GetByID db id = HandleError StatusNotFound "Card not found").
Proof.
  unfold CardHandler.GetByID, CardRepository.GetByID, SELECT_cards_WHERE_id.
  split; intros H.
  - destruct (find_key_Some _ Card_ID id (cards db) H) as [c E]. rewrite E.
    apply find_some in E. destruct E as [Hin Hid]. apply Z.eqb_eq in Hid.
    unfold CardRepository.GetComments, SELECT_comments_WHERE_card_id. cbv zeta.
    fold (comments_of db id).
    eexists. eexists. split; [reflexivity|]. rewrite elems_collect.
    split; [exact Hin|]. split; [exact Hid|].
    split; [apply ORDER_BY_Permutation|]. split; [apply newest_first_sorted|].
    rewrite collect_spec.
    pose proof (ORDER_BY_Permutation _
                  (fun a b => Comment_CreatedAt b <=? Comment_CreatedAt a)
                  (comments_of db id)) as P.
    destruct (ORDER_BY _ (comments_of db id)) as [| m ms]; cbn [is_nil].
    + apply Permutation_nil in P. rewrite P. tauto.
    + split; [discriminate|]. intros E. rewrite E in P.
      apply Permutation_sym, Permutation_nil in P. discriminate.
  - apply (find_key_None _ Card_ID) in H. now rewrite H.
Qed.

Lemma CardHandler_GetByID_shows_card_with_comments_witness :
  (exists c, In c (cards db_busy) /\ Card_ID c = 1)
  /\ exists card shown,
      CardHandler.GetByID db_busy 1 = JSON StatusOK (card, shown)
      /\ Card_ID card = 1
      /\ Permutation (elems shown) (comments_of db_busy 1).
Proof.
  assert (H : exists c, In c (cards db_busy) /\ Card_ID c = 1).
  { eexists. split; [left; reflexivity | reflexivity]. }
  split; [exact H|].
  destruct (proj1 (CardHandler_GetByID_shows_card_with_comments db_busy 1) H)
    as (card & shown & H1 & _ & H2 & H3 & _).
  exists card, shown. tauto.
Defined.

(** X27. The full listings leave nothing out: the listing of the boards
    answers 200 with exactly the stored boards, the one created latest
    first, and the listing of the labels answers 200 with a collection that
    is never null and holds exactly the stored labels in ascending order of
    name; where the schema's constraints hold no name comes twice in it. *)
Theorem GetAll_lists_everything_in_order (db : DB) :
  (exists listed,
      BoardHandler.GetAll db = JSON StatusOK listed
      /\ Permutation (elems listed) (boards db)
      /\ StronglySorted (fun a b => Board_CreatedAt b <= Board_CreatedAt a)
                        (elems listed))
  /\ (exists listed,
         LabelHandler.GetAll db = JSON StatusOK (mk_slice listed)
         /\ Permutation listed (labels db)
         /\ StronglySorted (fun a b => String.leb (Label_Name a) (Label_Name b) = true)
                           listed
         /\ (schema_holds db -> NoDup (map Label_Name listed))).
Proof.
  split.
  - unfold BoardHandler.GetAll, BoardRepository.GetAll,
      SELECT_boards_ORDER_BY_created_at_DESC. cbv zeta.
    eexists. split; [reflexivity|]. rewrite elems_collect.
    split; [apply ORDER_BY_Permutation | apply newest_first_sorted].
  - unfold LabelHandler.GetAll, LabelRepository.GetAll, SELECT_labels_ORDER_BY_name.
    cbv zeta. rewrite collect_normalised.
    eexists. split; [reflexivity|].
    split; [apply ORDER_BY_Permutation|]. split; [apply by_name_sorted|].
    intros Hs. eapply Permutation_NoDup; [| apply (labels_name_UNIQUE _ Hs)].
    apply Permutation_map, Permutation_sym, ORDER_BY_Permutation.
Qed.

Lemma GetAll_lists_everything_in_order_witness :
  schema_holds db_seeded
  /\ exists listed,
      LabelHandler.GetAll db_seeded = JSON StatusOK (mk_slice listed)
      /\ Permutation listed (labels db_seeded)
      /\ NoDup (map Label_Name listed).
Proof.
  split; [exact db_seeded_schema|].
  destruct (proj2 (GetAll_lists_everything_in_order db_seeded))
    as (listed & H1 & H2 & _ & H4).
  exists listed. split; [exact H1|]. split; [exact H2 | exact (H4 db_seeded_schema)].
Defined.

(* ================================================================= *)
(** ** What a creation checks, and in which order *)

Lemma required_min1_max255_spec (s : string) :
  required_min1_max255 s = true <-> 1 <= Z.of_nat (String.length s) <= 255.
Proof.
  unfold required_min1_max255. rewrite !andb_true_iff, negb_true_iff, !Z.leb_le.
  split; [tauto|]. intros H. repeat split; try tauto.
  destruct s; [cbn in H; lia | reflexivity].
Qed.

Lemma required_string_or_zero (v : option string) :
  required_min1_max255 (string_or_zero v) = true -> Some (string_or_zero v) = v.
Proof. destruct v as [s |]; [reflexivity | discriminate]. Qed.

(** X28. A creation under a parent looks the parent up before it reads the
    body: creating a list under a board that is not stored, or a card under
    a list that is not stored, answers 404 whatever the body is, and under a
    stored parent a body whose name (title) is absent or not of 1 to 255
    characters answers 400; neither changes the state.  A 201 carries the
    parent's id, the body's name and both timestamps at the instant of the
    request; a list gets the color [#6b7280] when the body's is absent or
    empty, a card the body's description, color and due date and is not
    archived.  The other tables are unchanged. *)
Theorem Create_checks_the_parent_first (db : DB) (clk : clock) (parent : Z) :
  (forall body : CreateListBody,
      ((forall b, In b (boards db) -> Board_ID b <> parent) ->
       ListHandler.Create db clk parent body
       = (db, HandleError StatusNotFound "Board not found"))
      /\ ((exists b, In b (boards db) /\ Board_ID b = parent) ->
          ~ 1 <= Z.of_nat (String.length (string_or_zero (CreateListBody_name body))) <= 255 ->
          ListHandler.Create db clk parent body
          = (db, HandleError StatusBadRequest "Invalid request body"))
      /\ (forall db' list,
             ListHandler.Create db clk parent body = (db', JSON StatusCreated list) ->
             Some (List_Name list) = CreateListBody_name body
             /\ List_BoardID list = parent
             /\ List_Color list
                = (if String.eqb (string_or_zero (CreateListBody_color body)) ""
                   then "#6b7280" else string_or_zero (CreateListBody_color body))
             /\ List_CreatedAt list = time_Now clk /\ List_UpdatedAt list = time_Now clk
             /\ boards db' = boards db /\ cards db' = cards db
             /\ comments db' = comments db /\ labels db' = labels db
             /\ card_labels db' = card_labels db))
  /\ (forall body : CreateCardBody,
         ((forall l, In l (lists db) -> List_ID l <> parent) ->
          CardHandler.Create db clk parent body
          = (db, HandleError StatusNotFound "List not found"))
         /\ ((exists l, In l (lists db) /\ List_ID l = parent) ->
             ~ 1 <= Z.of_nat (String.length (string_or_zero (CreateCardBody_title body)))
                 <= 255 ->
             CardHandler.Create db clk parent body
             = (db, HandleError StatusBadRequest "Invalid request body"))
         /\ (forall db' card,
                CardHandler.Create db clk parent body = (db', JSON StatusCreated card) ->
                Some (Card_Title card) = CreateCardBody_title body
                /\ Card_ListID card = parent
                /\ Card_Description card = string_or_zero (CreateCardBody_description body)
                /\ Card_Color card = string_or_zero (CreateCardBody_color body)
                /\ Card_DueDate card = CreateCardBody_due_date body
                /\ Card_Archived card = false
                /\ Card_CreatedAt card = time_Now clk /\ Card_UpdatedAt card = time_Now clk
                /\ boards db' = boards db /\ lists db' = lists db
                /\ comments db' = comments db /\ labels db' = labels db
                /\ card_labels db' = card_labels db)).
Proof.
  split; intros body.
  - unfold ListHandler.Create, BoardRepository.GetByID, SELECT_boards_WHERE_id,
      ShouldBindJSON_CreateListRequest. cbv zeta.
    cbn [CreateListRequest_Name CreateListRequest_Position CreateListRequest_Color].
    split; [| split].
    + intros H. apply (find_key_None _ Board_ID) in H. now rewrite H.
    + intros H Hn. destruct (find_key_Some _ Board_ID parent (boards db) H) as [b ->].
      destruct (required_min1_max255 _) eqn:E; [| reflexivity].
      apply required_min1_max255_spec in E. contradiction.
    + intros db' list.
      destruct (find _ (boards db)); [| intros H; discriminate H].
      destruct (required_min1_max255 _) eqn:E; [| intros H; discriminate H].
      apply required_string_or_zero in E.
      unfold ListRepository.Create, INSERT_INTO_lists. cbv zeta.
      destruct (bind_REAL _); [| intros H; discriminate H].
      destruct (existsb _ (boards db)); [| intros H; discriminate H].
      intros [= <- <-].
      destruct (String.eqb (string_or_zero (CreateListBody_color body)) "") eqn:Ec;
        destruct (_ =? 0)%float; cbn; rewrite ?Ec; repeat split; exact E.
  - unfold CardHandler.Create, ListRepository.GetByID, SELECT_lists_WHERE_id,
      ShouldBindJSON_CreateCardRequest. cbv zeta.
    cbn [CreateCardRequest_Title CreateCardRequest_Description CreateCardRequest_Position
         CreateCardRequest_Color CreateCardRequest_DueDate].
    split; [| split].
    + intros H. apply (find_key_None _ List_ID) in H. now rewrite H.
    + intros H Hn. destruct (find_key_Some _ List_ID parent (lists db) H) as [l ->].
      destruct (required_min1_max255 _) eqn:E; [| reflexivity].
      apply required_min1_max255_spec in E. contradiction.
    + intros db' card.
      destruct (find _ (lists db)); [| intros H; discriminate H].
      destruct (required_min1_max255 _) eqn:E; [| intros H; discriminate H].
      apply required_string_or_zero in E.
      unfold CardRepository.Create, INSERT_INTO_cards. cbv zeta.
      destruct (bind_REAL _); [| intros H; discriminate H].
      destruct (existsb _ (lists db)); [| intros H; discriminate H].
      intros [= <- <-].
      destruct (_ =? 0)%float; cbn; repeat split; exact E.
Qed.

Lemma Create_checks_the_parent_first_witness :
  (forall b, In b (boards db_busy) -> Board_ID b <> 99)
  /\ ListHandler.Create db_busy (clock_at 10) 99
       {| CreateListBody_name := None; CreateListBody_position := None;
          CreateListBody_color := None |}
     = (db_busy, HandleError StatusNotFound "Board not found").
Proof.
  assert (H : forall b, In b (boards db_busy) -> Board_ID b <> 99).
  { intros b [<- | []]. discriminate. }
  split; [exact H|].
  exact (proj1 (proj1 (Create_checks_the_parent_first db_busy (clock_at 10) 99)
                  {| CreateListBody_name := None; CreateListBody_position := None;
                     CreateListBody_color := None |}) H).
Defined.

(* ================================================================= *)
(** ** Rowids are not reused *)

Lemma advances_refl (st : store) : advances st st.
Proof. intros t. split; [lia | auto]. Qed.

Lemma advances_trans (st1 st2 st3 : store) :
  advances st1 st2 -> advances st2 st3 -> advances st1 st3.
Proof.
  intros H12 H23 t. destruct (H12 t) as [L12 K12]. destruct (H23 t) as [L23 K23].
  split; [lia|]. intros i Hi.
  destruct (K23 i Hi) as [Hin | Hnew]; [| right; lia].
  destruct (K12 i Hin) as [Hin' | Hnew]; [now left | right; lia].
Qed.

Lemma advances_cover (st st' : store) :
  advances st st' -> sequences_cover st -> sequences_cover st'.
Proof.
  intros Ha Hc t i Hi. destruct (Ha t) as [Hle Hk].
  destruct (Hk i Hi) as [Hin | Hnew]; [| lia].
  specialize (Hc t i Hin). lia.
Qed.

Section Rowids.
Variable A : Type.
Variable key : A -> Z.

Lemma rowids_filter (p : A -> bool) (rows : list A) (seq i : Z) :
  In i (map key (filter p rows)) -> In i (map key rows) \/ seq < i <= seq.
Proof.
  intros H. left. apply in_map_iff in H. destruct H as (a & <- & Ha).
  apply filter_In in Ha. now apply in_map.
Qed.

Lemma rowids_update (g : A -> A) (id : Z) (rows : list A) (seq i : Z) :
  (forall a, key (g a) = key a) ->
  In i (map key (map (fun a => if key a =? id then g a else a) rows)) ->
  In i (map key rows) \/ seq < i <= seq.
Proof. intros Hg H. left. now rewrite map_key_update in H. Qed.

Lemma rowids_insert (rows : list A) (row : A) (seq i : Z) :
  key row = AUTOINCREMENT seq (map key rows) ->
  In i (map key (rows ++ [row])) ->
  In i (map key rows) \/ seq < i <= AUTOINCREMENT seq (map key rows).
Proof.
  intros Hk H. rewrite map_app in H. apply in_app_or in H.
  destruct H as [H | [<- | []]]; [now left | right].
  rewrite Hk. pose proof (proj1 (AUTOINCREMENT_above seq (map key rows))). lia.
Qed.
End Rowids.

Lemma AUTOINCREMENT_le (seq : Z) (ids : list Z) : seq <= AUTOINCREMENT seq ids.
Proof. pose proof (proj1 (AUTOINCREMENT_above seq ids)). lia. Qed.

Ltac kept :=
  intros t; destruct t;
  cbn [rowids sequence_of fst snd boards lists cards comments labels card_labels
       seq_lists seq_cards seq_boards seq_comments seq_labels
       DB_with_boards DB_with_lists DB_with_cards DB_with_comments DB_with_labels
       DB_with_card_labels DELETE_cards_CASCADE DELETE_lists_CASCADE];
  (split; [first [ apply Z.le_refl | apply AUTOINCREMENT_le ] |]);
  intros i Hi;
  first [ now left
        | exact (rowids_filter _ _ _ _ _ _ Hi)
        | eapply rowids_insert; [| exact Hi]; reflexivity
        | unfold update_boards_timestamp, update_lists_timestamp, update_cards_timestamp in Hi;
          left; rewrite ?map_key_update in Hi by reflexivity; exact Hi ].

Lemma BoardRepository_Create_advances (db : DB) (sq : sqlite_sequence) (clk : clock)
  (board : Board) :
  advances (db, sq) (fst (fst (BoardRepository.Create db sq clk board))).
Proof. unfold BoardRepository.Create, INSERT_INTO_boards. cbv zeta. kept. Qed.

Lemma BoardRepository_Update_advances (db : DB) (sq : sqlite_sequence) (clk : clock)
  (board : Board) :
  advances (db, sq) (fst (fst (BoardRepository.Update db clk board)), sq).
Proof.
  unfold BoardRepository.Update, UPDATE_boards_SET_name_description. cbv zeta.
  destruct (filter _ (boards db)) as [| row0 rest0]; cbn [fst];
    [apply advances_refl|].
  match goal with |- context [Z.of_nat ?n =? 0] => destruct (Z.of_nat n =? 0) end;
    cbn [fst]; kept.
Qed.

Lemma BoardRepository_Delete_advances (db : DB) (sq : sqlite_sequence) (id : Z) :
  advances (db, sq) (fst (BoardRepository.Delete db id), sq).
Proof.
  unfold BoardRepository.Delete, DELETE_FROM_boards_WHERE_id.
  destruct (filter _ (boards db)) as [| row0 rest0]; cbn [fst];
    [apply advances_refl|].
  match goal with |- context [Z.of_nat ?n =? 0] => destruct (Z.of_nat n =? 0) end;
    cbn [fst]; kept.
Qed.

Ltac rows_affected :=
  try match goal with
      | |- context [Z.of_nat ?n =? 0] => destruct (Z.of_nat n =? 0)
      end;
  cbn [fst snd].

Lemma ListRepository_Create_advances (db : DB) (sq : sqlite_sequence) (clk : clock)
  (list : List) :
  advances (db, sq) (fst (fst (ListRepository.Create db clk list)), sq).
Proof.
  unfold ListRepository.Create, INSERT_INTO_lists. cbv zeta.
  destruct (bind_REAL _); cbn [fst]; [| apply advances_refl].
  destruct (existsb _ (boards db)); cbn [fst]; [| apply advances_refl].
  kept.
Qed.

Lemma ListRepository_Update_advances (db : DB) (sq : sqlite_sequence) (clk : clock)
  (list : List) :
  advances (db, sq) (fst (fst (ListRepository.Update db clk list)), sq).
Proof.
  unfold ListRepository.Update, UPDATE_lists_SET_name_position_color. cbv zeta.
  destruct (filter _ (lists db)) as [| row0 rest0]; cbn [fst];
    [apply advances_refl|].
  destruct (bind_REAL _); cbn [fst]; [| apply advances_refl].
  rows_affected; kept.
Qed.

Lemma ListRepository_UpdatePosition_advances (db : DB) (sq : sqlite_sequence)
  (clk : clock) (id : Z) (p : float64) :
  advances (db, sq) (fst (ListRepository.UpdatePosition db clk id p), sq).
Proof.
  unfold ListRepository.UpdatePosition, UPDATE_lists_SET_position.
  destruct (filter _ (lists db)) as [| row0 rest0]; cbn [fst];
    [apply advances_refl|].
  destruct (bind_REAL _); cbn [fst]; [| apply advances_refl].
  rows_affected; kept.
Qed.

Lemma ListRepository_Delete_advances (db : DB) (sq : sqlite_sequence) (id : Z) :
  advances (db, sq) (fst (ListRepository.Delete db id), sq).
Proof.
  unfold ListRepository.Delete, DELETE_FROM_lists_WHERE_id.
  destruct (filter _ (lists db)) as [| row0 rest0]; cbn [fst];
    [apply advances_refl|].
  rows_affected; kept.
Qed.

Lemma CardRepository_Create_advances (db : DB) (sq : sqlite_sequence) (clk : clock)
  (card : Card) :
  advances (db, sq) (fst (fst (CardRepository.Create db clk card)), sq).
Proof.
  unfold CardRepository.Create, INSERT_INTO_cards. cbv zeta.
  destruct (bind_REAL _); cbn [fst]; [| apply advances_refl].
  destruct (existsb _ (lists db)); cbn [fst]; [| apply advances_refl].
  kept.
Qed.

Lemma CardRepository_Update_advances (db : DB) (sq : sqlite_sequence) (clk : clock)
  (card : Card) :
  advances (db, sq) (fst (fst (CardRepository.Update db clk card)), sq).
Proof.
  unfold CardRepository.Update, UPDATE_cards_SET_title_description_color_due_date.
  cbv zeta.
  destruct (filter _ (cards db)) as [| row0 rest0]; cbn [fst];
    [apply advances_refl|].
  rows_affected; kept.
Qed.

Lemma CardRepository_Move_advances (db : DB) (sq : sqlite_sequence) (clk : clock)
  (cardID newListID : Z) (p : float64) :
  advances (db, sq) (fst (CardRepository.Move db clk cardID newListID p), sq).
Proof.
  unfold CardRepository.Move, UPDATE_cards_SET_list_id_position.
  destruct (filter _ (cards db)) as [| row0 rest0]; cbn [fst];
    [apply advances_refl|].
  destruct (bind_REAL _); cbn [fst]; [| apply advances_refl].
  destruct (existsb _ (lists db)); cbn [fst]; [| apply advances_refl].
  rows_affected; kept.
Qed.

Lemma CardRepository_Archive_advances (db : DB) (sq : sqlite_sequence) (clk : clock)
  (id : Z) (archive : bool) :
  advances (db, sq) (fst (CardRepository.Archive db clk id archive), sq).
Proof.
  unfold CardRepository.Archive, UPDATE_cards_SET_archived. cbv zeta.
  destruct (filter _ (cards db)) as [| row0 rest0]; cbn [fst];
    [apply advances_refl|].
  rows_affected; kept.
Qed.

Lemma CardRepository_Delete_advances (db : DB) (sq : sqlite_sequence) (id : Z) :
  advances (db, sq) (fst (CardRepository.Delete db id), sq).
Proof.
  unfold CardRepository.Delete, DELETE_FROM_cards_WHERE_id.
  destruct (filter _ (cards db)) as [| row0 rest0]; cbn [fst];
    [apply advances_refl|].
  rows_affected; kept.
Qed.

Lemma CardRepository_AddComment_advances (db : DB) (sq : sqlite_sequence) (clk : clock)
  (comment : Comment) :
  advances (db, sq) (fst (fst (CardRepository.AddComment db sq clk comment))).
Proof.
  unfold CardRepository.AddComment, INSERT_INTO_comments. cbv zeta.
  destruct (existsb _ (cards db)); cbn [fst]; [| apply advances_refl].
  kept.
Qed.

Lemma LabelRepository_Create_advances (db : DB) (sq : sqlite_sequence) (clk : clock)
  (req : CreateLabelRequest) :
  advances (db, sq) (fst (LabelRepository.Create db sq clk req)).
Proof.
  unfold LabelRepository.Create, INSERT_INTO_labels. cbv zeta.
  destruct (existsb _ (labels db)); cbn [fst]; [apply advances_refl|].
  kept.
Qed.

Lemma LabelRepository_Update_advances (db : DB) (sq : sqlite_sequence) (id : Z)
  (name color : string) :
  advances (db, sq) (fst (LabelRepository.Update db id name color), sq).
Proof.
  unfold LabelRepository.Update, UPDATE_labels_SET_name_color.
  destruct (find _ (labels db)); cbn [fst]; [| apply advances_refl].
  destruct (existsb _ (labels db)); cbn [fst]; [apply advances_refl|].
  kept.
Qed.

Lemma LabelRepository_Delete_advances (db : DB) (sq : sqlite_sequence) (id : Z) :
  advances (db, sq) (fst (LabelRepository.Delete db id), sq).
Proof.
  unfold LabelRepository.Delete, DELETE_FROM_card_labels_WHERE_label_id,
    DELETE_FROM_labels_WHERE_id. cbv zeta. tables.
  destruct (filter _ (labels db)) as [| row0 rest0]; cbn [fst]; [kept|].
  rows_affected; kept.
Qed.

Lemma LabelRepository_AssignToCard_advances (db : DB) (sq : sqlite_sequence)
  (cardID labelID : Z) :
  advances (db, sq) (fst (LabelRepository.AssignToCard db cardID labelID), sq).
Proof.
  unfold LabelRepository.AssignToCard, INSERT_INTO_card_labels. cbv zeta.
  destruct (SELECT_EXISTS_card_labels db cardID labelID); cbn [fst];
    [apply advances_refl|].
  destruct (existsb _ (cards db) && existsb _ (labels db)); cbn [fst];
    [kept | apply advances_refl].
Qed.

Lemma LabelRepository_RemoveFromCard_advances (db : DB) (sq : sqlite_sequence)
  (cardID labelID : Z) :
  advances (db, sq) (fst (LabelRepository.RemoveFromCard db cardID labelID), sq).
Proof.
  unfold LabelRepository.RemoveFromCard,
    DELETE_FROM_card_labels_WHERE_card_id_AND_label_id.
  rows_affected; kept.
Qed.

Ltac unchanged_store := apply advances_refl.

Lemma serve_advances (st : store) (clk : clock) (req : request) :
  advances st (fst (serve st clk req)).
Proof.
  destruct st as [db sq].
  destruct req; cbn [serve];
    repeat match goal with
           | |- context [Atoi ?s] => destruct (Atoi s) as [? |]; [| unchanged_store]
           end;
    try unchanged_store.
  - (* POST /boards *)
    unfold BoardHandler.Create.
    destruct (ShouldBindJSON_CreateBoardRequest body) as [req |]; [| unchanged_store].
    match goal with
    | |- context [BoardRepository.Create db sq clk ?b] =>
        pose proof (BoardRepository_Create_advances db sq clk b) as H';
        destruct (BoardRepository.Create db sq clk b) as [[[db1 sq1] b1] [err |]]
    end; exact H'.
  - (* PUT /boards/:id *)
    unfold BoardHandler.Update.
    destruct (BoardRepository.GetByID db z) as [b | msg]; [| not_found; unchanged_store].
    destruct (ShouldBindJSON_UpdateBoardRequest body) as [req |]; [| unchanged_store].
    match goal with
    | |- context [BoardRepository.Update db clk ?b] =>
        pose proof (BoardRepository_Update_advances db sq clk b) as H';
        destruct (BoardRepository.Update db clk b) as [[db1 b1] [err |]]
    end; exact H'.
  - (* DELETE /boards/:id *)
    unfold BoardHandler.Delete.
    pose proof (BoardRepository_Delete_advances db sq z) as H'.
    destruct (BoardRepository.Delete db z) as [db1 [err |]]; [not_found|]; exact H'.
  - (* POST /boards/:id/lists *)
    unfold ListHandler.Create.
    destruct (BoardRepository.GetByID db z) as [b | msg]; [| not_found; unchanged_store].
    destruct (ShouldBindJSON_CreateListRequest body) as [req |]; [| unchanged_store].
    match goal with
    | |- context [ListRepository.Create db clk ?l] =>
        pose proof (ListRepository_Create_advances db sq clk l) as H';
        destruct (ListRepository.Create db clk l) as [[db1 l1] [err |]]
    end; exact H'.
  - (* PUT /lists/:id *)
    unfold ListHandler.Update.
    destruct (ListRepository.GetByID db z) as [l | msg]; [| not_found; unchanged_store].
    destruct (ShouldBindJSON_UpdateListRequest body) as [req |]; [| unchanged_store].
    match goal with
    | |- context [ListRepository.Update db clk ?l] =>
        pose proof (ListRepository_Update_advances db sq clk l) as H';
        destruct (ListRepository.Update db clk l) as [[db1 l1] [err |]]
    end; exact H'.
  - (* PATCH /lists/:id/move *)
    unfold ListHandler.Move.
    destruct (ShouldBindJSON_MoveListRequest body) as [req |]; [| unchanged_store].
    destruct (ListRepository.GetByID db z) as [l | msg]; [| not_found; unchanged_store].
    destruct (ListRepository.GetAdjacentPositions db (List_BoardID l)
                (MoveListRequest_Position req)) as [[prev next] [err |]];
      [unchanged_store|].
    pose proof (ListRepository_UpdatePosition_advances db sq clk z
                  (ListHandler.newPosition prev next)) as H'.
    destruct (ListRepository.UpdatePosition db clk z (ListHandler.newPosition prev next))
      as [db1 [err |]]; exact H'.
  - (* DELETE /lists/:id *)
    unfold ListHandler.Delete.
    pose proof (ListRepository_Delete_advances db sq z) as H'.
    destruct (ListRepository.Delete db z) as [db1 [err |]]; [not_found|]; exact H'.
  - (* POST /lists/:id/cards *)
    unfold CardHandler.Create.
    destruct (ListRepository.GetByID db z) as [l | msg]; [| not_found; unchanged_store].
    destruct (ShouldBindJSON_CreateCardRequest body) as [req |]; [| unchanged_store].
    match goal with
    | |- context [CardRepository.Create db clk ?c] =>
        pose proof (CardRepository_Create_advances db sq clk c) as H';
        destruct (CardRepository.Create db clk c) as [[db1 c1] [err |]]
    end; exact H'.
  - (* PUT /cards/:id *)
    unfold CardHandler.Update.
    destruct (CardRepository.GetByID db z) as [c | msg]; [| not_found; unchanged_store].
    destruct (ShouldBindJSON_UpdateCardRequest body) as [req |]; [| unchanged_store].
    match goal with
    | |- context [CardRepository.Update db clk ?c] =>
        pose proof (CardRepository_Update_advances db sq clk c) as H';
        destruct (CardRepository.Update db clk c) as [[db1 c1] [err |]]
    end; exact H'.
  - (* PATCH /cards/:id/move *)
    unfold CardHandler.Move.
    destruct (ShouldBindJSON_MoveCardRequest body) as [req |]; [| unchanged_store].
    destruct (CardRepository.GetByID db z) as [c | msg]; [| not_found; unchanged_store].
    destruct (ListRepository.GetByID db (MoveCardRequest_ListID req)) as [l | msg];
      [| not_found; unchanged_store].
    pose proof (CardRepository_Move_advances db sq clk z (MoveCardRequest_ListID req)
                  (MoveCardRequest_Position req)) as H'.
    destruct (CardRepository.Move db clk z (MoveCardRequest_ListID req)
                (MoveCardRequest_Position req)) as [db1 [err |]]; exact H'.
  - (* POST /cards/:id/archive *)
    unfold CardHandler.Archive.
    pose proof (CardRepository_Archive_advances db sq clk z true) as H'.
    destruct (CardRepository.Archive db clk z true) as [db1 [err |]];
      [not_found|]; exact H'.
  - (* POST /cards/:id/unarchive *)
    unfold CardHandler.Unarchive.
    pose proof (CardRepository_Archive_advances db sq clk z false) as H'.
    destruct (CardRepository.Archive db clk z false) as [db1 [err |]];
      [not_found|]; exact H'.
  - (* DELETE /cards/:id *)
    unfold CardHandler.Delete.
    pose proof (CardRepository_Delete_advances db sq z) as H'.
    destruct (CardRepository.Delete db z) as [db1 [err |]]; [not_found|]; exact H'.
  - (* POST /cards/:id/comments *)
    unfold CardHandler.AddComment.
    destruct (CardRepository.GetByID db z) as [c | msg]; [| not_found; unchanged_store].
    destruct (ShouldBindJSON_CreateCommentRequest body) as [req |]; [| unchanged_store].
    match goal with
    | |- context [CardRepository.AddComment db sq clk ?m] =>
        pose proof (CardRepository_AddComment_advances db sq clk m) as H';
        destruct (CardRepository.AddComment db sq clk m) as [[[db1 sq1] m1] [err |]]
    end; exact H'.
  - (* POST /cards/quick *)
    unfold CardHandler.QuickCreate.
    destruct (ShouldBindJSON_QuickCreateRequest body) as [req |]; [| unchanged_store].
    cbv zeta.
    match goal with
    | |- context [match ?b with Some _ => _ | None => (db, HandleError StatusNotFound
                    "No boards available. Please create a board first.") end] =>
        destruct b as [board |]; [| unchanged_store]
    end.
    match goal with
    | |- context [match ?l with Some _ => _ | None => (db, HandleError StatusNotFound
                    "No lists available in the board. Please create a list first.") end] =>
        destruct l as [list |]; [| unchanged_store]
    end.
    match goal with
    | |- context [CardRepository.Create db clk ?c] =>
        pose proof (CardRepository_Create_advances db sq clk c) as H';
        destruct (CardRepository.Create db clk c) as [[db1 c1] [err |]]
    end; exact H'.
  - (* POST /labels *)
    unfold LabelHandler.Create.
    destruct (ShouldBindJSON_CreateLabelRequest body) as [req |]; [| unchanged_store].
    pose proof (LabelRepository_Create_advances db sq clk req) as H'.
    destruct (LabelRepository.Create db sq clk req) as [[db1 sq1] [l | err]]; exact H'.
  - (* PUT /labels/:id *)
    unfold LabelHandler.Update.
    destruct (ShouldBindJSON_CreateLabelRequest body) as [req |]; [| unchanged_store].
    pose proof (LabelRepository_Update_advances db sq z (CreateLabelRequest_Name req)
                  (CreateLabelRequest_Color req)) as H'.
    destruct (LabelRepository.Update db z (CreateLabelRequest_Name req)
                (CreateLabelRequest_Color req)) as [db1 [l | err]];
      [| not_found]; exact H'.
  - (* DELETE /labels/:id *)
    unfold LabelHandler.Delete.
    pose proof (LabelRepository_Delete_advances db sq z) as H'.
    destruct (LabelRepository.Delete db z) as [db1 [err |]]; [not_found|]; exact H'.
  - (* POST /cards/:id/labels/:label_id *)
    unfold LabelHandler.AssignToCard.
    destruct (CardRepository.GetByID db z) as [c | msg]; [| not_found; unchanged_store].
    destruct (LabelRepository.GetByID db z0) as [l | msg]; [| not_found; unchanged_store].
    pose proof (LabelRepository_AssignToCard_advances db sq z z0) as H'.
    destruct (LabelRepository.AssignToCard db z z0) as [db1 [err |]]; exact H'.
  - (* DELETE /cards/:id/labels/:label_id *)
    unfold LabelHandler.RemoveFromCard.
    pose proof (LabelRepository_RemoveFromCard_advances db sq z z0) as H'.
    destruct (LabelRepository.RemoveFromCard db z z0) as [db1 [err |]];
      [not_found|]; exact H'.
Qed.

Lemma run_advances (st : store) (trace : list (clock * request)) :
  advances st (run st trace).
Proof.
  induction trace as [| [clk req] trace IH] using rev_ind; [apply advances_refl|].
  rewrite run_snoc. eapply advances_trans; [exact IH | apply serve_advances].
Qed.

Lemma run_app (st : store) (t1 t2 : list (clock * request)) :
  run st (t1 ++ t2) = run (run st t1) t2.
Proof. unfold run. apply fold_left_app. Qed.

(** X29. A rowid that was deleted never comes back: from a state in which
    [sqlite_sequence] covers the rowids in use, whatever requests are
    served, an id of a board, list, card, comment or label that was in use
    at some point and is not in use at a later point is in use at no point
    after that, so a client that holds the id of a deleted resource never
    reaches another resource through it.  The sequences also keep covering
    the rowids in use. *)
Theorem deleted_rowid_never_comes_back (st : store) (t1 t2 t3 : list (clock * request))
  (t : table) (i : Z) :
  sequences_cover st ->
  In i (rowids t (run st t1)) ->
  ~ In i (rowids t (run st (t1 ++ t2))) ->
  ~ In i (rowids t (run st (t1 ++ t2 ++ t3)))
  /\ sequences_cover (run st (t1 ++ t2 ++ t3)).
Proof.
  intros Hc Hin Hout. split.
  - rewrite app_assoc, !run_app.
    rewrite run_app in Hout.
    pose proof (advances_cover _ _ (run_advances st t1) Hc t i Hin) as Hle.
    destruct (run_advances (run st t1) t2 t) as [Hle2 _].
    set (st2 := run (run st t1) t2) in *.
    destruct (run_advances st2 t3 t) as [_ Hk].
    intros Hback. destruct (Hk i Hback) as [Hi | Hnew]; [contradiction | lia].
  - exact (advances_cover _ _ (run_advances st _) Hc).
Qed.

Lemma deleted_rowid_never_comes_back_witness :
  sequences_cover (db_busy, sq_busy)
  /\ In 3 (rowids cards_table (run (db_busy, sq_busy) []))
  /\ ~ In 3 (rowids cards_table
               (run (db_busy, sq_busy) ([] ++ [(clock_at 10, DELETE_cards_id "3")])))
  /\ ~ In 3 (rowids cards_table
               (run (db_busy, sq_busy)
                  ([] ++ [(clock_at 10, DELETE_cards_id "3")]
                      ++ [(clock_at 11,
                           POST_lists_id_cards "1"
                             {| CreateCardBody_title := Some "Again";
                                CreateCardBody_description := None;
                                CreateCardBody_position := None;
                                CreateCardBody_color := None;
                                CreateCardBody_due_date := None |})]))).
Proof.
  assert (Hc : sequences_cover (db_busy, sq_busy)).
  { intros t i. destruct t; cbn; intuition lia. }
  assert (Hin : In 3 (rowids cards_table (run (db_busy, sq_busy) []))) by (cbn; auto).
  assert (Hout : ~ In 3 (rowids cards_table
                           (run (db_busy, sq_busy)
                              ([] ++ [(clock_at 10, DELETE_cards_id "3")])))).
  { vm_compute. intuition discriminate. }
  split; [exact Hc|]. split; [exact Hin|]. split; [exact Hout|].
  exact (proj1 (deleted_rowid_never_comes_back (db_busy, sq_busy) [] _ _ cards_table 3
                  Hc Hin Hout)).
Defined.
